(* ===== verification/_CoqProject ===== *)
-Q . S2P
Prelude.v
PyString.v
Response.v
Endpoint.v
Driver.v
DriverV1.v
Compare.v
Tier.v
Summary.v
TierSingle.v
Binning.v
Stats.v
Interactive.v
TierV1.v
Json.v
Prompt.v
Report.v
Readers.v
TokenAnalysis.v
Schema.v
Analysis.v
Files.v
Pipeline.v
