(* ===== verification/Prelude.v ===== *)
(** * A verification development for the multi-agent math evaluation scripts

    The repository evaluates a multi-step prompting strategy on math
    problem sets.  A driver repeatedly calls a remote chat-completion
    endpoint, classifies each response by its marker tag
    ([<think>], [<summary>], [<answer>]), accumulates token, latency,
    cost and "FLOPs" metrics, and stops on an [<answer>] tag or an
    iteration cap; each answer is judged (by string comparison or by a
    second model call); the results are aggregated per difficulty tier
    and per run and written as a JSON report; offline scripts read the
    report back, extract iteration counts and completion tokens, and bin
    them into histograms.

    ** Files, in dependency order, and the code they model

    - [Prelude.v] (this file): Python exceptions as values ([py_exc],
      [py_result]); the monad [io] threading them with the world state the
      scripts share (the number of endpoint calls made so far); pure
      sequencing [let? x := r in k] and [py_concat_map] for the readers;
      [sum_Z], [count_if], [py_max]/[py_min], true division
      [py_truediv]/[py_div_Z] raising [ZeroDivisionError]; the tactics,
      the hint databases [pydb] and [pyrw].  Python [int] is unbounded,
      so [Z] needs no wrap-around; floats are rationals [Q] (IEEE rounding
      is not modelled).
    - [PyString.v]: the string built-ins ([in], [split], [join],
      [strip], [replace]) on Stdlib [string] (code points 0..255;
      [strip] removes exactly the characters below 256 that
      [str.isspace] accepts).
    - [Response.v]: module [Classify], the [response_type] expression
      ([src/math/process3.py] 176); module [Extract], the split chain of
      the drivers (line 198) and the three [extract_final_answer]
      (regex search written out as a leftmost lazy search).
    - [Endpoint.v]: the endpoint as an oracle indexed by the call number,
      and [_get_response] (process3.py 61-93) with its exceptions.
    - [Driver.v]: [solve_problem_with_agents] of process3.py (146-223):
      state record [solve_state], loop body [iteration_step], loop
      [solve_loop] over [range(max_iterations)] (structural recursion on
      the cap, so it terminates by construction).
    - [DriverV1.v]: the driver of [src/math/process.py] (99-139) and its
      refinement by the driver of process3.py.
    - [Compare.v]: the three [compare_answers] and the model judge
      [evaluate_answers_ai].
    - [Tier.v]: [process_difficulty_level] of process3.py (258-399).
    - [Summary.v]: [main] of process3.py up to the summary (402-484),
      [all_results["difficulty_results"]] as a dict keyed by difficulty.
    - [TierSingle.v]: the single-call evaluation of [src/math/test3.py]:
      [process_difficulty_level] (131-236) on [problems[20:30]] with one
      model call and one judge call per problem, and [main] (238-288) up
      to the summary.
    - [Binning.v] (loads stdpp): [create_bins] and [count_frequency] of
      [src/getdata.py], [src/completion_tokens_analysis.py] and
      [src/math/getdata.py]; the frequency table is a [gmap].
    - [Interactive.v]: the [while True] loops of [src/math/test1 copy.py]
      (module [Single]) and [src/math/test1 copy 2.py] (module [Batch]).
    - [TierV1.v]: [process_difficulty_level] of process.py (164-262)
      and its [main] up to the summary (264-317).
    - [Json.v]: the values [json.load] returns and the dict operations,
      truthiness and [int()] the readers use; [str()] of an [int]
      ([z_to_string], decimal digits) and [int()] of a string
      ([parse_int]).
    - [Prompt.v]: the system prompts of process3.py
      ([generate_prompt], 95-137) and process.py (49-90), with the
      token limits printed by [z_to_string].
    - [Report.v]: the dictionaries [main] of process3.py dumps.
    - [Readers.v]: [process_iteration_steps] (both versions),
      [process_completion_tokens], [find_max_problem].
    - [Stats.v] (loads stdpp): what the analysis scripts print besides
      the table: [np.mean] and [np.median], Python's stable [sorted] and
      [list.sort] as an insertion sort [sort_by], the bins in increasing
      order ([sorted_frequency]) with their percentages ([bin_lines]),
      and the ten most frequent bins of completion_tokens_analysis.py
      ([top_bins]).
    - [TokenAnalysis.v]: [main] and [analyze_and_plot] of
      [src/completion_tokens_analysis.py] (226-345): the counting loops
      as a record of counters, the three analyses with their filters.
    - [Schema.v]: a type language for JSON values with its typing
      relation [has_type] and decision procedure [has_typeb], the type
      [report_type] of the report process3.py writes, and the readers on
      values of that type.
    - [Analysis.v]: [main] of [src/getdata.py] (187-251) and of
      [src/math/getdata.py] (119-142), up to what they print.
    - [Files.v] (loads stdpp): the result directory as a [gmap] from
      names to contents; [load_data] of the analysis scripts, and the
      saving of the report by [main] of process3.py (520-527), test3.py
      (317-324) and process.py (347-350), with the numbering of
      [multi_metrics_{n}.json].
    - [Pipeline.v]: the readers and the analysis run on the report of a
      run; [find_max_problem] against a first-maximum specification.

    ** What the theorems show (claims C1-C39)

    Every claim is a statement over all inputs (all endpoints, responses,
    reports or directories its hypotheses allow); the concrete runs of
    the scripted endpoints only serve as witnesses.

    - Driver (C1, C5-C8): the driver returns after at most
      [max(0, max_iterations)] calls and reports them as its iterations;
      token totals are the sums of the logged records; each pass never
      decreases the totals; a pass whose reply has [<answer>] stops with
      the split-chain answer and logs the call with the type of its first
      tag, so an answering reply that also thinks is logged as
      [thinking]; the FLOPs total charges each record by the loop index
      it was made at, so after a failed first call every call is charged
      [(t-370)**2].
    - Extraction (C2-C4): the split chain never raises on a response with
      [<answer>], round-trips a well-formed answer, and differs from the
      regex extractor on every response without a closing tag and on
      every response with a second [<answer>] before it.
    - Refinement (C9): the process.py driver is a projection of the
      process3.py driver, call for call.
    - Comparators (C10-C11): the exact comparator equates two answers
      exactly up to spaces and newlines (any other character, a tab
      included, counts) and is an equivalence; the containment
      comparator accepts a blank answer and every prefix of the correct
      answer, and rejects a longer answer (the reverse of the spec's
      direction).
    - Report type (C12): every report [main] writes has [report_type],
      and on every value of that type the readers never raise.
    - Tiers and run (C13-C15, C17-C18, C28): the per-tier and per-run
      counters satisfy [correct <= processed <= total], nothing raises,
      the zero guards make every average safe; the run totals are the
      sums of the tiers' and the global maximum is [max(0, m_1..m_k)];
      a pass counts its problem processed and adds its tokens whatever
      the judge does, and correct exactly when the judge's reply has
      [[[YES]]].
    - Token analysis (C16): the counters of completion_tokens_analysis.py
      are consistent, and its unguarded accuracy raises
      [ZeroDivisionError] on a report with no problem entry.
    - Binning and listing (C19-C23): on the grid of [create_bins] every
      value falls into the loop's bin [[v//w*w, v//w*w+w)] and no other,
      the frequency table counts each value once (also for the variant of
      src/math/getdata.py), and the table does not depend on the order
      of the values (a [Proper] instance for permutations); the top-10
      listing has the most frequent bins, by decreasing count and, for
      equal counts, by increasing bin.
    - Interactive loops (C24-C27): the first loop stops within
      [max_steps] calls on every endpoint; the second never stops on a
      model that keeps thinking; its printed accuracy is a count (at most
      10); it counts a problem correct when the expected answer occurs
      anywhere in the stripped reply, reasoning included.
    - Pipeline (C29-C33, C35): the iteration reader returns the
      iterations of the correct problems, as many as the summary's
      correct answers, while the reader of src/math/getdata.py reads
      nothing; the completion-token reader returns the tokens of the
      records of the correct entries whose logged type passes the filter,
      so it keeps the answering calls that also thought;
      [find_max_problem] raises [KeyError] on every report whose first
      correct entry has no ["iterations"], and on process3.py reports
      returns the first correct entries with the most iterations and
      tokens; the analysis [main] of src/getdata.py never divides by
      zero, prints a mean and a median between the minimum and the
      maximum and per-bin percentages adding up to 100, counts a run's
      problems and correct answers as the summary does and bins each
      correct answer once, but divides by all entries for its accuracy
      where the summary divides by the processed problems.
    - Report files (C34): while the reports in [./result] are numbered
      [1..n], saving writes a fresh name, keeps every earlier file and
      the numbering; with a gap ([multi_metrics_2.json] alone) it
      overwrites an earlier report.  It relies on [int(str(z)) == z]
      ([Json.str_int_roundtrip]).
    - test3.py (C36-C39): its tier loop never raises, keeps
      [correct <= processed <= problems] and [flops = tokens ** 2] per
      entry, with totals equal to the entries' sums while no judge call
      failed; a tier evaluates [min(10, n - 20)] problems of a file of
      [n]; [main] keeps one tier per existing file, at most 50 problems,
      with a percentage accuracy; every pass makes two billed calls but
      accounts only the model's usage, whatever the judge reports.

    ** Bounds and fuel

    The drivers loop over [range(max_iterations)]: structural recursion
    on [Z.to_nat max_iterations], no fuel.  The [while True] loops of
    [Interactive.v] take fuel; [Running] marks a loop still running when
    it is spent.  [single_terminates] shows that [max_steps] (10) passes
    of fuel are enough for the first loop, and more fuel changes nothing;
    [batch_loop_diverges] shows that no amount of fuel is enough for the
    second one on a model that keeps thinking.  [py_split] uses
    [length s + 1] as fuel, one more than the number of pieces.
    [z_to_string] uses the bit length of the number plus one, above its
    number of decimal digits.

    ** Not modelled

    HTTP transport (the endpoint is an oracle); the bytes [json.dump]
    writes and [json.load] parses (a file holds a JSON value or a text
    that is not JSON, [Files.file_content]); [os.makedirs] (the
    directory is assumed to exist); the formatting of printed lines and
    of the summary string, whose [:.2f] and [:.4f] fields format IEEE
    doubles (the printed values are modelled); plotting
    ([plot_histogram], matplotlib calls only); the Tk GUI of
    [src/math/mainview.py] (widgets and threads around the driver) and
    [time.sleep].  [np.mean] and [np.median] are computed exactly over
    [Q]: numpy's float rounding is not modelled. *)

From Stdlib Require Import List ZArith QArith Lia Lqa.
Import ListNotations.

Declare Scope py_scope.
Delimit Scope py_scope with py.

Create HintDb pydb discriminated.
Create Rewrite HintDb pyrw.

(** ** Python exceptions *)

(** The exception classes the modelled code raises or catches.
    [RequestException] stands for [requests.exceptions.RequestException]
    and its subclasses [ConnectionError], [Timeout], [HTTPError] (from
    [raise_for_status]) and [JSONDecodeError] (from [response.json()]). *)
Inductive py_exc : Type :=
| RequestException
| KeyError
| IndexError
| ZeroDivisionError
| ValueError
| AttributeError
| TypeError.

Definition py_exc_eqb (e1 e2 : py_exc) : bool :=
  match e1, e2 with
  | RequestException, RequestException | KeyError, KeyError
  | IndexError, IndexError | ZeroDivisionError, ZeroDivisionError
  | ValueError, ValueError | AttributeError, AttributeError | TypeError, TypeError => true
  | _, _ => false
  end.

(** The outcome of a Python computation: a value or a raised exception. *)
Inductive py_result (A : Type) : Type :=
| PyOk (a : A)
| PyExc (e : py_exc).
Arguments PyOk {A} a.
Arguments PyExc {A} e.

(** ** The [io] monad: exceptions and the endpoint call counter

    The remote endpoint is nondeterministic (temperature 0.7): the same
    prompt may get different replies.  The scripts are sequential, so the
    [n]-th call of a run is identified by [n]; the world state threaded
    through every call is that counter. *)
Definition io (A : Type) : Type := nat -> py_result A * nat.

Definition ret {A} (a : A) : io A := fun w => (PyOk a, w).

Definition bind {A B} (m : io A) (k : A -> io B) : io B :=
  fun w =>
    match m w with
    | (PyOk a, w') => k a w'
    | (PyExc e, w') => (PyExc e, w')
    end.

Definition raise {A} (e : py_exc) : io A := fun w => (PyExc e, w).

(** [try: m except <caught> as e: handler(e)]. *)
Definition try_except {A} (caught : py_exc -> bool) (m : io A) (handler : py_exc -> io A)
  : io A :=
  fun w =>
    match m w with
    | (PyExc e, w') => if caught e then handler e w' else (PyExc e, w')
    | r => r
    end.

Notation "x <- m ;; k" := (bind m (fun x => k))
  (at level 100, m at next level, right associativity) : py_scope.

Local Open Scope py_scope.

(** Sequencing of pure code that may raise (no endpoint call). *)
Definition py_bind {A B} (r : py_result A) (k : A -> py_result B) : py_result B :=
  match r with
  | PyOk a => k a
  | PyExc e => PyExc e
  end.

Notation "'let?' x ':=' r 'in' k" := (py_bind r (fun x => k))
  (at level 10, x name, r at level 100, k at level 200) : py_scope.

(** [for x in xs: out += f(x)], stopping at the first exception. *)
Fixpoint py_concat_map {A B} (f : A -> py_result (list B)) (xs : list A) : py_result (list B) :=
  match xs with
  | [] => PyOk []
  | x :: xs' =>
      match f x with
      | PyOk ys => match py_concat_map f xs' with
                   | PyOk zs => PyOk (ys ++ zs)
                   | PyExc e => PyExc e
                   end
      | PyExc e => PyExc e
      end
  end.

Lemma py_concat_map_ok {A B} (f : A -> py_result (list B)) (g : A -> list B) xs :
  (forall x, In x xs -> f x = PyOk (g x)) -> py_concat_map f xs = PyOk (concat (map g xs)).
Proof.
  induction xs as [|x xs IH]; intros H; [reflexivity|]. simpl.
  rewrite (H x (or_introl eq_refl)), IH by (intros y Hy; apply H; right; exact Hy). reflexivity.
Qed.


(** A step that gives one value per element gives as many values as
    elements. *)
Lemma py_concat_map_length_1 {A B} (f : A -> py_result (list B)) xs ys :
  (forall x l, f x = PyOk l -> length l = 1%nat) ->
  py_concat_map f xs = PyOk ys -> length ys = length xs.
Proof.
  intros Hf. revert ys. induction xs as [|x xs IH]; simpl; intros ys H; [injection H as <-; reflexivity|].
  destruct (f x) as [l|e] eqn:E; [|discriminate].
  destruct (py_concat_map f xs) as [r|e]; [|discriminate].
  injection H as <-. rewrite length_app, (Hf x l E), (IH r eq_refl). reflexivity.
Qed.

Lemma bind_ret_l {A B} (a : A) (k : A -> io B) w : bind (ret a) k w = k a w.
Proof. reflexivity. Qed.

Lemma bind_ret_r {A} (m : io A) w : bind m ret w = m w.
Proof. unfold bind, ret. destruct (m w) as [[a|e] w']; reflexivity. Qed.

Lemma bind_assoc {A B C} (m : io A) (k : A -> io B) (h : B -> io C) w :
  bind (bind m k) h w = bind m (fun a => bind (k a) h) w.
Proof. unfold bind. destruct (m w) as [[a|e] w']; reflexivity. Qed.

Lemma bind_raise {A B} e (k : A -> io B) w : bind (raise e) k w = (PyExc e, w).
Proof. reflexivity. Qed.

#[export] Hint Rewrite @bind_ret_l @bind_raise : pyrw.

Lemma py_concat_map_ext {A B} (f g : A -> py_result (list B)) xs :
  (forall x, f x = g x) -> py_concat_map f xs = py_concat_map g xs.
Proof. intros H. induction xs as [|x xs IH]; simpl; [reflexivity|]. rewrite H, IH. reflexivity. Qed.

Lemma py_concat_map_map {A B C} (f : B -> py_result (list C)) (g : A -> B) xs :
  py_concat_map f (map g xs) = py_concat_map (fun x => f (g x)) xs.
Proof. induction xs as [|x xs IH]; simpl; [reflexivity|]. rewrite IH. reflexivity. Qed.

(** Two loops over the same list whose bodies produce, element by element,
    no more output for [f] than for [g] produce no more in total. *)
Lemma py_concat_map_le {A B C} (f : A -> py_result (list B)) (g : A -> py_result (list C)) :
  (forall x ys zs, f x = PyOk ys -> g x = PyOk zs -> (length ys <= length zs)%nat) ->
  forall xs ys zs, py_concat_map f xs = PyOk ys -> py_concat_map g xs = PyOk zs ->
  (length ys <= length zs)%nat.
Proof.
  intros H xs. induction xs as [|x xs IH]; intros ys zs Hf Hg; simpl in *.
  - injection Hf as <-. simpl. lia.
  - destruct (f x) as [a|] eqn:Fx; [|discriminate]. destruct (py_concat_map f xs) as [b|]; [|discriminate].
    destruct (g x) as [c|] eqn:Gx; [|discriminate]. destruct (py_concat_map g xs) as [d|]; [|discriminate].
    injection Hf as <-. injection Hg as <-. rewrite !length_app.
    specialize (H x a c Fx Gx). specialize (IH b d eq_refl eq_refl). lia.
Qed.

Lemma py_concat_map_Forall {A B} (P : B -> Prop) (f : A -> py_result (list B)) :
  (forall x l, f x = PyOk l -> Forall P l) ->
  forall xs ys, py_concat_map f xs = PyOk ys -> Forall P ys.
Proof.
  intros H xs. induction xs as [|x xs IH]; intros ys E; simpl in E; [injection E as <-; constructor|].
  destruct (f x) as [a|] eqn:Fx; [|discriminate]. destruct (py_concat_map f xs) as [b|]; [|discriminate].
  injection E as <-. apply Forall_app. split; [exact (H x a Fx)|exact (IH b eq_refl)].
Qed.

(** A loop whose body raises on no element raises nothing. *)
Lemma py_concat_map_total {A B} (f : A -> py_result (list B)) xs :
  Forall (fun x => exists ys, f x = PyOk ys) xs -> exists ys, py_concat_map f xs = PyOk ys.
Proof.
  induction 1 as [|x xs [a Ha] _ [b Hb]]; [exists []; reflexivity|].
  exists (a ++ b). simpl. rewrite Ha, Hb. reflexivity.
Qed.

(** ** Sums and extrema of [int] lists *)

Local Open Scope Z_scope.

(** Python [sum(l)] on a list of [int]. *)
Definition sum_Z (l : list Z) : Z := fold_right Z.add 0 l.

(** Python [sum(l)] on a list of [float]. *)
Definition sum_Q (l : list Q) : Q := fold_right Qplus 0%Q l.

(** [max(acc, x)] over a list, as the loops of the scripts compute it. *)
Lemma fold_left_max (l : list Z) a : fold_left Z.max l a = fold_right Z.max a l.
Proof.
  revert a. induction l as [|x l IH]; intros a; simpl; [reflexivity|].
  rewrite IH. clear IH. induction l as [|y l IH]; simpl; lia.
Qed.

Lemma fold_right_max_attained (l : list Z) a :
  fold_right Z.max a l = a \/ In (fold_right Z.max a l) l.
Proof.
  induction l as [|x l IH]; simpl; [now left|].
  destruct (Z.max_spec x (fold_right Z.max a l)) as [[_ ->]|[_ ->]]; [|now right; left].
  destruct IH as [IH|IH]; [now left|now right; right].
Qed.

Lemma fold_right_max_ub (l : list Z) a x : In x l -> x <= fold_right Z.max a l.
Proof. induction l as [|y l IH]; simpl; [tauto|]. intros [->|H]; [lia|specialize (IH H); lia]. Qed.

Lemma sum_Z_app l1 l2 : sum_Z (l1 ++ l2) = sum_Z l1 + sum_Z l2.
Proof. induction l1; simpl; lia. Qed.

Lemma sum_Z_snoc l x : sum_Z (l ++ [x]) = sum_Z l + x.
Proof. rewrite sum_Z_app. simpl. lia. Qed.

Lemma sum_Z_nonneg l : Forall (fun x => 0 <= x) l -> 0 <= sum_Z l.
Proof. induction 1; simpl; lia. Qed.

Lemma sum_Z_map_app {A} (f : A -> Z) l1 l2 :
  sum_Z (map f (l1 ++ l2)) = sum_Z (map f l1) + sum_Z (map f l2).
Proof. rewrite map_app. apply sum_Z_app. Qed.

#[export] Hint Rewrite sum_Z_app sum_Z_snoc @sum_Z_map_app : pyrw.
#[export] Hint Resolve sum_Z_nonneg : pydb.

Lemma sum_Z_le {A} (f g : A -> Z) (l : list A) :
  Forall (fun x => f x <= g x) l -> sum_Z (map f l) <= sum_Z (map g l).
Proof. induction 1; simpl; lia. Qed.

(** A sum of [n] terms each between 0 and [c] lies between 0 and [c * n]. *)
Lemma sum_Z_bound {A} (f : A -> Z) (c : Z) (l : list A) :
  Forall (fun x => 0 <= f x <= c) l -> 0 <= sum_Z (map f l) <= c * Z.of_nat (length l).
Proof. induction 1; simpl; lia. Qed.

(** A field that a [for] loop of accumulations increases by [g x] at
    each element [x] ends as its start plus the sum of [g]. *)
Lemma fold_left_field {T E} (add : T -> E -> T) (proj : T -> Z) (g : E -> Z) :
  (forall t e, proj (add t e) = proj t + g e) ->
  forall l t, proj (fold_left add l t) = proj t + sum_Z (map g l).
Proof. intros Hadd l. induction l as [|e l IH]; intros t; simpl; [lia|]. rewrite IH, Hadd. lia. Qed.

(** [sum(1 for x in l if f(x))]: how many elements satisfy [f]. *)
Definition count_if {A} (f : A -> bool) (l : list A) : Z := Z.of_nat (length (filter f l)).

Lemma count_if_snoc {A} (f : A -> bool) l x :
  count_if f (l ++ [x]) = count_if f l + (if f x then 1 else 0).
Proof.
  unfold count_if. rewrite filter_app, length_app. simpl.
  destruct (f x); simpl; lia.
Qed.

Lemma count_if_bounds {A} (f : A -> bool) l : 0 <= count_if f l <= Z.of_nat (length l).
Proof. unfold count_if. pose proof (filter_length_le f l). lia. Qed.

#[export] Hint Rewrite @count_if_snoc : pyrw.

(** Two disjoint tests that each imply a third count at most as many
    elements together as the third. *)
Lemma count_if_disjoint {A} (f g h : A -> bool) l :
  (forall x, f x = true -> h x = true) -> (forall x, g x = true -> h x = true) ->
  (forall x, f x && g x = false) -> count_if f l + count_if g l <= count_if h l.
Proof.
  intros Hf Hg Hfg. unfold count_if. induction l as [|x l IH]; simpl; [lia|].
  specialize (Hf x). specialize (Hg x). specialize (Hfg x).
  destruct (f x), (g x), (h x); cbn [length] in *; try lia;
    first [discriminate (Hf eq_refl) | discriminate (Hg eq_refl) | discriminate Hfg].
Qed.

(** [l[i:j]] for indices [0 <= i <= j]: out-of-range bounds are clipped,
    never an error. *)
Definition py_slice {A} (i j : nat) (l : list A) : list A := firstn (j - i) (skipn i l).

Lemma length_py_slice {A} i j (l : list A) :
  length (py_slice i j l) = Nat.min (j - i) (length l - i).
Proof. unfold py_slice. now rewrite length_firstn, length_skipn. Qed.

(** Python [max(l)] and [min(l)] on a non-empty list of [int]
    ([max([])] raises [ValueError]). *)
Definition py_max (l : list Z) : py_result Z :=
  match l with
  | [] => PyExc ValueError
  | x :: r => PyOk (fold_left Z.max r x)
  end.

Definition py_min (l : list Z) : py_result Z :=
  match l with
  | [] => PyExc ValueError
  | x :: r => PyOk (fold_left Z.min r x)
  end.

Lemma fold_max_ge r x : x <= fold_left Z.max r x.
Proof.
  revert x. induction r as [|y r IH]; intros x; simpl; [lia|].
  specialize (IH (Z.max x y)). lia.
Qed.

Lemma fold_max_In r x y : In y (x :: r) -> y <= fold_left Z.max r x.
Proof.
  revert x. induction r as [|z r IH]; intros x Hy; simpl in *.
  - destruct Hy as [->|[]]. lia.
  - destruct Hy as [->|[->|Hy]].
    + pose proof (fold_max_ge r (Z.max y z)). lia.
    + pose proof (fold_max_ge r (Z.max x y)). lia.
    + apply IH. now right.
Qed.

Lemma fold_min_le r x : fold_left Z.min r x <= x.
Proof.
  revert x. induction r as [|y r IH]; intros x; simpl; [lia|].
  specialize (IH (Z.min x y)). lia.
Qed.

Lemma fold_min_In r x y : In y (x :: r) -> fold_left Z.min r x <= y.
Proof.
  revert x. induction r as [|z r IH]; intros x Hy; simpl in *.
  - destruct Hy as [->|[]]. lia.
  - destruct Hy as [->|[->|Hy]].
    + pose proof (fold_min_le r (Z.min y z)). lia.
    + pose proof (fold_min_le r (Z.min x y)). lia.
    + apply IH. now right.
Qed.

#[export] Hint Resolve fold_max_In fold_min_In : pydb.

(** ** True division *)

(** Python's [a / b] on numbers: [ZeroDivisionError] when [b] is zero. *)
Definition py_truediv (a b : Q) : py_result Q :=
  if Qeq_bool b 0 then PyExc ZeroDivisionError else PyOk (a / b)%Q.

Lemma py_truediv_ok a b : ~ (b == 0)%Q -> py_truediv a b = PyOk (a / b)%Q.
Proof.
  intros H. unfold py_truediv. destruct (Qeq_bool b 0) eqn:E; [|reflexivity].
  apply Qeq_bool_eq in E. contradiction.
Qed.

(** [int] operands of a division, as Python converts them. *)
Definition py_div_Z (a b : Z) : py_result Q := py_truediv (inject_Z a) (inject_Z b).

Lemma py_div_Z_ok a b : b <> 0 -> py_div_Z a b = PyOk (inject_Z a / inject_Z b)%Q.
Proof.
  intros H. apply py_truediv_ok. intros E. apply H.
  unfold Qeq in E. simpl in E. lia.
Qed.

(** A count [c] out of [p > 0], as a percentage, lies in [0, 100]. *)
Lemma percent_bounds (c p : Z) : 0 <= c -> c <= p -> 0 < p ->
  (0 <= inject_Z c / inject_Z p * 100 <= 100)%Q.
Proof.
  intros H1 H2 H3.
  assert (Hp : (0 < inject_Z p)%Q) by (unfold Qlt; simpl; lia).
  assert (A : (0 <= inject_Z c / inject_Z p)%Q).
  { apply Qle_shift_div_l; [exact Hp|]. unfold Qle; simpl; lia. }
  assert (B : (inject_Z c / inject_Z p <= 1)%Q).
  { apply Qle_shift_div_r; [exact Hp|]. rewrite Qmult_1_l. unfold Qle; simpl; lia. }
  split; lra.
Qed.

Lemma inject_Z_nonzero (p : Z) : p <> 0 -> ~ (inject_Z p == 0)%Q.
Proof. intros H E. apply H. unfold Qeq in E. simpl in E. lia. Qed.

(** ** Tactics *)

(** Invert a hypothesis and clean up. *)
Ltac inv H := inversion H; subst; clear H.

(** Case on the first [if] or [match] scrutinee of the goal, remembering
    the equation. *)
Ltac case_if :=
  match goal with
  | |- context [if ?b then _ else _] => let E := fresh "E" in destruct b eqn:E
  end.

(** Unfold the monad's plumbing after [simpl]. *)
Ltac io_simpl := unfold bind, ret, raise in *; simpl in *.
