(* ===== verification/PyString.v ===== *)
(** * Python string built-ins used by the scripts

    [contains n h] is Python's [n in h]; [break_on sep s] splits [s] at
    the first occurrence of [sep] (Python's [s.partition(sep)] when it
    succeeds); [py_split] and [py_join] are [s.split(sep)] and
    [sep.join(l)]; [py_strip] is [s.strip()]; [py_remove c s] is
    [s.replace(c, "")] for a one-character [c].  The lemmas here are the
    shared string facts: decomposition of [contains], first occurrence
    of [break_on], the split/join round trip, and idempotence of strip
    and remove. *)

From Stdlib Require Import String Ascii List Arith Lia.
From S2P Require Import Prelude.
Import ListNotations.
Local Open Scope string_scope.

(** ** Append on strings *)

Lemma str_app_assoc (a b c : string) : (a ++ b) ++ c = a ++ (b ++ c).
Proof. induction a; simpl; congruence. Qed.

Lemma str_app_nil_r (a : string) : a ++ "" = a.
Proof. induction a; simpl; congruence. Qed.

Lemma str_length_app (a b : string) : String.length (a ++ b) = String.length a + String.length b.
Proof. induction a; simpl; congruence. Qed.

#[export] Hint Rewrite str_app_assoc str_app_nil_r str_length_app : pyrw.

(** ** Prefix and substring tests *)

Fixpoint prefixb (p s : string) : bool :=
  match p, s with
  | EmptyString, _ => true
  | String a p', String b s' => Ascii.eqb a b && prefixb p' s'
  | String _ _, EmptyString => false
  end.

(** [drop n s] is [s[n:]]. *)
Fixpoint drop (n : nat) (s : string) : string :=
  match n, s with
  | O, _ => s
  | S n', String _ s' => drop n' s'
  | S _, EmptyString => EmptyString
  end.

(** Python's [needle in hay] on [str]. *)
Fixpoint contains (needle hay : string) : bool :=
  prefixb needle hay ||
  match hay with
  | EmptyString => false
  | String _ hay' => contains needle hay'
  end.

Lemma prefixb_spec p s : prefixb p s = true <-> exists r, s = p ++ r.
Proof.
  revert s; induction p as [|a p IH]; intros [|b s]; simpl.
  - split; eauto.
  - split; eauto.
  - split; [discriminate | intros [r Hr]; discriminate].
  - rewrite Bool.andb_true_iff, Ascii.eqb_eq, IH. split.
    + intros [-> [r ->]]. eauto.
    + intros [r Hr]. inversion Hr; subst. eauto.
Qed.

Lemma drop_app p r : drop (String.length p) (p ++ r) = r.
Proof. induction p; simpl; auto. Qed.

Lemma prefixb_drop p s : prefixb p s = true -> s = p ++ drop (String.length p) s.
Proof.
  intros H. apply prefixb_spec in H as [r Hr]. subst s. now rewrite drop_app.
Qed.

Lemma contains_spec n h : contains n h = true <-> exists x y, h = x ++ n ++ y.
Proof.
  induction h as [|c h IH]; simpl; rewrite Bool.orb_true_iff, prefixb_spec.
  - split.
    + intros [[r Hr]|Hf]; [exists "", r; exact Hr | discriminate].
    + intros [[|d x] [y Hy]]; simpl in Hy; [left; eauto|discriminate].
  - rewrite IH. split.
    + intros [[r Hr]|[x [y ->]]].
      * exists "", r. exact Hr.
      * exists (String c x), y. reflexivity.
    + intros [[|d x] [y Hy]]; simpl in Hy.
      * left. eauto.
      * inversion Hy; subst. right. eauto.
Qed.

Lemma contains_app_l n a b : contains n a = true -> contains n (a ++ b) = true.
Proof.
  rewrite !contains_spec. intros [x [y ->]]. exists x, (y ++ b).
  now rewrite !str_app_assoc.
Qed.

Lemma contains_app_r n a b : contains n b = true -> contains n (a ++ b) = true.
Proof.
  rewrite !contains_spec. intros [x [y ->]]. exists (a ++ x), y.
  now rewrite !str_app_assoc.
Qed.

Lemma contains_nil n : contains "" n = true.
Proof. destruct n; reflexivity. Qed.

(** A string only contains strings at most as long as itself. *)
Lemma contains_length n h : contains n h = true -> String.length n <= String.length h.
Proof.
  rewrite contains_spec. intros [x [y ->]]. rewrite !str_length_app. lia.
Qed.

(** Every prefix of a string is contained in it. *)
Lemma contains_prefix p y : contains p (p ++ y) = true.
Proof. apply contains_spec. exists "", y. reflexivity. Qed.

(** ** First occurrence *)

Fixpoint break_on (sep s : string) : option (string * string) :=
  if prefixb sep s then Some (EmptyString, drop (String.length sep) s)
  else
    match s with
    | EmptyString => None
    | String c s' =>
        match break_on sep s' with
        | Some (b, a) => Some (String c b, a)
        | None => None
        end
    end.

Lemma break_on_cons sep c s :
  break_on sep (String c s) =
  if prefixb sep (String c s) then Some (EmptyString, drop (String.length sep) (String c s))
  else match break_on sep s with
       | Some (b, a) => Some (String c b, a)
       | None => None
       end.
Proof. reflexivity. Qed.

Lemma break_on_some sep s b a : break_on sep s = Some (b, a) -> s = b ++ sep ++ a.
Proof.
  revert b a; induction s as [|c s IH]; intros b a H; simpl in H;
    destruct (prefixb sep _) eqn:P.
  - inversion H; subst. now apply prefixb_drop.
  - discriminate.
  - inversion H; subst. now apply prefixb_drop.
  - destruct (break_on sep s) as [[b' a']|] eqn:E; inversion H; subst.
    simpl. f_equal. auto.
Qed.

Lemma break_on_none sep s : break_on sep s = None <-> contains sep s = false.
Proof.
  induction s as [|c s IH]; simpl; destruct (prefixb sep _); simpl.
  - split; discriminate.
  - tauto.
  - split; discriminate.
  - destruct (break_on sep s) as [[b a]|]; rewrite <- IH; split; congruence.
Qed.

(** [break_on] finds the leftmost occurrence. *)
Lemma break_on_first sep s b a :
  break_on sep s = Some (b, a) ->
  forall x y, s = x ++ sep ++ y -> String.length b <= String.length x.
Proof.
  revert b a; induction s as [|c s IH]; intros b a H x y Hs; simpl in H;
    destruct (prefixb sep _) eqn:P.
  - inversion H; subst. simpl. lia.
  - discriminate.
  - inversion H; subst. simpl. lia.
  - destruct (break_on sep s) as [[b' a']|] eqn:E; inversion H; subst.
    destruct x as [|d x]; simpl in Hs.
    + exfalso. assert (prefixb sep (String c s) = true) as P'
        by (apply prefixb_spec; eauto). congruence.
    + inversion Hs; subst. simpl. specialize (IH _ _ eq_refl x y eq_refl). lia.
Qed.

Lemma break_on_first_free sep s b a :
  sep <> "" -> break_on sep s = Some (b, a) -> contains sep b = false.
Proof.
  intros Hsep H. pose proof (break_on_some _ _ _ _ H) as Hs.
  destruct (contains sep b) eqn:C; [|reflexivity].
  apply contains_spec in C as [x [y ->]].
  pose proof (break_on_first _ _ _ _ H x (y ++ sep ++ a)) as Hle.
  rewrite Hs, !str_app_assoc in Hle. specialize (Hle eq_refl).
  rewrite !str_length_app in Hle. destruct sep; [congruence|simpl in Hle; lia].
Qed.

Lemma break_on_length sep s b a :
  sep <> "" -> break_on sep s = Some (b, a) -> String.length a < String.length s.
Proof.
  intros Hsep H. rewrite (break_on_some _ _ _ _ H), !str_length_app.
  destruct sep; [congruence|simpl; lia].
Qed.

(** ** Separators that cannot overlap themselves *)

Lemma str_app_eq_app (a b c d : string) :
  a ++ b = c ++ d ->
  (exists m, c = a ++ m /\ b = m ++ d) \/ (exists m, a = c ++ m /\ d = m ++ b).
Proof.
  revert c; induction a as [|x a IH]; intros c H; simpl in H.
  - left. exists c. auto.
  - destruct c as [|y c]; simpl in H.
    + right. exists (String x a). auto.
    + inversion H; subst. destruct (IH c H2) as [[m [-> ->]]|[m [-> ->]]].
      * left. exists m. auto.
      * right. exists m. auto.
Qed.

Lemma str_app_inv_l (a b c : string) : a ++ b = a ++ c -> b = c.
Proof. induction a; simpl; intros H; [exact H|inversion H; auto]. Qed.

(** [t] has no proper border: no non-empty proper suffix of [t] is a
    prefix of [t], so two occurrences of [t] never overlap. *)
Definition border_free (t : string) : Prop :=
  forall m v, t = m ++ v -> m <> "" -> v <> "" -> prefixb v t = false.

Definition border_freeb (t : string) : bool :=
  forallb (fun k => negb (prefixb (drop k t) t)) (seq 1 (String.length t - 1)).

Lemma border_freeb_spec t : border_freeb t = true -> border_free t.
Proof.
  unfold border_freeb. intros H m v Ht Hm Hv.
  rewrite forallb_forall in H.
  assert (Hk : In (String.length m) (seq 1 (String.length t - 1))).
  { apply in_seq. subst t. rewrite str_length_app.
    destruct m; [congruence|]. destruct v; [congruence|]. simpl. lia. }
  specialize (H _ Hk). subst t. rewrite drop_app in H.
  now apply Bool.negb_true_iff in H.
Qed.

(** A border-free separator placed after a separator-free text is the
    first occurrence. *)
Lemma break_on_app_free t x y :
  border_free t -> t <> "" -> contains t x = false ->
  break_on t (x ++ t ++ y) = Some (x, y).
Proof.
  intros Hbf Ht Hx.
  destruct (break_on t (x ++ t ++ y)) as [[b c]|] eqn:E.
  2:{ apply break_on_none in E. rewrite contains_app_r in E; [discriminate|].
      apply contains_spec. exists "", y. reflexivity. }
  pose proof (break_on_some _ _ _ _ E) as Hs.
  pose proof (break_on_first _ _ _ _ E x y eq_refl) as Hle.
  destruct (str_app_eq_app _ _ _ _ Hs) as [[m [Hb Hm]]|[m [Hx' Hc]]].
  - (* the occurrence found starts inside [x] or exactly at its end *)
    subst b. rewrite str_length_app in Hle.
    destruct m as [|ch m'] eqn:Em.
    + rewrite str_app_nil_r. simpl in Hm. apply str_app_inv_l in Hm. now subst.
    + simpl in Hle. lia.
  - (* [x = b ++ m]: the occurrence starts inside [x] *)
    subst x.
    destruct m as [|ch m'] eqn:Em.
    + rewrite str_app_nil_r in *. simpl in Hc. apply str_app_inv_l in Hc. now subst.
    + exfalso. rewrite <- Em in *. rewrite str_app_assoc in Hs. apply str_app_inv_l in Hs.
      destruct (str_app_eq_app _ _ _ _ Hs) as [[v [Htm Hrest]]|[v [Hmv Hrest]]].
      * (* [t = m ++ v]: either [v] is empty and [x] ends with [t], or
           [v] is a proper suffix of [t] that is also its prefix *)
        destruct (string_dec v "") as [->|Hv].
        -- rewrite str_app_nil_r in Htm. subst t.
           assert (contains m (b ++ m) = true) as C.
           { apply contains_app_r. apply contains_spec. exists "", "". simpl.
             now rewrite str_app_nil_r. }
           congruence.
        -- assert (prefixb v t = true) as P.
           { apply prefixb_spec.
             assert (String.length v < String.length t) as Hl
               by (rewrite Htm, str_length_app, Em; simpl; lia).
             destruct (str_app_eq_app _ _ _ _ Hrest) as [[w [Hw _]]|[w [Hw _]]].
             - rewrite Hw, str_length_app in Hl. lia.
             - eauto. }
           rewrite (Hbf m v Htm) in P; [discriminate| |exact Hv]. subst m. discriminate.
      * (* [m = t ++ v]: [x] itself contains [t] *)
        assert (contains t (b ++ m) = true) as C.
        { apply contains_app_r. rewrite Hmv. apply contains_spec. exists "", v. reflexivity. }
        congruence.
Qed.

Lemma break_on_absent t s : contains t s = false -> break_on t s = None.
Proof. apply break_on_none. Qed.

(** ** [str.split] and [str.join] *)

(** [s.split(sep)] for a non-empty [sep]: the pieces between the
    non-overlapping occurrences of [sep], scanned from the left.  The fuel
    [S (length s)] is enough: each step consumes the separator, so the rest
    is strictly shorter ([split_fuel_complete] below).  An empty [sep]
    raises [ValueError] in Python; every call site passes a literal tag. *)
Fixpoint split_fuel (fuel : nat) (sep s : string) : list string :=
  match fuel with
  | O => [s]
  | S f =>
      match break_on sep s with
      | Some (b, a) => b :: split_fuel f sep a
      | None => [s]
      end
  end.

Definition py_split (sep s : string) : list string :=
  split_fuel (S (String.length s)) sep s.

(** [sep.join(l)]. *)
Fixpoint py_join (sep : string) (l : list string) : string :=
  match l with
  | [] => ""
  | [x] => x
  | x :: l' => x ++ sep ++ py_join sep l'
  end.

Lemma split_fuel_cons f sep s : exists x l, split_fuel f sep s = x :: l.
Proof.
  destruct f; simpl; [eauto|]. destruct (break_on sep s) as [[b a]|]; eauto.
Qed.

Lemma py_join_cons sep x l : l <> [] -> py_join sep (x :: l) = x ++ sep ++ py_join sep l.
Proof. destruct l; [congruence|reflexivity]. Qed.

(** Joining the pieces of a split gives the string back, whatever the fuel. *)
Lemma join_split_fuel f sep s : py_join sep (split_fuel f sep s) = s.
Proof.
  revert s; induction f as [|f IH]; intros s; simpl; [reflexivity|].
  destruct (break_on sep s) as [[b a]|] eqn:E; [|reflexivity].
  destruct (split_fuel_cons f sep a) as [x [l Hl]].
  rewrite py_join_cons by congruence. rewrite IH. symmetry. now apply break_on_some.
Qed.

Lemma split_fuel_complete f sep s :
  sep <> "" -> String.length s < f ->
  Forall (fun p => contains sep p = false) (split_fuel f sep s).
Proof.
  intros Hsep. revert s; induction f as [|f IH]; intros s Hf; simpl; [lia|].
  destruct (break_on sep s) as [[b a]|] eqn:E.
  - constructor; [eapply break_on_first_free; eauto|].
    apply IH. pose proof (break_on_length _ _ _ _ Hsep E). lia.
  - constructor; [now apply break_on_none|constructor].
Qed.

(** ** [str.strip()] *)

(** The characters below 256 for which Python's [str.isspace] holds:
    [\t \n \v \f \r], the separators [\x1c]..[\x1f], space, [\x85]
    and [\xa0]. *)
Definition is_py_space (c : ascii) : bool :=
  let n := nat_of_ascii c in
  (Nat.leb 9 n && Nat.leb n 13) || (Nat.leb 28 n && Nat.leb n 32) || Nat.eqb n 133 ||
  Nat.eqb n 160.

Fixpoint py_lstrip (s : string) : string :=
  match s with
  | EmptyString => EmptyString
  | String c s' => if is_py_space c then py_lstrip s' else s
  end.

Fixpoint str_rev (s : string) : string :=
  match s with
  | EmptyString => EmptyString
  | String c s' => str_rev s' ++ String c EmptyString
  end.

Definition py_rstrip (s : string) : string := str_rev (py_lstrip (str_rev s)).

Definition py_strip (s : string) : string := py_rstrip (py_lstrip s).

Lemma str_rev_app a b : str_rev (a ++ b) = str_rev b ++ str_rev a.
Proof.
  induction a as [|c a IH]; simpl; [now rewrite str_app_nil_r|].
  now rewrite IH, str_app_assoc.
Qed.

Lemma str_rev_involutive s : str_rev (str_rev s) = s.
Proof. induction s as [|c s IH]; simpl; [reflexivity|]. now rewrite str_rev_app, IH. Qed.

Lemma py_lstrip_idem s : py_lstrip (py_lstrip s) = py_lstrip s.
Proof.
  induction s as [|c s IH]; simpl; [reflexivity|].
  destruct (is_py_space c) eqn:E; [exact IH|simpl; now rewrite E].
Qed.

(** Stripping on the left leaves no leading white space. *)
Lemma py_lstrip_head s c s' : py_lstrip s = String c s' -> is_py_space c = false.
Proof.
  induction s as [|d s IH]; simpl; [discriminate|].
  destruct (is_py_space d) eqn:E; [exact IH|]. intros H. inversion H; subst. exact E.
Qed.

(** Left-stripping a string that starts with a non-space character does
    nothing. *)
Lemma py_lstrip_noop s : (forall c s', s = String c s' -> is_py_space c = false) ->
  py_lstrip s = s.
Proof. destruct s as [|c s]; simpl; [reflexivity|]. intros H. now rewrite (H c s eq_refl). Qed.

(** A string of white space only, the strings [strip] empties. *)
Fixpoint all_py_space (s : string) : bool :=
  match s with
  | EmptyString => true
  | String c s' => (is_py_space c && all_py_space s')%bool
  end.

Lemma all_py_space_app a b : all_py_space (a ++ b) = (all_py_space a && all_py_space b)%bool.
Proof. induction a as [|c a IH]; simpl; [reflexivity|]. rewrite IH. apply Bool.andb_assoc. Qed.

Lemma all_py_space_rev s : all_py_space (str_rev s) = all_py_space s.
Proof.
  induction s as [|c s IH]; simpl; [reflexivity|].
  rewrite all_py_space_app, IH. simpl. rewrite Bool.andb_true_r. apply Bool.andb_comm.
Qed.

Lemma py_lstrip_nil s : py_lstrip s = "" -> all_py_space s = true.
Proof.
  induction s as [|c s IH]; simpl; [reflexivity|].
  destruct (is_py_space c); [exact IH|discriminate].
Qed.

Lemma py_strip_nil s : py_strip s = "" -> all_py_space s = true.
Proof.
  unfold py_strip, py_rstrip. intros H.
  apply (f_equal str_rev) in H. rewrite str_rev_involutive in H. simpl in H.
  apply py_lstrip_nil in H. rewrite all_py_space_rev in H.
  destruct (py_lstrip s) as [|c r] eqn:E; [now apply py_lstrip_nil|].
  apply py_lstrip_head in E. simpl in H. now rewrite E in H.
Qed.

(** A needle found in white space is white space. *)
Lemma contains_all_py_space n s :
  all_py_space s = true -> contains n s = true -> all_py_space n = true.
Proof.
  intros Hs Hc. apply contains_spec in Hc as (x & y & ->).
  rewrite !all_py_space_app in Hs. now apply andb_prop in Hs as [_ [Hn _]%andb_prop].
Qed.

(** Stripping a text that contains a needle with a non-space character
    leaves a non-empty text. *)
Lemma py_strip_nonempty n s :
  all_py_space n = false -> contains n s = true -> String.eqb (py_strip s) "" = false.
Proof.
  intros Hn Hc. destruct (String.eqb_spec (py_strip s) "") as [E|]; [|reflexivity].
  apply py_strip_nil in E. rewrite (contains_all_py_space n s E Hc) in Hn. discriminate.
Qed.

(** ** [str.replace(c, "")] for one character *)

Fixpoint py_remove (c : ascii) (s : string) : string :=
  match s with
  | EmptyString => EmptyString
  | String d s' => if Ascii.eqb c d then py_remove c s' else String d (py_remove c s')
  end.

Lemma py_remove_idem c s : py_remove c (py_remove c s) = py_remove c s.
Proof.
  induction s as [|d s IH]; simpl; [reflexivity|].
  destruct (Ascii.eqb c d) eqn:E; [exact IH|simpl; now rewrite E, IH].
Qed.

Lemma py_remove_comm c d s : py_remove c (py_remove d s) = py_remove d (py_remove c s).
Proof.
  induction s as [|e s IH]; simpl; [reflexivity|].
  destruct (Ascii.eqb d e) eqn:E1, (Ascii.eqb c e) eqn:E2; simpl;
    rewrite ?E1, ?E2, ?IH; reflexivity.
Qed.

Lemma py_remove_app c x y : py_remove c (x ++ y) = py_remove c x ++ py_remove c y.
Proof.
  induction x as [|d x IH]; simpl; [reflexivity|].
  destruct (Ascii.eqb c d); simpl; now rewrite IH.
Qed.

Lemma py_remove_other c d s :
  Ascii.eqb c d = false -> py_remove c (String d s) = String d (py_remove c s).
Proof. simpl. intros ->. reflexivity. Qed.

Lemma py_remove_hit c s : py_remove c (String c s) = py_remove c s.
Proof. simpl. now rewrite Ascii.eqb_refl. Qed.

#[export] Hint Rewrite py_remove_idem py_lstrip_idem str_rev_involutive : pyrw.

Lemma py_split_absent sep s : contains sep s = false -> py_split sep s = [s].
Proof. intros H. unfold py_split. simpl. now rewrite break_on_absent. Qed.

Lemma py_split_found sep s b a :
  break_on sep s = Some (b, a) -> py_split sep s = b :: split_fuel (String.length s) sep a.
Proof. intros H. unfold py_split. simpl. now rewrite H. Qed.

(** The first piece of [s.split(sep)] is the text before the first
    occurrence of [sep] (all of [s] when there is none). *)
Definition first_piece (sep s : string) : string :=
  match break_on sep s with Some (b, _) => b | None => s end.

Lemma split_fuel_head f sep s : f <> O -> hd "" (split_fuel f sep s) = first_piece sep s.
Proof.
  destruct f; [congruence|]. intros _. unfold first_piece. simpl.
  destruct (break_on sep s) as [[b a]|]; reflexivity.
Qed.

Lemma split_fuel_head_cons f sep s :
  f <> O -> exists l, split_fuel f sep s = first_piece sep s :: l.
Proof.
  intros Hf. destruct (split_fuel_cons f sep s) as [x [l Hl]]. exists l.
  rewrite Hl. f_equal. rewrite <- (split_fuel_head f sep s Hf), Hl. reflexivity.
Qed.

Lemma py_split_head sep s : exists l, py_split sep s = first_piece sep s :: l.
Proof. apply split_fuel_head_cons. discriminate. Qed.

Lemma first_piece_absent sep s : contains sep s = false -> first_piece sep s = s.
Proof. intros H. unfold first_piece. now rewrite break_on_absent. Qed.

Lemma contains_app_r_false n a b : contains n (a ++ b) = false -> contains n b = false.
Proof.
  intros H. destruct (contains n b) eqn:E; [|reflexivity].
  now rewrite contains_app_r in H.
Qed.

(** A shorter tail of two equal concatenations is a suffix of the longer one. *)
Lemma str_app_suffix x y u v :
  x ++ y = u ++ v -> String.length v <= String.length y -> exists w, y = w ++ v.
Proof.
  intros H Hl. destruct (str_app_eq_app _ _ _ _ H) as [[m [_ Hy]]|[m [_ Hv]]].
  - eauto.
  - subst v. rewrite str_length_app in Hl. destruct m; simpl in Hl; [|lia].
    exists "". reflexivity.
Qed.
