(* ===== verification/Response.v ===== *)
(** * Response classification and answer extraction

    [Classify] models the [response_type] expression of
    [solve_problem_with_agents] ([src/math/process3.py] 176): the first
    of [<think>], [<summary>], [<answer>] that occurs decides the type.
    [Extract] models the two ways the scripts extract an answer: the
    split chain [response.split("<answer>")[1].split("</answer>")[0].strip()]
    of the drivers ([process3.py] 198, [process.py] 128) and the regular
    expression [<answer>(.*?)</answer>] of [extract_final_answer]
    ([process3.py] 225-234, [process.py] 141-150, [test3.py] 105-112),
    whose leftmost-start, lazy-group search is written out as
    [re_search_answer]. *)

From Stdlib Require Import String Ascii List Arith Lia.
From S2P Require Import Prelude PyString.
Import ListNotations.
Local Open Scope string_scope.

(** The marker tags of the response format. *)
Definition think_tag : string := "<think>".
Definition summary_tag : string := "<summary>".
Definition answer_tag : string := "<answer>".
Definition answer_close : string := "</answer>".

Lemma answer_tag_border_free : border_free answer_tag.
Proof. apply border_freeb_spec. reflexivity. Qed.

Lemma answer_close_border_free : border_free answer_close.
Proof. apply border_freeb_spec. reflexivity. Qed.

#[export] Hint Resolve answer_tag_border_free answer_close_border_free : pydb.

Module Classify.

(** The values of the ["response_type"] field of an iteration record. *)
Inductive response_type : Type :=
| thinking
| summary
| answer
| other.

Definition response_type_eqb (t u : response_type) : bool :=
  match t, u with
  | thinking, thinking | summary, summary | answer, answer | other, other => true
  | _, _ => false
  end.

Lemma response_type_eqb_eq t u : response_type_eqb t u = true <-> t = u.
Proof. destruct t, u; simpl; split; congruence. Qed.

(** The string written to the JSON log. *)
Definition response_type_str (t : response_type) : string :=
  match t with
  | thinking => "thinking"
  | summary => "summary"
  | answer => "answer"
  | other => "other"
  end.

(** [process3.py] 176:
    ["thinking" if "<think>" in response else ("summary" if "<summary>" in
     response else ("answer" if "<answer>" in response else "other"))]. *)
Definition classify (response : string) : response_type :=
  if contains think_tag response then thinking
  else if contains summary_tag response then summary
  else if contains answer_tag response then answer
  else other.

End Classify.

Module Extract.

(** [process3.py] 198 (and [process.py] 128):
    [response.split("<answer>")[1].split("</answer>")[0].strip()].
    Indexing past the end of the list raises [IndexError]. *)
Definition answer_of (response : string) : py_result string :=
  match nth_error (py_split answer_tag response) 1 with
  | Some piece =>
      match py_split answer_close piece with
      | first :: _ => PyOk (py_strip first)
      | [] => PyExc IndexError
      end
  | None => PyExc IndexError
  end.

(** The lazy group [(.*?)] followed by [close]: the shortest prefix of
    [t] after which [close] occurs. *)
Definition lazy_group (close t : string) : option string :=
  match break_on close t with
  | Some (g, _) => Some g
  | None => None
  end.

(** [re.search(r"<answer>(.*?)</answer>", s, re.DOTALL).group(1)]:
    the engine tries the start positions from the left; at a position
    where [<answer>] matches, the lazy group grows until [</answer>]
    follows; when no [</answer>] follows it backtracks to the next
    start position. *)
Fixpoint re_search_answer (s : string) : option string :=
  match (if prefixb answer_tag s
         then lazy_group answer_close (drop (String.length answer_tag) s)
         else None) with
  | Some g => Some g
  | None =>
      match s with
      | EmptyString => None
      | String _ s' => re_search_answer s'
      end
  end.

(** [extract_final_answer] of [process3.py] 225-234 and [process.py]
    141-150: [None] stays [None]; a match gives the stripped group; no
    match gives the content unchanged. *)
Definition extract_final_answer (response_content : option string) : option string :=
  match response_content with
  | None => None
  | Some r =>
      match re_search_answer r with
      | Some g => Some (py_strip g)
      | None => Some r
      end
  end.

(** [extract_final_answer] of [test3.py] 105-112: no match gives [None]. *)
Definition extract_final_answer_strict (response_content : string) : option string :=
  match re_search_answer response_content with
  | Some g => Some (py_strip g)
  | None => None
  end.

(** ** The split chain *)

Lemma answer_of_spec r b a :
  break_on answer_tag r = Some (b, a) ->
  answer_of r = PyOk (py_strip (first_piece answer_close (first_piece answer_tag a))).
Proof.
  intros H. unfold answer_of. rewrite (py_split_found _ _ _ _ H).
  assert (String.length r <> O) as Hl.
  { rewrite (break_on_some _ _ _ _ H), !str_length_app. simpl. lia. }
  destruct (split_fuel_head_cons _ answer_tag a Hl) as [l ->]. simpl.
  destruct (py_split_head answer_close (first_piece answer_tag a)) as [l' ->].
  reflexivity.
Qed.

Lemma answer_of_absent r : contains answer_tag r = false -> answer_of r = PyExc IndexError.
Proof. intros H. unfold answer_of. now rewrite py_split_absent. Qed.

(** ** The regular expression *)

(** The backtracking search amounts to: the first [<answer>], then the
    first [</answer>] after it; when that one has no [</answer>] after it,
    no later [<answer>] has one either. *)
Lemma re_search_answer_spec s :
  re_search_answer s =
  match break_on answer_tag s with
  | Some (_, a) => lazy_group answer_close a
  | None => None
  end.
Proof.
  induction s as [|c s IH]; [reflexivity|].
  cbn [re_search_answer]. destruct (prefixb answer_tag (String c s)) eqn:P.
  - assert (break_on answer_tag (String c s) =
            Some (EmptyString, drop (String.length answer_tag) (String c s))) as ->
      by (now rewrite break_on_cons, P).
    destruct (lazy_group answer_close _) as [g|] eqn:G; [reflexivity|].
    rewrite IH. destruct (break_on answer_tag s) as [[b' a']|] eqn:E; [|reflexivity].
    unfold lazy_group in *. apply prefixb_drop in P.
    set (d := drop (String.length answer_tag) (String c s)) in *.
    destruct (break_on answer_close d) as [[g c']|] eqn:Ed; [discriminate|].
    apply break_on_none in Ed.
    pose proof (break_on_some _ _ _ _ E) as Hs.
    assert (answer_tag ++ d = (String c b' ++ answer_tag) ++ a') as Heq
      by (rewrite <- P, Hs, str_app_assoc; reflexivity).
    assert (String.length a' <= String.length d) as Hle.
    { apply (f_equal String.length) in Heq. rewrite !str_length_app in Heq. simpl in Heq. lia. }
    destruct (str_app_suffix _ _ _ _ Heq Hle) as [w ->].
    apply contains_app_r_false in Ed. now rewrite (proj2 (break_on_none _ _) Ed).
  - assert (break_on answer_tag (String c s) =
            match break_on answer_tag s with
            | Some (b, a) => Some (String c b, a)
            | None => None
            end) as -> by (now rewrite break_on_cons, P).
    rewrite IH. destruct (break_on answer_tag s) as [[b a]|]; reflexivity.
Qed.

(** On a response whose text after the first [<answer>] is closed by a
    [</answer>] and holds no second [<answer>], the split chain and the
    regular expression extract the same answer. *)
Lemma extractors_agree r b a g c :
  break_on answer_tag r = Some (b, a) ->
  contains answer_tag a = false ->
  break_on answer_close a = Some (g, c) ->
  answer_of r = PyOk (py_strip g) /\ extract_final_answer (Some r) = Some (py_strip g).
Proof.
  intros H1 H2 H3. split.
  - rewrite (answer_of_spec _ _ _ H1), (first_piece_absent answer_tag a H2).
    unfold first_piece. now rewrite H3.
  - simpl. rewrite re_search_answer_spec, H1. unfold lazy_group. now rewrite H3.
Qed.

(** ** Properties of the extraction *)

(** C2. The guard [if "<answer>" in response] of the driver
    ([process3.py] 197) protects the indexing at line 198: on every
    response that contains [<answer>] the split chain returns a value and
    never raises [IndexError]. *)
Theorem answer_of_safe r :
  contains answer_tag r = true -> exists x, answer_of r = PyOk x.
Proof.
  intros H. destruct (break_on answer_tag r) as [[b a]|] eqn:E.
  - eexists. exact (answer_of_spec _ _ _ E).
  - apply break_on_none in E. congruence.
Qed.

Lemma answer_of_safe_witness :
  contains answer_tag "so <answer>42</answer>" = true /\
  exists x, answer_of "so <answer>42</answer>" = PyOk x.
Proof. split; [reflexivity|apply answer_of_safe; reflexivity]. Defined.

(** C3. Round trip of the answer format: a response made of a text [p]
    with no [<answer>], the tag, an answer [x] with no [</answer>], the
    closing tag and a tail [q] (no second [<answer>] after the first)
    gives back [x.strip()], through the split chain of the driver and
    through [extract_final_answer] alike. *)
Theorem answer_roundtrip p x q :
  contains answer_tag p = false ->
  contains answer_tag (x ++ answer_close ++ q) = false ->
  contains answer_close x = false ->
  answer_of (p ++ answer_tag ++ x ++ answer_close ++ q) = PyOk (py_strip x) /\
  extract_final_answer (Some (p ++ answer_tag ++ x ++ answer_close ++ q)) = Some (py_strip x).
Proof.
  intros Hp Hx Hc. apply (extractors_agree _ p (x ++ answer_close ++ q) x q).
  - apply break_on_app_free; auto with pydb. discriminate.
  - exact Hx.
  - apply break_on_app_free; auto with pydb. discriminate.
Qed.

Lemma answer_roundtrip_witness :
  contains answer_tag "Thus " = false /\
  contains answer_tag (" 7/2 " ++ answer_close) = false /\
  contains answer_close " 7/2 " = false /\
  answer_of ("Thus " ++ answer_tag ++ " 7/2 " ++ answer_close) = PyOk (py_strip " 7/2 ") /\
  extract_final_answer (Some ("Thus " ++ answer_tag ++ " 7/2 " ++ answer_close))
    = Some (py_strip " 7/2 ").
Proof.
  refine (conj eq_refl (conj eq_refl (conj eq_refl _))).
  apply answer_roundtrip; reflexivity.
Defined.

Lemma first_piece_app_free t x y :
  border_free t -> t <> "" -> contains t x = false -> first_piece t (x ++ t ++ y) = x.
Proof. intros Hb Ht Hx. unfold first_piece. now rewrite break_on_app_free. Qed.

(** C4. The two extractions differ on every malformed response of two
    shapes.  With no closing tag after [<answer>], the split chain keeps
    the rest of the response, stripped, while [extract_final_answer]
    finds no match and returns the whole response, tag included.  With a
    second [<answer>] before the closing tag, the split chain keeps the
    text before the second tag while the regular expression's lazy group
    runs to the closing tag and keeps both pieces and the tag between
    them. *)
Theorem extractors_diverge p x y q :
  contains answer_tag p = false ->
  contains answer_tag x = false -> contains answer_close x = false ->
  answer_of (p ++ answer_tag ++ x) = PyOk (py_strip x) /\
  extract_final_answer (Some (p ++ answer_tag ++ x)) = Some (p ++ answer_tag ++ x) /\
  (contains answer_close (x ++ answer_tag ++ y) = false ->
   answer_of (p ++ answer_tag ++ x ++ answer_tag ++ y ++ answer_close ++ q) = PyOk (py_strip x) /\
   extract_final_answer (Some (p ++ answer_tag ++ x ++ answer_tag ++ y ++ answer_close ++ q)) =
     Some (py_strip (x ++ answer_tag ++ y))).
Proof.
  intros Hp Hx Hxc.
  assert (Hb : forall z, break_on answer_tag (p ++ answer_tag ++ z) = Some (p, z))
    by (intros z; apply break_on_app_free; auto with pydb; discriminate).
  split; [|split].
  - rewrite (answer_of_spec _ _ _ (Hb x)), (first_piece_absent answer_tag x Hx).
    rewrite first_piece_absent by assumption. reflexivity.
  - unfold extract_final_answer. rewrite re_search_answer_spec, Hb. unfold lazy_group.
    rewrite break_on_absent by assumption. reflexivity.
  - intros Hxy. split.
    + rewrite (answer_of_spec _ _ _ (Hb _)), first_piece_app_free; auto with pydb; try discriminate.
      rewrite first_piece_absent by assumption. reflexivity.
    + unfold extract_final_answer. rewrite re_search_answer_spec, Hb. unfold lazy_group.
      replace (x ++ answer_tag ++ y ++ answer_close ++ q)
        with ((x ++ answer_tag ++ y) ++ answer_close ++ q) by (now rewrite !str_app_assoc).
      rewrite break_on_app_free; auto with pydb; discriminate.
Qed.

Lemma extractors_diverge_witness :
  answer_of ("" ++ answer_tag ++ " 42") = PyOk "42" /\
  extract_final_answer (Some ("" ++ answer_tag ++ " 42")) = Some "<answer> 42" /\
  answer_of ("" ++ answer_tag ++ "1" ++ answer_tag ++ "2" ++ answer_close ++ "") = PyOk "1" /\
  extract_final_answer (Some ("" ++ answer_tag ++ "1" ++ answer_tag ++ "2" ++ answer_close ++ ""))
    = Some "1<answer>2".
Proof.
  destruct (extractors_diverge "" " 42" "" "" eq_refl eq_refl eq_refl) as (H1 & H2 & _).
  destruct (extractors_diverge "" "1" "2" "" eq_refl eq_refl eq_refl) as (_ & _ & H3).
  destruct (H3 eq_refl) as [H4 H5].
  split; [exact H1|split; [exact H2|split; [exact H4|exact H5]]].
Defined.

End Extract.
