(* ===== verification/Endpoint.v ===== *)
(** * The remote chat-completion endpoint and [_get_response]

    The endpoint is the external collaborator: an oracle [endpoint] that
    answers the [n]-th call of the run, given the system and user
    prompts, with a [reply]: a transport failure, or an HTTP status,
    the measured latency and a body.  [get_response] models
    [_get_response] ([src/math/process3.py] 61-93; the same code is
    [process.py] 15-47 and [request_llm] in [test3.py] 78-103): it
    spends one call of the world counter, raises [RequestException] on
    transport errors, on [raise_for_status] and on an invalid JSON body,
    raises [KeyError] when [choices]/[usage] fields are missing, and
    otherwise returns the stripped content, the usage and the latency.
    [scripted] builds concrete endpoints from a list of replies, used by
    the witnesses. *)

From Stdlib Require Import String List ZArith QArith Lia.
From S2P Require Import Prelude PyString.
Import ListNotations.

(** The [usage] object of a completion. *)
Record usage : Type := mk_usage {
  prompt_tokens : Z;
  completion_tokens : Z;
  total_tokens : Z
}.

(** The JSON body of a reply, as far as [_get_response] reads it. *)
Inductive body : Type :=
| BodyOk (content : string) (u : usage)
| BodyMissingField
| BodyInvalidJson.

Inductive reply : Type :=
| TransportError
| HttpReply (status : Z) (latency : Q) (b : body).

(** The [n]-th call of the run, with its system and user prompts. *)
Definition endpoint : Type := nat -> string -> string -> reply.

(** [response.raise_for_status()] raises for the 4xx and 5xx statuses. *)
Definition http_error (status : Z) : bool := (400 <=? status)%Z && (status <? 600)%Z.

(** [_get_response(sys_prompt, user_prompt)]. *)
Definition get_response (ep : endpoint) (sys_prompt user_prompt : string)
  : io (string * usage * Q) :=
  fun w =>
    (match ep w sys_prompt user_prompt with
     | TransportError => PyExc RequestException
     | HttpReply status latency b =>
         if http_error status then PyExc RequestException
         else
           match b with
           | BodyInvalidJson => PyExc RequestException
           | BodyMissingField => PyExc KeyError
           | BodyOk content u => PyOk (py_strip content, u, latency)
           end
     end, S w).

(** The [except (RequestException, Timeout, ConnectionError)] clause. *)
Definition is_request_exc (e : py_exc) : bool :=
  match e with RequestException => true | _ => false end.

(** An endpoint that replays a fixed list of replies, call by call. *)
Definition scripted (replies : list reply) : endpoint :=
  fun n _ _ => nth n replies TransportError.

(** Every call spends exactly one unit of the world counter. *)
Lemma get_response_world ep sys user w : snd (get_response ep sys user w) = S w.
Proof. reflexivity. Qed.

(** The usage an endpoint reports is non-negative and its latencies too. *)
Definition reply_sane (r : reply) : Prop :=
  match r with
  | HttpReply _ latency (BodyOk _ u) =>
      (0 <= prompt_tokens u)%Z /\ (0 <= completion_tokens u)%Z /\
      (0 <= total_tokens u)%Z /\ (0 <= latency)%Q
  | _ => True
  end.

Definition endpoint_sane (ep : endpoint) : Prop :=
  forall n sys user, reply_sane (ep n sys user).

Lemma get_response_sane ep sys user w c u l w' :
  endpoint_sane ep -> get_response ep sys user w = (PyOk (c, u, l), w') ->
  (0 <= prompt_tokens u)%Z /\ (0 <= completion_tokens u)%Z /\
  (0 <= total_tokens u)%Z /\ (0 <= l)%Q.
Proof.
  intros Hs H. unfold get_response in H. specialize (Hs w sys user).
  destruct (ep w sys user) as [|st lat b]; [discriminate|].
  destruct (http_error st); [discriminate|].
  destruct b as [c' u'| |]; inversion H; subst. exact Hs.
Qed.

Lemma scripted_sane replies : Forall reply_sane replies -> endpoint_sane (scripted replies).
Proof.
  intros H n sys user. unfold scripted.
  destruct (nth_in_or_default n replies TransportError) as [Hin | Heq].
  - rewrite Forall_forall in H. now apply H.
  - rewrite Heq. exact I.
Qed.
