(* ===== verification/Driver.v ===== *)
(** * The iteration driver [solve_problem_with_agents]

    Models [src/math/process3.py] 139-223.  The local variables of the
    function form the record [solve_state]; one pass of the [for] loop
    body (lines 164-214: the counter increment, the prompt, the [try]
    block with the call, the record of the iteration, the totals, the
    cost, the FLOPs estimate and the answer test, and the [except]
    clause that logs and sleeps) is [iteration_step]; the loop over
    [range(max_iterations)] with its early [return] is [solve_loop]; the
    statistics and the returned tuple (lines 201-208 and 217-223) are
    [summarize]; the whole function is [solve_problem_with_agents].

    The system prompt that [_generate_prompt] returns is a fixed text
    (its three limit arguments are not used by the f-string); it is a
    parameter [sys_prompt] here, passed unchanged to the endpoint. *)

From Stdlib Require Import String List ZArith QArith Lia Lqa.
From S2P Require Import Prelude PyString Response Endpoint.
Import ListNotations.
Import Classify.
Local Open Scope py_scope.
Local Open Scope Z_scope.

(** ** Data *)

(** One entry of [iteration_details] (lines 170-177). *)
Record iteration_info : Type := mk_info {
  info_iteration : Z;
  info_prompt_tokens : Z;
  info_completion_tokens : Z;
  info_total_tokens : Z;
  info_latency : Q;
  info_response_type : response_type
}.

(** The local state of [solve_problem_with_agents] (lines 152-161). *)
Record solve_state : Type := mk_solve {
  last_response : string;
  total_usage : usage;
  total_latency : Q;
  total_cost : Q;
  flops : Z;
  iterations_count : Z;
  iteration_details : list iteration_info;
  iteration_completion_tokens : list Z
}.

Definition zero_usage : usage := mk_usage 0 0 0.

Definition init_state : solve_state :=
  mk_solve "" zero_usage 0%Q 0%Q 0 0 [] [].

(** The tuple the function returns (lines 206-208 and 221-223). *)
Record solve_result : Type := mk_result {
  final_answer : option string;
  result_usage : usage;
  result_latency : Q;
  result_cost : Q;
  result_flops : Z;
  result_iterations : Z;
  avg_completion_tokens_per_iteration : Q;
  max_completion_tokens_per_iteration : Z;
  min_completion_tokens_per_iteration : Z;
  result_iteration_details : list iteration_info
}.

(** ** Operations *)

(** [_get_user_prompt] (lines 139-144). *)
Definition get_user_prompt (question last_response : string) : string :=
  if String.eqb last_response "" then question
  else (question ++ String (Ascii.ascii_of_nat 10) last_response)%string.

(** The three [total_usage[...] += usage[...]] updates (lines 182-184). *)
Definition add_usage (t u : usage) : usage :=
  mk_usage (prompt_tokens t + prompt_tokens u) (completion_tokens t + completion_tokens u)
           (total_tokens t + total_tokens u).

(** [cost = prompt_tokens * 2 / 1e6 + completion_tokens * 8 / 1e6] (line 188). *)
Definition cost_of (u : usage) : Q :=
  (inject_Z (prompt_tokens u * 2) / inject_Z 1000000 +
   inject_Z (completion_tokens u * 8) / inject_Z 1000000)%Q.

(** The FLOPs estimate of one call (lines 190-193): the square of the
    total tokens on the first pass of the loop ([iteration == 0]), and
    of the total minus 370 on every later pass. *)
Definition flops_term (iteration : nat) (t : Z) : Z :=
  if Nat.eqb iteration 0 then t ^ 2 else (t - 370) ^ 2.

(** The record of a successful call: lines 170-193. *)
Definition record_call (iteration : nat) (response : string) (u : usage) (latency : Q)
    (st : solve_state) : solve_state :=
  let info := mk_info (Z.of_nat iteration + 1) (prompt_tokens u) (completion_tokens u)
                      (total_tokens u) latency (classify response) in
  mk_solve (last_response st)
           (add_usage (total_usage st) u)
           (total_latency st + latency)%Q
           (total_cost st + cost_of u)%Q
           (flops st + flops_term iteration (total_tokens u))
           (iterations_count st)
           (iteration_details st ++ [info])
           (iteration_completion_tokens st ++ [completion_tokens u]).

Definition bump_count (st : solve_state) : solve_state :=
  mk_solve (last_response st) (total_usage st) (total_latency st) (total_cost st)
           (flops st) (iterations_count st + 1) (iteration_details st)
           (iteration_completion_tokens st).

Definition set_last_response (r : string) (st : solve_state) : solve_state :=
  mk_solve r (total_usage st) (total_latency st) (total_cost st)
           (flops st) (iterations_count st) (iteration_details st)
           (iteration_completion_tokens st).

(** How a pass of the loop body ends: the early [return] with an
    answer, or the next pass. *)
Inductive step_outcome : Type :=
| Stop (answer : string) (st : solve_state)
| Continue (st : solve_state).

Definition outcome_state (o : step_outcome) : solve_state :=
  match o with Stop _ st | Continue st => st end.

Section Driver.

Variable ep : endpoint.
Variable sys_prompt : string.
Variable question : string.

(** One pass of the loop body, lines 164-214. *)
Definition iteration_step (iteration : nat) (st : solve_state) : io step_outcome :=
  let st := bump_count st in
  let user_prompt := get_user_prompt question (last_response st) in
  try_except is_request_exc
    (r <- get_response ep sys_prompt user_prompt ;;
     let '(response, u, latency) := r in
     let st := record_call iteration response u latency st in
     if contains answer_tag response then
       match Extract.answer_of response with
       | PyOk final => ret (Stop final st)
       | PyExc e => raise e
       end
     else ret (Continue (set_last_response response st)))
    (fun _ => ret (Continue st)).

(** [for iteration in range(n)] from pass [iteration] on. *)
Fixpoint solve_loop (n iteration : nat) (st : solve_state) : io (option string * solve_state) :=
  match n with
  | O => ret (None, st)
  | S n' =>
      o <- iteration_step iteration st ;;
      match o with
      | Stop final st' => ret (Some final, st')
      | Continue st' => solve_loop n' (S iteration) st'
      end
  end.

(** [x if l else 0] for the statistics of lines 202-204 and 217-219. *)
Definition avg_or_zero (l : list Z) : Q :=
  match l with
  | [] => 0%Q
  | _ => (inject_Z (sum_Z l) / inject_Z (Z.of_nat (length l)))%Q
  end.

Definition result_or_zero (r : py_result Z) : Z :=
  match r with PyOk v => v | PyExc _ => 0 end.

Definition summarize (answer : option string) (st : solve_state) : solve_result :=
  let l := iteration_completion_tokens st in
  mk_result answer (total_usage st) (total_latency st) (total_cost st) (flops st)
            (iterations_count st) (avg_or_zero l) (result_or_zero (py_max l))
            (result_or_zero (py_min l)) (iteration_details st).

(** [solve_problem_with_agents(question, max_iterations)]. *)
Definition solve_problem_with_agents (max_iterations : Z) : io solve_result :=
  r <- solve_loop (Z.to_nat max_iterations) 0 init_state ;;
  ret (summarize (fst r) (snd r)).

End Driver.

(** ** One pass of the loop *)

Section Step.

Variable ep : endpoint.
Variable sys_prompt question : string.

(** The ways a pass that does not raise can end: the call failed with a
    request exception and the pass only counted itself; or the call
    returned a response that was recorded, and the pass stops on an
    [<answer>] tag or carries the response forward. *)
Lemma iteration_step_cases it st w o w' :
  iteration_step ep sys_prompt question it st w = (PyOk o, w') ->
  w' = S w /\
  (o = Continue (bump_count st) \/
   exists response u latency,
     get_response ep sys_prompt (get_user_prompt question (last_response st)) w
       = (PyOk (response, u, latency), S w) /\
     let st1 := record_call it response u latency (bump_count st) in
     (contains answer_tag response = true /\
      exists a, Extract.answer_of response = PyOk a /\ o = Stop a st1) \/
     (contains answer_tag response = false /\ o = Continue (set_last_response response st1))).
Proof.
  unfold iteration_step, try_except, bind.
  pose proof (get_response_world ep sys_prompt
                (get_user_prompt question (last_response (bump_count st))) w) as Hw.
  destruct (get_response _ _ _ w) as [[[[response u] latency]|e] w1] eqn:G;
    simpl in Hw; subst w1; intros H.
  - destruct (contains answer_tag response) eqn:C.
    + destruct (break_on answer_tag response) as [[b a]|] eqn:B;
        [|apply break_on_none in B; congruence].
      rewrite (Extract.answer_of_spec _ _ _ B) in H. inversion H; subst.
      split; [reflexivity|]. right. exists response, u, latency. split; [first [exact G | reflexivity]|].
      left. split; [exact C|]. eexists. split; [exact (Extract.answer_of_spec _ _ _ B)|].
      reflexivity.
    + inversion H; subst. split; [reflexivity|]. right. exists response, u, latency.
      split; [first [exact G | reflexivity]|]. right. auto.
  - destruct (is_request_exc e); inversion H; subst. auto.
Qed.

Lemma iteration_step_world it st w :
  snd (iteration_step ep sys_prompt question it st w) = S w.
Proof.
  unfold iteration_step, try_except, bind.
  pose proof (get_response_world ep sys_prompt
                (get_user_prompt question (last_response (bump_count st))) w) as Hw.
  destruct (get_response _ _ _ w) as [[[[response u] latency]|e] w1] eqn:G;
    simpl in Hw; subst w1.
  - destruct (contains answer_tag response); [|reflexivity].
    destruct (Extract.answer_of response) as [|e]; [reflexivity|].
    unfold raise, ret. destruct (is_request_exc e); reflexivity.
  - destruct (is_request_exc e); reflexivity.
Qed.

(** A property of the driver state that every pass of the loop keeps
    holds of the state the loop returns. *)
Lemma solve_loop_rel (R : solve_state -> solve_state -> Prop) :
  (forall st, R st st) ->
  (forall a b c, R a b -> R b c -> R a c) ->
  (forall it st w o w', iteration_step ep sys_prompt question it st w = (PyOk o, w') ->
                        R st (outcome_state o)) ->
  forall n it st w a st' w',
    solve_loop ep sys_prompt question n it st w = (PyOk (a, st'), w') -> R st st'.
Proof.
  intros Hrefl Htrans Hstep n. induction n as [|n IH]; intros it st w a st' w' H;
    simpl in H; unfold bind, ret in H.
  - inversion H; subst. apply Hrefl.
  - destruct (iteration_step ep sys_prompt question it st w) as [[o|e] w1] eqn:S1;
      [|discriminate].
    specialize (Hstep _ _ _ _ _ S1).
    destruct o as [fin st1|st1]; simpl in Hstep.
    + inversion H; subst. exact Hstep.
    + eapply Htrans; [exact Hstep|]. eapply IH. exact H.
Qed.

(** The calls the loop makes and the passes it counts: a loop that
    returns has made [k <= n] calls and counted [k] passes, all [n] of
    them when it returns no answer; a loop that raises has made at most
    [n] calls. *)
Lemma solve_loop_count n it st w :
  match solve_loop ep sys_prompt question n it st w with
  | (PyOk (a, st'), w') =>
      exists k, (k <= n)%nat /\ w' = (w + k)%nat /\
                iterations_count st' = iterations_count st + Z.of_nat k /\
                (a = None -> k = n)
  | (PyExc _, w') => (w' <= w + n)%nat
  end.
Proof.
  revert it st w. induction n as [|n IH]; intros it st w; simpl; unfold bind, ret.
  - exists O. repeat split; lia.
  - pose proof (iteration_step_world it st w) as Hw.
    destruct (iteration_step ep sys_prompt question it st w) as [[o|e] w1] eqn:S1;
      simpl in Hw; subst w1.
    + destruct (iteration_step_cases _ _ _ _ _ S1) as [_ Hc].
      assert (iterations_count (outcome_state o) = iterations_count st + 1) as Hcount.
      { destruct Hc as [->|[r [u [l [_ [[_ [a [_ ->]]]|[_ ->]]]]]]]; reflexivity. }
      destruct o as [fin st1|st1]; simpl in Hcount.
      * exists 1%nat. repeat split; try lia. discriminate.
      * specialize (IH (S it) st1 (S w)).
        destruct (solve_loop ep sys_prompt question n (S it) st1 (S w))
          as [[[a st']|e] w'] eqn:L.
        -- destruct IH as [k [Hk [Hw' [Hc' Hn]]]]. exists (S k). repeat split; try lia.
           intros Ha. specialize (Hn Ha). lia.
        -- lia.
    + lia.
Qed.

End Step.

(** ** The driver invariant *)

(** The running totals are the sums of the recorded iterations, the
    list of completion tokens mirrors the records, and the records are
    no more than the passes counted (failed calls are counted, not
    recorded). *)
Definition sums_ok (st : solve_state) : Prop :=
  total_tokens (total_usage st) = sum_Z (map info_total_tokens (iteration_details st)) /\
  prompt_tokens (total_usage st) = sum_Z (map info_prompt_tokens (iteration_details st)) /\
  completion_tokens (total_usage st) =
    sum_Z (map info_completion_tokens (iteration_details st)) /\
  iteration_completion_tokens st = map info_completion_tokens (iteration_details st).

Definition solve_inv (st : solve_state) : Prop :=
  sums_ok st /\ Z.of_nat (length (iteration_details st)) <= iterations_count st.

Lemma init_state_inv : solve_inv init_state.
Proof. repeat split; simpl; lia. Qed.

Lemma record_call_sums it r u l st : sums_ok st -> sums_ok (record_call it r u l st).
Proof.
  intros (H1 & H2 & H3 & H4). unfold sums_ok, record_call; simpl.
  rewrite !sum_Z_map_app, H1, H2, H3, H4, map_app. simpl. repeat split; lia.
Qed.

Lemma iteration_step_inv ep sys q it st w o w' :
  iteration_step ep sys q it st w = (PyOk o, w') -> solve_inv st -> solve_inv (outcome_state o).
Proof.
  intros H [Hs Hc]. destruct (iteration_step_cases _ _ _ _ _ _ _ _ H) as [_ Hcase].
  destruct Hcase as [->|[r [u [l [_ [[_ [a [_ ->]]]|[_ ->]]]]]]];
    (split; [try apply record_call_sums; exact Hs|]);
    unfold outcome_state, record_call, set_last_response, bump_count; simpl;
    rewrite ?length_app; simpl; lia.
Qed.

Lemma solve_loop_inv ep sys q n it st w a st' w' :
  solve_loop ep sys q n it st w = (PyOk (a, st'), w') -> solve_inv st -> solve_inv st'.
Proof.
  intros H. revert H. apply (solve_loop_rel ep sys q (fun s s' => solve_inv s -> solve_inv s')).
  - auto.
  - auto.
  - intros it' s w0 o w1 Hs. exact (iteration_step_inv _ _ _ _ _ _ _ _ Hs).
Qed.

(** ** Properties of the driver *)

(** C1. The driver terminates within its cap, whatever the endpoint
    replies: [solve_problem_with_agents] makes at most
    [max(0, max_iterations)] calls (failed calls included, so the retry
    on a request error cannot loop), the [iterations] it reports is the
    number of calls it made, and it returns no answer only after all
    [max(0, max_iterations)] passes. *)
Theorem solve_calls_bounded ep sys q m w :
  let '(r, w') := solve_problem_with_agents ep sys q m w in
  (w' <= w + Z.to_nat m)%nat /\
  match r with
  | PyOk res =>
      result_iterations res = Z.of_nat (w' - w) /\
      (final_answer res = None -> result_iterations res = Z.max 0 m)
  | PyExc _ => True
  end.
Proof.
  unfold solve_problem_with_agents, bind, ret.
  pose proof (solve_loop_count ep sys q (Z.to_nat m) 0 init_state w) as Hc.
  destruct (solve_loop ep sys q (Z.to_nat m) 0 init_state w) as [[[a st']|e] w'].
  - destruct Hc as [k [Hk [-> [Hcount Hn]]]]. simpl in Hcount.
    split; [lia|]. simpl. split.
    + rewrite Hcount. f_equal. lia.
    + intros Ha. rewrite Hcount, (Hn Ha). lia.
  - split; [exact Hc|exact I].
Qed.

(** C5. Additivity of the metrics: the token totals the driver returns
    are the sums of the per-iteration records it returns, and there are
    no more records than counted iterations. *)
Theorem solve_usage_additive ep sys q m w :
  match fst (solve_problem_with_agents ep sys q m w) with
  | PyOk res =>
      total_tokens (result_usage res) =
        sum_Z (map info_total_tokens (result_iteration_details res)) /\
      prompt_tokens (result_usage res) =
        sum_Z (map info_prompt_tokens (result_iteration_details res)) /\
      completion_tokens (result_usage res) =
        sum_Z (map info_completion_tokens (result_iteration_details res)) /\
      Z.of_nat (length (result_iteration_details res)) <= result_iterations res
  | PyExc _ => True
  end.
Proof.
  unfold solve_problem_with_agents, bind, ret.
  destruct (solve_loop ep sys q (Z.to_nat m) 0 init_state w) as [[[a st']|e] w'] eqn:L;
    [|exact I].
  destruct (solve_loop_inv _ _ _ _ _ _ _ _ _ _ L init_state_inv) as [(H1 & H2 & H3 & _) Hc].
  simpl. auto.
Qed.

(** Totals only grow: with an endpoint that reports non-negative usage
    and latency, one pass of the loop never decreases the token totals,
    the latency, the cost or the FLOPs estimate. *)
Definition totals_le (st st' : solve_state) : Prop :=
  prompt_tokens (total_usage st) <= prompt_tokens (total_usage st') /\
  completion_tokens (total_usage st) <= completion_tokens (total_usage st') /\
  total_tokens (total_usage st) <= total_tokens (total_usage st') /\
  (total_latency st <= total_latency st')%Q /\
  (total_cost st <= total_cost st')%Q /\
  flops st <= flops st'.

Lemma cost_of_nonneg u : 0 <= prompt_tokens u -> 0 <= completion_tokens u -> (0 <= cost_of u)%Q.
Proof.
  intros Hp Hc. unfold cost_of.
  assert (0 <= inject_Z (prompt_tokens u * 2))%Q by (unfold Qle; simpl; lia).
  assert (0 <= inject_Z (completion_tokens u * 8))%Q by (unfold Qle; simpl; lia).
  assert (0 <= / inject_Z 1000000)%Q by (unfold Qle; simpl; lia).
  unfold Qdiv. nra.
Qed.

Lemma flops_term_nonneg it t : 0 <= flops_term it t.
Proof. unfold flops_term. destruct (Nat.eqb it 0); nia. Qed.

(** C6. Monotonicity across iterations: with an endpoint that reports
    non-negative usage and latency, every pass of the loop leaves the
    token totals, the total latency, the total cost and the FLOPs
    estimate at least as large as before. *)
Theorem iteration_step_monotone ep sys q it st w :
  endpoint_sane ep ->
  match iteration_step ep sys q it st w with
  | (PyOk o, _) => totals_le st (outcome_state o)
  | (PyExc _, _) => True
  end.
Proof.
  intros Hsane.
  destruct (iteration_step ep sys q it st w) as [[o|e] w'] eqn:H; [|exact I].
  destruct (iteration_step_cases _ _ _ _ _ _ _ _ H) as [_ Hcase].
  destruct Hcase as [->|[r [u [l [G Hrest]]]]].
  - unfold totals_le; simpl. repeat split; lra || lia.
  - destruct (get_response_sane _ _ _ _ _ _ _ _ Hsane G) as (Hp & Hc & Ht & Hl).
    pose proof (cost_of_nonneg u Hp Hc). pose proof (flops_term_nonneg it (total_tokens u)).
    destruct Hrest as [[_ [a [_ ->]]]|[_ ->]];
      unfold totals_le; simpl; repeat split; lra || lia.
Qed.

(** A scripted endpoint for the witnesses: a thinking step, a transport
    failure, then a response with both a [<think>] and an [<answer>] tag. *)
Definition demo_usage : usage := mk_usage 400 100 500.

Definition demo_endpoint : endpoint :=
  scripted [HttpReply 200 1 (BodyOk "<think>x</think>" demo_usage);
            TransportError;
            HttpReply 200 1 (BodyOk " <think>y</think><answer> 42 </answer>" demo_usage)].

Lemma demo_endpoint_sane : endpoint_sane demo_endpoint.
Proof.
  apply scripted_sane.
  repeat constructor; simpl; repeat split; try lia; unfold Qle; simpl; lia.
Qed.

Lemma iteration_step_monotone_witness :
  endpoint_sane demo_endpoint /\
  match iteration_step demo_endpoint "SYS"%string "Q"%string 0%nat init_state 0%nat with
  | (PyOk o, _) => totals_le init_state (outcome_state o)
  | (PyExc _, _) => True
  end.
Proof.
  assert (H : endpoint_sane demo_endpoint).
  { apply scripted_sane.
    repeat constructor; simpl; repeat split; try lia; unfold Qle; simpl; lia. }
  split; [exact H|exact (iteration_step_monotone demo_endpoint "SYS"%string "Q"%string 0%nat init_state 0%nat H)].
Defined.

(** The record a successful call at loop index [it] appends. *)
Lemma record_call_details it r u l st :
  iteration_details (record_call it r u l st) =
  iteration_details st ++ [mk_info (Z.of_nat it + 1) (prompt_tokens u) (completion_tokens u)
                                   (total_tokens u) l (classify r)].
Proof. reflexivity. Qed.

(** C7. A pass whose call returns a response with an [<answer>] tag
    stops the driver with the split-chain answer, and the record it
    appends is typed by the first tag test of line 176 that succeeds:
    ["thinking"] whenever the response also has a [<think>] tag,
    ["summary"] when it has a [<summary>] tag and no [<think>], and
    ["answer"] only when it has neither.  So the iteration that answers
    is logged as a thinking step whenever the model thinks in the same
    reply, and the log then has no ["answer"] iteration. *)
Theorem answer_iteration_logged_as_thinking ep sys q it st w response u l :
  get_response ep sys (get_user_prompt q (last_response st)) w = (PyOk (response, u, l), S w) ->
  contains answer_tag response = true ->
  exists a t,
    Extract.answer_of response = PyOk a /\
    iteration_step ep sys q it st w = (PyOk (Stop a (record_call it response u l (bump_count st))), S w) /\
    iteration_details (record_call it response u l (bump_count st)) =
      iteration_details st ++ [mk_info (Z.of_nat it + 1) (prompt_tokens u) (completion_tokens u)
                                       (total_tokens u) l t] /\
    (contains think_tag response = true -> t = thinking) /\
    (contains think_tag response = false -> contains summary_tag response = true -> t = summary) /\
    (contains think_tag response = false -> contains summary_tag response = false -> t = answer).
Proof.
  intros G Ha.
  destruct (Extract.answer_of_safe response Ha) as [a Hans].
  exists a, (classify response). split; [exact Hans|split; [|split; [rewrite record_call_details; reflexivity|]]].
  - unfold iteration_step, try_except, bind.
    change (last_response (bump_count st)) with (last_response st). rewrite G.
    cbn [fst snd]. rewrite Ha, Hans. reflexivity.
  - unfold classify. split; [|split]; intros H1; [|intros H2|intros H2];
      rewrite ?H1, ?H2, ?Ha; reflexivity.
Qed.

Definition demo_answer_reply : reply :=
  HttpReply 200 1 (BodyOk " <think>y</think><answer> 42 </answer>" demo_usage).

Lemma answer_iteration_logged_as_thinking_witness :
  exists a t,
    Extract.answer_of "<think>y</think><answer> 42 </answer>"%string = PyOk a /\
    iteration_step (scripted [demo_answer_reply]) "SYS"%string "Q"%string 0%nat init_state 0%nat =
      (PyOk (Stop a (record_call 0%nat "<think>y</think><answer> 42 </answer>"%string demo_usage 1
                                 (bump_count init_state))), 1%nat) /\
    iteration_details (record_call 0%nat "<think>y</think><answer> 42 </answer>"%string demo_usage 1
                                   (bump_count init_state)) =
      iteration_details init_state ++ [mk_info (Z.of_nat 0%nat + 1) 400 100 500 1 t] /\
    (contains think_tag "<think>y</think><answer> 42 </answer>"%string = true -> t = thinking) /\
    (contains think_tag "<think>y</think><answer> 42 </answer>"%string = false ->
     contains summary_tag "<think>y</think><answer> 42 </answer>"%string = true -> t = summary) /\
    (contains think_tag "<think>y</think><answer> 42 </answer>"%string = false ->
     contains summary_tag "<think>y</think><answer> 42 </answer>"%string = false -> t = answer).
Proof.
  apply (answer_iteration_logged_as_thinking (scripted [demo_answer_reply]) "SYS"%string "Q"%string 0%nat init_state 0%nat
           "<think>y</think><answer> 42 </answer>"%string demo_usage 1); vm_compute; reflexivity.
Defined.

(** The FLOPs total is the sum of the charges of the records, each
    charged by the loop index it was made at. *)
Definition flops_charge (i : iteration_info) : Z :=
  flops_term (Z.to_nat (info_iteration i - 1)) (info_total_tokens i).

Definition flops_ok (st : solve_state) : Prop :=
  flops st = sum_Z (map flops_charge (iteration_details st)).

Lemma iteration_step_flops ep sys q it st w o w' :
  iteration_step ep sys q it st w = (PyOk o, w') -> flops_ok st -> flops_ok (outcome_state o).
Proof.
  intros H Hf. destruct (iteration_step_cases _ _ _ _ _ _ _ _ H) as [_ Hcase].
  assert (Hr : forall r u l, flops_ok (record_call it r u l (bump_count st))).
  { intros r u l. unfold flops_ok in *. rewrite record_call_details, map_app, sum_Z_app.
    cbn -[flops_term sum_Z map]. rewrite Hf. unfold flops_charge. cbn [info_iteration info_total_tokens].
    simpl. rewrite Z.add_simpl_r, Nat2Z.id. lia. }
  destruct Hcase as [->|[r [u [l [_ [[_ [a [_ ->]]]|[_ ->]]]]]]]; [exact Hf|apply Hr|apply Hr].
Qed.

(** The records a loop started at index [it] appends are numbered from
    [it + 1] on. *)
Lemma solve_loop_details ep sys q n :
  forall it st w a st' w', solve_loop ep sys q n it st w = (PyOk (a, st'), w') ->
  exists new, iteration_details st' = iteration_details st ++ new /\
              Forall (fun i => Z.of_nat it + 1 <= info_iteration i) new.
Proof.
  induction n as [|n IH]; intros it st w a st' w' H; simpl in H; unfold bind, ret in H.
  - inversion H; subst. exists []. split; [symmetry; apply app_nil_r|constructor].
  - destruct (iteration_step ep sys q it st w) as [[o|e] w1] eqn:S1; [|discriminate].
    destruct (iteration_step_cases _ _ _ _ _ _ _ _ S1) as [_ Hcase].
    assert (Hs : exists new, iteration_details (outcome_state o) = iteration_details st ++ new /\
                 Forall (fun i => Z.of_nat it + 1 <= info_iteration i) new).
    { destruct Hcase as [->|[r [u [l [_ [[_ [b [_ ->]]]|[_ ->]]]]]]].
      - exists []. split; [symmetry; apply app_nil_r|constructor].
      - eexists. split; [cbn [outcome_state set_last_response iteration_details];
          rewrite record_call_details; reflexivity|repeat constructor; simpl; lia].
      - eexists. split; [cbn [outcome_state set_last_response iteration_details];
          rewrite record_call_details; reflexivity|repeat constructor; simpl; lia]. }
    destruct Hs as [new1 [Hd1 Hf1]].
    destruct o as [fin st1|st1]; simpl in Hd1.
    + inversion H; subst. exists new1. auto.
    + destruct (IH _ _ _ _ _ _ H) as [new2 [Hd2 Hf2]]. exists (new1 ++ new2). split.
      * rewrite Hd2, Hd1, app_assoc. reflexivity.
      * apply Forall_app. split; [exact Hf1|].
        eapply Forall_impl; [|exact Hf2]. simpl. lia.
Qed.

(** A pass whose call raises a request exception only counts itself. *)
Lemma iteration_step_failed ep sys q it st w e :
  fst (get_response ep sys (get_user_prompt q (last_response st)) w) = PyExc e ->
  is_request_exc e = true ->
  iteration_step ep sys q it st w = (PyOk (Continue (bump_count st)), S w).
Proof.
  intros G He. unfold iteration_step, try_except, bind.
  change (last_response (bump_count st)) with (last_response st).
  pose proof (get_response_world ep sys (get_user_prompt q (last_response st)) w) as Hw.
  destruct (get_response ep sys (get_user_prompt q (last_response st)) w) as [r w1].
  simpl in G, Hw. subst. rewrite He. reflexivity.
Qed.

(** C8. The FLOPs estimate follows the loop index, not the number of
    successful calls: the FLOPs the driver returns are the sum over its
    records of [t^2] for the record made on the first pass and
    [(t - 370)^2] for a record made on a later pass; when the first call
    fails with a request error, no record is made on the first pass, so
    every call, the first successful one included, is charged
    [(t - 370)^2]. *)
Theorem flops_offset_after_failed_first_call ep sys q m w :
  match fst (solve_problem_with_agents ep sys q m w) with
  | PyOk res =>
      result_flops res = sum_Z (map flops_charge (result_iteration_details res)) /\
      Forall (fun i => 1 <= info_iteration i) (result_iteration_details res) /\
      (fst (get_response ep sys q w) = PyExc RequestException ->
       result_flops res =
         sum_Z (map (fun i => (info_total_tokens i - 370) ^ 2) (result_iteration_details res)))
  | PyExc _ => True
  end.
Proof.
  unfold solve_problem_with_agents, bind, ret.
  destruct (solve_loop ep sys q (Z.to_nat m) 0 init_state w) as [[[a st']|e] w'] eqn:L;
    [|exact I].
  cbn [fst snd summarize result_flops result_iteration_details].
  assert (Hf : flops_ok st').
  { refine (solve_loop_rel ep sys q (fun s s' => flops_ok s -> flops_ok s') _ _ _ _ _ _ _ _ _ _ L _);
      [auto|auto|exact (iteration_step_flops ep sys q)|reflexivity]. }
  destruct (solve_loop_details _ _ _ _ _ _ _ _ _ _ L) as [new [Hd Hn]]. simpl in Hd.
  split; [exact Hf|split; [rewrite Hd; exact Hn|]].
  intros Hfail. rewrite Hf, Hd. f_equal. apply map_ext_in. intros i Hi.
  assert (H2 : 2 <= info_iteration i).
  { destruct (Z.to_nat m) as [|n] eqn:Em.
    - cbn in L. inversion L; subst. try (rewrite <- Hd in Hi). simpl in Hi. destruct Hi.
    - cbn [solve_loop] in L. unfold bind in L.
      rewrite (iteration_step_failed ep sys q 0 init_state w RequestException Hfail eq_refl) in L.
      cbn beta iota in L.
      destruct (solve_loop_details _ _ _ _ _ _ _ _ _ _ L) as [new' [Hd' Hn']].
      simpl in Hd'. rewrite Hd in Hd'. subst new'. rewrite Forall_forall in Hn'.
      specialize (Hn' i Hi). lia. }
  unfold flops_charge, flops_term. destruct (Nat.eqb_spec (Z.to_nat (info_iteration i - 1)) 0);
    [lia|reflexivity].
Qed.

(** A first call that fails in transport, then an answer. *)
Definition retry_endpoint : endpoint :=
  scripted [TransportError; HttpReply 200 1 (BodyOk "<answer>7</answer>" demo_usage)].

Lemma flops_offset_after_failed_first_call_witness :
  fst (get_response retry_endpoint "SYS"%string "Q"%string 0%nat) = PyExc RequestException /\
  match fst (solve_problem_with_agents retry_endpoint "SYS"%string "Q"%string 22 0%nat) with
  | PyOk res =>
      result_flops res = sum_Z (map flops_charge (result_iteration_details res)) /\
      Forall (fun i => 1 <= info_iteration i) (result_iteration_details res) /\
      (fst (get_response retry_endpoint "SYS"%string "Q"%string 0%nat) = PyExc RequestException ->
       result_flops res =
         sum_Z (map (fun i => (info_total_tokens i - 370) ^ 2) (result_iteration_details res)))
  | PyExc _ => True
  end.
Proof.
  split; [reflexivity|].
  exact (flops_offset_after_failed_first_call retry_endpoint "SYS"%string "Q"%string 22 0%nat).
Defined.

(** Below the offset, the FLOPs charge of a later call falls as its
    token count grows: for [0 <= t1 < t2 <= 370] a call of [t2] tokens is
    charged strictly less than a call of [t1] tokens. *)
Theorem flops_term_antitone_below_offset it t1 t2 :
  (0 < it)%nat -> 0 <= t1 -> t1 < t2 -> t2 <= 370 ->
  flops_term it t2 < flops_term it t1.
Proof.
  intros Hit H1 H12 H2. unfold flops_term.
  destruct (Nat.eqb_spec it 0); [lia|]. nia.
Qed.

