(* ===== verification/DriverV1.v ===== *)
(** * The first driver ([src/math/process.py] 99-139) and its refinement

    The older [solve_problem_with_agents] keeps only the last response,
    the usage totals, the latency and the cost, and returns the 4-tuple
    [(final_answer, total_usage, total_latency, total_cost)].  Its loop
    body (lines 111-136) is [v1_step], the loop [v1_loop].  The theorem
    [v1_refines] shows that, on the same endpoint, prompts and cap, it
    makes the same calls and returns exactly the projection of what the
    later driver of [process3.py] returns: the later driver adds
    bookkeeping and changes nothing of the loop's behaviour. *)

From Stdlib Require Import String List ZArith QArith Lia.
From S2P Require Import Prelude PyString Response Endpoint Driver.
Import ListNotations.
Local Open Scope py_scope.

(** The local state of the first driver (lines 104-108). *)
Record v1_state : Type := mk_v1 {
  v1_last_response : string;
  v1_usage : usage;
  v1_latency : Q;
  v1_cost : Q
}.

Definition v1_init : v1_state := mk_v1 "" zero_usage 0%Q 0%Q.

Inductive v1_outcome : Type :=
| V1Stop (answer : string) (st : v1_state)
| V1Continue (st : v1_state).

Section DriverV1.

Variable ep : endpoint.
Variable sys_prompt question : string.

(** One pass of the loop body (lines 111-136). *)
Definition v1_step (st : v1_state) : io v1_outcome :=
  let user_prompt := get_user_prompt question (v1_last_response st) in
  try_except is_request_exc
    (r <- get_response ep sys_prompt user_prompt ;;
     let '(response, u, latency) := r in
     let st := mk_v1 (v1_last_response st) (add_usage (v1_usage st) u)
                     (v1_latency st + latency)%Q (v1_cost st + cost_of u)%Q in
     if contains answer_tag response then
       match Extract.answer_of response with
       | PyOk final => ret (V1Stop final st)
       | PyExc e => raise e
       end
     else ret (V1Continue (mk_v1 response (v1_usage st) (v1_latency st) (v1_cost st))))
    (fun _ => ret (V1Continue st)).

Fixpoint v1_loop (n : nat) (st : v1_state) : io (option string * v1_state) :=
  match n with
  | O => ret (None, st)
  | S n' =>
      o <- v1_step st ;;
      match o with
      | V1Stop final st' => ret (Some final, st')
      | V1Continue st' => v1_loop n' st'
      end
  end.

(** [solve_problem_with_agents(question, max_iterations)] of [process.py]. *)
Definition solve_problem_with_agents_v1 (max_iterations : Z)
  : io (option string * usage * Q * Q) :=
  r <- v1_loop (Z.to_nat max_iterations) v1_init ;;
  let '(a, st) := r in ret (a, v1_usage st, v1_latency st, v1_cost st).

End DriverV1.

(** ** Refinement *)

(** The states of the two drivers agree on what both keep. *)
Definition v1_rel (s1 : v1_state) (s3 : solve_state) : Prop :=
  v1_last_response s1 = last_response s3 /\ v1_usage s1 = total_usage s3 /\
  v1_latency s1 = total_latency s3 /\ v1_cost s1 = total_cost s3.

Definition project (res : solve_result) : option string * usage * Q * Q :=
  (final_answer res, result_usage res, result_latency res, result_cost res).

Lemma v1_step_sim ep sys q it s1 s3 w :
  v1_rel s1 s3 ->
  match v1_step ep sys q s1 w, iteration_step ep sys q it s3 w with
  | (PyOk (V1Stop a s1'), w1), (PyOk (Stop b s3'), w3) => a = b /\ w1 = w3 /\ v1_rel s1' s3'
  | (PyOk (V1Continue s1'), w1), (PyOk (Continue s3'), w3) => w1 = w3 /\ v1_rel s1' s3'
  | (PyExc e1, w1), (PyExc e3, w3) => e1 = e3 /\ w1 = w3
  | _, _ => False
  end.
Proof.
  destruct s1 as [l1 u1 t1 c1], s3 as [l3 u3 t3 c3 f3 n3 d3 k3].
  intros (H1 & H2 & H3 & H4); simpl in *; subst.
  unfold v1_step, iteration_step, try_except, bind. cbn -[get_response].
  destruct (get_response ep sys (get_user_prompt q l3) w) as [[[[r u] l]|e] w'].
  - destruct (contains answer_tag r).
    + destruct (Extract.answer_of r) as [a|e]; simpl.
      * repeat split.
      * unfold raise. destruct (is_request_exc e); simpl; repeat split.
    + simpl. repeat split.
  - destruct (is_request_exc e); simpl; repeat split.
Qed.

Lemma v1_loop_sim ep sys q n it s1 s3 w :
  v1_rel s1 s3 ->
  match v1_loop ep sys q n s1 w, solve_loop ep sys q n it s3 w with
  | (PyOk (a, s1'), w1), (PyOk (b, s3'), w3) => a = b /\ w1 = w3 /\ v1_rel s1' s3'
  | (PyExc e1, w1), (PyExc e3, w3) => e1 = e3 /\ w1 = w3
  | _, _ => False
  end.
Proof.
  revert it s1 s3 w. induction n as [|n IH]; intros it s1 s3 w H; simpl; unfold bind, ret.
  - split; [reflexivity|]. split; [reflexivity|]. exact H.
  - pose proof (v1_step_sim ep sys q it s1 s3 w H) as Hs.
    destruct (v1_step ep sys q s1 w) as [[[a s1'|s1']|e1] w1],
             (iteration_step ep sys q it s3 w) as [[[b s3'|s3']|e3] w3]; try contradiction.
    + destruct Hs as (-> & -> & Hr). split; [reflexivity|]. split; [reflexivity|]. exact Hr.
    + destruct Hs as (-> & Hr). apply IH. exact Hr.
    + destruct Hs as (-> & ->). repeat split.
Qed.

(** C9. Refinement: on the same endpoint, system prompt, question and
    cap, the first driver of [process.py] makes the same calls, raises
    the same exceptions and returns the projection
    [(final_answer, usage, latency, cost)] of the result of the driver of
    [process3.py]. *)
Theorem v1_refines ep sys q m w :
  solve_problem_with_agents_v1 ep sys q m w =
  (match fst (solve_problem_with_agents ep sys q m w) with
   | PyOk res => PyOk (project res)
   | PyExc e => PyExc e
   end, snd (solve_problem_with_agents ep sys q m w)).
Proof.
  unfold solve_problem_with_agents_v1, solve_problem_with_agents, bind, ret.
  assert (v1_rel v1_init init_state) as H0 by (repeat split).
  pose proof (v1_loop_sim ep sys q (Z.to_nat m) 0 v1_init init_state w H0) as Hs.
  destruct (v1_loop ep sys q (Z.to_nat m) v1_init w) as [[[a s1]|e1] w1],
           (solve_loop ep sys q (Z.to_nat m) 0 init_state w) as [[[b s3]|e3] w3];
    try contradiction.
  - destruct Hs as (-> & -> & H1 & H2 & H3 & H4). simpl. unfold project. simpl.
    now rewrite H2, H3, H4.
  - destruct Hs as (-> & ->). reflexivity.
Qed.
