(* ===== verification/Compare.v ===== *)
(** * Answer comparators

    [compare_answers] exists in three versions: exact equality after
    removing spaces and newlines ([src/math/process3.py] 236-246),
    containment of the model's answer in the correct answer
    ([src/math/process.py] 152-162), and exact equality without the
    [None] guard ([src/math/test3.py] 114-121, which raises
    [AttributeError] on [None]).  [evaluate_answers_ai]
    ([process3.py] 248-255, [test3.py] 123-129) asks the endpoint to
    judge equivalence and reads the sentinels [[[YES]]] and [[[NO]]];
    with neither it falls off the end of the function and returns
    [None]. *)

From Stdlib Require Import String Ascii List Bool Lia.
From S2P Require Import Prelude PyString Endpoint.
Import ListNotations.
Local Open Scope py_scope.
Local Open Scope string_scope.

Definition space : ascii := " "%char.
Definition newline : ascii := Ascii.ascii_of_nat 10.

(** [str(x).replace(" ", "").replace("\n", "")] (lines 242-243). *)
Definition normalize (s : string) : string := py_remove newline (py_remove space s).

(** [compare_answers] of [process3.py] (lines 236-246). *)
Definition compare_answers (final_answer correct_answer : option string) : bool :=
  match final_answer, correct_answer with
  | Some f, Some c => String.eqb (normalize f) (normalize c)
  | _, _ => false
  end.

(** [compare_answers] of [process.py] (lines 152-162): [final_answer in
    correct_answer]. *)
Definition compare_answers_contains (final_answer correct_answer : option string) : bool :=
  match final_answer, correct_answer with
  | Some f, Some c => contains (normalize f) (normalize c)
  | _, _ => false
  end.

(** [compare_answers] of [test3.py] (lines 114-121): [None.replace]
    raises [AttributeError]. *)
Definition compare_answers_unguarded (final_answer : option string) (correct_answer : string)
  : py_result bool :=
  match final_answer with
  | Some f => PyOk (String.eqb (normalize f) (normalize correct_answer))
  | None => PyExc AttributeError
  end.

(** [str(x)] inside an f-string: [None] is rendered as the text [None]. *)
Definition py_str_opt (x : option string) : string :=
  match x with Some s => s | None => "None" end.

(** [f"Problem: {problem}\nAnswer 1: {answer1}\nAnswer 2: {answer2}"]. *)
Definition judge_prompt (problem : string) (answer1 : option string) (answer2 : string)
  : string :=
  "Problem: " ++ problem ++ String newline ("Answer 1: " ++ py_str_opt answer1 ++
  String newline ("Answer 2: " ++ answer2)).

Definition yes_sentinel : string := "[[YES]]".
Definition no_sentinel : string := "[[NO]]".

(** The verdict read off the judge's response (lines 252-255): [True],
    [False], or [None] when the function falls off its end. *)
Definition read_verdict (response : string) : option bool :=
  if contains yes_sentinel response then Some true
  else if contains no_sentinel response then Some false
  else None.

Section Judge.

Variable ep : endpoint.
Variable eval_prompt : string.

(** [evaluate_answers_ai(problem, answer1, answer2)] (lines 248-255). *)
Definition evaluate_answers_ai (problem : string) (answer1 : option string) (answer2 : string)
  : io (option bool) :=
  r <- get_response ep eval_prompt (judge_prompt problem answer1 answer2) ;;
  let '(response, _, _) := r in
  ret (read_verdict response).

End Judge.

(** ** Properties *)

Lemma normalize_idem s : normalize (normalize s) = normalize s.
Proof.
  unfold normalize. rewrite (py_remove_comm space newline (py_remove space s)).
  now rewrite !py_remove_idem.
Qed.

Lemma compare_answers_iff a b :
  compare_answers (Some a) (Some b) = true <-> normalize a = normalize b.
Proof. simpl. apply String.eqb_eq. Qed.

(** An answer with neither a space nor a newline, the text the
    comparator leaves as it is. *)
Fixpoint blank_free (s : string) : bool :=
  match s with
  | EmptyString => true
  | String c s' => negb (Ascii.eqb space c) && negb (Ascii.eqb newline c) && blank_free s'
  end.

Lemma normalize_blank_free s : blank_free s = true -> normalize s = s.
Proof.
  unfold normalize. induction s as [|c s IH]; simpl; [reflexivity|].
  intros H. apply andb_prop in H as [H Hs]. apply andb_prop in H as [H1 H2].
  apply negb_true_iff in H1, H2. rewrite H1. simpl. rewrite H2. now rewrite IH.
Qed.

Lemma normalize_insert_space x y : normalize (x ++ String space y) = normalize (x ++ y).
Proof.
  unfold normalize. rewrite !py_remove_app, py_remove_hit. reflexivity.
Qed.

Lemma normalize_insert_newline x y : normalize (x ++ String newline y) = normalize (x ++ y).
Proof.
  unfold normalize. rewrite !py_remove_app, (py_remove_other space newline) by reflexivity.
  rewrite py_remove_hit. reflexivity.
Qed.

(** C10. The exact comparator of [process3.py] judges two present
    answers equal exactly up to spaces and newlines: inserting a space
    or a newline anywhere in either answer never changes the verdict,
    and on answers with neither it is plain string equality, so every
    other character (a tab, the case of a letter, a sign) counts.  It
    is symmetric, reflexive and transitive, and a missing answer is
    never equal to anything. *)
Theorem compare_answers_spec :
  (forall x y b, compare_answers (Some (x ++ String space y)) b = compare_answers (Some (x ++ y)) b) /\
  (forall x y b, compare_answers (Some (x ++ String newline y)) b = compare_answers (Some (x ++ y)) b) /\
  (forall a b, blank_free a = true -> blank_free b = true ->
     compare_answers (Some a) (Some b) = String.eqb a b) /\
  (forall x y, compare_answers x y = compare_answers y x) /\
  (forall a, compare_answers (Some a) (Some a) = true) /\
  (forall a b c, compare_answers (Some a) (Some b) = true ->
                 compare_answers (Some b) (Some c) = true ->
                 compare_answers (Some a) (Some c) = true) /\
  (forall y, compare_answers None y = false /\ compare_answers y None = false).
Proof.
  split; [|split; [|split; [|split; [|split; [|split]]]]].
  - intros x y [b|]; simpl; [now rewrite normalize_insert_space|reflexivity].
  - intros x y [b|]; simpl; [now rewrite normalize_insert_newline|reflexivity].
  - intros a b Ha Hb. simpl. now rewrite !normalize_blank_free.
  - intros [a|] [b|]; simpl; try reflexivity. apply String.eqb_sym.
  - intros a. apply compare_answers_iff. reflexivity.
  - intros a b c H1 H2. apply compare_answers_iff in H1, H2. apply compare_answers_iff.
    congruence.
  - intros [y|]; split; reflexivity.
Qed.

Definition tab : ascii := Ascii.ascii_of_nat 9.

(** A tab is not removed: ["1\t2"] and ["12"] differ. *)
Lemma compare_answers_spec_witness :
  blank_free (String "1" (String tab "2")) = true /\ blank_free "12" = true /\
  compare_answers (Some (String "1" (String tab "2"))) (Some "12") = false /\
  compare_answers (Some ("1" ++ String space "/2")) (Some "1/2") = true.
Proof.
  destruct compare_answers_spec as (Hsp & _ & Hbf & _ & Hrefl & _).
  assert (H1 : blank_free (String "1" (String tab "2")) = true) by reflexivity.
  assert (H2 : blank_free "12" = true) by reflexivity.
  split; [exact H1|split; [exact H2|split]].
  - rewrite (Hbf _ _ H1 H2). reflexivity.
  - rewrite Hsp. apply Hrefl.
Defined.

(** C11. The containment comparator of [process.py] tests
    [final_answer in correct_answer] after removing spaces and newlines:
    an answer that is blank once normalised is judged correct for every
    problem, every truncation (prefix) of the correct answer is judged
    correct, and a model answer longer than the correct one is judged
    wrong even when it contains the correct answer, the reverse of the
    spec's direction. *)
Theorem contains_comparator_substring a c :
  (normalize a = "" -> compare_answers_contains (Some a) (Some c) = true) /\
  (forall y, normalize c = normalize a ++ y -> compare_answers_contains (Some a) (Some c) = true) /\
  (String.length (normalize c) < String.length (normalize a) ->
   compare_answers_contains (Some a) (Some c) = false).
Proof.
  simpl. split; [|split].
  - intros ->. apply contains_nil.
  - intros y ->. apply contains_prefix.
  - intros Hlt. destruct (contains (normalize a) (normalize c)) eqn:E; [|reflexivity].
    apply contains_length in E. lia.
Qed.

Lemma contains_comparator_substring_witness :
  compare_answers_contains (Some " ") (Some "42") = true /\
  compare_answers_contains (Some "4") (Some "42") = true /\
  compare_answers_contains (Some "4 2 0") (Some "42") = false.
Proof.
  split; [|split].
  - apply (proj1 (contains_comparator_substring " " "42")). vm_compute. reflexivity.
  - apply (proj1 (proj2 (contains_comparator_substring "4" "42")) "2"). vm_compute. reflexivity.
  - apply (proj2 (proj2 (contains_comparator_substring "4 2 0" "42"))). vm_compute. lia.
Defined.

