(* ===== verification/Tier.v ===== *)
(** * Tier aggregation: [process_difficulty_level]

    Models [src/math/process3.py] 258-399.  The [metrics] dictionary is
    the record [tier_metrics] (lines 272-289); one pass of the [for] loop
    over the problems (lines 294-360) is [process_problem]; the loop is
    [process_problems]; the derived averages with their zero guard
    (lines 363-386) are [finalize]; the whole function, given the parsed
    problem list or [None] for a missing file (lines 262-264), is
    [process_difficulty_level].

    The loop body mutates [metrics] in place inside a [try] whose
    [except Exception] clause appends an error entry: when the judge call
    [evaluate_answers_ai] raises after the totals were updated, the
    totals and [processed_problems] keep the update.  [process_problem]
    passes that partly updated record to the handler explicitly. *)

From Stdlib Require Import String List ZArith QArith Lia Lqa.
From S2P Require Import Prelude PyString Response Endpoint Driver Compare.
Import ListNotations.
Local Open Scope py_scope.
Local Open Scope Z_scope.

(** A problem of [data["questions"]]: its text and [str(problem["answer"])]. *)
Record problem : Type := mk_problem {
  problem_text : string;
  problem_answer : string
}.

(** An entry of [metrics["problem_details"]]: the dictionary of lines
    328-344 (its fields are those of the driver's result, the judge's
    verdict and the two answers), or the error entry of lines 357-360. *)
Inductive problem_detail : Type :=
| DetailOk (problem : string) (model_answer : option string) (correct_answer : string)
           (is_correct : option bool) (res : solve_result)
| DetailError (problem : string) (error : py_exc).

Record tier_metrics : Type := mk_metrics {
  difficulty : Z;
  total_problems : Z;
  m_total_tokens : Z;
  m_prompt_tokens : Z;
  m_completion_tokens : Z;
  m_total_cost : Q;
  m_total_latency : Q;
  correct_count : Z;
  processed_problems : Z;
  problem_details : list problem_detail;
  total_flops : Z;
  total_iterations : Z;
  total_avg_completion_tokens_per_iteration : Q;
  total_max_completion_tokens_per_iteration : Z;
  overall_max_completion_tokens_per_iteration : Z
}.

(** Lines 272-289. *)
Definition init_metrics (d : Z) (problems : list problem) : tier_metrics :=
  mk_metrics d (Z.of_nat (length problems)) 0 0 0 0%Q 0%Q 0 0 [] 0 0 0%Q 0 0.

(** The updates of lines 304-319, once the driver has returned. *)
Definition account (res : solve_result) (m : tier_metrics) : tier_metrics :=
  mk_metrics (difficulty m) (total_problems m)
    (m_total_tokens m + total_tokens (result_usage res))
    (m_prompt_tokens m + prompt_tokens (result_usage res))
    (m_completion_tokens m + completion_tokens (result_usage res))
    (m_total_cost m + result_cost res)%Q
    (m_total_latency m + result_latency res)%Q
    (correct_count m)
    (processed_problems m + 1)
    (problem_details m)
    (total_flops m + result_flops res)
    (total_iterations m + result_iterations res)
    (total_avg_completion_tokens_per_iteration m + avg_completion_tokens_per_iteration res)%Q
    (total_max_completion_tokens_per_iteration m + max_completion_tokens_per_iteration res)
    (Z.max (overall_max_completion_tokens_per_iteration m)
           (max_completion_tokens_per_iteration res)).

(** [if is_correct: metrics["correct_count"] += 1] (lines 324-325):
    [None] and [False] are both falsy. *)
Definition truthy (v : option bool) : bool :=
  match v with Some b => b | None => false end.

Definition count_correct (v : option bool) (m : tier_metrics) : tier_metrics :=
  if truthy v then
    mk_metrics (difficulty m) (total_problems m) (m_total_tokens m) (m_prompt_tokens m)
      (m_completion_tokens m) (m_total_cost m) (m_total_latency m) (correct_count m + 1)
      (processed_problems m) (problem_details m) (total_flops m) (total_iterations m)
      (total_avg_completion_tokens_per_iteration m)
      (total_max_completion_tokens_per_iteration m)
      (overall_max_completion_tokens_per_iteration m)
  else m.

(** [metrics["problem_details"].append(d)]. *)
Definition append_detail (d : problem_detail) (m : tier_metrics) : tier_metrics :=
  mk_metrics (difficulty m) (total_problems m) (m_total_tokens m) (m_prompt_tokens m)
    (m_completion_tokens m) (m_total_cost m) (m_total_latency m) (correct_count m)
    (processed_problems m) (problem_details m ++ [d]) (total_flops m) (total_iterations m)
    (total_avg_completion_tokens_per_iteration m)
    (total_max_completion_tokens_per_iteration m)
    (overall_max_completion_tokens_per_iteration m).

Section Tier.

Variable ep : endpoint.
Variable sys_prompt eval_prompt : string.

(** The cap [solve_problem_with_agents] is called with (its default). *)
Definition default_max_iterations : Z := 22.

(** One pass of the loop over the problems (lines 295-360).  No
    exception escapes it: [except Exception] catches them all. *)
Definition process_problem (p : problem) (m : tier_metrics) : io tier_metrics :=
  fun w =>
    match solve_problem_with_agents ep sys_prompt (problem_text p) default_max_iterations w with
    | (PyExc e, w1) => (PyOk (append_detail (DetailError (problem_text p) e) m), w1)
    | (PyOk res, w1) =>
        let m1 := account res m in
        match evaluate_answers_ai ep eval_prompt (problem_text p) (final_answer res)
                                  (problem_answer p) w1 with
        | (PyExc e, w2) => (PyOk (append_detail (DetailError (problem_text p) e) m1), w2)
        | (PyOk v, w2) =>
            (PyOk (append_detail (DetailOk (problem_text p) (final_answer res)
                                           (problem_answer p) v res)
                                 (count_correct v m1)), w2)
        end
    end.

Fixpoint process_problems (ps : list problem) (m : tier_metrics) : io tier_metrics :=
  match ps with
  | [] => ret m
  | p :: ps' => m' <- process_problem p m ;; process_problems ps' m'
  end.

End Tier.

(** The derived values of lines 363-386. *)
Record tier_averages : Type := mk_averages {
  accuracy : Q;
  avg_latency : Q;
  avg_total_tokens : Q;
  avg_prompt_tokens : Q;
  avg_completion_tokens : Q;
  avg_iterations : Q;
  avg_flops : Q;
  avg_cost_per_problem : Q;
  avg_avg_completion_tokens_per_iteration : Q;
  avg_max_completion_tokens_per_iteration : Q
}.

Definition zero_averages : tier_averages :=
  mk_averages 0 0 0 0 0 0 0 0 0 0.

(** Lines 363-386: the divisions by [processed_problems] happen only when
    it is positive. *)
Definition finalize (m : tier_metrics) : py_result tier_averages :=
  if 0 <? processed_problems m then
    let n := inject_Z (processed_problems m) in
    match py_div_Z (correct_count m) (processed_problems m),
          py_truediv (m_total_latency m) n,
          py_div_Z (m_total_tokens m) (processed_problems m),
          py_div_Z (m_prompt_tokens m) (processed_problems m),
          py_div_Z (m_completion_tokens m) (processed_problems m),
          py_div_Z (total_iterations m) (processed_problems m),
          py_div_Z (total_flops m) (processed_problems m),
          py_truediv (m_total_cost m) n,
          py_truediv (total_avg_completion_tokens_per_iteration m) n,
          py_div_Z (total_max_completion_tokens_per_iteration m) (processed_problems m) with
    | PyOk acc, PyOk lat, PyOk tok, PyOk pt, PyOk ct, PyOk it, PyOk fl, PyOk co,
      PyOk aa, PyOk am =>
        PyOk (mk_averages (acc * 100) lat tok pt ct it fl co aa am)
    | _, _, _, _, _, _, _, _, _, _ => PyExc ZeroDivisionError
    end
  else PyOk zero_averages.

(** [process_difficulty_level(difficulty)]: [None] when the data file
    does not exist. *)
Definition process_difficulty_level (ep : endpoint) (sys_prompt eval_prompt : string) (d : Z)
    (file : option (list problem)) : io (option (tier_metrics * tier_averages)) :=
  match file with
  | None => ret None
  | Some problems =>
      m <- process_problems ep sys_prompt eval_prompt problems (init_metrics d problems) ;;
      fun w => match finalize m with
               | PyOk a => (PyOk (Some (m, a)), w)
               | PyExc e => (PyExc e, w)
               end
  end.

(** ** The tier invariant *)

Definition detail_ok (d : problem_detail) : bool :=
  match d with DetailOk _ _ _ _ _ => true | DetailError _ _ => false end.

Definition detail_correct (d : problem_detail) : bool :=
  match d with DetailOk _ _ _ v _ => truthy v | DetailError _ _ => false end.

Lemma correct_le_ok ds : count_if detail_correct ds <= count_if detail_ok ds.
Proof.
  unfold count_if. induction ds as [|[] ds IH]; simpl; [lia| |lia].
  destruct (truthy is_correct); simpl; lia.
Qed.

(** [correct_count] counts the entries marked correct; the entries that
    carry a result are at most the problems counted as processed, which
    are at most the entries. *)
Definition tier_inv (m : tier_metrics) : Prop :=
  correct_count m = count_if detail_correct (problem_details m) /\
  count_if detail_ok (problem_details m) <= processed_problems m /\
  processed_problems m <= Z.of_nat (length (problem_details m)).

Lemma init_metrics_inv d ps : tier_inv (init_metrics d ps).
Proof. unfold tier_inv, count_if. simpl. lia. Qed.

Lemma process_problem_inv ep sys ev p m w :
  tier_inv m ->
  match process_problem ep sys ev p m w with
  | (PyOk m', _) =>
      tier_inv m' /\ length (problem_details m') = S (length (problem_details m)) /\
      total_problems m' = total_problems m /\ difficulty m' = difficulty m
  | (PyExc _, _) => False
  end.
Proof.
  intros (Hc & Hok & Hp). unfold process_problem.
  destruct (solve_problem_with_agents ep sys (problem_text p) default_max_iterations w)
    as [[res|e] w1].
  - destruct (evaluate_answers_ai ep ev (problem_text p) (final_answer res)
                                  (problem_answer p) w1) as [[v|e] w2].
    + unfold tier_inv, append_detail, count_correct, account; simpl.
      destruct (truthy v) eqn:T; simpl; rewrite ?length_app, !count_if_snoc; simpl;
        rewrite ?T; simpl; repeat split; lia.
    + unfold tier_inv, append_detail, account; simpl.
      rewrite length_app, !count_if_snoc. simpl. repeat split; lia.
  - unfold tier_inv, append_detail; simpl.
    rewrite length_app, !count_if_snoc. simpl. repeat split; lia.
Qed.

Lemma process_problems_inv ep sys ev ps m w :
  tier_inv m ->
  match process_problems ep sys ev ps m w with
  | (PyOk m', _) =>
      tier_inv m' /\ length (problem_details m') = (length (problem_details m) + length ps)%nat /\
      total_problems m' = total_problems m /\ difficulty m' = difficulty m
  | (PyExc _, _) => False
  end.
Proof.
  revert m w. induction ps as [|p ps IH]; intros m w H; simpl; unfold bind, ret.
  - split; [exact H|]. repeat split; lia.
  - pose proof (process_problem_inv ep sys ev p m w H) as Hs.
    destruct (process_problem ep sys ev p m w) as [[m1|e] w1]; [|contradiction].
    destruct Hs as (H1 & L1 & T1 & D1). specialize (IH m1 w1 H1).
    destruct (process_problems ep sys ev ps m1 w1) as [[m2|e] w2]; [|contradiction].
    destruct IH as (H2 & L2 & T2 & D2). split; [exact H2|]. repeat split; lia.
Qed.

Lemma tier_loop_counts ep sys ev d ps w :
  match process_problems ep sys ev ps (init_metrics d ps) w with
  | (PyOk m, _) =>
      length (problem_details m) = length ps /\
      total_problems m = Z.of_nat (length ps) /\
      correct_count m = count_if detail_correct (problem_details m) /\
      0 <= correct_count m <= count_if detail_ok (problem_details m) /\
      count_if detail_ok (problem_details m) <= processed_problems m /\
      processed_problems m <= total_problems m
  | (PyExc _, _) => False
  end.
Proof.
  pose proof (process_problems_inv ep sys ev ps (init_metrics d ps) w (init_metrics_inv d ps))
    as H.
  destruct (process_problems ep sys ev ps (init_metrics d ps) w) as [[m|e] w']; [|exact H].
  destruct H as ((Hc & Hok & Hp) & L & T & _). simpl in L, T.
  pose proof (correct_le_ok (problem_details m)).
  assert (0 <= count_if detail_correct (problem_details m)) by (unfold count_if; lia).
  repeat split; try lia.
Qed.

(** C13. The loop over a tier's problems never raises, appends exactly
    one entry per problem, keeps [correct_count] equal to the number of
    entries marked correct, and keeps the entries with a result at most
    [processed_problems], itself at most [total_problems], the number of
    problems. *)
Theorem process_problems_counts ep sys ev d ps w :
  match process_problems ep sys ev ps (init_metrics d ps) w with
  | (PyOk m, _) =>
      length (problem_details m) = length ps /\
      total_problems m = Z.of_nat (length ps) /\
      correct_count m = count_if detail_correct (problem_details m) /\
      0 <= correct_count m <= count_if detail_ok (problem_details m) /\
      count_if detail_ok (problem_details m) <= processed_problems m /\
      processed_problems m <= total_problems m
  | (PyExc _, _) => False
  end.
Proof. exact (tier_loop_counts ep sys ev d ps w). Qed.

(** With [0 <= correct_count <= processed_problems], the zero guard makes
    every division of [finalize] safe; the accuracy is a percentage and
    every average is 0 when nothing was processed. *)
Lemma finalize_spec m :
  0 <= correct_count m <= processed_problems m ->
  exists a, finalize m = PyOk a /\ (0 <= accuracy a <= 100)%Q /\
            (processed_problems m = 0 -> a = zero_averages).
Proof.
  intros Hc. unfold finalize. destruct (Z.ltb_spec 0 (processed_problems m)) as [Hp|Hp].
  - rewrite !py_div_Z_ok by lia.
    rewrite !py_truediv_ok by (apply inject_Z_nonzero; lia).
    eexists. split; [reflexivity|]. simpl. split; [apply percent_bounds; lia|lia].
  - exists zero_averages. repeat split; try reflexivity; unfold Qle; simpl; lia.
Qed.

(** C14. [process_difficulty_level] never raises: a missing data file
    gives [None]; otherwise the tier's accuracy lies between 0 and 100 and,
    when no problem was processed, every derived average is 0 (the zero
    guard of lines 376-386). *)
Theorem process_difficulty_level_safe ep sys ev d file w :
  match process_difficulty_level ep sys ev d file w with
  | (PyOk None, _) => file = None
  | (PyOk (Some (m, a)), _) =>
      (0 <= accuracy a <= 100)%Q /\ (processed_problems m = 0 -> a = zero_averages) /\
      correct_count m <= processed_problems m <= total_problems m
  | (PyExc _, _) => False
  end.
Proof.
  destruct file as [ps|]; [|reflexivity]. unfold process_difficulty_level, bind.
  pose proof (tier_loop_counts ep sys ev d ps w) as H.
  destruct (process_problems ep sys ev ps (init_metrics d ps) w) as [[m|e] w']; [|contradiction].
  destruct H as (_ & _ & _ & Hc & Hok & Hp).
  destruct (finalize_spec m ltac:(lia)) as [a (-> & Ha & Hz)].
  repeat split; try lia; apply Ha || apply Hz.
Qed.

(** The counts of a tier that [process_difficulty_level] returns. *)
Lemma tier_counts ep sys ev d file w :
  match process_difficulty_level ep sys ev d file w with
  | (PyOk (Some (m, _)), _) => 0 <= correct_count m <= processed_problems m /\
                               processed_problems m <= total_problems m
  | (PyOk None, _) => True
  | (PyExc _, _) => False
  end.
Proof.
  destruct file as [ps|]; [|exact I]. unfold process_difficulty_level, bind.
  pose proof (process_problems_inv ep sys ev ps (init_metrics d ps) w (init_metrics_inv d ps))
    as H.
  destruct (process_problems ep sys ev ps (init_metrics d ps) w) as [[m|e] w']; [|contradiction].
  destruct H as ((Hc & Hok & Hp) & L & T & _). simpl in L, T.
  pose proof (correct_le_ok (problem_details m)).
  assert (0 <= count_if detail_correct (problem_details m)) by (unfold count_if; lia).
  destruct (finalize_spec m ltac:(lia)) as [a (-> & _ & _)]. lia.
Qed.

(** The tier [process_difficulty_level] returns counts as correct exactly
    the entries marked correct, and has one entry per problem. *)
Lemma tier_details ep sys ev d file w :
  match process_difficulty_level ep sys ev d file w with
  | (PyOk (Some (m, _)), _) =>
      correct_count m = count_if detail_correct (problem_details m) /\
      total_problems m = Z.of_nat (length (problem_details m))
  | (PyOk None, _) => True
  | (PyExc _, _) => False
  end.
Proof.
  destruct file as [ps|]; [|exact I]. unfold process_difficulty_level, bind.
  pose proof (tier_loop_counts ep sys ev d ps w) as H.
  destruct (process_problems ep sys ev ps (init_metrics d ps) w) as [[m|e] w']; [|contradiction].
  destruct H as (L & T & Hc & Hb & Hok & Hp).
  destruct (finalize_spec m ltac:(lia)) as [a (-> & _ & _)]. split; [exact Hc|lia].
Qed.

(** An endpoint whose first call answers [5] and whose second call (the
    judge) fails or replies [r]. *)
Definition judged_endpoint (judge_reply : reply) : endpoint :=
  scripted [HttpReply 200 1 (BodyOk "<answer>5</answer>" demo_usage); judge_reply].

Definition one_problem : list problem := [mk_problem "Q" "5"].

(** C15. The judge is called after the totals were updated, and its
    failures are counted as wrong answers of processed problems.  For
    every problem whose driver returns: the pass never raises, counts the
    problem as processed and adds the driver's tokens whatever the judge
    does; it counts the problem correct exactly when the judge's reply
    contains [[[YES]]]; when the judge's call raises, the entry is an
    error entry (the problem stays processed); and when the reply has
    neither [[[YES]]] nor [[[NO]]] the entry records [is_correct = None],
    whatever the model answered. *)
Theorem judge_failures_counted_as_wrong ep sys ev p m w res w1 :
  solve_problem_with_agents ep sys (problem_text p) default_max_iterations w = (PyOk res, w1) ->
  let call := fst (get_response ep ev (judge_prompt (problem_text p) (final_answer res)
                                                    (problem_answer p)) w1) in
  exists m', fst (process_problem ep sys ev p m w) = PyOk m' /\
    processed_problems m' = processed_problems m + 1 /\
    m_total_tokens m' = m_total_tokens m + total_tokens (result_usage res) /\
    correct_count m' = correct_count m +
      match call with
      | PyOk (resp, _, _) => if contains yes_sentinel resp then 1 else 0
      | PyExc _ => 0
      end /\
    (forall e, call = PyExc e ->
       problem_details m' = problem_details m ++ [DetailError (problem_text p) e]) /\
    (forall resp u l, call = PyOk (resp, u, l) ->
       contains yes_sentinel resp = false -> contains no_sentinel resp = false ->
       problem_details m' = problem_details m ++
         [DetailOk (problem_text p) (final_answer res) (problem_answer p) None res]).
Proof.
  intros H call. unfold process_problem. rewrite H.
  unfold evaluate_answers_ai, bind, call.
  destruct (get_response ep ev _ w1) as [[[[resp u] l]|e] w2].
  - unfold ret, read_verdict. cbn [fst].
    destruct (contains yes_sentinel resp) eqn:Y; [|destruct (contains no_sentinel resp) eqn:N];
      eexists; (split; [reflexivity|]); cbn; (split; [lia|split; [lia|split; [lia|]]]);
      split; intros; try discriminate; try congruence.
  - eexists. split; [reflexivity|]. cbn. repeat split; try lia.
    + intros e' He. inversion He. reflexivity.
    + intros resp u l Hc. discriminate.
Qed.

Lemma judge_failures_counted_as_wrong_witness :
  let ep := judged_endpoint (HttpReply 200 1 (BodyOk "Both answers are 5." demo_usage)) in
  match solve_problem_with_agents ep "SYS"%string "Q"%string default_max_iterations 0%nat with
  | (PyOk res, w1) =>
      solve_problem_with_agents ep "SYS"%string "Q"%string default_max_iterations 0%nat
        = (PyOk res, w1) /\
      let call := fst (get_response ep "EVAL"%string (judge_prompt "Q" (final_answer res) "5") w1) in
      exists m', fst (process_problem ep "SYS"%string "EVAL"%string (mk_problem "Q" "5")
                                      (init_metrics 5 one_problem) 0%nat) = PyOk m' /\
        processed_problems m' = processed_problems (init_metrics 5 one_problem) + 1 /\
        m_total_tokens m' = m_total_tokens (init_metrics 5 one_problem) + total_tokens (result_usage res) /\
        correct_count m' = correct_count (init_metrics 5 one_problem) +
          match call with
          | PyOk (resp, _, _) => if contains yes_sentinel resp then 1 else 0
          | PyExc _ => 0
          end /\
        (forall e, call = PyExc e ->
           problem_details m' = problem_details (init_metrics 5 one_problem) ++ [DetailError "Q" e]) /\
        (forall resp u l, call = PyOk (resp, u, l) ->
           contains yes_sentinel resp = false -> contains no_sentinel resp = false ->
           problem_details m' = problem_details (init_metrics 5 one_problem) ++
             [DetailOk "Q" (final_answer res) "5" None res])
  | _ => False
  end.
Proof.
  intros ep. destruct (solve_problem_with_agents ep "SYS"%string "Q"%string default_max_iterations 0%nat)
    as [[res|e] w1] eqn:E.
  - split; [reflexivity|].
    exact (judge_failures_counted_as_wrong ep "SYS" "EVAL" (mk_problem "Q" "5")
             (init_metrics 5 one_problem) 0 res w1 E).
  - vm_compute in E. discriminate.
Defined.
