(* ===== verification/Summary.v ===== *)
(** * Run summary: [main]

    Models [src/math/process3.py] 402-484.  [run_tiers] is the loop over
    the difficulty levels (lines 417-420): each tier is processed in turn
    on the shared endpoint, and stored by [store_tier] in
    [all_results["difficulty_results"]] (a dict keyed by the difficulty)
    when [process_difficulty_level] returned metrics.  [add_tier] is one pass of the accumulation loop
    (lines 439-457) over [run_totals] (the accumulators of lines
    423-437); [summary_of] computes the ["summary"] block (lines 460-484),
    every division guarded by [total_processed > 0].  The summary string
    (lines 486-518) and the file writing (lines 520-532) are output only
    and not modelled. *)

From Stdlib Require Import String List ZArith QArith Lia Lqa.
From S2P Require Import Prelude PyString Response Endpoint Driver Compare Tier.
Import ListNotations.
Local Open Scope py_scope.
Local Open Scope Z_scope.

(** The accumulators of lines 423-437. *)
Record run_totals : Type := mk_totals {
  s_total_problems : Z;
  s_total_processed : Z;
  s_total_correct : Z;
  s_total_tokens : Z;
  s_total_prompt_tokens : Z;
  s_total_completion_tokens : Z;
  s_total_iterations : Z;
  s_total_flops : Z;
  s_total_cost : Q;
  s_total_latency : Q;
  s_total_avg_completion_per_iteration : Q;
  s_total_max_completion_per_iteration : Q;
  s_global_max_completion_per_iteration : Z
}.

Definition zero_totals : run_totals := mk_totals 0 0 0 0 0 0 0 0 0 0 0 0 0.

(** One pass of the loop of lines 439-457. *)
Definition add_tier (t : run_totals) (m : tier_metrics) : run_totals :=
  mk_totals (s_total_problems t + total_problems m)
            (s_total_processed t + processed_problems m)
            (s_total_correct t + correct_count m)
            (s_total_tokens t + m_total_tokens m)
            (s_total_prompt_tokens t + m_prompt_tokens m)
            (s_total_completion_tokens t + m_completion_tokens m)
            (s_total_iterations t + total_iterations m)
            (s_total_flops t + total_flops m)
            (s_total_cost t + m_total_cost m)%Q
            (s_total_latency t + m_total_latency m)%Q
            (s_total_avg_completion_per_iteration t + total_avg_completion_tokens_per_iteration m)%Q
            (s_total_max_completion_per_iteration t +
             inject_Z (total_max_completion_tokens_per_iteration m))%Q
            (Z.max (s_global_max_completion_per_iteration t)
                   (overall_max_completion_tokens_per_iteration m)).

(** [all_results["difficulty_results"]]: the kept tiers, in order. *)
Definition tier_results : Type := list (Z * (tier_metrics * tier_averages)).

(** [all_results["difficulty_results"][f"difficulty_{d}"] = metrics]: the
    dict is keyed by the difficulty ([f"difficulty_{d}"] is injective in
    [d]); storing an existing key replaces its value in place, a new key
    goes last. *)
Fixpoint store_tier {V : Type} (d : Z) (mt : V) (tiers : list (Z * V)) : list (Z * V) :=
  match tiers with
  | [] => [(d, mt)]
  | (d', mt') :: rest =>
      if Z.eqb d d' then (d, mt) :: rest else (d', mt') :: store_tier d mt rest
  end.

Definition accumulate (tiers : tier_results) : run_totals :=
  fold_left (fun t e => add_tier t (fst (snd e))) tiers zero_totals.

(** The ["summary"] block (lines 460-484). *)
Record run_summary : Type := mk_summary {
  sum_totals : run_totals;
  overall_accuracy : Q;
  avg_latency_per_problem : Q;
  avg_cost_per_problem : Q;
  avg_total_tokens_per_problem : Q;
  avg_prompt_tokens_per_problem : Q;
  avg_completion_tokens_per_problem : Q;
  avg_iterations_per_problem : Q;
  avg_flops_per_problem : Q;
  overall_avg_completion_tokens_per_iteration : Q;
  overall_avg_max_completion_tokens_per_iteration : Q
}.

(** [x / total_processed if total_processed > 0 else 0]. *)
Definition guarded_div (x : Q) (n : Z) : py_result Q :=
  if 0 <? n then py_truediv x (inject_Z n) else PyOk 0%Q.

Definition summary_of (t : run_totals) : py_result run_summary :=
  let n := s_total_processed t in
  match guarded_div (inject_Z (s_total_correct t)) n,
        guarded_div (s_total_latency t) n,
        guarded_div (s_total_cost t) n,
        guarded_div (inject_Z (s_total_tokens t)) n,
        guarded_div (inject_Z (s_total_prompt_tokens t)) n,
        guarded_div (inject_Z (s_total_completion_tokens t)) n,
        guarded_div (inject_Z (s_total_iterations t)) n,
        guarded_div (inject_Z (s_total_flops t)) n,
        guarded_div (s_total_avg_completion_per_iteration t) n,
        guarded_div (s_total_max_completion_per_iteration t) n with
  | PyOk acc, PyOk lat, PyOk co, PyOk tok, PyOk pt, PyOk ct, PyOk it, PyOk fl,
    PyOk aa, PyOk am =>
      PyOk (mk_summary t (acc * 100) lat co tok pt ct it fl aa am)
  | _, _, _, _, _, _, _, _, _, _ => PyExc ZeroDivisionError
  end.

Section Main.

Variable ep : endpoint.
Variable sys_prompt eval_prompt : string.

(** Lines 417-420: the difficulty levels with their data files, the kept
    tiers stored in [all_results["difficulty_results"]]. *)
Fixpoint run_tiers (levels : list (Z * option (list problem))) (acc : tier_results)
  : io tier_results :=
  match levels with
  | [] => ret acc
  | (d, file) :: rest =>
      r <- process_difficulty_level ep sys_prompt eval_prompt d file ;;
      run_tiers rest (match r with Some mt => store_tier d mt acc | None => acc end)
  end.

(** [main] up to the summary block. *)
Definition main_summary (levels : list (Z * option (list problem)))
  : io (tier_results * run_summary) :=
  tiers <- run_tiers levels [] ;;
  fun w => match summary_of (accumulate tiers) with
           | PyOk s => (PyOk (tiers, s), w)
           | PyExc e => (PyExc e, w)
           end.

End Main.

(** ** Properties *)

(** A field that [add_tier] increases by [g m] is, after the loop, the
    sum of [g] over the tiers. *)
Lemma accumulate_field (proj : run_totals -> Z) (g : tier_metrics -> Z) :
  (forall t m, proj (add_tier t m) = proj t + g m) ->
  forall (tiers : tier_results) t,
    proj (fold_left (fun t e => add_tier t (fst (snd e))) tiers t) =
    proj t + sum_Z (map (fun e => g (fst (snd e))) tiers).
Proof.
  intros Hadd tiers. induction tiers as [|e tiers IH]; intros t; simpl; [lia|].
  rewrite IH, Hadd. lia.
Qed.

Lemma accumulate_field_Q (proj : run_totals -> Q) (g : tier_metrics -> Q) :
  (forall t m, proj (add_tier t m) = proj t + g m)%Q ->
  forall (tiers : tier_results) t,
    (proj (fold_left (fun t e => add_tier t (fst (snd e))) tiers t) ==
     proj t + sum_Q (map (fun e => g (fst (snd e))) tiers))%Q.
Proof.
  intros Hadd tiers. induction tiers as [|e tiers IH]; intros t; simpl; [ring|].
  rewrite IH, Hadd. ring.
Qed.

(** [global_max = max(global_max, ...)] over the loop. *)
Lemma accumulate_global_max (tiers : tier_results) t :
  s_global_max_completion_per_iteration (fold_left (fun t e => add_tier t (fst (snd e))) tiers t) =
  fold_left Z.max (map (fun e => overall_max_completion_tokens_per_iteration (fst (snd e))) tiers)
            (s_global_max_completion_per_iteration t).
Proof. revert t. induction tiers as [|e tiers IH]; intros t; simpl; [reflexivity|]. apply IH. Qed.

Lemma accumulate_sums_aux (tiers : tier_results) :
  s_total_problems (accumulate tiers) = sum_Z (map (fun e => total_problems (fst (snd e))) tiers) /\
  s_total_processed (accumulate tiers) =
    sum_Z (map (fun e => processed_problems (fst (snd e))) tiers) /\
  s_total_correct (accumulate tiers) = sum_Z (map (fun e => correct_count (fst (snd e))) tiers).
Proof.
  unfold accumulate.
  repeat split; rewrite (accumulate_field _ _ (fun t m => eq_refl)); reflexivity.
Qed.

(** C17. The run totals of [main] are the sums of the tiers' totals:
    the problems, processed problems, correct answers, tokens,
    iterations and FLOPs, the cost and latency, and the two per-iteration
    accumulators of the summary add up the kept tiers' values; the
    global maximum completion per iteration is [max(0, m_1, ..., m_k)]
    of the tiers' maxima: it bounds each of them and is [0] or one of
    them. *)
Theorem accumulate_sums (tiers : tier_results) :
  let t := accumulate tiers in
  let over (g : tier_metrics -> Z) := sum_Z (map (fun e => g (fst (snd e))) tiers) in
  let overQ (g : tier_metrics -> Q) := sum_Q (map (fun e => g (fst (snd e))) tiers) in
  let maxima := map (fun e => overall_max_completion_tokens_per_iteration (fst (snd e))) tiers in
  s_total_problems t = over total_problems /\
  s_total_processed t = over processed_problems /\
  s_total_correct t = over correct_count /\
  s_total_tokens t = over m_total_tokens /\
  s_total_prompt_tokens t = over m_prompt_tokens /\
  s_total_completion_tokens t = over m_completion_tokens /\
  s_total_iterations t = over total_iterations /\
  s_total_flops t = over total_flops /\
  (s_total_cost t == overQ m_total_cost)%Q /\
  (s_total_latency t == overQ m_total_latency)%Q /\
  (s_total_avg_completion_per_iteration t == overQ total_avg_completion_tokens_per_iteration)%Q /\
  (s_total_max_completion_per_iteration t ==
     overQ (fun m => inject_Z (total_max_completion_tokens_per_iteration m)))%Q /\
  s_global_max_completion_per_iteration t = fold_right Z.max 0 maxima /\
  Forall (fun m => m <= s_global_max_completion_per_iteration t) maxima /\
  (s_global_max_completion_per_iteration t = 0 \/ In (s_global_max_completion_per_iteration t) maxima).
Proof.
  unfold accumulate. cbv zeta. rewrite accumulate_global_max, fold_left_max.
  repeat split;
    try (rewrite (accumulate_field _ _ (fun t m => eq_refl)); reflexivity);
    try (rewrite (accumulate_field_Q _ _ (fun t m => eq_refl)); simpl; ring).
  - apply Forall_forall. intros x Hx. now apply fold_right_max_ub.
  - apply fold_right_max_attained.
Qed.

Lemma store_tier_Forall {V : Type} (P : Z * V -> Prop) d mt (tiers : list (Z * V)) :
  P (d, mt) -> Forall P tiers -> Forall P (store_tier d mt tiers).
Proof.
  intros Hd. induction 1 as [|[d' mt'] tiers Hx Hrest IH]; simpl; [constructor; auto|].
  destruct (Z.eqb d d'); constructor; auto.
Qed.

(** Storing a new key appends it: the dict keeps insertion order. *)
Lemma store_tier_new {V : Type} d (mt : V) (tiers : list (Z * V)) :
  ~ In d (map fst tiers) -> store_tier d mt tiers = tiers ++ [(d, mt)].
Proof.
  induction tiers as [|[d' mt'] tiers IH]; intros Hn; simpl; [reflexivity|].
  simpl in Hn. destruct (Z.eqb_spec d d'); [subst; tauto|]. rewrite IH by tauto. reflexivity.
Qed.

Definition tier_ok (e : Z * (tier_metrics * tier_averages)) : Prop :=
  0 <= correct_count (fst (snd e)) <= processed_problems (fst (snd e)) /\
  processed_problems (fst (snd e)) <= total_problems (fst (snd e)).

(** A property of every tier [process_difficulty_level] returns holds
    of every tier [run_tiers] stores. *)
Lemma run_tiers_Forall (P : Z * (tier_metrics * tier_averages) -> Prop) ep sys ev levels acc w :
  (forall d file w, match process_difficulty_level ep sys ev d file w with
                    | (PyOk (Some mt), _) => P (d, mt)
                    | (PyOk None, _) => True
                    | (PyExc _, _) => False
                    end) ->
  Forall P acc ->
  match run_tiers ep sys ev levels acc w with
  | (PyOk tiers, _) => Forall P tiers
  | (PyExc _, _) => False
  end.
Proof.
  intros HP. revert acc w. induction levels as [|[d file] levels IH]; intros acc w Hacc; simpl; unfold bind, ret.
  - exact Hacc.
  - pose proof (HP d file w) as Ht.
    destruct (process_difficulty_level ep sys ev d file w) as [[r|e] w1]; [|contradiction].
    apply IH. destruct r as [mt|]; [apply store_tier_Forall; [exact Ht|exact Hacc]|exact Hacc].
Qed.

Lemma run_tiers_counts ep sys ev levels w :
  match run_tiers ep sys ev levels [] w with
  | (PyOk tiers, _) => Forall tier_ok tiers
  | (PyExc _, _) => False
  end.
Proof.
  apply run_tiers_Forall; [|constructor].
  intros d file w'. pose proof (tier_counts ep sys ev d file w') as H.
  destruct (process_difficulty_level ep sys ev d file w') as [[[[m a]|]|e] w1]; exact H.
Qed.

Lemma summary_of_spec t :
  0 <= s_total_correct t <= s_total_processed t ->
  exists s, summary_of t = PyOk s /\ sum_totals s = t /\
            (0 <= overall_accuracy s <= 100)%Q /\
            (s_total_processed t = 0 -> s = mk_summary t 0 0 0 0 0 0 0 0 0 0).
Proof.
  intros Hc. unfold summary_of, guarded_div.
  destruct (Z.ltb_spec 0 (s_total_processed t)) as [Hp|Hp].
  - rewrite !py_truediv_ok by (apply inject_Z_nonzero; lia).
    eexists. split; [reflexivity|]. simpl. split; [reflexivity|].
    split; [apply percent_bounds; lia|]. lia.
  - eexists. split; [reflexivity|]. simpl. split; [reflexivity|].
    split; [split; unfold Qle; simpl; lia|]. intros _. reflexivity.
Qed.

Lemma main_summary_bounds ep sys ev levels w :
  match main_summary ep sys ev levels w with
  | (PyOk (tiers, s), _) =>
      (0 <= overall_accuracy s <= 100)%Q /\
      0 <= s_total_correct (sum_totals s) <= s_total_processed (sum_totals s) /\
      s_total_processed (sum_totals s) <= s_total_problems (sum_totals s) /\
      (s_total_processed (sum_totals s) = 0 ->
       s = mk_summary (sum_totals s) 0 0 0 0 0 0 0 0 0 0)
  | (PyExc _, _) => False
  end.
Proof.
  unfold main_summary, bind. pose proof (run_tiers_counts ep sys ev levels w) as H.
  destruct (run_tiers ep sys ev levels [] w) as [[tiers|e] w']; [|contradiction].
  destruct (accumulate_sums_aux tiers) as (Hp & Hpr & Hc).
  assert (0 <= s_total_correct (accumulate tiers) <= s_total_processed (accumulate tiers) /\
          s_total_processed (accumulate tiers) <= s_total_problems (accumulate tiers)) as B.
  { rewrite Hp, Hpr, Hc. repeat split.
    - apply sum_Z_nonneg. rewrite Forall_map. eapply Forall_impl; [|exact H]. unfold tier_ok; simpl; lia.
    - apply sum_Z_le. eapply Forall_impl; [|exact H]. unfold tier_ok; simpl; lia.
    - apply sum_Z_le. eapply Forall_impl; [|exact H]. unfold tier_ok; simpl; lia. }
  destruct (summary_of_spec (accumulate tiers) ltac:(lia)) as [s (-> & Ht & Ha & Hz)].
  rewrite Ht. repeat split; try lia; apply Ha || apply Hz.
Qed.

(** C18. [main] never raises on any endpoint and any list of difficulty
    files: the overall accuracy lies between 0 and 100, the correct
    answers are at most the processed problems, themselves at most the
    problems, and when no problem was processed every per-problem average
    of the summary is 0. *)
Theorem main_summary_safe ep sys ev levels w :
  match main_summary ep sys ev levels w with
  | (PyOk (tiers, s), _) =>
      (0 <= overall_accuracy s <= 100)%Q /\
      0 <= s_total_correct (sum_totals s) <= s_total_processed (sum_totals s) /\
      s_total_processed (sum_totals s) <= s_total_problems (sum_totals s) /\
      (s_total_processed (sum_totals s) = 0 ->
       s = mk_summary (sum_totals s) 0 0 0 0 0 0 0 0 0 0)
  | (PyExc _, _) => False
  end.
Proof. exact (main_summary_bounds ep sys ev levels w). Qed.
