(* ===== verification/TierSingle.v ===== *)
(** * The single-call evaluation of [src/math/test3.py]

    [test3.py] asks the model once per problem, with no iteration loop:
    [process_difficulty_level] (lines 131-236) takes the slice
    [problems[20:30]] of the data file, calls [request_llm] (lines
    78-103, the [get_response] of [Endpoint.v]) with the system prompt,
    adds the usage, the latency, the cost and the FLOPs estimate
    [total_tokens ** 2] to the [metrics] dictionary (lines 171-180),
    extracts the answer with the strict regex [extract_final_answer]
    (lines 105-112) and asks the judge [evaluate_answers_ai] (lines
    123-129, [Compare.v]).  All of this sits in one [try] whose
    [except Exception] appends an error entry, so a failing judge call
    leaves the totals updated.  The averages (lines 217-226) are guarded
    by [processed_problems > 0].  [main] (lines 238-315) runs the levels
    1 to 5, keeps every tier (a returned dictionary is never empty, so
    [if metrics:] only drops [None]), sums the totals (lines 259-274) and
    computes the guarded summary (lines 277-288).

    [single_metrics] is the [metrics] dictionary, [single_detail] an
    entry of [problem_details]; [single_process_problem] is one pass of
    the loop, [single_process_problems] the loop,
    [single_process_difficulty_level] the function and [single_main] the
    run up to the summary.  The summary string and the result file are
    output only.  [request_llm] returns the [usage] dictionary unread; the
    endpoint model raises [KeyError] for a reply without its fields at the
    call ([BodyMissingField]), so the case where [usage] lacks
    [prompt_tokens] after [total_tokens] was already added (lines
    171-172) is not represented. *)

From Stdlib Require Import String List ZArith QArith Lia Lqa.
From S2P Require Import Prelude PyString Response Endpoint Driver Compare Tier Summary.
Import ListNotations.
Local Open Scope py_scope.
Local Open Scope Z_scope.

(** An entry of [metrics["problem_details"]]: the dictionary of lines
    190-199, or the error entry of lines 211-214. *)
Inductive single_detail : Type :=
| SingleOk (problem : string) (model_answer : option string) (correct_answer : string)
           (is_correct : option bool) (tokens : Z) (latency : Q) (cost : Q) (flops : Z)
| SingleError (problem : string) (error : py_exc).

(** The [metrics] dictionary of lines 145-157. *)
Record single_metrics : Type := mk_single {
  sg_difficulty : Z;
  sg_total_problems : Z;
  sg_total_tokens : Z;
  sg_prompt_tokens : Z;
  sg_completion_tokens : Z;
  sg_total_cost : Q;
  sg_total_latency : Q;
  sg_correct_count : Z;
  sg_processed_problems : Z;
  sg_problem_details : list single_detail;
  sg_flops : Z
}.

(** Lines 145-157. *)
Definition single_init (d : Z) (problems : list problem) : single_metrics :=
  mk_single d (Z.of_nat (length problems)) 0 0 0 0 0 0 0 [] 0.

(** The updates of lines 171-180 once [request_llm] has returned. *)
Definition single_account (u : usage) (latency : Q) (m : single_metrics) : single_metrics :=
  mk_single (sg_difficulty m) (sg_total_problems m)
    (sg_total_tokens m + total_tokens u)
    (sg_prompt_tokens m + prompt_tokens u)
    (sg_completion_tokens m + completion_tokens u)
    (sg_total_cost m + cost_of u)%Q
    (sg_total_latency m + latency)%Q
    (sg_correct_count m)
    (sg_processed_problems m + 1)
    (sg_problem_details m)
    (sg_flops m + total_tokens u ^ 2).

(** [if is_correct: metrics["correct_count"] += 1] (lines 186-187). *)
Definition single_count_correct (v : option bool) (m : single_metrics) : single_metrics :=
  if truthy v then
    mk_single (sg_difficulty m) (sg_total_problems m) (sg_total_tokens m) (sg_prompt_tokens m)
      (sg_completion_tokens m) (sg_total_cost m) (sg_total_latency m) (sg_correct_count m + 1)
      (sg_processed_problems m) (sg_problem_details m) (sg_flops m)
  else m.

(** [metrics["problem_details"].append(d)]. *)
Definition single_append (d : single_detail) (m : single_metrics) : single_metrics :=
  mk_single (sg_difficulty m) (sg_total_problems m) (sg_total_tokens m) (sg_prompt_tokens m)
    (sg_completion_tokens m) (sg_total_cost m) (sg_total_latency m) (sg_correct_count m)
    (sg_processed_problems m) (sg_problem_details m ++ [d]) (sg_flops m).

Section SingleTier.

Variable ep : endpoint.
Variable system_prompt eval_prompt : string.

(** One pass of the loop over the problems (lines 162-214). *)
Definition single_process_problem (p : problem) (m : single_metrics) : io single_metrics :=
  fun w =>
    match get_response ep system_prompt (problem_text p) w with
    | (PyExc e, w1) => (PyOk (single_append (SingleError (problem_text p) e) m), w1)
    | (PyOk (content, u, latency), w1) =>
        let m1 := single_account u latency m in
        let final_answer := Extract.extract_final_answer_strict content in
        match evaluate_answers_ai ep eval_prompt (problem_text p) final_answer
                                  (problem_answer p) w1 with
        | (PyExc e, w2) => (PyOk (single_append (SingleError (problem_text p) e) m1), w2)
        | (PyOk v, w2) =>
            (PyOk (single_append
                     (SingleOk (problem_text p) final_answer (problem_answer p) v
                               (total_tokens u) latency (cost_of u) (total_tokens u ^ 2))
                     (single_count_correct v m1)), w2)
        end
    end.

Fixpoint single_process_problems (ps : list problem) (m : single_metrics) : io single_metrics :=
  match ps with
  | [] => ret m
  | p :: ps' => m' <- single_process_problem p m ;; single_process_problems ps' m'
  end.

End SingleTier.

(** The keys added by lines 217-226. *)
Record single_averages : Type := mk_single_averages {
  sg_accuracy : Q;
  sg_avg_latency : Q;
  sg_avg_tokens_per_problem : Q;
  sg_avg_cost_per_problem : Q
}.

Definition single_zero_averages : single_averages := mk_single_averages 0 0 0 0.

(** Lines 217-226. *)
Definition single_finalize (m : single_metrics) : py_result single_averages :=
  if 0 <? sg_processed_problems m then
    let n := inject_Z (sg_processed_problems m) in
    match py_div_Z (sg_correct_count m) (sg_processed_problems m),
          py_truediv (sg_total_latency m) n,
          py_div_Z (sg_total_tokens m) (sg_processed_problems m),
          py_truediv (sg_total_cost m) n with
    | PyOk acc, PyOk lat, PyOk tok, PyOk co => PyOk (mk_single_averages (acc * 100) lat tok co)
    | _, _, _, _ => PyExc ZeroDivisionError
    end
  else PyOk single_zero_averages.

(** [process_difficulty_level(difficulty)] of [test3.py]: [None] when the
    data file does not exist (lines 135-137), otherwise the tier on
    [data["questions"][20:30]] (lines 139-142). *)
Definition single_process_difficulty_level (ep : endpoint) (system_prompt eval_prompt : string)
    (d : Z) (file : option (list problem)) : io (option (single_metrics * single_averages)) :=
  match file with
  | None => ret None
  | Some questions =>
      let problems := py_slice 20 30 questions in
      m <- single_process_problems ep system_prompt eval_prompt problems
                                   (single_init d problems) ;;
      fun w => match single_finalize m with
               | PyOk a => (PyOk (Some (m, a)), w)
               | PyExc e => (PyExc e, w)
               end
  end.

(** [all_results["difficulty_results"]]: the kept tiers, keyed by level. *)
Definition single_results : Type := list (Z * (single_metrics * single_averages)).

(** Lines 253-256: [if metrics:] is false only for [None], since the
    dictionary a tier returns always has its keys. *)
Fixpoint single_run_tiers (ep : endpoint) (system_prompt eval_prompt : string)
    (levels : list (Z * option (list problem))) (acc : single_results) : io single_results :=
  match levels with
  | [] => ret acc
  | (d, file) :: rest =>
      r <- single_process_difficulty_level ep system_prompt eval_prompt d file ;;
      single_run_tiers ep system_prompt eval_prompt rest
        (match r with Some mt => store_tier d mt acc | None => acc end)
  end.

(** The accumulators of lines 259-265. *)
Record single_totals : Type := mk_single_totals {
  st_total_problems : Z;
  st_total_processed : Z;
  st_total_correct : Z;
  st_total_tokens : Z;
  st_total_cost : Q;
  st_total_latency : Q;
  st_total_flops : Z
}.

(** One pass of the loop of lines 267-274. *)
Definition single_add_tier (t : single_totals) (m : single_metrics) : single_totals :=
  mk_single_totals (st_total_problems t + sg_total_problems m)
    (st_total_processed t + sg_processed_problems m)
    (st_total_correct t + sg_correct_count m)
    (st_total_tokens t + sg_total_tokens m)
    (st_total_cost t + sg_total_cost m)%Q
    (st_total_latency t + sg_total_latency m)%Q
    (st_total_flops t + sg_flops m).

Definition single_accumulate (tiers : single_results) : single_totals :=
  fold_left (fun t e => single_add_tier t (fst (snd e))) tiers (mk_single_totals 0 0 0 0 0 0 0).

(** The ["summary"] block (lines 277-288). *)
Record single_summary : Type := mk_single_summary {
  ss_totals : single_totals;
  ss_overall_accuracy : Q;
  ss_avg_latency_per_problem : Q;
  ss_avg_cost_per_problem : Q
}.

Definition single_summary_of (t : single_totals) : py_result single_summary :=
  let n := st_total_processed t in
  match guarded_div (inject_Z (st_total_correct t)) n, guarded_div (st_total_latency t) n,
        guarded_div (st_total_cost t) n with
  | PyOk acc, PyOk lat, PyOk co => PyOk (mk_single_summary t (acc * 100) lat co)
  | _, _, _ => PyExc ZeroDivisionError
  end.

(** [main] of [test3.py] up to the summary block, on the data files of
    the levels [range(1, 6)]. *)
Definition single_main (ep : endpoint) (system_prompt eval_prompt : string)
    (files : Z -> option (list problem)) : io (single_results * single_summary) :=
  tiers <- single_run_tiers ep system_prompt eval_prompt
             (map (fun d => (d, files d)) [1; 2; 3; 4; 5]) [] ;;
  fun w => match single_summary_of (single_accumulate tiers) with
           | PyOk s => (PyOk (tiers, s), w)
           | PyExc e => (PyExc e, w)
           end.

(** ** The tier invariant *)

Definition single_ok (d : single_detail) : bool :=
  match d with SingleOk _ _ _ _ _ _ _ _ => true | SingleError _ _ => false end.

Definition single_correct (d : single_detail) : bool :=
  match d with SingleOk _ _ _ v _ _ _ _ => truthy v | SingleError _ _ => false end.

Definition ok_tokens (d : single_detail) : Z :=
  match d with SingleOk _ _ _ _ t _ _ _ => t | SingleError _ _ => 0 end.

Definition ok_flops (d : single_detail) : Z :=
  match d with SingleOk _ _ _ _ _ _ _ f => f | SingleError _ _ => 0 end.

(** An entry with a result records [flops = tokens ** 2] (line 198). *)
Definition entry_wf (d : single_detail) : Prop := ok_flops d = ok_tokens d ^ 2.

(** [correct_count] counts the entries marked correct; the entries with a
    result are at most the processed problems, at most the entries; the
    FLOPs total covers the entries' FLOPs, and equals their sum (as the
    token total equals their tokens) while no processed problem lost its
    entry to a failing judge call. *)
Definition single_inv (m : single_metrics) : Prop :=
  let ds := sg_problem_details m in
  sg_correct_count m = count_if single_correct ds /\
  count_if single_ok ds <= sg_processed_problems m <= Z.of_nat (length ds) /\
  Forall entry_wf ds /\
  sum_Z (map ok_flops ds) <= sg_flops m /\
  (sg_processed_problems m = count_if single_ok ds ->
   sg_flops m = sum_Z (map ok_flops ds) /\ sg_total_tokens m = sum_Z (map ok_tokens ds)).

Lemma single_init_inv d ps : single_inv (single_init d ps).
Proof. unfold single_inv, count_if. simpl. repeat split; try lia. constructor. Qed.

Lemma single_correct_le_ok ds : count_if single_correct ds <= count_if single_ok ds.
Proof.
  unfold count_if. induction ds as [|[] ds IH]; simpl; [lia| |lia].
  destruct (truthy is_correct); simpl; lia.
Qed.

Ltac single_step :=
  unfold single_inv; simpl; rewrite length_app, !count_if_snoc, !map_app, !sum_Z_app; simpl.

(** Closes [single_inv] after one entry was appended. *)
Ltac close_single_inv Hwf Heq :=
  split; [|repeat split; lia];
  split; [lia|]; split; [lia|];
  split; [apply Forall_app; split; [exact Hwf|constructor; [reflexivity|constructor]]|];
  split; [lia|]; intros ?; first [lia | specialize (Heq ltac:(lia)); lia].

Lemma single_process_problem_inv ep sys ev p m w :
  single_inv m ->
  match single_process_problem ep sys ev p m w with
  | (PyOk m', _) =>
      single_inv m' /\ length (sg_problem_details m') = S (length (sg_problem_details m)) /\
      sg_total_problems m' = sg_total_problems m /\ sg_difficulty m' = sg_difficulty m
  | (PyExc _, _) => False
  end.
Proof.
  intros (Hc & Hok & Hwf & Hfl & Heq). unfold single_process_problem.
  pose proof (count_if_bounds single_ok (sg_problem_details m)).
  destruct (get_response ep sys (problem_text p) w) as [[[[c u] l]|e] w1].
  - assert (Hsq : 0 <= total_tokens u ^ 2) by nia.
    destruct (evaluate_answers_ai ep ev (problem_text p) _ (problem_answer p) w1) as [[v|e] w2].
    + unfold single_append, single_count_correct, single_account.
      destruct (truthy v) eqn:T; simpl; single_step; rewrite ?T; close_single_inv Hwf Heq.
    + simpl. single_step. close_single_inv Hwf Heq.
  - simpl. single_step. close_single_inv Hwf Heq.
Qed.


Lemma single_process_problems_inv ep sys ev ps m w :
  single_inv m ->
  match single_process_problems ep sys ev ps m w with
  | (PyOk m', _) =>
      single_inv m' /\
      length (sg_problem_details m') = (length (sg_problem_details m) + length ps)%nat /\
      sg_total_problems m' = sg_total_problems m /\ sg_difficulty m' = sg_difficulty m
  | (PyExc _, _) => False
  end.
Proof.
  revert m w. induction ps as [|p ps IH]; intros m w H; simpl; unfold bind, ret.
  - split; [exact H|]. repeat split; lia.
  - pose proof (single_process_problem_inv ep sys ev p m w H) as Hs.
    destruct (single_process_problem ep sys ev p m w) as [[m1|e] w1]; [|contradiction].
    destruct Hs as (H1 & L1 & T1 & D1). specialize (IH m1 w1 H1).
    destruct (single_process_problems ep sys ev ps m1 w1) as [[m2|e] w2]; [|contradiction].
    destruct IH as (H2 & L2 & T2 & D2). split; [exact H2|]. repeat split; lia.
Qed.

Lemma single_loop_counts ep sys ev d ps w :
  match single_process_problems ep sys ev ps (single_init d ps) w with
  | (PyOk m, _) =>
      let ds := sg_problem_details m in
      length ds = length ps /\ sg_total_problems m = Z.of_nat (length ps) /\
      sg_correct_count m = count_if single_correct ds /\
      0 <= sg_correct_count m <= count_if single_ok ds /\
      count_if single_ok ds <= sg_processed_problems m <= sg_total_problems m /\
      Forall (fun e => ok_flops e = ok_tokens e ^ 2) ds /\
      sum_Z (map ok_flops ds) <= sg_flops m /\
      (sg_processed_problems m = count_if single_ok ds ->
       sg_flops m = sum_Z (map ok_flops ds) /\ sg_total_tokens m = sum_Z (map ok_tokens ds))
  | (PyExc _, _) => False
  end.
Proof.
  pose proof (single_process_problems_inv ep sys ev ps (single_init d ps) w (single_init_inv d ps))
    as H.
  destruct (single_process_problems ep sys ev ps (single_init d ps) w) as [[m|e] w']; [|exact H].
  destruct H as ((Hc & Hok & Hwf & Hfl & Heq) & L & T & _). simpl in L, T.
  pose proof (single_correct_le_ok (sg_problem_details m)).
  pose proof (count_if_bounds single_correct (sg_problem_details m)).
  cbv zeta. repeat split; try lia; try exact Hwf; apply Heq; assumption.
Qed.

(** C36. The loop of [test3.py] over a tier's problems never raises and
    appends one entry per problem; [correct_count] is the number of
    entries marked correct, at most the entries with a result, at most
    [processed_problems], at most the number of problems; every entry
    with a result records [flops = tokens ** 2]; the tier's FLOPs total
    is at least the sum of its entries' FLOPs, and when every processed
    problem kept its result entry, the FLOPs and token totals are exactly
    the sums over the entries. *)
Theorem single_process_problems_counts ep sys ev d ps w :
  match single_process_problems ep sys ev ps (single_init d ps) w with
  | (PyOk m, _) =>
      let ds := sg_problem_details m in
      length ds = length ps /\ sg_total_problems m = Z.of_nat (length ps) /\
      sg_correct_count m = count_if single_correct ds /\
      0 <= sg_correct_count m <= count_if single_ok ds /\
      count_if single_ok ds <= sg_processed_problems m <= sg_total_problems m /\
      Forall (fun e => ok_flops e = ok_tokens e ^ 2) ds /\
      sum_Z (map ok_flops ds) <= sg_flops m /\
      (sg_processed_problems m = count_if single_ok ds ->
       sg_flops m = sum_Z (map ok_flops ds) /\ sg_total_tokens m = sum_Z (map ok_tokens ds))
  | (PyExc _, _) => False
  end.
Proof. exact (single_loop_counts ep sys ev d ps w). Qed.

(** With [0 <= correct_count <= processed_problems] the divisions of
    lines 218-221 are guarded; the accuracy is a percentage. *)
Lemma single_finalize_spec m :
  0 <= sg_correct_count m <= sg_processed_problems m ->
  exists a, single_finalize m = PyOk a /\ (0 <= sg_accuracy a <= 100)%Q /\
            (sg_processed_problems m = 0 -> a = single_zero_averages).
Proof.
  intros Hc. unfold single_finalize.
  destruct (Z.ltb_spec 0 (sg_processed_problems m)) as [Hp|Hp].
  - rewrite !py_div_Z_ok by lia. rewrite !py_truediv_ok by (apply inject_Z_nonzero; lia).
    eexists. split; [reflexivity|]. simpl. split; [apply percent_bounds; lia|lia].
  - exists single_zero_averages. repeat split; try reflexivity; unfold Qle; simpl; lia.
Qed.

(** The tier [single_process_difficulty_level] returns on a data file. *)
Lemma single_tier_spec ep sys ev d qs w :
  match single_process_difficulty_level ep sys ev d (Some qs) w with
  | (PyOk (Some (m, a)), _) =>
      sg_total_problems m = Z.of_nat (length (py_slice 20 30 qs)) /\
      0 <= sg_correct_count m <= sg_processed_problems m /\
      sg_processed_problems m <= sg_total_problems m /\
      (0 <= sg_accuracy a <= 100)%Q /\ (sg_processed_problems m = 0 -> a = single_zero_averages)
  | _ => False
  end.
Proof.
  unfold single_process_difficulty_level, bind.
  pose proof (single_loop_counts ep sys ev d (py_slice 20 30 qs) w) as H.
  destruct (single_process_problems ep sys ev (py_slice 20 30 qs)
              (single_init d (py_slice 20 30 qs)) w) as [[m|e] w']; [|contradiction].
  destruct H as (_ & T & _ & Hc & Hp & _).
  destruct (single_finalize_spec m ltac:(lia)) as [a (-> & Ha & Hz)].
  repeat split; try lia; apply Ha || apply Hz.
Qed.

(** C37. [process_difficulty_level] of [test3.py] never raises: a missing
    data file gives [None]; on a file of [n] questions it evaluates the
    slice [problems[20:30]], so the tier has [min(10, n - 20)] problems
    (none when [n <= 20]); its accuracy lies between 0 and 100 and every
    average is 0 when nothing was processed. *)
Theorem single_process_difficulty_level_safe ep sys ev d file w :
  match single_process_difficulty_level ep sys ev d file w with
  | (PyOk None, _) => file = None
  | (PyOk (Some (m, a)), _) =>
      exists qs, file = Some qs /\
      sg_total_problems m = Z.of_nat (Nat.min 10 (length qs - 20)) /\
      0 <= sg_correct_count m <= sg_processed_problems m /\
      sg_processed_problems m <= sg_total_problems m /\
      (0 <= sg_accuracy a <= 100)%Q /\ (sg_processed_problems m = 0 -> a = single_zero_averages)
  | (PyExc _, _) => False
  end.
Proof.
  destruct file as [qs|]; [|reflexivity].
  pose proof (single_tier_spec ep sys ev d qs w) as H.
  destruct (single_process_difficulty_level ep sys ev d (Some qs) w) as [[[[m a]|]|e] w'];
    try contradiction.
  exists qs. rewrite length_py_slice in H. split; [reflexivity|exact H].
Qed.

(** ** The run *)

(** [os.path.exists(filename)] (line 135). *)
Definition has_file (e : Z * option (list problem)) : bool :=
  match snd e with Some _ => true | None => false end.

Definition single_tier_ok (e : Z * (single_metrics * single_averages)) : Prop :=
  let m := fst (snd e) in
  0 <= sg_correct_count m <= sg_processed_problems m /\
  sg_processed_problems m <= sg_total_problems m <= 10.

(** The loop of lines 253-256 keeps one tier per level that has a data
    file, in the order of the levels, each satisfying [single_tier_ok]. *)
Lemma single_run_tiers_spec ep sys ev levels acc w :
  NoDup (map fst levels) -> (forall d, In d (map fst levels) -> ~ In d (map fst acc)) ->
  Forall single_tier_ok acc ->
  match single_run_tiers ep sys ev levels acc w with
  | (PyOk tiers, _) =>
      Forall single_tier_ok tiers /\
      map fst tiers = map fst acc ++ map fst (filter has_file levels)
  | (PyExc _, _) => False
  end.
Proof.
  revert acc w. induction levels as [|[d file] levels IH]; intros acc w Hnd Hdis Hacc;
    cbn [single_run_tiers]; unfold bind, ret.
  - rewrite app_nil_r. split; [exact Hacc|reflexivity].
  - inversion Hnd as [|? ? Hd Hnd']; subst.
    destruct file as [qs|]; cbn [filter has_file snd map].
    + pose proof (single_tier_spec ep sys ev d qs w) as Ht.
      destruct (single_process_difficulty_level ep sys ev d (Some qs) w) as [[[[m a]|]|e] w1];
        try contradiction.
      rewrite store_tier_new by (apply Hdis; left; reflexivity).
      assert (Hok : single_tier_ok (d, (m, a))).
      { unfold single_tier_ok; simpl. pose proof (Nat.le_min_l 10 (length qs - 20)).
        rewrite length_py_slice in Ht. lia. }
      assert (Hdis' : forall d', In d' (map fst levels) -> ~ In d' (map fst (acc ++ [(d, (m, a))]))).
      { intros d' Hin. rewrite map_app, in_app_iff. simpl.
        intros [H|[H|[]]]; [exact (Hdis d' (or_intror Hin) H)|subst; contradiction]. }
      assert (Hacc' : Forall single_tier_ok (acc ++ [(d, (m, a))])).
      { apply Forall_app. split; [exact Hacc|constructor; [exact Hok|constructor]]. }
      specialize (IH (acc ++ [(d, (m, a))]) w1 Hnd' Hdis' Hacc').
      destruct (single_run_tiers ep sys ev levels (acc ++ [(d, (m, a))]) w1) as [[tiers|e] w2];
        [|exact IH].
      destruct IH as [H1 H2]. split; [exact H1|]. rewrite H2, map_app, <- app_assoc. reflexivity.
    + apply IH; [exact Hnd'| |exact Hacc]. intros d' Hin. apply Hdis. right. exact Hin.
Qed.

Lemma single_summary_of_spec t :
  0 <= st_total_correct t <= st_total_processed t ->
  exists s, single_summary_of t = PyOk s /\ ss_totals s = t /\
            (0 <= ss_overall_accuracy s <= 100)%Q.
Proof.
  intros Hc. unfold single_summary_of, guarded_div.
  destruct (Z.ltb_spec 0 (st_total_processed t)) as [Hp|Hp].
  - rewrite !py_truediv_ok by (apply inject_Z_nonzero; lia).
    eexists. split; [reflexivity|]. split; [reflexivity|]. apply percent_bounds; lia.
  - eexists. split; [reflexivity|]. split; [reflexivity|]. split; unfold Qle; simpl; lia.
Qed.

Lemma single_accumulate_field (proj : single_totals -> Z) (g : single_metrics -> Z) :
  proj (mk_single_totals 0 0 0 0 0 0 0) = 0 ->
  (forall t m, proj (single_add_tier t m) = proj t + g m) ->
  forall tiers : single_results,
    proj (single_accumulate tiers) = sum_Z (map (fun e => g (fst (snd e))) tiers).
Proof.
  intros H0 Hadd tiers. unfold single_accumulate.
  rewrite (fold_left_field _ proj (fun e => g (fst (snd e))) (fun t e => Hadd t (fst (snd e)))).
  lia.
Qed.

Lemma map_fst_filter_has_file (files : Z -> option (list problem)) (ds : list Z) :
  map fst (filter has_file (map (fun d => (d, files d)) ds)) =
  filter (fun d => has_file (d, files d)) ds.
Proof. induction ds as [|d ds IH]; simpl; [reflexivity|]. destruct (has_file (d, files d)); simpl; congruence. Qed.

(** C38. [main] of [test3.py] never raises: it keeps one tier for each
    level of [range(1, 6)] whose data file exists, in order; the summary
    totals are the sums of the kept tiers' counts, tokens and FLOPs; the
    correct answers are at most the processed problems, at most the
    problems, which are at most 50 (five slices of at most ten); the
    overall accuracy lies between 0 and 100. *)
Theorem single_main_spec ep sys ev files w :
  match single_main ep sys ev files w with
  | (PyOk (tiers, s), _) =>
      let t := ss_totals s in
      let over (g : single_metrics -> Z) := sum_Z (map (fun e => g (fst (snd e))) tiers) in
      map fst tiers = filter (fun d => has_file (d, files d)) [1; 2; 3; 4; 5] /\
      st_total_problems t = over sg_total_problems /\
      st_total_processed t = over sg_processed_problems /\
      st_total_correct t = over sg_correct_count /\
      st_total_tokens t = over sg_total_tokens /\ st_total_flops t = over sg_flops /\
      0 <= st_total_correct t <= st_total_processed t /\
      st_total_processed t <= st_total_problems t <= 50 /\
      (0 <= ss_overall_accuracy s <= 100)%Q
  | (PyExc _, _) => False
  end.
Proof.
  unfold single_main, bind.
  pose proof (single_run_tiers_spec ep sys ev (map (fun d => (d, files d)) [1; 2; 3; 4; 5]) []
                w ltac:(simpl; repeat constructor; simpl; lia) ltac:(intros d _ []) (Forall_nil _)) as H.
  destruct (single_run_tiers ep sys ev _ [] w) as [[tiers|e] w']; [|contradiction].
  destruct H as [Hok Hkeys].
  assert (Hlen : (length tiers <= 5)%nat).
  { rewrite <- length_map with (f := fst), Hkeys. simpl.
    destruct (has_file (1, files 1)), (has_file (2, files 2)), (has_file (3, files 3)),
      (has_file (4, files 4)), (has_file (5, files 5)); simpl; lia. }
  set (over := fun g : single_metrics -> Z => sum_Z (map (fun e => g (fst (snd e))) tiers)).
  assert (E : forall proj g, proj (mk_single_totals 0 0 0 0 0 0 0) = 0 ->
                (forall t m, proj (single_add_tier t m) = proj t + g m) ->
                proj (single_accumulate tiers) = over g)
    by (intros; apply single_accumulate_field; assumption).
  assert (B : 0 <= over sg_correct_count <= over sg_processed_problems /\
              over sg_processed_problems <= over sg_total_problems <= 50).
  { pose proof (sum_Z_bound (fun e => sg_total_problems (fst (snd e))) 10 tiers
                  ltac:(eapply Forall_impl; [|exact Hok]; unfold single_tier_ok; simpl; lia)).
    unfold over. split; [split|split]; try lia;
      [apply sum_Z_nonneg; rewrite Forall_map | apply sum_Z_le | apply sum_Z_le];
      eapply Forall_impl; try exact Hok; unfold single_tier_ok; simpl; lia. }
  rewrite <- !(E st_total_correct), <- !(E st_total_processed), <- !(E st_total_problems)
    in B by reflexivity.
  destruct (single_summary_of_spec (single_accumulate tiers) ltac:(lia)) as [s (-> & Ht & Ha)].
  cbv zeta. rewrite Ht, Hkeys, map_fst_filter_has_file. fold over.
  repeat split; try (apply E; reflexivity); try lia; apply Ha.
Qed.


(** A data file of 21 questions: the slice [problems[20:30]] is its last one. *)
Definition single_file : list problem :=
  repeat (mk_problem "P" "0") 20 ++ [mk_problem "Q" "5"].

(** The model answers [5]; the judge, on the second call, says [[[YES]]]. *)
Definition single_endpoint : endpoint :=
  scripted [HttpReply 200 1 (BodyOk "<answer>5</answer>" demo_usage);
            HttpReply 200 1 (BodyOk "Same value. [[YES]]" demo_usage)].

(** C39. [evaluate_answers_ai] discards the usage of the judge call
    ([response,_,_ = request_llm(...)], line 125).  For every problem
    whose model call returns, the pass makes a second, billed call (the
    judge) and yet adds to the tier's tokens, cost and FLOPs exactly what
    the model call reported, whatever the judge replies and whatever
    usage it reports. *)
Theorem judge_call_not_accounted ep sys ev p m w c u l :
  get_response ep sys (problem_text p) w = (PyOk (c, u, l), S w) ->
  match single_process_problem ep sys ev p m w with
  | (PyOk m', w') =>
      w' = S (S w) /\
      sg_total_tokens m' = sg_total_tokens m + total_tokens u /\
      sg_prompt_tokens m' = sg_prompt_tokens m + prompt_tokens u /\
      sg_completion_tokens m' = sg_completion_tokens m + completion_tokens u /\
      (sg_total_cost m' == sg_total_cost m + cost_of u)%Q /\
      sg_flops m' = sg_flops m + total_tokens u ^ 2
  | (PyExc _, _) => False
  end.
Proof.
  intros H. unfold single_process_problem. rewrite H.
  unfold evaluate_answers_ai, bind.
  pose proof (get_response_world ep ev
    (judge_prompt (problem_text p) (Extract.extract_final_answer_strict c) (problem_answer p)) (S w))
    as Hw.
  destruct (get_response ep ev _ (S w)) as [[[[resp u'] l']|e] w2]; simpl in Hw; subst w2.
  - unfold ret. destruct (truthy (read_verdict resp)) eqn:T;
      unfold single_append, single_count_correct, single_account; rewrite ?T; simpl;
      (split; [reflexivity|]); repeat split; try lia; reflexivity.
  - simpl. (split; [reflexivity|]). repeat split; try lia; reflexivity.
Qed.

Lemma judge_call_not_accounted_witness :
  get_response single_endpoint "SYS" (problem_text (mk_problem "Q" "5")) 0%nat =
    (PyOk ("<answer>5</answer>"%string, demo_usage, 1%Q), 1%nat) /\
  match single_process_problem single_endpoint "SYS" "EVAL" (mk_problem "Q" "5")
          (single_init 1 [mk_problem "Q" "5"]) 0%nat with
  | (PyOk m', w') =>
      w' = 2%nat /\
      sg_total_tokens m' = sg_total_tokens (single_init 1 [mk_problem "Q" "5"]) + total_tokens demo_usage /\
      sg_prompt_tokens m' = sg_prompt_tokens (single_init 1 [mk_problem "Q" "5"]) + prompt_tokens demo_usage /\
      sg_completion_tokens m' =
        sg_completion_tokens (single_init 1 [mk_problem "Q" "5"]) + completion_tokens demo_usage /\
      (sg_total_cost m' == sg_total_cost (single_init 1 [mk_problem "Q" "5"]) + cost_of demo_usage)%Q /\
      sg_flops m' = sg_flops (single_init 1 [mk_problem "Q" "5"]) + total_tokens demo_usage ^ 2
  | (PyExc _, _) => False
  end.
Proof.
  assert (H : get_response single_endpoint "SYS" (problem_text (mk_problem "Q" "5")) 0%nat =
                (PyOk ("<answer>5</answer>"%string, demo_usage, 1%Q), 1%nat)) by (vm_compute; reflexivity).
  split; [exact H|].
  exact (judge_call_not_accounted single_endpoint "SYS" "EVAL" (mk_problem "Q" "5")
           (single_init 1 [mk_problem "Q" "5"]) 0%nat _ _ _ H).
Defined.
