(* ===== verification/Binning.v ===== *)
(** * Offline binning: [create_bins] and [count_frequency]

    Models [src/getdata.py] 65-98 (the same code is
    [src/completion_tokens_analysis.py] 96-129 with a default width of
    50), and the variant of [src/math/getdata.py] 37-70 whose fallback
    branch tests [step >= bins[-1]] without a length check.  Python's
    [range] is [py_range], [//] is [Z.div] (both round towards minus
    infinity), the [defaultdict(int)] keyed by [(low, high)] tuples is a
    [gmap (Z * Z) nat] read with default 0.  The inner [for ... else]
    loop is [find_bin] (the first pair [bins[i] <= v < bins[i+1]]) and the
    [else] branch is the fallback of [bin_of]. *)

From stdpp Require Import gmap.
From Stdlib Require Import ZArith Lia.
From S2P Require Import Prelude.
Local Open Scope Z_scope.

(** ** Python's [range] *)

Fixpoint zseq (start step : Z) (n : nat) : list Z :=
  match n with
  | O => []
  | S n' => start :: zseq (start + step) step n'
  end.

(** [list(range(start, stop, step))]: [ValueError] for a zero step. *)
Definition py_range (start stop step : Z) : py_result (list Z) :=
  if step =? 0 then PyExc ValueError
  else
    let n := if 0 <? step then (stop - start + step - 1) / step
             else (start - stop - step - 1) / (- step) in
    PyOk (zseq start step (Z.to_nat n)).

(** ** [create_bins] (lines 65-81) *)

Definition create_bins (values : list Z) (bin_width : Z) : py_result (list Z) :=
  match values with
  | [] => PyOk []
  | _ =>
      match py_min values, py_max values with
      | PyOk min_step, PyOk max_step =>
          if bin_width =? 0 then PyExc ZeroDivisionError
          else
            let start_bin := (min_step / bin_width) * bin_width in
            let end_bin := (max_step / bin_width + 1) * bin_width in
            py_range start_bin (end_bin + bin_width) bin_width
      | _, _ => PyExc ValueError
      end
  end.

(** ** [count_frequency] (lines 83-98) *)

(** [for i in range(len(bins) - 1): if bins[i] <= v < bins[i + 1]: ... break]. *)
Fixpoint find_bin (bins : list Z) (v : Z) : option (Z * Z) :=
  match bins with
  | a :: ((b :: _) as rest) => if (a <=? v) && (v <? b) then Some (a, b) else find_bin rest v
  | _ => None
  end.

(** [(bins[-2], bins[-1])] when [len(bins) >= 2]. *)
Fixpoint last_pair (bins : list Z) : option (Z * Z) :=
  match bins with
  | [a; b] => Some (a, b)
  | _ :: rest => last_pair rest
  | [] => None
  end.

(** The [else] branch of the [for] loop: values equal to [bins[-1]] go
    to the last bin. *)
Definition bin_of (bins : list Z) (v : Z) : option (Z * Z) :=
  match find_bin bins v with
  | Some k => Some k
  | None =>
      match last_pair bins with
      | Some (a, b) => if v =? b then Some (a, b) else None
      | None => None
      end
  end.

(** [frequency[k] += 1] on a [defaultdict(int)]. *)
Definition incr (k : Z * Z) (freq : gmap (Z * Z) nat) : gmap (Z * Z) nat :=
  <[k := S (default 0%nat (freq !! k))]> freq.

(** One pass of the outer loop, for the value [v]. *)
Definition tally (bins : list Z) (freq : gmap (Z * Z) nat) (v : Z) : gmap (Z * Z) nat :=
  match bin_of bins v with
  | Some k => incr k freq
  | None => freq
  end.

Definition count_frequency (values bins : list Z) : gmap (Z * Z) nat :=
  fold_left (tally bins) values ∅.

(** The fallback of [src/math/getdata.py] 67-68: [if step >= bins[-1]];
    [bins[-1]] raises [IndexError] on an empty list. *)
Definition bin_of_v0 (bins : list Z) (v : Z) : py_result (option (Z * Z)) :=
  match find_bin bins v with
  | Some k => PyOk (Some k)
  | None =>
      match last bins, last_pair bins with
      | None, _ => PyExc IndexError
      | Some b, Some (a, _) => PyOk (if b <=? v then Some (a, b) else None)
      | Some b, None => if b <=? v then PyExc IndexError else PyOk None
      end
  end.

Fixpoint count_frequency_v0_from (values bins : list Z) (freq : gmap (Z * Z) nat)
  : py_result (gmap (Z * Z) nat) :=
  match values with
  | [] => PyOk freq
  | v :: rest =>
      match bin_of_v0 bins v with
      | PyOk (Some k) => count_frequency_v0_from rest bins (incr k freq)
      | PyOk None => count_frequency_v0_from rest bins freq
      | PyExc e => PyExc e
      end
  end.

Definition count_frequency_v0 (values bins : list Z) : py_result (gmap (Z * Z) nat) :=
  count_frequency_v0_from values bins ∅.

(** The pairs [(bins[i], bins[i+1])] the inner loop visits, in order. *)
Fixpoint adjacent (bins : list Z) : list (Z * Z) :=
  match bins with
  | a :: ((b :: _) as rest) => (a, b) :: adjacent rest
  | _ => []
  end.

(** How many times [frequency[k] += 1] runs over [values]. *)
Definition bin_count (bins : list Z) (k : Z * Z) (values : list Z) : nat :=
  length (List.filter (fun v => bool_decide (bin_of bins v = Some k)) values).

(** ** Arithmetic progressions built by [range] *)

Lemma div_shift (v s w : Z) : 0 < w -> (v - (s + w)) / w = (v - s) / w - 1.
Proof.
  intros Hw. replace (v - (s + w)) with (v - s + (-1) * w) by ring.
  rewrite Z.div_add by lia. ring.
Qed.

Lemma floor_unique (v c w : Z) : 0 < w -> c * w <= v < c * w + w -> v / w = c.
Proof.
  intros Hw Hv. replace v with (v - c * w + c * w) by ring.
  rewrite Z.div_add, Z.div_small by lia. ring.
Qed.

(** On [zseq s w (k+2)], the loop finds the pair whose lower end is the
    floor of [v] on the grid [s + i*w]. *)
Lemma find_bin_zseq (w : Z) (k : nat) : 0 < w -> forall s v,
  s <= v < s + Z.of_nat (S k) * w ->
  find_bin (zseq s w (S (S k))) v = Some (s + (v - s) / w * w, s + (v - s) / w * w + w).
Proof.
  intros Hw. induction k as [|k IH]; intros s v Hv.
  - cbn. rewrite Z.div_small by lia.
    replace ((s <=? v) && (v <? s + w)) with true by (symmetry; apply andb_true_iff; lia).
    f_equal. f_equal; ring.
  - change (zseq s w (S (S (S k)))) with (s :: zseq (s + w) w (S (S k))).
    change (find_bin (s :: zseq (s + w) w (S (S k))) v) with
      (if (s <=? v) && (v <? s + w) then Some (s, s + w) else find_bin (zseq (s + w) w (S (S k))) v).
    destruct (Z.ltb_spec v (s + w)).
    + rewrite Z.div_small by lia. replace (s <=? v) with true by lia.
      f_equal. f_equal; ring.
    + rewrite andb_false_r, IH by lia. rewrite div_shift by lia.
      f_equal. f_equal; ring.
Qed.

Lemma adjacent_zseq (s w : Z) (n : nat) (a b : Z) :
  In (a, b) (adjacent (zseq s w n)) -> exists i, 0 <= i /\ a = s + i * w /\ b = a + w.
Proof.
  revert s. induction n as [|n IH]; intros s H; [destruct H|].
  destruct n as [|n]; [destruct H|].
  change (adjacent (zseq s w (S (S n)))) with ((s, s + w) :: adjacent (zseq (s + w) w (S n))) in H.
  destruct H as [H|H].
  - injection H as <- <-. exists 0. lia.
  - destruct (IH (s + w) H) as (i & Hi & -> & ->). exists (i + 1). lia.
Qed.

Lemma adjacent_zseq_lower (s w : Z) (n : nat) (p : Z * Z) :
  0 < w -> In p (adjacent (zseq (s + w) w n)) -> s < fst p.
Proof.
  destruct p as [a b]. intros Hw H. destruct (adjacent_zseq _ _ _ _ _ H) as (i & ? & -> & _).
  simpl. nia.
Qed.

Lemma adjacent_zseq_NoDup (s w : Z) (n : nat) : 0 < w -> NoDup (adjacent (zseq s w n)).
Proof.
  intros Hw. revert s. induction n as [|n IH]; intros s; [constructor|].
  destruct n as [|n]; [constructor|].
  change (adjacent (zseq s w (S (S n)))) with ((s, s + w) :: adjacent (zseq (s + w) w (S n))).
  constructor; [|apply IH].
  intros H%list_elem_of_In%(adjacent_zseq_lower s w (S n) _ Hw); simpl in H; lia.
Qed.

Lemma zseq_last (s w : Z) (n : nat) :
  last (zseq s w (S n)) = Some (s + Z.of_nat n * w).
Proof.
  revert s. induction n as [|n IH]; intros s; [simpl; f_equal; lia|].
  change (zseq s w (S (S n))) with (s :: zseq (s + w) w (S n)).
  rewrite last_cons, IH. f_equal. lia.
Qed.

Lemma floor_bounds (x w : Z) : 0 < w -> x / w * w <= x < x / w * w + w.
Proof.
  intros Hw. pose proof (Z.div_mod x w ltac:(lia)). pose proof (Z.mod_pos_bound x w Hw). lia.
Qed.

(** [create_bins] on a non-empty list with a positive width: the grid of
    multiples of [w] from [min // w * w] to [(max // w + 1) * w]. *)
Lemma create_bins_zseq (vs : list Z) (w : Z) (bins : list Z) :
  0 < w -> vs <> [] -> create_bins vs w = PyOk bins ->
  exists mn mx, (forall v, In v vs -> mn <= v <= mx) /\
    bins = zseq (mn / w * w) w (S (S (Z.to_nat (mx / w - mn / w)))).
Proof.
  intros Hw Hne. destruct vs as [|x r]; [congruence|]. clear Hne.
  unfold create_bins, py_min, py_max, py_range.
  replace (w =? 0) with false by lia. replace (0 <? w) with true by lia.
  intros [= <-].
  set (mn := fold_left Z.min r x). set (mx := fold_left Z.max r x).
  assert (Hb : forall v, In v (x :: r) -> mn <= v <= mx)
    by (intros v Hv; split; [apply fold_min_In | apply fold_max_In]; exact Hv).
  exists mn, mx. split; [exact Hb|].
  assert (mn <= mx) by (pose proof (Hb x (or_introl eq_refl)); lia).
  assert (mn / w <= mx / w) by (apply Z.div_le_mono; lia).
  f_equal. replace ((mx / w + 1) * w + w - mn / w * w + w - 1)
    with ((mx / w - mn / w + 2) * w + (w - 1)) by ring.
  rewrite Z.div_add_l, (Z.div_small (w - 1)) by lia. lia.
Qed.

(** The grid point below [v] is reached from [min // w * w] in whole
    steps. *)
Lemma grid_offset (v m w : Z) : 0 < w -> m / w * w + (v - m / w * w) / w * w = v / w * w.
Proof.
  intros Hw. replace (v - m / w * w) with (v + (- (m / w)) * w) by ring.
  rewrite Z.div_add by lia. ring.
Qed.

(** The right end of the grid, as the integer the proofs compare with. *)
Lemma grid_top (mn mx w : Z) : 0 < w -> mn / w <= mx / w ->
  mn / w * w + Z.of_nat (S (Z.to_nat (mx / w - mn / w))) * w = (mx / w + 1) * w.
Proof. intros Hw H. rewrite Nat2Z.inj_succ, Z2Nat.id by lia. ring. Qed.

Lemma create_bins_grid (vs : list Z) (w : Z) (bins : list Z) (v : Z) :
  0 < w -> create_bins vs w = PyOk bins -> In v vs ->
  find_bin bins v = Some (v / w * w, v / w * w + w) /\
  (forall a b, In (a, b) (adjacent bins) -> a <= v < b -> a = v / w * w /\ b = a + w) /\
  (exists top, last bins = Some top /\ v < top).
Proof.
  intros Hw Hc Hv.
  destruct (create_bins_zseq vs w bins Hw ltac:(destruct vs; [destruct Hv|congruence]) Hc)
    as (mn & mx & Hb & ->).
  specialize (Hb v Hv).
  assert (mn / w <= v / w <= mx / w) by (split; apply Z.div_le_mono; lia).
  pose proof (floor_bounds mn w Hw). pose proof (floor_bounds mx w Hw).
  pose proof (floor_bounds v w Hw). pose proof (grid_top mn mx w Hw ltac:(lia)).
  split; [|split].
  - rewrite find_bin_zseq, grid_offset by lia. reflexivity.
  - intros a b Hab Hin. destruct (adjacent_zseq _ _ _ _ _ Hab) as (i & Hi & -> & ->).
    split; [|reflexivity].
    replace (mn / w * w + i * w) with ((mn / w + i) * w) in * by ring.
    rewrite (floor_unique v (mn / w + i) w); lia.
  - rewrite zseq_last. eexists; split; [reflexivity|]. lia.
Qed.

(** C19. [create_bins] followed by the inner loop of [count_frequency]:
    with a positive width, every value of the list is found by the loop
    in the bin [[v // w * w, v // w * w + w)], no other visited pair
    contains it, and it lies strictly below the last boundary. *)
Theorem create_bins_cover (vs : list Z) (w : Z) (bins : list Z) (v : Z) :
  0 < w -> create_bins vs w = PyOk bins -> In v vs ->
  find_bin bins v = Some (v / w * w, v / w * w + w) /\
  (forall a b, In (a, b) (adjacent bins) -> a <= v < b -> a = v / w * w /\ b = a + w) /\
  (exists top, last bins = Some top /\ v < top).
Proof. exact (create_bins_grid vs w bins v). Qed.

(** ** The frequency table *)

Lemma tally_lookup (bins : list Z) (freq : gmap (Z * Z) nat) (v : Z) (k : Z * Z) :
  default 0%nat (tally bins freq v !! k) =
  ((if bool_decide (bin_of bins v = Some k) then 1 else 0) + default 0%nat (freq !! k))%nat.
Proof.
  unfold tally, incr. destruct (bin_of bins v) as [k'|]; simpl.
  - rewrite lookup_insert. case_decide as E; case_bool_decide as E'; subst; simpl; congruence.
  - reflexivity.
Qed.

Lemma fold_tally_lookup (bins vs : list Z) (freq : gmap (Z * Z) nat) (k : Z * Z) :
  default 0%nat (fold_left (tally bins) vs freq !! k) = (bin_count bins k vs + default 0%nat (freq !! k))%nat.
Proof.
  revert freq. induction vs as [|v vs IH]; intros freq; [reflexivity|].
  simpl. rewrite IH, tally_lookup. unfold bin_count. simpl.
  case_bool_decide; simpl; lia.
Qed.

Lemma fold_tally_positive (bins vs : list Z) (freq : gmap (Z * Z) nat) (k : Z * Z) (c : nat) :
  (forall k c, freq !! k = Some c -> (0 < c)%nat) ->
  fold_left (tally bins) vs freq !! k = Some c -> (0 < c)%nat.
Proof.
  revert freq. induction vs as [|v vs IH]; intros freq Hpos; simpl; [apply Hpos|].
  apply IH. intros k' c'. unfold tally, incr. destruct (bin_of bins v) as [k''|]; [|apply Hpos].
  rewrite lookup_insert. case_decide; [intros [= <-]; lia | apply Hpos].
Qed.

Lemma count_frequency_lookup_count (vs bins : list Z) (k : Z * Z) :
  count_frequency vs bins !! k =
  if decide (bin_count bins k vs = 0%nat) then None else Some (bin_count bins k vs).
Proof.
  pose proof (fold_tally_lookup bins vs ∅ k) as H. unfold count_frequency.
  rewrite lookup_empty in H. simpl in H. rewrite Nat.add_0_r in H.
  destruct (fold_left (tally bins) vs ∅ !! k) as [c|] eqn:E; simpl in H; subst.
  - apply fold_tally_positive in E; [|intros ??; rewrite lookup_empty; discriminate].
    case_decide; [lia|reflexivity].
  - rewrite decide_True by lia. reflexivity.
Qed.

(** C20. The [defaultdict] built by [count_frequency] maps each bin to
    the number of values whose pass of the loop increments it, and holds
    no key with count zero: [frequency[k]] is [bin_count] when positive
    and the key is absent otherwise. *)
Theorem count_frequency_lookup (vs bins : list Z) (k : Z * Z) :
  count_frequency vs bins !! k =
  if decide (bin_count bins k vs = 0%nat) then None else Some (bin_count bins k vs).
Proof. exact (count_frequency_lookup_count vs bins k). Qed.

Lemma bin_count_perm (bins : list Z) (k : Z * Z) (vs vs' : list Z) :
  vs ≡ₚ vs' -> bin_count bins k vs = bin_count bins k vs'.
Proof.
  unfold bin_count. induction 1 as [| v vs vs' _ IH | v v' vs | vs vs' vs'' _ IH1 _ IH2]; simpl.
  - reflexivity.
  - case_bool_decide; simpl; lia.
  - do 2 case_bool_decide; reflexivity.
  - lia.
Qed.

(** The histogram does not depend on the order of the values. *)
#[export] Instance count_frequency_perm : Proper ((≡ₚ) ==> (=) ==> (=)) count_frequency.
Proof.
  intros vs vs' Hp bins ? <-. apply map_eq. intros k.
  rewrite !count_frequency_lookup_count, (bin_count_perm bins k vs vs' Hp). reflexivity.
Qed.

Lemma sum_list_with_ext {A} (f g : A -> nat) (l : list A) :
  (forall x, f x = g x) -> sum_list_with f l = sum_list_with g l.
Proof. intros H. induction l as [|x l IH]; simpl; [reflexivity|]. rewrite H, IH. reflexivity. Qed.

Lemma sum_list_with_plus {A} (f g : A -> nat) (l : list A) :
  sum_list_with (fun x => f x + g x)%nat l = (sum_list_with f l + sum_list_with g l)%nat.
Proof. induction l as [|x l IH]; simpl; lia. Qed.

Lemma sum_indicator_absent (p0 : Z * Z) (P : list (Z * Z)) :
  p0 ∉ P -> sum_list_with (fun p => if bool_decide (Some p0 = Some p) then 1%nat else 0%nat) P = 0%nat.
Proof.
  induction P as [|p P IH]; intros Hn; [reflexivity|]. simpl.
  rewrite IH by set_solver. case_bool_decide as E; [injection E as ->; set_solver | reflexivity].
Qed.

Lemma sum_indicator_one (p0 : Z * Z) (P : list (Z * Z)) :
  NoDup P -> p0 ∈ P ->
  sum_list_with (fun p => if bool_decide (Some p0 = Some p) then 1%nat else 0%nat) P = 1%nat.
Proof.
  induction 1 as [|p P Hn Hnd IH]; intros Hin; [set_solver|]. simpl.
  case_bool_decide as E.
  - injection E as <-. rewrite sum_indicator_absent by exact Hn. reflexivity.
  - rewrite IH; [reflexivity|]. apply elem_of_cons in Hin as [->|]; [congruence|assumption].
Qed.

(** Counting over a duplicate-free list of bins that contains the bin of
    every value counts every value once. *)
Lemma bin_count_sum (bins : list Z) (P : list (Z * Z)) (vs : list Z) :
  NoDup P -> (forall v, In v vs -> exists p, bin_of bins v = Some p /\ p ∈ P) ->
  sum_list_with (fun k => bin_count bins k vs) P = length vs.
Proof.
  intros Hnd. induction vs as [|v vs IH]; intros Hall.
  - clear. induction P as [|p P IH]; [reflexivity|]. simpl. rewrite IH. reflexivity.
  - unfold bin_count in *. simpl.
    rewrite (sum_list_with_ext _ (fun k => (if bool_decide (bin_of bins v = Some k) then 1 else 0)
      + length (List.filter (fun v => bool_decide (bin_of bins v = Some k)) vs))%nat)
      by (intros k; case_bool_decide; reflexivity).
    destruct (Hall v (or_introl eq_refl)) as (p0 & Hp0 & Hin).
    rewrite sum_list_with_plus.
    rewrite IH by (intros; apply Hall; right; assumption). rewrite Hp0, sum_indicator_one; auto.
Qed.

Lemma find_bin_adjacent (bins : list Z) (v : Z) (p : Z * Z) :
  find_bin bins v = Some p -> In p (adjacent bins).
Proof.
  induction bins as [|a rest IH]; [discriminate|]. destruct rest as [|b rest]; [discriminate|].
  change (find_bin (a :: b :: rest) v) with
    (if (a <=? v) && (v <? b) then Some (a, b) else find_bin (b :: rest) v).
  change (adjacent (a :: b :: rest)) with ((a, b) :: adjacent (b :: rest)).
  destruct ((a <=? v) && (v <? b)); [intros [= <-]; left; reflexivity | intros H; right; auto].
Qed.

Lemma bin_of_found (bins : list Z) (v : Z) (p : Z * Z) :
  find_bin bins v = Some p -> bin_of bins v = Some p.
Proof. unfold bin_of. intros ->. reflexivity. Qed.

Lemma count_frequency_sum (vs : list Z) (w : Z) (bins : list Z) :
  0 < w -> create_bins vs w = PyOk bins ->
  sum_list_with (fun k => default 0%nat (count_frequency vs bins !! k)) (adjacent bins) = length vs.
Proof.
  intros Hw Hc. destruct vs as [|x r] eqn:Evs; [injection Hc as <-; reflexivity|]. rewrite <- Evs in *.
  rewrite (sum_list_with_ext _ (fun k => bin_count bins k vs))
    by (intros k; unfold count_frequency; rewrite fold_tally_lookup, lookup_empty; simpl; lia).
  apply bin_count_sum.
  - destruct (create_bins_zseq vs w bins Hw ltac:(congruence) Hc) as (mn & mx & _ & ->).
    apply adjacent_zseq_NoDup, Hw.
  - intros v Hv. destruct (create_bins_grid vs w bins v Hw Hc Hv) as (Hf & _).
    eexists; split; [apply bin_of_found, Hf|]. apply list_elem_of_In, (find_bin_adjacent _ v), Hf.
Qed.

(** C21. No value is lost or counted twice: summed over the bins the
    loop visits, the counts of [count_frequency vs (create_bins vs w)]
    add up to [len(vs)]. *)
Theorem count_frequency_total (vs : list Z) (w : Z) (bins : list Z) :
  0 < w -> create_bins vs w = PyOk bins ->
  sum_list_with (fun k => default 0%nat (count_frequency vs bins !! k)) (adjacent bins) = length vs.
Proof. exact (count_frequency_sum vs w bins). Qed.

Lemma count_frequency_v0_from_found (vs bins : list Z) (freq : gmap (Z * Z) nat) :
  (forall v, In v vs -> find_bin bins v <> None) ->
  count_frequency_v0_from vs bins freq = PyOk (fold_left (tally bins) vs freq).
Proof.
  revert freq. induction vs as [|v vs IH]; intros freq Hf; [reflexivity|]. simpl.
  unfold bin_of_v0, tally, bin_of.
  destruct (find_bin bins v) as [k|] eqn:E; [|exfalso; exact (Hf v (or_introl eq_refl) E)].
  apply IH. intros u Hu. apply Hf. right. exact Hu.
Qed.

(** C22. On the bins [create_bins] makes, the variant of
    [src/math/getdata.py] (fallback [step >= bins[-1]], no length check)
    raises nothing and builds the same table as [src/getdata.py]. *)
Theorem count_frequency_variants_agree (vs : list Z) (w : Z) (bins : list Z) :
  0 < w -> create_bins vs w = PyOk bins ->
  count_frequency_v0 vs bins = PyOk (count_frequency vs bins).
Proof.
  intros Hw Hc. apply count_frequency_v0_from_found. intros v Hv.
  destruct (create_bins_grid vs w bins v Hw Hc Hv) as (-> & _). discriminate.
Qed.

(** ** Witnesses and the example of the contract *)

Definition sample_steps : list Z := [3; 7; 12; 15].

Lemma create_bins_cover_witness :
  create_bins sample_steps 5 = PyOk [0; 5; 10; 15; 20] /\
  find_bin [0; 5; 10; 15; 20] 15 = Some (15, 20) /\ last [0; 5; 10; 15; 20] = Some 20.
Proof.
  assert (Hc : create_bins sample_steps 5 = PyOk [0; 5; 10; 15; 20]) by reflexivity.
  destruct (create_bins_cover sample_steps 5 _ 15 ltac:(lia) Hc ltac:(simpl; tauto))
    as (Hf & _ & _).
  exact (conj Hc (conj Hf eq_refl)).
Defined.

Lemma count_frequency_total_witness :
  create_bins sample_steps 5 = PyOk [0; 5; 10; 15; 20] /\
  sum_list_with (fun k => default 0%nat (count_frequency sample_steps [0; 5; 10; 15; 20] !! k))
    (adjacent [0; 5; 10; 15; 20]) = 4%nat.
Proof.
  assert (Hc : create_bins sample_steps 5 = PyOk [0; 5; 10; 15; 20]) by reflexivity.
  exact (conj Hc (count_frequency_total sample_steps 5 _ ltac:(lia) Hc)).
Defined.

Lemma count_frequency_variants_agree_witness :
  create_bins sample_steps 5 = PyOk [0; 5; 10; 15; 20] /\
  count_frequency_v0 sample_steps [0; 5; 10; 15; 20] =
    PyOk (count_frequency sample_steps [0; 5; 10; 15; 20]).
Proof.
  assert (Hc : create_bins sample_steps 5 = PyOk [0; 5; 10; 15; 20]) by reflexivity.
  exact (conj Hc (count_frequency_variants_agree sample_steps 5 _ ltac:(lia) Hc)).
Defined.
