(* ===== verification/Stats.v ===== *)
(** * The statistics and listings the analysis scripts print

    [analyze_and_plot] of [src/completion_tokens_analysis.py] (lines
    226-256) prints the minimum, maximum, [np.mean] and [np.median] of
    the token list, builds the bins of width 50 and the frequency table
    ([Binning.v]), and lists the ten most frequent bins:
    [sorted(frequency.keys())], then the stable [sort(key=count,
    reverse=True)], then the first ten, each with its percentage of the
    list.  [main] of [src/getdata.py] (lines 246-251) lists every bin of
    its table in [sorted] order with its percentage.

    Python's [sorted] and [list.sort] are stable: [sort_by] is a stable
    insertion sort, [lt a b] the comparison of the sort keys.  The dict
    of the table is the [gmap] of [Binning.v]; its keys are listed from
    [map_to_list], whose order differs from the dict's insertion order,
    but [sorted] of distinct keys does not depend on the order it is
    given.  [np.mean] and [np.median] of an empty list give [nan]; the
    scripts only call them on non-empty lists, and the model gives
    [None] there. *)

From stdpp Require Import gmap.
From Stdlib Require Import ZArith QArith Sorted Lia Lqa.
From S2P Require Import Prelude Binning.
Local Open Scope py_scope.
Local Open Scope Z_scope.

(** ** Stable sorting *)

(** Insert [x] before the first element that is not smaller: [x] goes
    before the equal elements that follow it in the input. *)
Fixpoint insert_by {A} (lt : A -> A -> bool) (x : A) (l : list A) : list A :=
  match l with
  | [] => [x]
  | y :: l' => if lt y x then y :: insert_by lt x l' else x :: l
  end.

(** [sorted(l)] with the comparison [lt] of the keys. *)
Definition sort_by {A} (lt : A -> A -> bool) (l : list A) : list A :=
  fold_right (insert_by lt) [] l.

(** Tuples compare lexicographically. *)
Definition tuple_lt (a b : Z * Z) : bool :=
  (a.1 <? b.1) || ((a.1 =? b.1) && (a.2 <? b.2)).

(** [sorted(frequency.keys())]. *)
Definition sorted_keys (freq : gmap (Z * Z) nat) : list (Z * Z) :=
  sort_by tuple_lt (map fst (map_to_list freq)).

(** [[(bin_range, frequency[bin_range]) for bin_range in sorted_bins]]
    ([completion_tokens_analysis.py] 250-251; the loop of [getdata.py]
    247-249 reads the same pairs). *)
Definition sorted_frequency (freq : gmap (Z * Z) nat) : list ((Z * Z) * nat) :=
  map (fun k => (k, default 0%nat (freq !! k))) (sorted_keys freq).

(** [key=lambda x: x[1], reverse=True]: [a] goes first when its count is
    larger; equal counts keep their order. *)
Definition count_desc (a b : (Z * Z) * nat) : bool := (b.2 <? a.2)%nat.

(** Lines 252-254: [sorted_frequency.sort(...)] and [[:10]]. *)
Definition top_bins (freq : gmap (Z * Z) nat) : list ((Z * Z) * nat) :=
  firstn 10 (sort_by count_desc (sorted_frequency freq)).

(** [(count / len(l)) * 100] (line 255, and [getdata.py] 250). *)
Definition percentage (count : nat) (n : nat) : py_result Q :=
  let? p := py_div_Z (Z.of_nat count) (Z.of_nat n) in PyOk (p * 100)%Q.

Fixpoint py_map_result {A B} (f : A -> py_result B) (l : list A) : py_result (list B) :=
  match l with
  | [] => PyOk []
  | x :: l' => let? y := f x in let? ys := py_map_result f l' in PyOk (y :: ys)
  end.

(** The lines printed for a listing of bins, for a list of [n] values. *)
Definition bin_lines (listing : list ((Z * Z) * nat)) (n : nat)
  : py_result (list ((Z * Z) * nat * Q)) :=
  py_map_result (fun e => let? p := percentage e.2 n in PyOk (e, p)) listing.

(** ** [np.mean] and [np.median] *)

Definition np_mean (l : list Z) : option Q :=
  match l with
  | [] => None
  | _ => Some (inject_Z (sum_Z l) / inject_Z (Z.of_nat (length l)))%Q
  end.

(** The middle element of the sorted list, or the mean of the two
    middle ones for an even length. *)
Definition np_median (l : list Z) : option Q :=
  let s := sort_by Z.ltb l in
  let n := length s in
  match s with
  | [] => None
  | _ =>
      if Nat.odd n then Some (inject_Z (nth (n / 2) s 0))
      else Some ((inject_Z (nth (n / 2 - 1) s 0%Z) + inject_Z (nth (n / 2) s 0%Z)) / 2)%Q
  end.

(** ** Sorting lemmas *)

Lemma StronglySorted_app_inv {A} (R : A -> A -> Prop) l1 l2 :
  StronglySorted R (l1 ++ l2) ->
  StronglySorted R l1 /\ StronglySorted R l2 /\ Forall (fun x => Forall (R x) l2) l1.
Proof.
  induction l1 as [|x l1 IH]; simpl; intros H; [repeat constructor; assumption|].
  inversion H as [|? ? Hs Hx]; subst. destruct (IH Hs) as (H1 & H2 & H3).
  apply Forall_app in Hx as [Hx1 Hx2].
  split; [constructor; assumption|]. split; [exact H2|]. constructor; assumption.
Qed.

Lemma NoDup_StronglySorted_neq {A} (l : list A) : NoDup l -> StronglySorted (fun a b => a <> b) l.
Proof.
  induction 1 as [|x l Hx Hl IH]; constructor; [exact IH|].
  apply Forall_forall. intros y Hy ->. exact (Hx Hy).
Qed.

Section Sorting.

Context {A : Type}.
Variable lt : A -> A -> bool.

Lemma insert_by_perm x l : insert_by lt x l ≡ₚ x :: l.
Proof.
  induction l as [|y l IH]; simpl; [reflexivity|].
  destruct (lt y x); [|reflexivity]. rewrite IH. apply perm_swap.
Qed.

Lemma sort_by_perm l : sort_by lt l ≡ₚ l.
Proof.
  induction l as [|x l IH]; [reflexivity|].
  change (insert_by lt x (sort_by lt l) ≡ₚ x :: l). rewrite insert_by_perm, IH. reflexivity.
Qed.

(** [sort_by] sorts by [R] the elements of a list ordered by [Q], when
    [lt] decides [R] on the pairs that [Q] orders. *)
Variables R Q : A -> A -> Prop.
Hypothesis R_trans : forall a b c, R a b -> R b c -> R a c.
Hypothesis HQ : forall x y, Q x y -> (lt y x = true -> R y x) /\ (lt y x = false -> R x y).

Lemma insert_by_sorted x l :
  Forall (Q x) l -> StronglySorted R l -> StronglySorted R (insert_by lt x l).
Proof.
  induction l as [|y l IH]; intros Hq Hs; simpl; [repeat constructor|].
  inversion Hq as [|? ? Hxy Hq']; subst. inversion Hs as [|? ? Hs' Hy]; subst.
  destruct (HQ x y Hxy) as [H1 H2]. destruct (lt y x) eqn:E.
  - constructor; [apply IH; assumption|].
    rewrite (insert_by_perm x l). constructor; [apply H1; reflexivity|exact Hy].
  - constructor; [constructor; assumption|].
    constructor; [apply H2; reflexivity|].
    eapply Forall_impl; [exact Hy|]. intros z Hz. apply R_trans with y; [apply H2; reflexivity|exact Hz].
Qed.

Lemma sort_by_sorted l : StronglySorted Q l -> StronglySorted R (sort_by lt l).
Proof.
  induction 1 as [|x l Hl IH Hx]; [constructor|].
  apply insert_by_sorted; [|exact IH].
  rewrite (sort_by_perm l). exact Hx.
Qed.

End Sorting.

(** ** The listings of the frequency table *)

Definition tuple_ltP (a b : Z * Z) : Prop := tuple_lt a b = true.

Lemma tuple_lt_trans a b c : tuple_ltP a b -> tuple_ltP b c -> tuple_ltP a c.
Proof.
  unfold tuple_ltP, tuple_lt. destruct a as [a1 a2], b as [b1 b2], c as [c1 c2]; simpl.
  rewrite !Bool.orb_true_iff, !Bool.andb_true_iff, !Z.ltb_lt, !Z.eqb_eq. lia.
Qed.

Lemma tuple_lt_total a b :
  a <> b -> (tuple_lt b a = true -> tuple_ltP b a) /\ (tuple_lt b a = false -> tuple_ltP a b).
Proof.
  unfold tuple_ltP, tuple_lt. destruct a as [a1 a2], b as [b1 b2]; simpl. intros Hne.
  split; [tauto|]. rewrite !Bool.orb_false_iff, !Bool.andb_false_iff, !Z.ltb_ge, !Z.eqb_neq,
    Bool.orb_true_iff, Bool.andb_true_iff, Z.ltb_lt, Z.eqb_eq, Z.ltb_lt.
  intros [H1 [H2|H2]]; [lia|]. destruct (Z.eq_dec a1 b1); [subst|lia].
  right. split; [reflexivity|]. assert (a2 <> b2) by congruence. lia.
Qed.

(** [sorted(frequency.keys())] lists every key once, in increasing order. *)
Lemma sorted_keys_spec freq :
  sorted_keys freq ≡ₚ map fst (map_to_list freq) /\ StronglySorted tuple_ltP (sorted_keys freq).
Proof.
  split; [apply sort_by_perm|].
  apply (sort_by_sorted _ _ (fun a b => a <> b)); [exact tuple_lt_trans| |].
  - intros x y Hxy. apply tuple_lt_total. congruence.
  - apply NoDup_StronglySorted_neq, NoDup_fst_map_to_list.
Qed.

Lemma sorted_frequency_lookup freq k c :
  In (k, c) (sorted_frequency freq) <-> freq !! k = Some c.
Proof.
  unfold sorted_frequency. rewrite in_map_iff. split.
  - intros (k' & [= -> <-] & Hin). apply list_elem_of_In in Hin.
    rewrite (proj1 (sorted_keys_spec freq)) in Hin.
    apply list_elem_of_fmap in Hin as ([k'' c'] & -> & Hin). apply elem_of_map_to_list in Hin.
    simpl. rewrite Hin. reflexivity.
  - intros Hk. exists k. rewrite Hk. split; [reflexivity|]. apply list_elem_of_In.
    rewrite (proj1 (sorted_keys_spec freq)). apply list_elem_of_fmap.
    exists (k, c). split; [reflexivity|]. apply elem_of_map_to_list, Hk.
Qed.

(** The order of the listing: more frequent bins first, equal counts in
    increasing bin order. *)
Definition listing_order (a b : (Z * Z) * nat) : Prop :=
  (b.2 < a.2)%nat \/ (a.2 = b.2 /\ tuple_ltP a.1 b.1).

Lemma listing_order_trans a b c : listing_order a b -> listing_order b c -> listing_order a c.
Proof.
  unfold listing_order. intros [H1|[H1 H2]] [H3|[H3 H4]]; try (left; lia).
  right. split; [congruence|]. eapply tuple_lt_trans; eassumption.
Qed.

Lemma sorted_frequency_key_sorted freq :
  StronglySorted (fun a b => tuple_ltP a.1 b.1) (sorted_frequency freq).
Proof.
  unfold sorted_frequency. generalize (proj2 (sorted_keys_spec freq)).
  induction 1 as [|k l Hl IH Hk]; simpl; constructor; [exact IH|].
  apply Forall_fmap. eapply Forall_impl; [exact Hk|]. intros k' H. exact H.
Qed.

Lemma sort_count_desc_spec freq :
  let s := sort_by count_desc (sorted_frequency freq) in
  s ≡ₚ sorted_frequency freq /\ StronglySorted listing_order s.
Proof.
  split; [apply sort_by_perm|].
  apply (sort_by_sorted _ _ (fun a b => tuple_ltP a.1 b.1));
    [exact listing_order_trans| |apply sorted_frequency_key_sorted].
  intros x y Hxy. unfold count_desc, listing_order. rewrite Nat.ltb_lt, Nat.ltb_ge.
  split; [left; lia|]. intros Hle. destruct (Nat.eq_dec x.2 y.2); [right; split; assumption|left; lia].
Qed.

Lemma sorted_frequency_length freq : length (sorted_frequency freq) = size freq.
Proof.
  unfold sorted_frequency. rewrite length_map, (Permutation_length (proj1 (sorted_keys_spec freq))).
  rewrite length_map. apply length_map_to_list.
Qed.

Lemma sorted_frequency_NoDup freq : NoDup (map fst (sorted_frequency freq)).
Proof.
  unfold sorted_frequency. rewrite map_map. simpl. rewrite map_id.
  rewrite (proj1 (sorted_keys_spec freq)). apply NoDup_fst_map_to_list.
Qed.

(** C23. The listing of [analyze_and_plot] ([src/completion_tokens_analysis.py]
    249-256) shows the ten most frequent bins: it has [min(10, n)] lines
    for a table of [n] bins, each a bin of the table with its count and
    no bin twice; the lines go by decreasing count and, for equal
    counts, by increasing bin; and a bin left out has a count at most
    that of every bin shown. *)
Theorem top_bins_spec (freq : gmap (Z * Z) nat) :
  let t := top_bins freq in
  length t = Nat.min 10 (size freq) /\
  (forall k c, In (k, c) t -> freq !! k = Some c) /\
  NoDup (map fst t) /\
  StronglySorted listing_order t /\
  (forall k c, freq !! k = Some c -> ~ In k (map fst t) -> Forall (fun e => (c <= e.2)%nat) t).
Proof.
  destruct (sort_count_desc_spec freq) as [Hp Hs]. cbv zeta. unfold top_bins.
  set (s := sort_by count_desc (sorted_frequency freq)) in *.
  pose proof (firstn_skipn 10 s) as Hsplit.
  set (t := firstn 10 s) in *. set (d := skipn 10 s) in *.
  rewrite <- Hsplit in Hs, Hp.
  destruct (StronglySorted_app_inv _ t d Hs) as (Hs1 & _ & Hcross).
  assert (Hin : forall e, In e (t ++ d) <-> In e (sorted_frequency freq))
    by (intros e; split; apply Permutation_in; [exact Hp|symmetry; exact Hp]).
  split; [|split; [|split; [|split]]].
  - unfold t. rewrite length_firstn, <- sorted_frequency_length, <- (Permutation_length Hp), Hsplit.
    reflexivity.
  - intros k c H. apply sorted_frequency_lookup, Hin, in_or_app. left. exact H.
  - pose proof (sorted_frequency_NoDup freq) as Hnd.
    rewrite <- (Permutation_map fst Hp), map_app in Hnd. exact (proj1 (proj1 (NoDup_app _ _) Hnd)).
  - exact Hs1.
  - intros k c Hk Hnot. apply sorted_frequency_lookup, Hin, in_app_or in Hk as [Ht|Hd].
    + exfalso. apply Hnot. apply in_map_iff. exists (k, c). split; [reflexivity|exact Ht].
    + apply Forall_forall. intros e He. rewrite Forall_forall in Hcross.
      specialize (Hcross e He). rewrite Forall_forall in Hcross.
      apply list_elem_of_In in Hd. destruct (Hcross (k, c) Hd) as [H|[H _]]; simpl in *; lia.
Qed.

(** Eleven bins of distinct counts: the bin [(50, 55)] of count 1 is
    the one left out. *)
Definition eleven_bins : gmap (Z * Z) nat :=
  list_to_map (map (fun i => ((5 * i, 5 * i + 5), Z.to_nat (11 - i))) (zseq 0 1 11)).

Lemma top_bins_spec_witness :
  eleven_bins !! (50, 55) = Some 1%nat /\ ~ In (50, 55) (map fst (top_bins eleven_bins)) /\
  Forall (fun e => (1 <= e.2)%nat) (top_bins eleven_bins).
Proof.
  assert (Hk : eleven_bins !! (50, 55) = Some 1%nat) by (vm_compute; reflexivity).
  assert (Hn : not (In (50, 55) (map fst (top_bins eleven_bins)))).
  { intros H. vm_compute in H. repeat (destruct H as [H|H]; [discriminate H|]). exact H. }
  split; [exact Hk|split; [exact Hn|]].
  pose proof (top_bins_spec eleven_bins) as H. cbv zeta in H.
  exact (proj2 (proj2 (proj2 (proj2 H))) _ _ Hk Hn).
Defined.

(** ** The printed statistics lie between the minimum and the maximum *)

Lemma py_min_max_In l mn mx x :
  py_min l = PyOk mn -> py_max l = PyOk mx -> In x l -> mn <= x <= mx.
Proof.
  destruct l as [|y r]; [discriminate|]. simpl. intros [= <-] [= <-] Hx.
  split; [apply fold_min_In|apply fold_max_In]; exact Hx.
Qed.

Lemma sum_Z_between l mn mx :
  (forall x, In x l -> mn <= x <= mx) ->
  mn * Z.of_nat (length l) <= sum_Z l <= mx * Z.of_nat (length l).
Proof.
  induction l as [|x l IH]; intros H; simpl; [lia|].
  pose proof (H x (or_introl eq_refl)). pose proof (IH (fun y Hy => H y (or_intror Hy))). lia.
Qed.

(** [np.mean] of a non-empty list lies between its [min] and [max]. *)
Lemma np_mean_bounds l mn mx m :
  py_min l = PyOk mn -> py_max l = PyOk mx -> np_mean l = Some m ->
  (inject_Z mn <= m <= inject_Z mx)%Q.
Proof.
  intros Hmn Hmx Hm. unfold np_mean in Hm. destruct l as [|y r] eqn:El; [discriminate|].
  injection Hm as <-.
  pose proof (sum_Z_between (y :: r) mn mx (fun x Hx => py_min_max_In _ mn mx x Hmn Hmx Hx))
    as [H1 H2].
  cbn [length] in *.
  assert (Hq : (0 < inject_Z (Z.of_nat (S (length r))))%Q) by (unfold Qlt; simpl; lia).
  split.
  - apply Qle_shift_div_l; [exact Hq|]. rewrite <- inject_Z_mult, <- Zle_Qle. exact H1.
  - apply Qle_shift_div_r; [exact Hq|]. rewrite <- inject_Z_mult, <- Zle_Qle. exact H2.
Qed.

(** [np.median] of a non-empty list lies between its [min] and [max]. *)
Lemma np_median_bounds l mn mx m :
  py_min l = PyOk mn -> py_max l = PyOk mx -> np_median l = Some m ->
  (inject_Z mn <= m <= inject_Z mx)%Q.
Proof.
  intros Hmn Hmx. unfold np_median.
  set (s := sort_by Z.ltb l).
  assert (Hs : forall i, (i < length s)%nat -> mn <= nth i s 0 <= mx).
  { intros i Hi. apply (py_min_max_In l mn mx); [exact Hmn|exact Hmx|].
    apply (Permutation_in _ (sort_by_perm Z.ltb l)), nth_In, Hi. }
  assert (Hq : forall i, (i < length s)%nat ->
                 (inject_Z mn <= inject_Z (nth i s 0%Z) <= inject_Z mx)%Q)
    by (intros i Hi; rewrite <- !Zle_Qle; apply Hs, Hi).
  destruct s as [|x r] eqn:Es; [discriminate|]. rewrite <- Es in *.
  assert (Hlen : (0 < length s)%nat) by (rewrite Es; simpl; lia).
  assert (Hev2 : (length s / 2 < length s)%nat) by (apply Nat.div_lt; lia).
  assert (Hev : (length s / 2 - 1 < length s)%nat) by lia.
  destruct (Hq _ Hev), (Hq _ Hev2). set (h := (length s / 2)%nat) in *.
  destruct (Nat.odd (length s)); intros [= <-]; [split; assumption|split].
  - apply Qle_shift_div_l; [reflexivity|lra].
  - apply Qle_shift_div_r; [reflexivity|lra].
Qed.

(** ** The counts of the table add up to the values binned *)

(** The sum of the counts of a table. *)
Definition map_sum (freq : gmap (Z * Z) nat) : nat := sum_list_with snd (map_to_list freq).

(** The values the loop of [count_frequency] puts in a bin. *)
Definition has_bin (bins : list Z) (v : Z) : bool :=
  match bin_of bins v with Some _ => true | None => false end.

Lemma map_sum_incr k freq : map_sum (incr k freq) = S (map_sum freq).
Proof.
  unfold map_sum, incr. destruct (freq !! k) as [c|] eqn:E; simpl.
  - rewrite <- insert_delete_eq, map_to_list_insert by apply lookup_delete_eq.
    rewrite <- (map_to_list_delete freq k c E). simpl. lia.
  - rewrite map_to_list_insert by exact E. simpl. lia.
Qed.

Lemma map_sum_tally bins vs freq :
  map_sum (fold_left (tally bins) vs freq) = (map_sum freq + length (List.filter (has_bin bins) vs))%nat.
Proof.
  revert freq. induction vs as [|v vs IH]; intros freq; simpl; [lia|].
  rewrite IH. unfold tally, has_bin. destruct (bin_of bins v); simpl; [rewrite map_sum_incr|]; lia.
Qed.

Lemma sum_list_with_map {A B} (f : B -> nat) (g : A -> B) (l : list A) :
  sum_list_with f (map g l) = sum_list_with (fun x => f (g x)) l.
Proof. induction l as [|x l IH]; simpl; [reflexivity|]. rewrite IH. reflexivity. Qed.

Lemma sum_list_with_ext_In {A} (f g : A -> nat) (l : list A) :
  (forall x, In x l -> f x = g x) -> sum_list_with f l = sum_list_with g l.
Proof.
  induction l as [|x l IH]; intros H; simpl; [reflexivity|].
  rewrite (H x (or_introl eq_refl)), IH by (intros y Hy; apply H; right; exact Hy). reflexivity.
Qed.

(** The listing of [sorted(frequency.keys())] shows all the counts. *)
Lemma sorted_frequency_sum freq : sum_list_with snd (sorted_frequency freq) = map_sum freq.
Proof.
  unfold sorted_frequency, map_sum. rewrite sum_list_with_map. simpl.
  rewrite (proj1 (sorted_keys_spec freq)), sum_list_with_map.
  apply sum_list_with_ext_In. intros [k c] Hin. apply list_elem_of_In, elem_of_map_to_list in Hin.
  simpl. rewrite Hin. reflexivity.
Qed.

(** For a non-empty list, every line of a listing gets its percentage,
    and the percentages add up to the share of the values listed. *)
Lemma bin_lines_sum (listing : list ((Z * Z) * nat)) (n : nat) :
  n <> 0%nat ->
  exists lines, bin_lines listing n = PyOk lines /\ map fst lines = listing /\
    (sum_Q (map snd lines) ==
     inject_Z (Z.of_nat (sum_list_with snd listing)) / inject_Z (Z.of_nat n) * 100)%Q.
Proof.
  intros Hn. assert (Hq : ~ (inject_Z (Z.of_nat n) == 0)%Q) by (apply inject_Z_nonzero; lia).
  unfold bin_lines in *. induction listing as [|e l IH]; cbn [py_map_result].
  - exists []. split; [reflexivity|]. split; [reflexivity|]. simpl. field. exact Hq.
  - destruct IH as (lines & Hl & Hf & Hs).
    rewrite Hl. unfold percentage. rewrite py_div_Z_ok by lia. cbn [py_bind].
    eexists. split; [reflexivity|]. split; [simpl; rewrite Hf; reflexivity|]. simpl.
    rewrite Hs, Nat2Z.inj_add, inject_Z_plus. field. exact Hq.
Qed.

(** On the bins of [create_bins] the table counts every value. *)
Lemma count_frequency_map_sum (vs : list Z) (w : Z) (bins : list Z) :
  0 < w -> create_bins vs w = PyOk bins -> map_sum (count_frequency vs bins) = length vs.
Proof.
  intros Hw Hc. unfold count_frequency. rewrite map_sum_tally.
  replace (map_sum ∅) with 0%nat by (unfold map_sum; rewrite map_to_list_empty; reflexivity). simpl.
  assert (Hall : forall v, In v vs -> has_bin bins v = true).
  { intros v Hv. unfold has_bin.
    rewrite (bin_of_found _ _ _ (proj1 (create_bins_grid vs w bins v Hw Hc Hv))). reflexivity. }
  clear Hc. induction vs as [|v vs IH]; simpl; [reflexivity|].
  rewrite (Hall v (or_introl eq_refl)). simpl. f_equal. apply IH.
  intros x Hx. apply Hall. right. exact Hx.
Qed.

Lemma np_median_some (l : list Z) : l <> [] -> exists md, np_median l = Some md.
Proof.
  intros Hl. unfold np_median.
  destruct (sort_by Z.ltb l) as [|x r] eqn:E.
  - exfalso. apply Hl. apply Permutation_nil. rewrite <- E. apply sort_by_perm.
  - destruct (Nat.odd (length (x :: r))); eexists; reflexivity.
Qed.
