(* ===== verification/Interactive.v ===== *)
(** * The interactive loops of [src/math/test1 copy.py] and [src/math/test1 copy 2.py]

    Both scripts call the endpoint through [_request_llm_for_trans]
    (modelled as [request_llm_for_trans]: the HTTP steps of
    [_get_response], returning the stripped content and the completion
    token count) inside a [while True] loop that classifies each
    response in the order [<answer>], [<summary>], [<think>].

    - [Single] is the loop of [test1 copy.py] (lines 52-76) on one fixed
      problem: the check [num_steps >= max_steps] after the [try] stops
      it after at most [max_steps] calls.
    - [Batch] is the loop of [test1 copy 2.py] (lines 53-103) over
      [amc_problems[:10]]: there the step limit is an [elif] behind the
      [<summary>] and [<think>] branches, so a model that keeps thinking
      is called for ever.

    A [while True] loop is a [Fixpoint] on fuel: [Running] is the state
    of a loop that has not left the [while] when the fuel is spent.  The
    theorems say when it leaves with enough fuel ([single_terminates])
    and when it never leaves, whatever the fuel ([batch_loop_diverges]). *)

From Stdlib Require Import String List ZArith QArith Lia Lqa.
From S2P Require Import Prelude PyString Response Endpoint Driver Tier.
Import ListNotations.
Local Open Scope py_scope.
Local Open Scope Z_scope.

(** [max_steps = 10] (line 7 of both scripts). *)
Definition max_steps : Z := 10.

(** [_request_llm_for_trans(api_key, base_url, system_prompt, user_prompt)]:
    the request of [_get_response], returning
    [(content.strip(), usage["completion_tokens"])]. *)
Definition request_llm_for_trans (ep : endpoint) (system_prompt user_prompt : string)
  : io (string * Z) :=
  fun w =>
    match get_response ep system_prompt user_prompt w with
    | (PyOk (content, u, _), w') => (PyOk (content, completion_tokens u), w')
    | (PyExc e, w') => (PyExc e, w')
    end.

(** How a run of the [while True] loop ends. *)
Inductive loop_exit : Type :=
| Answered (final_answer : string)
| Unrecognized
| Failed (e : py_exc)
| StepLimit
| Running.

(** The classification of both loops: [Some] exit, or the next prompt
    [response_content.strip() + user_prompt]. *)
Definition classify_step (user_prompt response_content : string) : loop_exit + string :=
  if contains answer_tag response_content then inl (Answered (py_strip response_content))
  else if contains summary_tag response_content then inr (py_strip response_content ++ user_prompt)%string
  else if contains think_tag response_content then inr (py_strip response_content ++ user_prompt)%string
  else inl Unrecognized.

Module Single.

Section Single.

Variable ep : endpoint.
Variable system_prompt user_prompt : string.

(** Lines 53-76: [num_steps += 1], the call, the classification, and
    the step limit checked after the [try] on the paths that continue. *)
Fixpoint single_loop (fuel : nat) (num_steps : Z) (current_prompt : string)
  : io (loop_exit * Z) :=
  match fuel with
  | O => ret (Running, num_steps)
  | S fuel' =>
      let num_steps := num_steps + 1 in
      fun w =>
        match request_llm_for_trans ep system_prompt current_prompt w with
        | (PyExc e, w') => (PyOk (Failed e, num_steps), w')
        | (PyOk (response_content, _), w') =>
            match classify_step user_prompt response_content with
            | inl ex => (PyOk (ex, num_steps), w')
            | inr next =>
                if max_steps <=? num_steps then (PyOk (StepLimit, num_steps), w')
                else single_loop fuel' num_steps next w'
            end
        end
  end.

(** Lines 51-52: [current_prompt = user_prompt], [num_steps = 0]. *)
Definition run_single (fuel : nat) : io (loop_exit * Z) :=
  single_loop fuel 0 user_prompt.

End Single.

End Single.

Module Batch.

(** The totals of lines 48-50. *)
Record batch_state : Type := mk_batch {
  total_tokens : Z;
  total_cost : Q;
  correct_count : Z
}.

Definition batch_init : batch_state := mk_batch 0 0 0.

(** Lines 69-71: the totals after a call that used [tokens_used]. *)
Definition add_call (st : batch_state) (tokens_used : Z) : batch_state :=
  mk_batch (total_tokens st + tokens_used)
           (total_cost st + inject_Z tokens_used / 1000 * (2 # 1000))%Q
           (correct_count st).

(** Line 93: [final_answer and str(correct_answer) in final_answer]. *)
Definition answer_ok (final_answer : option string) (correct_answer : string) : bool :=
  match final_answer with
  | Some f => negb (String.eqb f EmptyString) && contains correct_answer f
  | None => false
  end.

Section Batch.

Variable ep : endpoint.
Variable system_prompt : string.

(** Lines 61-90, for the problem [user_prompt]: the step limit is only
    tested when the response has none of the three tags. *)
Fixpoint batch_loop (fuel : nat) (user_prompt : string) (st : batch_state)
    (tokennum num_steps : Z) (current_prompt : string) : io (loop_exit * batch_state * Z) :=
  match fuel with
  | O => ret (Running, st, tokennum)
  | S fuel' =>
      let num_steps := num_steps + 1 in
      fun w =>
        match request_llm_for_trans ep system_prompt current_prompt w with
        | (PyExc e, w') => (PyOk (Failed e, st, tokennum), w')
        | (PyOk (response_content, tokens_used), w') =>
            let st := add_call st tokens_used in
            let tokennum := tokennum + tokens_used in
            match classify_step user_prompt response_content with
            | inr next => batch_loop fuel' user_prompt st tokennum num_steps next w'
            | inl Unrecognized =>
                if max_steps <? num_steps then (PyOk (StepLimit, st, tokennum), w')
                else (PyOk (Unrecognized, st, tokennum), w')
            | inl ex => (PyOk (ex, st, tokennum), w')
            end
        end
  end.

(** Lines 54-97 for one problem; [None] when the loop is still running. *)
Definition batch_problem (fuel : nat) (p : problem) (st : batch_state)
  : io (option batch_state) :=
  fun w =>
    match batch_loop fuel (problem_text p) st 0 0 (problem_text p) w with
    | (PyOk (Running, _, _), w') => (PyOk None, w')
    | (PyOk (ex, st', _), w') =>
        let final_answer := match ex with Answered f => Some f | _ => None end in
        (PyOk (Some (if answer_ok final_answer (problem_answer p)
                     then mk_batch (total_tokens st') (total_cost st') (correct_count st' + 1)
                     else st')), w')
    | (PyExc e, w') => (PyExc e, w')
    end.

Fixpoint batch_problems (fuel : nat) (ps : list problem) (st : batch_state)
  : io (option batch_state) :=
  match ps with
  | [] => ret (Some st)
  | p :: ps' =>
      r <- batch_problem fuel p st ;;
      match r with
      | Some st' => batch_problems fuel ps' st'
      | None => ret None
      end
  end.

(** Line 100: [accuracy = correct_count / 100 * 100]. *)
Definition batch_accuracy (st : batch_state) : Q :=
  (inject_Z (correct_count st) / 100 * 100)%Q.

(** Lines 53-103: the loop over [amc_problems[:10]] and the accuracy. *)
Definition run_batch (fuel : nat) (amc_problems : list problem)
  : io (option (batch_state * Q)) :=
  r <- batch_problems fuel (firstn 10 amc_problems) batch_init ;;
  ret (option_map (fun st => (st, batch_accuracy st)) r).

End Batch.

End Batch.

(** ** Properties *)

Lemma classify_step_not_running (up rc : string) : classify_step up rc <> inl Running.
Proof.
  unfold classify_step. destruct (contains answer_tag rc); [discriminate|].
  destruct (contains summary_tag rc); [discriminate|].
  destruct (contains think_tag rc); discriminate.
Qed.

(** A call through [_request_llm_for_trans] spends one unit of the world
    and gives back the reply of the endpoint. *)
Lemma request_llm_for_trans_cases (ep : endpoint) (sys user : string) (w : nat) :
  (exists e, request_llm_for_trans ep sys user w = (PyExc e, S w)) \/
  (exists rc t, request_llm_for_trans ep sys user w = (PyOk (rc, t), S w)).
Proof.
  unfold request_llm_for_trans. pose proof (get_response_world ep sys user w) as Hw.
  destruct (get_response ep sys user w) as [[[[c u] l]|e] w']; simpl in Hw; subst w'.
  - right. eauto.
  - left. eauto.
Qed.

(** The responses of a model that never answers: every call succeeds
    with a content that has no [<answer>] but a [<summary>] or a
    [<think>]. *)
Definition keeps_thinking (ep : endpoint) : Prop :=
  forall n sys user, exists latency content u,
    ep n sys user = HttpReply 200 latency (BodyOk content u) /\
    contains answer_tag (py_strip content) = false /\
    (contains summary_tag (py_strip content) || contains think_tag (py_strip content)) = true.

Lemma keeps_thinking_step (ep : endpoint) (sys user up : string) (w : nat) :
  keeps_thinking ep ->
  exists rc t next, request_llm_for_trans ep sys user w = (PyOk (rc, t), S w) /\
    classify_step up rc = inr next.
Proof.
  intros H. destruct (H w sys user) as (l & c & u & E & Ha & Ht).
  unfold request_llm_for_trans, get_response. rewrite E. simpl.
  exists (py_strip c), (completion_tokens u). unfold classify_step. rewrite Ha.
  destruct (contains summary_tag (py_strip c)); simpl in Ht; [eauto|rewrite Ht; eauto].
Qed.

Lemma single_loop_exits (ep : endpoint) (sys up : string) (fuel : nat) :
  forall k cp w, 0 <= k < max_steps -> (Z.to_nat (max_steps - k) <= fuel)%nat ->
  exists ex n, Single.single_loop ep sys up fuel k cp w = (PyOk (ex, n), (w + Z.to_nat (n - k))%nat) /\
    ex <> Running /\ k < n <= max_steps.
Proof.
  induction fuel as [|fuel IH]; intros k cp w Hk Hf; [unfold max_steps in *; lia|].
  simpl. destruct (request_llm_for_trans_cases ep sys cp w) as [(e & ->)|(rc & t & ->)].
  - exists (Failed e), (k + 1). split; [f_equal; lia|]. split; [discriminate|lia].
  - destruct (classify_step up rc) as [ex|next] eqn:E.
    + exists ex, (k + 1). split; [f_equal; lia|].
      split; [intros ->; exact (classify_step_not_running _ _ E)|lia].
    + destruct (Z.leb_spec max_steps (k + 1)).
      * exists StepLimit, (k + 1). split; [f_equal; lia|]. split; [discriminate|lia].
      * destruct (IH (k + 1) next (S w) ltac:(lia) ltac:(lia)) as (ex & n & -> & Hex & Hn).
        exists ex, n. split; [f_equal; lia|]. split; [exact Hex|lia].
Qed.

(** C24. The loop of [test1 copy.py] leaves the [while True] on every
    endpoint behaviour: with fuel for [max_steps] passes it stops (on an
    answer, an unrecognised response, an exception or the step limit)
    after [n] calls, [1 <= n <= max_steps], and more fuel changes
    nothing. *)
Theorem single_terminates (ep : endpoint) (sys up : string) (fuel w : nat) :
  (Z.to_nat max_steps <= fuel)%nat ->
  exists ex n, Single.run_single ep sys up fuel w = (PyOk (ex, n), (w + Z.to_nat n)%nat) /\
    ex <> Running /\ 1 <= n <= max_steps.
Proof.
  intros Hf. destruct (single_loop_exits ep sys up fuel 0 up w ltac:(unfold max_steps; lia)
                         ltac:(rewrite Z.sub_0_r; exact Hf)) as (ex & n & E & Hex & Hn).
  exists ex, n. unfold Single.run_single. rewrite E, Z.sub_0_r. split; [reflexivity|].
  split; [exact Hex|lia].
Qed.

(** A model whose reasoning mentions 12 and whose answer is 7. *)
Definition reasoning_endpoint : endpoint :=
  fun _ _ _ => HttpReply 200 1
    (BodyOk "<think>x = 12 is wrong</think><answer>7</answer>"%string (mk_usage 10 5 15)).

Definition reasoning_problem : problem := mk_problem "Q" "12".

Definition reasoning_batch : Batch.batch_state :=
  Batch.mk_batch 5 (inject_Z 5 / 1000 * (2 # 1000)) 1.

Lemma single_terminates_witness :
  exists ex n, Single.run_single reasoning_endpoint "S" "Q" 10%nat 0%nat = (PyOk (ex, n), Z.to_nat n) /\
    ex <> Running /\ 1 <= n <= max_steps.
Proof.
  destruct (single_terminates reasoning_endpoint "S" "Q" 10%nat 0%nat ltac:(unfold max_steps; simpl; lia))
    as (ex & n & E & H).
  exists ex, n. exact (conj E H).
Defined.

Lemma single_loop_thinking (ep : endpoint) (sys up : string) (fuel : nat) :
  keeps_thinking ep -> forall k cp w, 0 <= k < max_steps -> (Z.to_nat (max_steps - k) <= fuel)%nat ->
  Single.single_loop ep sys up fuel k cp w = (PyOk (StepLimit, max_steps), (w + Z.to_nat (max_steps - k))%nat).
Proof.
  intros Hep. unfold max_steps.
  induction fuel as [|fuel IH]; intros k cp w Hk Hf; [lia|].
  cbn [Single.single_loop]. destruct (keeps_thinking_step ep sys cp up w Hep) as (rc & t & next & -> & ->).
  unfold max_steps. destruct (Z.leb_spec 10 (k + 1)).
  - replace (k + 1) with 10 by lia. f_equal. lia.
  - rewrite IH by lia. f_equal. lia.
Qed.

Lemma batch_loop_thinking (ep : endpoint) (sys : string) :
  keeps_thinking ep -> forall fuel up st tk ns cp w,
  exists st' tk', Batch.batch_loop ep sys fuel up st tk ns cp w = (PyOk (Running, st', tk'), (fuel + w)%nat).
Proof.
  intros Hep. induction fuel as [|fuel IH]; intros up st tk ns cp w; [eexists _, _; reflexivity|].
  simpl. destruct (keeps_thinking_step ep sys cp up w Hep) as (rc & t & next & -> & ->).
  destruct (IH up (Batch.add_call st t) (tk + t) (ns + 1) next (S w)) as (st' & tk' & ->).
  exists st', tk'. f_equal. lia.
Qed.

(** C25. Liveness of the two loops on a model that never answers: the
    loop of [test1 copy.py] stops at the step limit after exactly
    [max_steps] calls, while the loop of [test1 copy 2.py], whose limit
    is an [elif] behind the [<think>] and [<summary>] branches, is still
    in its [while True] after any number of calls, one per pass. *)
Theorem batch_loop_diverges (ep : endpoint) (sys up : string) :
  keeps_thinking ep ->
  (forall fuel w, (Z.to_nat max_steps <= fuel)%nat ->
     Single.run_single ep sys up fuel w = (PyOk (StepLimit, max_steps), (w + Z.to_nat max_steps)%nat)) /\
  (forall fuel w, exists st' tk',
     Batch.batch_loop ep sys fuel up Batch.batch_init 0 0 up w = (PyOk (Running, st', tk'), (fuel + w)%nat)).
Proof.
  intros Hep. split.
  - intros fuel w Hf. unfold Single.run_single.
    rewrite (single_loop_thinking ep sys up fuel Hep 0 up w) by (unfold max_steps in *; lia).
    reflexivity.
  - intros fuel w. apply batch_loop_thinking, Hep.
Qed.

(** A model that always replies with a [<think>] block. *)
Definition thinking_endpoint : endpoint :=
  fun _ _ _ => HttpReply 200 1 (BodyOk "<think>x</think>"%string (mk_usage 10 5 15)).

Lemma batch_loop_diverges_witness :
  keeps_thinking thinking_endpoint /\
  Single.run_single thinking_endpoint "S"%string "Q"%string 12%nat 0%nat = (PyOk (StepLimit, max_steps), 10%nat).
Proof.
  assert (H : keeps_thinking thinking_endpoint)
    by (intros n sys user; do 3 eexists; split; [reflexivity|split; reflexivity]).
  split; [exact H|].
  exact (proj1 (batch_loop_diverges thinking_endpoint "S"%string "Q"%string H) 12%nat 0%nat
                 ltac:(unfold max_steps; simpl; lia)).
Defined.

Lemma batch_loop_correct (ep : endpoint) (sys : string) (fuel : nat) :
  forall up st tk ns cp w,
  match fst (Batch.batch_loop ep sys fuel up st tk ns cp w) with
  | PyOk (_, st', _) => Batch.correct_count st' = Batch.correct_count st
  | PyExc _ => False
  end.
Proof.
  induction fuel as [|fuel IH]; intros up st tk ns cp w; [reflexivity|]. simpl.
  destruct (request_llm_for_trans_cases ep sys cp w) as [(e & ->)|(rc & t & ->)]; [reflexivity|].
  destruct (classify_step up rc) as [[]|next]; try reflexivity.
  - destruct (max_steps <? ns + 1); reflexivity.
  - apply (IH up (Batch.add_call st t)).
Qed.

Lemma batch_problem_count (ep : endpoint) (sys : string) (fuel : nat) (p : problem)
    (st : Batch.batch_state) (w : nat) :
  match fst (Batch.batch_problem ep sys fuel p st w) with
  | PyOk (Some st') => Batch.correct_count st <= Batch.correct_count st' <= Batch.correct_count st + 1
  | PyOk None => True
  | PyExc _ => False
  end.
Proof.
  unfold Batch.batch_problem.
  pose proof (batch_loop_correct ep sys fuel (problem_text p) st 0 0 (problem_text p) w) as H.
  destruct (Batch.batch_loop ep sys fuel (problem_text p) st 0 0 (problem_text p) w)
    as [[[[ex st'] tk]|e] w']; simpl in *; [|exact H].
  destruct ex; try (destruct (Batch.answer_ok _ _); simpl; lia). exact I.
Qed.

Lemma batch_problems_count (ep : endpoint) (sys : string) (fuel : nat) (ps : list problem) :
  forall st w st' w', Batch.batch_problems ep sys fuel ps st w = (PyOk (Some st'), w') ->
  Batch.correct_count st <= Batch.correct_count st' <= Batch.correct_count st + Z.of_nat (length ps).
Proof.
  induction ps as [|p ps IH]; intros st w st' w' E; simpl in E.
  - injection E as <- _. lia.
  - pose proof (batch_problem_count ep sys fuel p st w) as H. unfold bind in E.
    destruct (Batch.batch_problem ep sys fuel p st w) as [[[s1|]|e] w1]; simpl in H;
      [|discriminate|contradiction].
    apply IH in E. rewrite length_cons, Nat2Z.inj_succ. lia.
Qed.

(** C26. The accuracy printed by [test1 copy 2.py] is [correct_count / 100 * 100]
    over at most ten problems ([amc_problems[:10]]): whenever the run
    finishes, the "percentage" equals the number of correct problems, so
    it never exceeds 10. *)
Theorem batch_accuracy_is_count (ep : endpoint) (sys : string) (fuel : nat) (ps : list problem)
    (st : Batch.batch_state) (acc : Q) (w w' : nat) :
  Batch.run_batch ep sys fuel ps w = (PyOk (Some (st, acc)), w') ->
  (acc == inject_Z (Batch.correct_count st))%Q /\
  0 <= Batch.correct_count st <= Z.min 10 (Z.of_nat (length ps)).
Proof.
  unfold Batch.run_batch, bind, ret.
  destruct (Batch.batch_problems ep sys fuel (firstn 10 ps) Batch.batch_init w) as [[[s|]|e] w1] eqn:E;
    simpl; intros H; try discriminate.
  injection H as <- <- _. apply batch_problems_count in E.
  rewrite length_firstn in E. cbn [Batch.correct_count Batch.batch_init] in E. split.
  - unfold Batch.batch_accuracy. field.
  - lia.
Qed.

Lemma batch_accuracy_is_count_witness :
  Batch.run_batch reasoning_endpoint "S" 1%nat [reasoning_problem] 0%nat =
    (PyOk (Some (reasoning_batch, Batch.batch_accuracy reasoning_batch)), 1%nat) /\
  (Batch.batch_accuracy reasoning_batch == 1)%Q.
Proof.
  assert (H : Batch.run_batch reasoning_endpoint "S" 1%nat [reasoning_problem] 0%nat =
                (PyOk (Some (reasoning_batch, Batch.batch_accuracy reasoning_batch)), 1%nat))
    by reflexivity.
  split; [exact H|].
  exact (proj1 (batch_accuracy_is_count _ _ _ _ _ _ _ _ H)).
Defined.

(** C27. [test1 copy 2.py] tests the expected answer against the whole
    stripped response, not the text of its [<answer>] tag (line 93):
    whenever the first call on a problem returns a response with an
    [<answer>] tag, the problem is done after that call, its tokens are
    added, and it is counted correct exactly when [str(correct_answer)]
    occurs anywhere in the response, reasoning included: a model that
    answers 7 after a reasoning mentioning 12 is counted correct on a
    problem whose answer is 12. *)
Theorem batch_counts_answer_in_reasoning ep sys fuel p st w rc t :
  request_llm_for_trans ep sys (problem_text p) w = (PyOk (rc, t), S w) ->
  contains answer_tag rc = true ->
  exists st', Batch.batch_problem ep sys (S fuel) p st w = (PyOk (Some st'), S w) /\
    Batch.total_tokens st' = Batch.total_tokens st + t /\
    Batch.correct_count st' = Batch.correct_count st +
      (if contains (problem_answer p) (py_strip rc) then 1 else 0).
Proof.
  intros H Ha. unfold Batch.batch_problem. cbn [Batch.batch_loop]. rewrite H.
  unfold classify_step. rewrite Ha. unfold Batch.answer_ok.
  assert (Hs : String.eqb (py_strip rc) "" = false)
    by (apply (py_strip_nonempty answer_tag); [reflexivity|exact Ha]).
  rewrite Hs. simpl. destruct (contains (problem_answer p) (py_strip rc));
    eexists; (split; [reflexivity|]); simpl; lia.
Qed.

Lemma batch_counts_answer_in_reasoning_witness :
  request_llm_for_trans reasoning_endpoint "S" (problem_text reasoning_problem) 0%nat =
    (PyOk ("<think>x = 12 is wrong</think><answer>7</answer>"%string, 5), 1%nat) /\
  contains answer_tag "<think>x = 12 is wrong</think><answer>7</answer>" = true /\
  exists st', Batch.batch_problem reasoning_endpoint "S" 1%nat reasoning_problem Batch.batch_init 0%nat
                = (PyOk (Some st'), 1%nat) /\
    Batch.total_tokens st' = Batch.total_tokens Batch.batch_init + 5 /\
    Batch.correct_count st' = Batch.correct_count Batch.batch_init +
      (if contains (problem_answer reasoning_problem)
                   (py_strip "<think>x = 12 is wrong</think><answer>7</answer>") then 1 else 0).
Proof.
  assert (H : request_llm_for_trans reasoning_endpoint "S" (problem_text reasoning_problem) 0%nat =
                (PyOk ("<think>x = 12 is wrong</think><answer>7</answer>"%string, 5), 1%nat))
    by (vm_compute; reflexivity).
  assert (Ha : contains answer_tag "<think>x = 12 is wrong</think><answer>7</answer>" = true)
    by (vm_compute; reflexivity).
  split; [exact H|split; [exact Ha|]].
  exact (batch_counts_answer_in_reasoning reasoning_endpoint "S" 0%nat reasoning_problem
           Batch.batch_init 0%nat _ _ H Ha).
Defined.
