(* ===== verification/TierV1.v ===== *)
(** * Tier aggregation and run summary of the first script ([src/math/process.py] 164-317)

    [process.py] runs the driver of [DriverV1.v] (default cap 50) on the
    first ten problems of a tier ([problems[:10]]), judges with the
    containment comparator [compare_answers] of [Compare.v], keeps ten
    metrics and derives four averages; [main] (lines 264-317,
    [v1_main]) runs the levels of [range(1, 2)], sums the kept tiers
    ([v1_accumulate]) and derives the overall accuracy and two averages
    with the zero guard ([v1_summary_of]).  Unlike [process3.py], the
    comparison is pure, so nothing can fail between the accounting and
    the detail entry: [processed_problems] is exactly the number of
    entries with a result ([v1_tier_spec]). *)

From Stdlib Require Import String List ZArith QArith Lia Lqa.
From S2P Require Import Prelude PyString Endpoint Driver DriverV1 Compare Tier Summary.
Import ListNotations.
Local Open Scope py_scope.
Local Open Scope Z_scope.

(** The entries of [metrics["problem_details"]] (lines 217-227, 238-241). *)
Inductive v1_detail : Type :=
| V1DetailOk (problem : string) (model_answer : option string) (correct_answer : string)
             (is_correct : bool) (u : usage) (latency cost : Q)
| V1DetailError (problem : string) (error : py_exc).

(** The [metrics] dictionary of lines 178-189. *)
Record v1_metrics : Type := mk_v1_metrics {
  v1_difficulty : Z;
  v1_total_problems : Z;
  v1_total_tokens : Z;
  v1_prompt_tokens : Z;
  v1_completion_tokens : Z;
  v1_total_cost : Q;
  v1_total_latency : Q;
  v1_correct_count : Z;
  v1_processed_problems : Z;
  v1_problem_details : list v1_detail
}.

Definition v1_init_metrics (d : Z) (problems : list problem) : v1_metrics :=
  mk_v1_metrics d (Z.of_nat (length problems)) 0 0 0 0%Q 0%Q 0 0 [].

(** Lines 203-214 and 228: the totals, the verdict and the entry. *)
Definition v1_record (p : problem) (final_answer : option string) (u : usage) (latency cost : Q)
    (m : v1_metrics) : v1_metrics :=
  let is_correct := compare_answers_contains final_answer (Some (problem_answer p)) in
  mk_v1_metrics (v1_difficulty m) (v1_total_problems m)
    (v1_total_tokens m + total_tokens u) (v1_prompt_tokens m + prompt_tokens u)
    (v1_completion_tokens m + completion_tokens u)
    (v1_total_cost m + cost)%Q (v1_total_latency m + latency)%Q
    (if is_correct then v1_correct_count m + 1 else v1_correct_count m)
    (v1_processed_problems m + 1)
    (v1_problem_details m ++
       [V1DetailOk (problem_text p) final_answer (problem_answer p) is_correct u latency cost]).

(** Lines 236-241: the error entry. *)
Definition v1_record_error (p : problem) (e : py_exc) (m : v1_metrics) : v1_metrics :=
  mk_v1_metrics (v1_difficulty m) (v1_total_problems m) (v1_total_tokens m) (v1_prompt_tokens m)
    (v1_completion_tokens m) (v1_total_cost m) (v1_total_latency m) (v1_correct_count m)
    (v1_processed_problems m) (v1_problem_details m ++ [V1DetailError (problem_text p) e]).

(** The default cap of [solve_problem_with_agents] in [process.py] (line 99). *)
Definition v1_max_iterations : Z := 50.

Section TierV1.

Variable ep : endpoint.
Variable sys_prompt : string.

(** One pass of the loop of lines 194-241. *)
Definition v1_process_problem (p : problem) (m : v1_metrics) : io v1_metrics :=
  fun w =>
    match solve_problem_with_agents_v1 ep sys_prompt (problem_text p) v1_max_iterations w with
    | (PyOk (final_answer, u, latency, cost), w1) =>
        (PyOk (v1_record p final_answer u latency cost m), w1)
    | (PyExc e, w1) => (PyOk (v1_record_error p e m), w1)
    end.

Fixpoint v1_process_problems (ps : list problem) (m : v1_metrics) : io v1_metrics :=
  match ps with
  | [] => ret m
  | p :: ps' => m' <- v1_process_problem p m ;; v1_process_problems ps' m'
  end.

End TierV1.

(** The derived values of lines 244-253. *)
Record v1_averages : Type := mk_v1_averages {
  v1_accuracy : Q;
  v1_avg_latency : Q;
  v1_avg_tokens_per_problem : Q;
  v1_avg_cost_per_problem : Q
}.

Definition v1_finalize (m : v1_metrics) : py_result v1_averages :=
  if 0 <? v1_processed_problems m then
    let n := inject_Z (v1_processed_problems m) in
    match py_div_Z (v1_correct_count m) (v1_processed_problems m),
          py_truediv (v1_total_latency m) n,
          py_div_Z (v1_total_tokens m) (v1_processed_problems m),
          py_truediv (v1_total_cost m) n with
    | PyOk acc, PyOk lat, PyOk tok, PyOk co => PyOk (mk_v1_averages (acc * 100) lat tok co)
    | _, _, _, _ => PyExc ZeroDivisionError
    end
  else PyOk (mk_v1_averages 0 0 0 0).

(** [process_difficulty_level(difficulty)] of [process.py] (lines 164-262). *)
Definition v1_process_difficulty_level (ep : endpoint) (sys_prompt : string) (d : Z)
    (file : option (list problem)) : io (option (v1_metrics * v1_averages)) :=
  match file with
  | None => ret None
  | Some questions =>
      let problems := firstn 10 questions in
      m <- v1_process_problems ep sys_prompt problems (v1_init_metrics d problems) ;;
      fun w => match v1_finalize m with
               | PyOk a => (PyOk (Some (m, a)), w)
               | PyExc e => (PyExc e, w)
               end
  end.

(** ** [main] (lines 264-317) *)

Definition v1_results : Type := list (Z * (v1_metrics * v1_averages)).

(** Lines 279-282: the levels of [range(1, 2)], the kept tiers stored in
    [all_results["difficulty_results"]]. *)
Fixpoint v1_run_tiers (ep : endpoint) (sys_prompt : string)
    (levels : list (Z * option (list problem))) (acc : v1_results) : io v1_results :=
  match levels with
  | [] => ret acc
  | (d, file) :: rest =>
      r <- v1_process_difficulty_level ep sys_prompt d file ;;
      v1_run_tiers ep sys_prompt rest
        (match r with Some mt => store_tier d mt acc | None => acc end)
  end.

(** The accumulators of lines 285-292. *)
Record v1_totals : Type := mk_v1_totals {
  vt_total_problems : Z;
  vt_total_processed : Z;
  vt_total_correct : Z;
  vt_total_tokens : Z;
  vt_total_prompt_tokens : Z;
  vt_total_completion_tokens : Z;
  vt_total_cost : Q;
  vt_total_latency : Q
}.

(** One pass of the loop of lines 294-302. *)
Definition v1_add_tier (t : v1_totals) (m : v1_metrics) : v1_totals :=
  mk_v1_totals (vt_total_problems t + v1_total_problems m)
    (vt_total_processed t + v1_processed_problems m)
    (vt_total_correct t + v1_correct_count m)
    (vt_total_tokens t + v1_total_tokens m)
    (vt_total_prompt_tokens t + v1_prompt_tokens m)
    (vt_total_completion_tokens t + v1_completion_tokens m)
    (vt_total_cost t + v1_total_cost m)%Q
    (vt_total_latency t + v1_total_latency m)%Q.

Definition v1_accumulate (tiers : v1_results) : v1_totals :=
  fold_left (fun t e => v1_add_tier t (fst (snd e))) tiers (mk_v1_totals 0 0 0 0 0 0 0 0).

(** The ["summary"] block (lines 305-317). *)
Record v1_summary : Type := mk_v1_summary {
  vs_totals : v1_totals;
  vs_overall_accuracy : Q;
  vs_avg_latency_per_problem : Q;
  vs_avg_cost_per_problem : Q
}.

Definition v1_summary_of (t : v1_totals) : py_result v1_summary :=
  let n := vt_total_processed t in
  match guarded_div (inject_Z (vt_total_correct t)) n, guarded_div (vt_total_latency t) n,
        guarded_div (vt_total_cost t) n with
  | PyOk acc, PyOk lat, PyOk co => PyOk (mk_v1_summary t (acc * 100) lat co)
  | _, _, _ => PyExc ZeroDivisionError
  end.

(** [main] of [process.py] up to the summary block: the loop runs over
    [range(1, 2)], the level 1 only. *)
Definition v1_main (ep : endpoint) (sys_prompt : string) (files : Z -> option (list problem))
  : io (v1_results * v1_summary) :=
  tiers <- v1_run_tiers ep sys_prompt (map (fun d => (d, files d)) [1]) [] ;;
  fun w => match v1_summary_of (v1_accumulate tiers) with
           | PyOk s => (PyOk (tiers, s), w)
           | PyExc e => (PyExc e, w)
           end.

(** ** The tier invariant *)

Definition v1_ok (d : v1_detail) : bool :=
  match d with V1DetailOk _ _ _ _ _ _ _ => true | V1DetailError _ _ => false end.

Definition v1_correct (d : v1_detail) : bool :=
  match d with V1DetailOk _ _ _ c _ _ _ => c | V1DetailError _ _ => false end.

(** [correct_count] and [processed_problems] count the entries marked
    correct and the entries with a result. *)
Definition v1_inv (m : v1_metrics) : Prop :=
  v1_correct_count m = count_if v1_correct (v1_problem_details m) /\
  v1_processed_problems m = count_if v1_ok (v1_problem_details m).

Lemma v1_correct_le_ok ds : count_if v1_correct ds <= count_if v1_ok ds.
Proof.
  unfold count_if. induction ds as [|[] ds IH]; simpl; [lia| |lia].
  destruct is_correct; simpl; lia.
Qed.

Lemma v1_process_problem_inv ep sys p m w :
  v1_inv m ->
  match v1_process_problem ep sys p m w with
  | (PyOk m', _) =>
      v1_inv m' /\ length (v1_problem_details m') = S (length (v1_problem_details m)) /\
      v1_total_problems m' = v1_total_problems m
  | (PyExc _, _) => False
  end.
Proof.
  intros (Hc & Hp). unfold v1_process_problem.
  destruct (solve_problem_with_agents_v1 ep sys (problem_text p) v1_max_iterations w)
    as [[[[[a u] l] c]|e] w1]; unfold v1_inv; simpl; rewrite length_app, !count_if_snoc; simpl.
  - destruct (compare_answers_contains a (Some (problem_answer p))); simpl; repeat split; lia.
  - repeat split; lia.
Qed.

Lemma v1_process_problems_inv ep sys ps m w :
  v1_inv m ->
  match v1_process_problems ep sys ps m w with
  | (PyOk m', _) =>
      v1_inv m' /\ length (v1_problem_details m') = (length (v1_problem_details m) + length ps)%nat /\
      v1_total_problems m' = v1_total_problems m
  | (PyExc _, _) => False
  end.
Proof.
  revert m w. induction ps as [|p ps IH]; intros m w H; simpl; unfold bind, ret.
  - split; [exact H|]. split; lia.
  - pose proof (v1_process_problem_inv ep sys p m w H) as Hs.
    destruct (v1_process_problem ep sys p m w) as [[m1|e] w1]; [|contradiction].
    destruct Hs as (H1 & L1 & T1). specialize (IH m1 w1 H1).
    destruct (v1_process_problems ep sys ps m1 w1) as [[m2|e] w2]; [|contradiction].
    destruct IH as (H2 & L2 & T2). split; [exact H2|]. split; lia.
Qed.

Lemma v1_finalize_spec m :
  0 <= v1_correct_count m <= v1_processed_problems m ->
  exists a, v1_finalize m = PyOk a /\ (0 <= v1_accuracy a <= 100)%Q.
Proof.
  intros Hc. unfold v1_finalize. destruct (Z.ltb_spec 0 (v1_processed_problems m)).
  - rewrite !py_div_Z_ok by lia. rewrite !py_truediv_ok by (apply inject_Z_nonzero; lia).
    eexists. split; [reflexivity|]. apply percent_bounds; lia.
  - eexists. split; [reflexivity|]. simpl. lra.
Qed.

Lemma v1_tier_spec ep sys d file w :
  match v1_process_difficulty_level ep sys d file w with
  | (PyOk None, _) => file = None
  | (PyOk (Some (m, a)), _) =>
      exists qs, file = Some qs /\
      v1_total_problems m = Z.min 10 (Z.of_nat (length qs)) /\
      Z.of_nat (length (v1_problem_details m)) = v1_total_problems m /\
      v1_processed_problems m = count_if v1_ok (v1_problem_details m) /\
      v1_correct_count m = count_if v1_correct (v1_problem_details m) /\
      v1_correct_count m <= v1_processed_problems m /\
      (0 <= v1_accuracy a <= 100)%Q
  | (PyExc _, _) => False
  end.
Proof.
  destruct file as [qs|]; [|reflexivity]. unfold v1_process_difficulty_level, bind.
  assert (H0 : v1_inv (v1_init_metrics d (firstn 10 qs))) by (split; reflexivity).
  pose proof (v1_process_problems_inv ep sys (firstn 10 qs) _ w H0) as H.
  destruct (v1_process_problems ep sys (firstn 10 qs) (v1_init_metrics d (firstn 10 qs)) w)
    as [[m|e] w']; [|contradiction].
  destruct H as ((Hc & Hp) & L & T). cbn [v1_init_metrics v1_problem_details v1_total_problems length] in L, T.
  pose proof (v1_correct_le_ok (v1_problem_details m)).
  pose proof (count_if_bounds v1_correct (v1_problem_details m)).
  destruct (v1_finalize_spec m ltac:(lia)) as (a & -> & Ha).
  exists qs. rewrite length_firstn in L, T. split; [reflexivity|]. do 5 (split; [lia|]). exact Ha.
Qed.

(** C28. [process_difficulty_level] of [process.py] never raises and,
    on a data file, processes its first ten problems only: one entry per
    problem, [processed_problems] equal to the number of entries with a
    result (no failure can occur between the totals and the entry),
    [correct_count] equal to the entries the containment comparator
    accepted, and an accuracy between 0 and 100. *)
Theorem v1_tier_counts ep sys d file w :
  match v1_process_difficulty_level ep sys d file w with
  | (PyOk None, _) => file = None
  | (PyOk (Some (m, a)), _) =>
      exists qs, file = Some qs /\
      v1_total_problems m = Z.min 10 (Z.of_nat (length qs)) /\
      Z.of_nat (length (v1_problem_details m)) = v1_total_problems m /\
      v1_processed_problems m = count_if v1_ok (v1_problem_details m) /\
      v1_correct_count m = count_if v1_correct (v1_problem_details m) /\
      v1_correct_count m <= v1_processed_problems m /\
      (0 <= v1_accuracy a <= 100)%Q
  | (PyExc _, _) => False
  end.
Proof. exact (v1_tier_spec ep sys d file w). Qed.

Lemma v1_summary_of_spec t :
  0 <= vt_total_correct t <= vt_total_processed t ->
  exists s, v1_summary_of t = PyOk s /\ vs_totals s = t /\ (0 <= vs_overall_accuracy s <= 100)%Q.
Proof.
  intros Hc. unfold v1_summary_of, guarded_div.
  destruct (Z.ltb_spec 0 (vt_total_processed t)) as [Hp|Hp].
  - rewrite !py_truediv_ok by (apply inject_Z_nonzero; lia).
    eexists. split; [reflexivity|]. split; [reflexivity|]. apply percent_bounds; lia.
  - eexists. split; [reflexivity|]. split; [reflexivity|]. split; unfold Qle; simpl; lia.
Qed.

(** [main] of [process.py] evaluates the level 1 only, although its
    comment announces five levels: the run keeps the tier of
    [difficulty_1] when its file exists and nothing else, its totals are
    that tier's, and its overall accuracy is a percentage. *)
Lemma v1_main_spec ep sys files w :
  match v1_main ep sys files w with
  | (PyOk (tiers, s), _) =>
      match files 1 with
      | Some qs =>
          exists m a, tiers = [(1, (m, a))] /\
                      vs_totals s = v1_add_tier (mk_v1_totals 0 0 0 0 0 0 0 0) m /\
                      v1_total_problems m = Z.min 10 (Z.of_nat (length qs))
      | None => tiers = [] /\ vs_totals s = mk_v1_totals 0 0 0 0 0 0 0 0
      end /\ (0 <= vs_overall_accuracy s <= 100)%Q
  | (PyExc _, _) => False
  end.
Proof.
  unfold v1_main, bind. cbn [map v1_run_tiers]. unfold bind, ret.
  pose proof (v1_tier_spec ep sys 1 (files 1) w) as H.
  destruct (v1_process_difficulty_level ep sys 1 (files 1) w) as [[[[m a]|]|e] w1];
    [| |contradiction].
  - destruct H as (qs & Hf & Ht & _ & _ & Hc & Hle & _). rewrite Hf.
    assert (Hb : 0 <= v1_correct_count m) by (rewrite Hc; apply count_if_bounds).
    destruct (v1_summary_of_spec (v1_accumulate [(1, (m, a))])) as (s & Es & Ts & Ha);
      [simpl; lia|].
    cbn [store_tier]. rewrite Es. split; [exists m, a; repeat split; assumption|exact Ha].
  - destruct (v1_summary_of_spec (v1_accumulate [])) as (s & Es & Ts & Ha); [simpl; lia|].
    rewrite Es, H. split; [split; [reflexivity|exact Ts]|exact Ha].
Qed.
