(* ===== verification/Json.v ===== *)
(** * JSON values as the scripts handle them after [json.load]

    [json] is the value [json.load] returns: [None], [bool], [int],
    [float] (a rational: IEEE rounding is not modelled), [str], [list]
    and [dict] (an association list in insertion order, as Python keeps
    it).  The operations are the Python ones the log readers apply to
    such values: [k in d], [d.get(k, default)], [d[k]], truthiness
    ([if x:], [not x]) and [int(x)], each raising what Python raises on
    a value of the wrong type. *)

From Stdlib Require Import String Ascii List ZArith QArith Lia.
From S2P Require Import Prelude PyString.
Import ListNotations.
Local Open Scope Z_scope.

#[warnings="-register-all"]
Inductive json : Type :=
| JNull
| JBool (b : bool)
| JInt (z : Z)
| JFloat (q : Q)
| JStr (s : string)
| JList (xs : list json)
| JObj (kvs : list (string * json)).

(** The value of the first entry with key [k]. *)
Fixpoint assoc (k : string) (kvs : list (string * json)) : option json :=
  match kvs with
  | [] => None
  | (k', v) :: rest => if String.eqb k k' then Some v else assoc k rest
  end.

(** [k in d] for a string [k]: key membership on a [dict], element
    membership on a [list], substring on a [str]; [TypeError] on the
    other types. *)
Definition py_in (k : string) (d : json) : py_result bool :=
  match d with
  | JObj kvs => PyOk (match assoc k kvs with Some _ => true | None => false end)
  | JList xs => PyOk (existsb (fun x => match x with JStr s => String.eqb s k | _ => false end) xs)
  | JStr s => PyOk (contains k s)
  | _ => PyExc TypeError
  end.

(** [d[k]]: [KeyError] on a missing key, [TypeError] on a value that is
    not a [dict] (string and list indices are integers). *)
Definition py_getitem (d : json) (k : string) : py_result json :=
  match d with
  | JObj kvs => match assoc k kvs with Some v => PyOk v | None => PyExc KeyError end
  | _ => PyExc TypeError
  end.

(** [d.get(k, default)]: [AttributeError] on a value that is not a [dict]. *)
Definition py_get (d : json) (k : string) (default : json) : py_result json :=
  match d with
  | JObj kvs => PyOk (match assoc k kvs with Some v => v | None => default end)
  | _ => PyExc AttributeError
  end.

(** Python truthiness. *)
Definition truthy_json (j : json) : bool :=
  match j with
  | JNull => false
  | JBool b => b
  | JInt z => negb (z =? 0)
  | JFloat q => negb (Qeq_bool q 0)
  | JStr s => negb (String.eqb s EmptyString)
  | JList xs => match xs with [] => false | _ => true end
  | JObj kvs => match kvs with [] => false | _ => true end
  end.

(** ** [int(x)] *)

Definition is_digit (c : ascii) : bool :=
  Nat.leb 48 (nat_of_ascii c) && Nat.leb (nat_of_ascii c) 57.

Definition digit_value (c : ascii) : Z := Z.of_nat (nat_of_ascii c - 48).

(** The digits of a decimal literal, with single underscores between
    digits ([int("1_000")] is 1000); [prev] is true right after a
    digit. *)
Fixpoint parse_digits (acc : Z) (prev : bool) (s : string) : option Z :=
  match s with
  | EmptyString => if prev then Some acc else None
  | String c s' =>
      if is_digit c then parse_digits (acc * 10 + digit_value c) true s'
      else if Ascii.eqb c "_"%char && prev then parse_digits acc false s'
      else None
  end.

(** [int(s)] on a [str]: surrounding whitespace, an optional sign, the
    digits; [None] where Python raises [ValueError]. *)
Definition parse_int (s : string) : option Z :=
  match py_strip s with
  | String "-"%char rest => option_map Z.opp (parse_digits 0 false rest)
  | String "+"%char rest => parse_digits 0 false rest
  | t => parse_digits 0 false t
  end.

Definition py_int (j : json) : py_result Z :=
  match j with
  | JBool b => PyOk (if b then 1 else 0)
  | JInt z => PyOk z
  | JFloat q => PyOk (Z.quot (Qnum q) (Zpos (Qden q)))
  | JStr s => match parse_int s with Some z => PyOk z | None => PyExc ValueError end
  | _ => PyExc TypeError
  end.

(** [try: x = int(v) ... except (ValueError, TypeError): ...]: the
    exceptions the readers catch. *)
Definition int_caught (e : py_exc) : bool :=
  match e with ValueError | TypeError => true | _ => false end.

(** ** [str(n)] on an [int] *)

(** The decimal digits of [n >= 0] in front of [acc]; [fuel] bounds the
    number of digits. *)
Fixpoint decimal_digits (fuel : nat) (n : Z) (acc : string) : string :=
  match fuel with
  | O => acc
  | S fuel' =>
      let acc' := String (ascii_of_nat (48 + Z.to_nat (n mod 10))) acc in
      if n <? 10 then acc' else decimal_digits fuel' (n / 10) acc'
  end.

(** A number below [2^k] has at most [k] decimal digits, so the bit
    length of [|z|] plus one is enough fuel. *)
Definition z_to_string (z : Z) : string :=
  let fuel := S (Z.to_nat (Z.log2 (Z.abs z))) in
  if z <? 0 then String "-"%char (decimal_digits fuel (- z) EmptyString)
  else decimal_digits fuel z EmptyString.

(** ** [int(str(n))] gives [n] back *)

Local Infix "+++" := String.append (at level 60, right associativity) : py_scope.
Local Open Scope py_scope.

Lemma digit_not_space c : is_digit c = true -> is_py_space c = false.
Proof.
  unfold is_digit, is_py_space. intros H. apply andb_prop in H as [H1 H2].
  apply Nat.leb_le in H1, H2.
  repeat match goal with
         | |- context [Nat.leb ?a ?b] => destruct (Nat.leb_spec a b)
         | |- context [Nat.eqb ?a ?b] => destruct (Nat.eqb_spec a b)
         end; simpl; (reflexivity || lia).
Qed.

(** The character of the digit [n mod 10]. *)
Lemma digit_char_spec n : 0 <= n ->
  let c := ascii_of_nat (48 + Z.to_nat (n mod 10)) in
  is_digit c = true /\ digit_value c = n mod 10.
Proof.
  intros Hn. pose proof (Z.mod_pos_bound n 10 ltac:(lia)) as Hm. cbv zeta.
  unfold is_digit, digit_value. rewrite nat_ascii_embedding by lia. split.
  - apply andb_true_intro. split; apply Nat.leb_le; lia.
  - lia.
Qed.

Lemma decimal_digits_S fuel n acc :
  decimal_digits (S fuel) n acc =
  let acc' := String (ascii_of_nat (48 + Z.to_nat (n mod 10))) acc in
  if n <? 10 then acc' else decimal_digits fuel (n / 10) acc'.
Proof. reflexivity. Qed.

(** The digits [decimal_digits] writes for [0 <= n < 10^(fuel+1)]: a
    non-empty run of digits that [parse_digits] reads back as [n]. *)
Lemma decimal_digits_spec fuel : forall n acc, 0 <= n < 10 ^ Z.of_nat (S fuel) ->
  exists ds d d' r r', decimal_digits (S fuel) n acc = ds +++ acc /\
    ds = String d r /\ is_digit d = true /\ str_rev ds = String d' r' /\ is_digit d' = true /\
    forall a p s, parse_digits a p (ds +++ s) =
                  parse_digits (a * 10 ^ Z.of_nat (String.length ds) + n) true s.
Proof.
  induction fuel as [|fuel IH]; intros n acc Hn; rewrite decimal_digits_S; cbv zeta;
    destruct (digit_char_spec n (proj1 Hn)) as [Hd Hv];
    set (d := ascii_of_nat (48 + Z.to_nat (n mod 10))) in *; clearbody d.
  - replace (n <? 10) with true by (simpl in Hn; lia).
    exists (String d EmptyString), d, d, EmptyString, EmptyString.
    do 5 (split; [reflexivity || assumption|]).
    intros a p s. simpl. rewrite Hd, Hv. f_equal. rewrite Z.mod_small by (simpl in Hn; lia). lia.
  - destruct (Z.ltb_spec n 10).
    + exists (String d EmptyString), d, d, EmptyString, EmptyString.
      do 5 (split; [reflexivity || assumption|]).
      intros a p s. simpl. rewrite Hd, Hv. f_equal. rewrite Z.mod_small by lia. lia.
    + assert (Hq : 0 <= n / 10 < 10 ^ Z.of_nat (S fuel)).
      { split; [apply Z.div_pos; lia|]. apply Z.div_lt_upper_bound; [lia|].
        rewrite <- Z.pow_succ_r by lia. rewrite <- Nat2Z.inj_succ. lia. }
      destruct (IH (n / 10) (String d acc) Hq)
        as (ds & e & e' & r & r' & Hds & -> & He & Hrev & He' & Hparse).
      exists (String e r +++ String d EmptyString), e, d, (r +++ String d EmptyString), (str_rev (String e r)).
      split; [rewrite Hds, str_app_assoc; reflexivity|]. split; [reflexivity|].
      split; [exact He|]. split; [rewrite str_rev_app; reflexivity|]. split; [exact Hd|].
      intros a p s. rewrite str_app_assoc. change (String d EmptyString +++ s) with (String d s). rewrite Hparse.
      cbn [parse_digits]. rewrite Hd, Hv, str_length_app. cbn [String.length].
      f_equal. rewrite Nat2Z.inj_add, Z.pow_add_r by lia. change (10 ^ Z.of_nat 1) with 10.
      pose proof (Z.div_mod n 10 ltac:(lia)). lia.
Qed.

(** The fuel of [z_to_string] is enough. *)
Lemma z_to_string_fuel m : 0 <= m -> m < 10 ^ Z.of_nat (S (Z.to_nat (Z.log2 m))).
Proof.
  intros Hm. destruct (Z.eq_dec m 0) as [->|Hne]; [reflexivity|].
  destruct (Z.log2_spec m ltac:(lia)) as [_ Hlt].
  pose proof (Z.log2_nonneg m). rewrite Nat2Z.inj_succ, Z2Nat.id by lia.
  eapply Z.lt_le_trans; [exact Hlt|]. apply Z.pow_le_mono_l. lia.
Qed.

(** Stripping a string whose first and last characters are not white
    space does nothing. *)
Lemma py_strip_noop s c r c' r' :
  s = String c r -> is_py_space c = false -> str_rev s = String c' r' -> is_py_space c' = false ->
  py_strip s = s.
Proof.
  intros Hs Hc Hr Hc'. unfold py_strip, py_rstrip.
  rewrite (py_lstrip_noop s) by (intros ? ? E; rewrite Hs in E; injection E as <- _; exact Hc).
  rewrite (py_lstrip_noop (str_rev s)) by (intros ? ? E; rewrite Hr in E; injection E as <- _; exact Hc').
  apply str_rev_involutive.
Qed.

(** [int(s)] on a stripped string that starts with a digit reads the
    digits (no sign). *)
Lemma parse_int_digit s d r :
  py_strip s = String d r -> is_digit d = true -> parse_int s = parse_digits 0 false (String d r).
Proof.
  intros Hs Hd. unfold parse_int. rewrite Hs.
  destruct d as [[] [] [] [] [] [] [] []]; solve [discriminate Hd | reflexivity].
Qed.

(** [int(str(n)) == n], and so [str] is injective on [int]. *)
Lemma int_str_roundtrip z : parse_int (z_to_string z) = Some z.
Proof.
  unfold z_to_string. set (fuel := Z.to_nat (Z.log2 (Z.abs z))).
  destruct (Z.ltb_spec z 0).
  - destruct (decimal_digits_spec fuel (- z) EmptyString)
      as (ds & d & d' & r & r' & Hds & -> & Hd & Hrev & Hd' & Hparse).
    { pose proof (z_to_string_fuel (Z.abs z) (Z.abs_nonneg z)) as Hf. fold fuel in Hf. lia. }
    rewrite Hds, str_app_nil_r. unfold parse_int.
    assert (Hr : str_rev (String "-"%char (String d r)) = String d' (r' +++ "-")).
    { change (str_rev (String d r) +++ "-" = String d' (r' +++ "-")). rewrite Hrev. reflexivity. }
    rewrite (py_strip_noop _ "-"%char (String d r) d' (r' +++ "-") eq_refl eq_refl Hr
               (digit_not_space _ Hd')).
    cbn [option_map]. specialize (Hparse 0 false EmptyString). rewrite str_app_nil_r in Hparse.
    rewrite Hparse. cbn [parse_digits option_map]. f_equal; lia.
  - destruct (decimal_digits_spec fuel z EmptyString)
      as (ds & d & d' & r & r' & Hds & -> & Hd & Hrev & Hd' & Hparse).
    { pose proof (z_to_string_fuel (Z.abs z) (Z.abs_nonneg z)) as Hf. fold fuel in Hf. lia. }
    rewrite Hds, str_app_nil_r.
    rewrite (parse_int_digit _ d r (py_strip_noop _ d r d' r' eq_refl (digit_not_space _ Hd) Hrev
                                      (digit_not_space _ Hd')) Hd).
    specialize (Hparse 0 false EmptyString). rewrite str_app_nil_r in Hparse.
    rewrite Hparse. cbn [parse_digits]. f_equal; lia.
Qed.

(** Round trip of Python's [int] through [str], the conversion the
    report keys [f"difficulty_{d}"] and the result file names
    [f"multi_metrics_{idx}.json"] use: [int(str(n)) == n] for every
    [int] [n], negative ones included, also when the reader applies
    [int()] to a JSON string; hence [str] never gives two numbers the
    same text. *)
Theorem str_int_roundtrip z :
  parse_int (z_to_string z) = Some z /\ py_int (JStr (z_to_string z)) = PyOk z /\
  (forall z', z_to_string z' = z_to_string z -> z' = z).
Proof.
  split; [apply int_str_roundtrip|split].
  - cbn [py_int]. rewrite int_str_roundtrip. reflexivity.
  - intros z' H. pose proof (int_str_roundtrip z') as Hz'. rewrite H, int_str_roundtrip in Hz'. congruence.
Qed.

Lemma str_int_roundtrip_witness :
  z_to_string (-42) = "-42"%string /\ py_int (JStr "-42"%string) = PyOk (-42) /\
  (forall z', z_to_string z' = z_to_string 1205 -> z' = 1205).
Proof.
  assert (H : z_to_string (-42) = "-42"%string) by (vm_compute; reflexivity).
  split; [exact H|split].
  - rewrite <- H. exact (proj1 (proj2 (str_int_roundtrip (-42)))).
  - exact (proj2 (proj2 (str_int_roundtrip 1205))).
Defined.
