(* ===== verification/Prompt.v ===== *)
(** * The system prompt of the drivers

    [_generate_prompt] of [src/math/process3.py] (lines 95-137) and of
    [src/math/process.py] (lines 49-90) returns an f-string whose
    interpolated fields are the constants [{623}], [{142}], [{50}] (and
    [{300}], [{100}] in process.py), not the three limits it is given;
    [solve_problem_with_agents] passes it as the system prompt of every
    call (process3.py line 151, process.py line 104).  The text is kept
    here byte for byte (UTF-8), with [str(n)] for each field.  The
    lemmas show that the prompt does not depend on the limits and that
    it names the three marker tags [<think>], [<summary>] and [<answer>]
    that [Response.v] classifies and extracts. *)

From Stdlib Require Import String ZArith.
From S2P Require Import Prelude PyString Response Json.
Local Open Scope string_scope.

(** [_generate_prompt] of [src/math/process3.py] (lines 95-137). *)
Definition generate_prompt (thought_token_limit summary_token_limit answer_token_limit : Z) : string :=
  "你是一个用于解决数学问题的多智能体系统中的推理智能体。整个推理过程被分解为多个迭代步骤，由多个专业智能体共同完成。每次被调用时，你必须根据提供的上下文执行恰好一个操作。
操作（每次响应选择一个）：
1.初始思考
触发条件：没有之前的思考或总结（全新的开始）
操作：在<think>标签内阐述初始推理过程
最大长度："
  ++ z_to_string 623
  ++ " tokens
2.总结生成
触发条件：存在之前的思考并且还需要进一步推理
操作：在<summary>标签内提供总结
要求：
捕捉所有关键的推理要点和当前状态
确保总结是自包含的，以便下一个智能体使用
最大长度："
  ++ z_to_string 142
  ++ " tokens
3.继续推理
触发条件：前一个智能体提供了总结，但没有附带思考过程
操作：在<think>标签内继续推理过程
要求：
仅基于提供的总结进行推理
有意义地推进推理过程
除非为了清晰起见，否则不要重复之前的工作
最大长度："
  ++ z_to_string 623
  ++ " tokens
4.最终答案
触发条件：推理过程已完成
操作：在<answer>标签内提供答案
要求：
仅包含最简洁的最终的数值或文本结果
只有在确信问题已完全解决时才使用
最大长度："
  ++ z_to_string 50
  ++ " tokens
关键指导原则：
中文友好系统：以中文思维理解问题，并使用中文进行回答
单一操作规则：每个响应恰好包含一个操作，不得合并多个操作
总结的重要性：下一个智能体仅接收总结和原始问题，而不是完整的思考历史
完成阈值：只有在解决方案完整且经过验证时，才提供最终答案
推理的连贯性：每个步骤必须逻辑上基于之前的工作，并朝着解决方案推进
流程：
初始思考 → 总结 → 继续推理 → 总结 → ... → 最终答案
在提供最终答案后，流程终止。".

(** [_generate_prompt] of [src/math/process.py] (lines 49-90). *)
Definition generate_prompt_v1 (thought_token_limit summary_token_limit answer_token_limit : Z) : string :=
  "你是一个用于解决数学问题的多智能体系统中的推理智能体。整个推理过程被分解为多个迭代步骤，由多个专业智能体共同完成。每次被调用时，你必须根据提供的上下文执行恰好一个操作。
操作（每次响应选择一个）：
初始思考
触发条件：没有之前的思考或总结（全新的开始）
操作：在<think>标签内阐述初始推理过程
token最大长度限制："
  ++ z_to_string 300
  ++ "
总结生成
触发条件：存在之前的思考并且还需要进一步推理
操作：在<summary>标签内提供总结
要求：
捕捉所有关键的推理要点和当前状态
确保总结是自包含的，以便下一个智能体使用
token最大长度限制："
  ++ z_to_string 100
  ++ "
继续推理
触发条件：前一个智能体提供了总结，但没有附带思考过程
操作：在<think>标签内继续推理过程
要求：
仅基于提供的总结进行推理
有意义地推进推理过程
除非为了清晰起见，否则不要重复之前的工作
token最大长度限制："
  ++ z_to_string 100
  ++ "
最终答案
触发条件：推理过程已完成
操作：在<answer>标签内提供答案
要求：
仅包含最简洁的最终的数值或文本结果
只有在确信问题已完全解决时才使用
关键指导原则：
中文友好系统：以中文思维理解问题，并使用中文进行回答
单一操作规则：每个响应恰好包含一个操作，不得合并多个操作
总结的重要性：下一个智能体仅接收总结和原始问题，而不是完整的思考历史
完成阈值：只有在解决方案完整且经过验证时，才提供最终答案
推理的连贯性：每个步骤必须逻辑上基于之前的工作，并朝着解决方案推进
流程：
初始思考 → 总结 → 继续推理 → 总结 → ... → 最终答案
在提供最终答案后，流程终止。".

(** The limits given to [_generate_prompt] change nothing: the prompt
    is the one of the defaults. *)
Lemma generate_prompt_const a b c :
  generate_prompt a b c = generate_prompt 200 50 50 /\
  generate_prompt_v1 a b c = generate_prompt_v1 200 50 50.
Proof. split; reflexivity. Qed.

(** The prompts name the tags the driver reads: [<think>] and
    [<summary>] for the intermediate steps and [<answer>] for the final
    one. *)
Lemma generate_prompt_tags a b c :
  contains think_tag (generate_prompt a b c) = true /\
  contains summary_tag (generate_prompt a b c) = true /\
  contains answer_tag (generate_prompt a b c) = true /\
  contains think_tag (generate_prompt_v1 a b c) = true /\
  contains summary_tag (generate_prompt_v1 a b c) = true /\
  contains answer_tag (generate_prompt_v1 a b c) = true.
Proof. vm_compute. repeat split. Qed.
