(* ===== verification/Report.v ===== *)
(** * The report [main] of [process3.py] writes

    [json.dump(all_results, ...)] (lines 520-527) writes the dictionaries
    built by the code: the iteration records (lines 170-177), the problem
    entries (lines 328-344 and 357-360), the tier metrics (lines 272-289
    with the keys added at 363-386), the summary (lines 460-484) and
    [all_results] (lines 405-414, 420, 460, 518).  This file gives them
    as [json] values, so that the log readers of [Readers.v] can be run
    on what the driver produced.  Python floats are [JFloat]
    (rationals); the [int] 0 that the zero guards store instead of a
    float is also written [JFloat 0].  The text of an exception
    ([str(e)]), the date and the summary string are parameters. *)

From Stdlib Require Import String List ZArith QArith.
From S2P Require Import Prelude Response Endpoint Driver Tier Summary Json.
Import ListNotations.
Local Open Scope string_scope.

Section Report.

Variable str_exc : py_exc -> string.
Variable evaluation_date summary_string : string.

(** [iteration_info] (lines 170-177). *)
Definition iteration_json (i : iteration_info) : json :=
  JObj [("iteration", JInt (info_iteration i));
        ("prompt_tokens", JInt (info_prompt_tokens i));
        ("completion_tokens", JInt (info_completion_tokens i));
        ("total_tokens", JInt (info_total_tokens i));
        ("latency", JFloat (info_latency i));
        ("response_type", JStr (Classify.response_type_str (info_response_type i)))].

Definition opt_str_json (o : option string) : json :=
  match o with Some s => JStr s | None => JNull end.

Definition opt_bool_json (o : option bool) : json :=
  match o with Some b => JBool b | None => JNull end.

(** [problem_detail] (lines 328-344) and the error entry (lines 357-360). *)
Definition detail_json (d : problem_detail) : json :=
  match d with
  | DetailOk p fa ca ic res =>
      JObj [("problem", JStr p);
            ("model_answer", opt_str_json fa);
            ("correct_answer", JStr ca);
            ("is_correct", opt_bool_json ic);
            ("total_tokens", JInt (total_tokens (result_usage res)));
            ("prompt_tokens", JInt (prompt_tokens (result_usage res)));
            ("completion_tokens", JInt (completion_tokens (result_usage res)));
            ("iterations", JInt (result_iterations res));
            ("avg_completion_tokens_per_iteration", JFloat (avg_completion_tokens_per_iteration res));
            ("max_completion_tokens_per_iteration", JInt (max_completion_tokens_per_iteration res));
            ("min_completion_tokens_per_iteration", JInt (min_completion_tokens_per_iteration res));
            ("iteration_details", JList (map iteration_json (result_iteration_details res)));
            ("flops", JInt (result_flops res));
            ("latency", JFloat (result_latency res));
            ("cost", JFloat (result_cost res))]
  | DetailError p e => JObj [("problem", JStr p); ("error", JStr (str_exc e))]
  end.

(** [metrics] (lines 272-289, 363-386). *)
Definition metrics_json (m : tier_metrics) (a : tier_averages) : json :=
  JObj [("difficulty", JInt (difficulty m));
        ("total_problems", JInt (total_problems m));
        ("total_tokens", JInt (m_total_tokens m));
        ("prompt_tokens", JInt (m_prompt_tokens m));
        ("completion_tokens", JInt (m_completion_tokens m));
        ("total_cost", JFloat (m_total_cost m));
        ("total_latency", JFloat (m_total_latency m));
        ("correct_count", JInt (correct_count m));
        ("processed_problems", JInt (processed_problems m));
        ("problem_details", JList (map detail_json (problem_details m)));
        ("total_flops", JInt (total_flops m));
        ("total_iterations", JInt (total_iterations m));
        ("total_avg_completion_tokens_per_iteration", JFloat (total_avg_completion_tokens_per_iteration m));
        ("total_max_completion_tokens_per_iteration", JInt (total_max_completion_tokens_per_iteration m));
        ("overall_max_completion_tokens_per_iteration", JInt (overall_max_completion_tokens_per_iteration m));
        ("accuracy", JFloat (accuracy a));
        ("avg_latency", JFloat (avg_latency a));
        ("avg_total_tokens", JFloat (avg_total_tokens a));
        ("avg_prompt_tokens", JFloat (avg_prompt_tokens a));
        ("avg_completion_tokens", JFloat (avg_completion_tokens a));
        ("avg_iterations", JFloat (avg_iterations a));
        ("avg_flops", JFloat (avg_flops a));
        ("avg_cost_per_problem", JFloat (Tier.avg_cost_per_problem a));
        ("avg_avg_completion_tokens_per_iteration", JFloat (avg_avg_completion_tokens_per_iteration a));
        ("avg_max_completion_tokens_per_iteration", JFloat (avg_max_completion_tokens_per_iteration a))].

(** [all_results["difficulty_results"]] (line 420): key [f"difficulty_{d}"]. *)
Definition difficulty_results_json (tiers : tier_results) : json :=
  JObj (map (fun e => ("difficulty_" ++ z_to_string (fst e), metrics_json (fst (snd e)) (snd (snd e))))
            tiers).

(** [all_results["summary"]] (lines 460-484). *)
Definition summary_json (s : run_summary) : json :=
  let t := sum_totals s in
  JObj [("total_problems", JInt (s_total_problems t));
        ("processed_problems", JInt (s_total_processed t));
        ("correct_answers", JInt (s_total_correct t));
        ("overall_accuracy", JFloat (overall_accuracy s));
        ("total_tokens", JInt (s_total_tokens t));
        ("total_prompt_tokens", JInt (s_total_prompt_tokens t));
        ("total_completion_tokens", JInt (s_total_completion_tokens t));
        ("total_iterations", JInt (s_total_iterations t));
        ("total_flops", JInt (s_total_flops t));
        ("total_cost", JFloat (s_total_cost t));
        ("total_latency", JFloat (s_total_latency t));
        ("avg_latency_per_problem", JFloat (avg_latency_per_problem s));
        ("avg_cost_per_problem", JFloat (avg_cost_per_problem s));
        ("avg_total_tokens_per_problem", JFloat (avg_total_tokens_per_problem s));
        ("avg_prompt_tokens_per_problem", JFloat (avg_prompt_tokens_per_problem s));
        ("avg_completion_tokens_per_problem", JFloat (avg_completion_tokens_per_problem s));
        ("avg_iterations_per_problem", JFloat (avg_iterations_per_problem s));
        ("avg_flops_per_problem", JFloat (avg_flops_per_problem s));
        ("overall_avg_completion_tokens_per_iteration", JFloat (overall_avg_completion_tokens_per_iteration s));
        ("overall_avg_max_completion_tokens_per_iteration", JFloat (overall_avg_max_completion_tokens_per_iteration s));
        ("global_max_completion_tokens_per_iteration", JInt (s_global_max_completion_per_iteration t))].

(** [all_results] as dumped (lines 405-414, 460, 518). *)
Definition report_json (tiers : tier_results) (s : run_summary) : json :=
  JObj [("metadata", JObj [("model", JStr "deepseek-chat");
                           ("method", JStr "multi-agent reasoning");
                           ("evaluation_date", JStr evaluation_date);
                           ("pricing", JStr "Input: $2/1M tokens, Output: $8/1M tokens")]);
        ("difficulty_results", difficulty_results_json tiers);
        ("summary", summary_json s);
        ("summary_string", JStr summary_string)].

End Report.
