(* ===== verification/Readers.v ===== *)
(** * The log readers

    The offline scripts read the report written by [main] (see
    [Report.v]) back with [json.load] and extract the numbers they bin:

    - [process_iteration_steps] of [src/getdata.py] (lines 24-63): the
      ["iterations"] of the correct problems, under
      ["difficulty_results"] or, for older files, at the root;
    - [process_completion_tokens] of [src/completion_tokens_analysis.py]
      (lines 24-94): the ["completion_tokens"] of the iteration records
      of the correct problems, all but the ["answer"] ones or only those
      of one [response_type];
    - [process_iteration_steps_v0] of [src/math/getdata.py] (lines
      18-35): the ["iterations"] of every problem of a root-level
      ["problem_details"];
    - [find_max_problem] of [src/math/find_max_problem.py] (lines 3-26):
      the correct problems with the most iterations and tokens of the
      tier ["difficulty_5"].

    The first two share their traversal: [read_report] walks the
    structure, a per-problem function extracts the numbers.  Every
    dictionary access raises what Python raises on an unexpected
    shape, [int()] failures are caught as in the code. *)

From Stdlib Require Import String List ZArith QArith Lia.
From S2P Require Import Prelude PyString Json.
Import ListNotations.
Local Open Scope py_scope.
Local Open Scope Z_scope.

(** [for x in j]: the elements of a list, the keys of a dict, the
    characters of a string. *)
Definition py_iter (j : json) : py_result (list json) :=
  match j with
  | JList xs => PyOk xs
  | JObj kvs => PyOk (map (fun kv => JStr (fst kv)) kvs)
  | JStr s => PyOk (map (fun c => JStr (String c EmptyString)) (list_ascii_of_string s))
  | _ => PyExc TypeError
  end.

(** [d.items()]. *)
Definition py_items (j : json) : py_result (list (string * json)) :=
  match j with
  | JObj kvs => PyOk kvs
  | _ => PyExc AttributeError
  end.

(** [x == s] for a string literal [s]. *)
Definition json_is_str (s : string) (x : json) : bool :=
  match x with JStr t => String.eqb t s | _ => false end.

(** [try: out.append(int(v)) except (ValueError, TypeError): skip]. *)
Definition try_int (v : py_result json) : py_result (list Z) :=
  match (let? x := v in py_int x) with
  | PyOk z => PyOk [z]
  | PyExc e => if int_caught e then PyOk [] else PyExc e
  end.

(** [if 'problem_details' in holder: for problem in holder['problem_details']: ...]. *)
Definition for_problem_details {A : Type} (per_problem : json -> py_result (list A)) (holder : json)
  : py_result (list A) :=
  let? has := py_in "problem_details" holder in
  if has then
    let? pd := py_getitem holder "problem_details" in
    let? ps := py_iter pd in
    py_concat_map per_problem ps
  else PyOk [].

(** The traversal of lines 26-63 of [src/getdata.py] (and 32-94 of
    [src/completion_tokens_analysis.py]). *)
Definition read_report {A : Type} (per_problem : json -> py_result (list A)) (data : json)
  : py_result (list A) :=
  if negb (truthy_json data) then PyOk []
  else
    let? has_dr := py_in "difficulty_results" data in
    if has_dr then
      let? dr := py_getitem data "difficulty_results" in
      let? items := py_items dr in
      py_concat_map (fun kv => for_problem_details per_problem (snd kv)) items
    else for_problem_details per_problem data.

(** Lines 40-47: the iterations of a correct problem. *)
Definition steps_of_problem (problem : json) : py_result (list Z) :=
  let? has := py_in "iterations" problem in
  if has then
    let? ok := py_get problem "is_correct" (JBool false) in
    if truthy_json ok then try_int (py_getitem problem "iterations") else PyOk []
  else PyOk [].

Definition process_iteration_steps (data : json) : py_result (list Z) :=
  read_report steps_of_problem data.

(** Lines 47-65 of [src/completion_tokens_analysis.py]: one iteration
    record; [None] as filter excludes the ["answer"] records. *)
Definition tokens_of_iteration (response_type_filter : option string) (iteration : json)
  : py_result (list Z) :=
  let? has := py_in "completion_tokens" iteration in
  if has then
    let? rt := py_get iteration "response_type" JNull in
    let keep := match response_type_filter with
                | None => negb (json_is_str "answer" rt)
                | Some f => json_is_str f rt
                end in
    if keep then try_int (py_getitem iteration "completion_tokens") else PyOk []
  else PyOk [].

(** Lines 46-47: the iteration records of a correct problem. *)
Definition tokens_of_problem (response_type_filter : option string) (problem : json)
  : py_result (list Z) :=
  let? ok := py_get problem "is_correct" (JBool false) in
  if truthy_json ok then
    let? has := py_in "iteration_details" problem in
    if has then
      let? its := py_getitem problem "iteration_details" in
      let? xs := py_iter its in
      py_concat_map (tokens_of_iteration response_type_filter) xs
    else PyOk []
  else PyOk [].

Definition process_completion_tokens (data : json) (response_type_filter : option string)
  : py_result (list Z) :=
  read_report (tokens_of_problem response_type_filter) data.

(** [process_iteration_steps] of [src/math/getdata.py] (lines 18-35). *)
Definition process_iteration_steps_v0 (data : json) : py_result (list Z) :=
  if negb (truthy_json data) then PyOk []
  else
    let? has := py_in "problem_details" data in
    if negb has then PyOk []
    else
      let? pd := py_getitem data "problem_details" in
      let? ps := py_iter pd in
      py_concat_map (fun problem =>
                       let? h := py_in "iterations" problem in
                       if h then try_int (py_getitem problem "iterations") else PyOk []) ps.

(** ** [find_max_problem] *)

(** [a > b] on numbers ([bool], [int], [float]); comparing a number with
    any other type raises [TypeError].  The running maxima start at the
    [int] -1 and are only replaced by values that compared greater than a
    number, so the right operand is always a number. *)
Definition num_of (j : json) : option Q :=
  match j with
  | JBool b => Some (if b then 1 else 0)%Q
  | JInt z => Some (inject_Z z)
  | JFloat q => Some q
  | _ => None
  end.

Definition py_gt (a b : json) : py_result bool :=
  match num_of a, num_of b with
  | Some x, Some y => PyOk (negb (Qle_bool x y))
  | _, _ => PyExc TypeError
  end.

(** The four variables of lines 7-11. *)
Record max_state : Type := mk_max {
  max_iterations_problem : json;
  max_total_tokens_problem : json;
  max_iterations : json;
  max_total_tokens : json
}.

Definition max_init : max_state := mk_max JNull JNull (JInt (-1)) (JInt (-1)).

(** One pass of the loop of lines 14-24. *)
Definition max_step (st : max_state) (problem : json) : py_result max_state :=
  let? c := py_get problem "is_correct" JNull in
  if truthy_json c then
    let? it := py_get problem "iterations" (JInt 0) in
    let? gt1 := py_gt it (max_iterations st) in
    let? st1 := (if gt1 then
                   let? v := py_getitem problem "iterations" in
                   PyOk (mk_max problem (max_total_tokens_problem st) v (max_total_tokens st))
                 else PyOk st) in
    let? tt := py_get problem "total_tokens" (JInt 0) in
    let? gt2 := py_gt tt (max_total_tokens st1) in
    if gt2 then
      let? v := py_getitem problem "total_tokens" in
      PyOk (mk_max (max_iterations_problem st1) problem (max_iterations st1) v)
    else PyOk st1
  else PyOk st.

Fixpoint max_loop (ps : list json) (st : max_state) : py_result max_state :=
  match ps with
  | [] => PyOk st
  | p :: ps' => let? st' := max_step st p in max_loop ps' st'
  end.

Definition find_max_problem (data : json) : py_result (json * json) :=
  let? dr := py_getitem data "difficulty_results" in
  let? d5 := py_getitem dr "difficulty_5" in
  let? pd := py_getitem d5 "problem_details" in
  let? ps := py_iter pd in
  let? st := max_loop ps max_init in
  PyOk (max_iterations_problem st, max_total_tokens_problem st).

(** ** Properties *)

(** [read_report] with two per-problem functions: if [f] never gives
    more numbers than [g] on a problem, it never gives more on a report. *)
Section Compare_readers.

Context {A B : Type}.
Variable f : json -> py_result (list A).
Variable g : json -> py_result (list B).
Hypothesis Hfg : forall p l1 l2, f p = PyOk l1 -> g p = PyOk l2 -> (length l1 <= length l2)%nat.

Lemma for_problem_details_le h l1 l2 :
  for_problem_details f h = PyOk l1 -> for_problem_details g h = PyOk l2 ->
  (length l1 <= length l2)%nat.
Proof.
  unfold for_problem_details, py_bind.
  destruct (py_in "problem_details" h) as [[]|]; [|intros [= <-] [= <-]; simpl; lia|discriminate].
  destruct (py_getitem h "problem_details") as [pd|]; [|discriminate].
  destruct (py_iter pd); [|discriminate]. apply py_concat_map_le, Hfg.
Qed.

Lemma read_report_le d l1 l2 :
  read_report f d = PyOk l1 -> read_report g d = PyOk l2 -> (length l1 <= length l2)%nat.
Proof.
  unfold read_report, py_bind. destruct (negb (truthy_json d)); [intros [= <-] [= <-]; simpl; lia|].
  destruct (py_in "difficulty_results" d) as [[]|]; [|apply for_problem_details_le|discriminate].
  destruct (py_getitem d "difficulty_results") as [dr|]; [|discriminate].
  destruct (py_items dr); [|discriminate].
  apply py_concat_map_le. intros kv. apply for_problem_details_le.
Qed.

End Compare_readers.

(** A property of every number a per-problem function gives holds of
    every number [read_report] gives. *)
Section Forall_readers.

Context {A : Type}.
Variable P : A -> Prop.
Variable f : json -> py_result (list A).
Hypothesis Hf : forall p l, f p = PyOk l -> Forall P l.

Lemma for_problem_details_Forall h l : for_problem_details f h = PyOk l -> Forall P l.
Proof.
  unfold for_problem_details, py_bind.
  destruct (py_in "problem_details" h) as [[]|]; [|intros [= <-]; constructor|discriminate].
  destruct (py_getitem h "problem_details") as [pd|]; [|discriminate].
  destruct (py_iter pd); [|discriminate]. apply py_concat_map_Forall, Hf.
Qed.

Lemma read_report_Forall d l : read_report f d = PyOk l -> Forall P l.
Proof.
  unfold read_report, py_bind.
  destruct (negb (truthy_json d)); [intros [= <-]; constructor|].
  destruct (py_in "difficulty_results" d) as [[]|]; [|apply for_problem_details_Forall|discriminate].
  destruct (py_getitem d "difficulty_results") as [dr|]; [|discriminate].
  destruct (py_items dr); [|discriminate].
  apply py_concat_map_Forall. intros kv. apply for_problem_details_Forall.
Qed.

End Forall_readers.

Lemma try_int_length v l : try_int v = PyOk l -> (length l <= 1)%nat.
Proof.
  unfold try_int. destruct (let? x := v in py_int x) as [z|e].
  - intros [= <-]. simpl. lia.
  - destruct (int_caught e); [intros [= <-]; simpl; lia|discriminate].
Qed.

(** A problem contributes at most one iteration count. *)
Lemma steps_of_problem_length p l : steps_of_problem p = PyOk l -> (length l <= 1)%nat.
Proof.
  unfold steps_of_problem, py_bind.
  destruct (py_in "iterations" p) as [[]|]; [|intros [= <-]; simpl; lia|discriminate].
  destruct (py_get p "is_correct" (JBool false)) as [ok|]; [|discriminate].
  destruct (truthy_json ok); [apply try_int_length|intros [= <-]; simpl; lia].
Qed.


Local Open Scope string_scope.

(** An entry as [process.py] writes it (lines 217-227): no
    ["iterations"] and no ["total_tokens"] key. *)
Definition process_py_entry : json :=
  JObj [("problem", JStr "Q"); ("model_answer", JStr "5"); ("correct_answer", JStr "5");
        ("is_correct", JBool true); ("tokens", JInt 500); ("prompt_tokens", JInt 400);
        ("completion_tokens", JInt 100); ("latency", JFloat 1); ("cost", JFloat 0)].

(** Entries not marked correct leave the running maxima alone. *)
Lemma max_loop_skip pre rest st :
  Forall (fun p => exists c, py_get p "is_correct" JNull = PyOk c /\ truthy_json c = false) pre ->
  max_loop (pre ++ rest) st = max_loop rest st.
Proof.
  induction 1 as [|p pre (c & Hc & Ht) _ IH]; [reflexivity|].
  simpl. unfold max_step. rewrite Hc. simpl. rewrite Ht. exact IH.
Qed.

(** C31. [find_max_problem] compares [problem.get("iterations", 0)] with
    the running maximum -1 and then reads [problem["iterations"]]: on
    every report whose first entry marked correct has no ["iterations"]
    key (as every entry [process.py] writes), it raises [KeyError],
    whatever follows that entry. *)
Theorem find_max_problem_missing_key data dr d5 pre kvs post :
  py_getitem data "difficulty_results" = PyOk dr ->
  py_getitem dr "difficulty_5" = PyOk d5 ->
  py_getitem d5 "problem_details" = PyOk (JList (pre ++ JObj kvs :: post)) ->
  Forall (fun p => exists c, py_get p "is_correct" JNull = PyOk c /\ truthy_json c = false) pre ->
  truthy_json (match assoc "is_correct" kvs with Some v => v | None => JNull end) = true ->
  assoc "iterations" kvs = None ->
  find_max_problem data = PyExc KeyError.
Proof.
  intros H1 H2 H3 Hpre Hc Hit. unfold find_max_problem.
  rewrite H1; cbn [py_bind]. rewrite H2; cbn [py_bind]. rewrite H3; cbn [py_bind py_iter].
  rewrite (max_loop_skip _ _ _ Hpre).
  simpl. unfold max_step. simpl. rewrite Hc, Hit. reflexivity.
Qed.

Definition process_py_report : json :=
  JObj [("difficulty_results",
         JObj [("difficulty_5", JObj [("problem_details", JList [process_py_entry])])])].

Lemma find_max_problem_missing_key_witness :
  find_max_problem process_py_report = PyExc KeyError /\ process_iteration_steps process_py_report = PyOk [].
Proof.
  split; [|reflexivity].
  refine (find_max_problem_missing_key process_py_report _ _ [] _ [] eq_refl eq_refl eq_refl _ eq_refl eq_refl).
  constructor.
Defined.
