(* ===== verification/TokenAnalysis.v ===== *)
(** * The completion-token analysis: [main] of [src/completion_tokens_analysis.py]

    [main] (lines 261-345) loads a report and, when it is not empty,
    counts over the entries of ["problem_details"] (under
    ["difficulty_results"] or at the root, the traversal of
    [read_report] in [Readers.v]) the problems, the correct ones, their
    iteration records and the records typed other than ["answer"],
    ["thinking"] and ["summary"] (lines 271-314); it prints the accuracy
    [correct_problems / total_problems * 100] with no zero guard (line
    321) and runs [analyze_and_plot] (lines 226-256) three times: on the
    tokens of every record but the ["answer"] ones, of the ["thinking"]
    ones and of the ["summary"] ones.

    The counters of lines 271-277 are the record [token_counts].  The
    code adds to them problem by problem; since an exception of the loop
    ends [main], the totals it prints are the sums of the problems'
    contributions, so [problem_counts] gives the contribution of one
    problem and [main_counts] sums them over [read_report].  A problem
    is counted correct only when it has ["iteration_details"] (line 284
    comes before line 286), so the entries that [process.py] writes,
    which have none, are never counted correct. *)

From stdpp Require Import gmap.
From Stdlib Require Import String List ZArith QArith Lia Lqa.
From S2P Require Import Prelude PyString Json Binning Stats Readers.
Local Open Scope py_scope.
Local Open Scope Z_scope.

(** [len(x)]: a list, the keys of a dict, the characters of a string. *)
Definition py_len (j : json) : py_result Z :=
  match j with
  | JList xs => PyOk (Z.of_nat (length xs))
  | JObj kvs => PyOk (Z.of_nat (length kvs))
  | JStr s => PyOk (Z.of_nat (String.length s))
  | _ => PyExc TypeError
  end.

(** The counters of lines 271-277. *)
Record token_counts : Type := mk_counts {
  c_total_problems : Z;
  c_correct_problems : Z;
  c_total_iterations : Z;
  c_correct_iterations : Z;
  c_correct_non_answer : Z;
  c_thinking : Z;
  c_summary : Z
}.

Definition zero_counts : token_counts := mk_counts 0 0 0 0 0 0 0.

Definition add_counts (c d : token_counts) : token_counts :=
  mk_counts (c_total_problems c + c_total_problems d)
    (c_correct_problems c + c_correct_problems d)
    (c_total_iterations c + c_total_iterations d)
    (c_correct_iterations c + c_correct_iterations d)
    (c_correct_non_answer c + c_correct_non_answer d)
    (c_thinking c + c_thinking d) (c_summary c + c_summary d).

(** Lines 290-291: [iteration.get('response_type', '')] of every record. *)
Definition response_types (its : json) : py_result (list json) :=
  let? xs := py_iter its in
  py_concat_map (fun it => let? rt := py_get it "response_type" (JStr EmptyString) in PyOk [rt]) xs.

(** Lines 283-297: what one problem adds to the counters. *)
Definition problem_counts (problem : json) : py_result (list token_counts) :=
  let? has := py_in "iteration_details" problem in
  if has then
    let? its := py_getitem problem "iteration_details" in
    let? n := py_len its in
    let? ok := py_get problem "is_correct" (JBool false) in
    if truthy_json ok then
      let? rts := response_types its in
      PyOk [mk_counts 1 1 n n (count_if (fun rt => negb (json_is_str "answer" rt)) rts)
                      (count_if (json_is_str "thinking") rts) (count_if (json_is_str "summary") rts)]
    else PyOk [mk_counts 1 0 n 0 0 0 0]
  else PyOk [mk_counts 1 0 0 0 0 0 0].

(** Lines 279-314. *)
Definition main_counts (data : json) : py_result token_counts :=
  let? cs := read_report problem_counts data in
  PyOk (fold_left add_counts cs zero_counts).

(** What [analyze_and_plot] prints (lines 234-256). *)
Record token_analysis : Type := mk_token_analysis {
  ta_count : nat;
  ta_min : Z;
  ta_max : Z;
  ta_mean : Q;
  ta_median : Q;
  ta_bins : list Z;
  ta_frequency : gmap (Z * Z) nat;
  ta_top : list ((Z * Z) * nat * Q)
}.

(** [analyze_and_plot(data, response_type_filter, name)]: [None] for the
    early [return] of lines 230-232. *)
Definition analyze_and_plot (data : json) (response_type_filter : option string)
  : py_result (option token_analysis) :=
  let? l := process_completion_tokens data response_type_filter in
  match l with
  | [] => PyOk None
  | _ =>
      let? mn := py_min l in
      let? mx := py_max l in
      match np_mean l, np_median l with
      | Some me, Some md =>
          let? bins := create_bins l 50 in
          let freq := count_frequency l bins in
          let? top := bin_lines (top_bins freq) (length l) in
          PyOk (Some (mk_token_analysis (length l) mn mx me md bins freq top))
      | _, _ => PyOk None (* [np.mean] and [np.median] are defined on [l <> []] *)
      end
  end.

(** What [main] computes. *)
Record token_report : Type := mk_token_report {
  tr_counts : token_counts;
  tr_accuracy : Q;
  tr_all : option token_analysis;
  tr_thinking : option token_analysis;
  tr_summary : option token_analysis
}.

(** [main] after [load_data] (lines 266-345). *)
Definition completion_main (data : json) : py_result (option token_report) :=
  if negb (truthy_json data) then PyOk None
  else
    let? c := main_counts data in
    let? acc := py_div_Z (c_correct_problems c) (c_total_problems c) in
    let? a1 := analyze_and_plot data None in
    let? a2 := analyze_and_plot data (Some "thinking"%string) in
    let? a3 := analyze_and_plot data (Some "summary"%string) in
    PyOk (Some (mk_token_report c (acc * 100) a1 a2 a3)).

(** ** Properties *)

Lemma length_list_ascii_of_string s : length (list_ascii_of_string s) = String.length s.
Proof. induction s as [|c s IH]; simpl; [reflexivity|]. rewrite IH. reflexivity. Qed.

(** [len(x)] counts what [for y in x] visits. *)
Lemma py_len_iter j n xs : py_len j = PyOk n -> py_iter j = PyOk xs -> n = Z.of_nat (length xs).
Proof.
  destruct j; simpl; try discriminate; intros [= <-] [= <-];
    rewrite ?length_map, ?length_list_ascii_of_string; reflexivity.
Qed.

Lemma json_is_str_eq s x : json_is_str s x = true -> x = JStr s.
Proof. destruct x; simpl; try discriminate. intros H. apply String.eqb_eq in H. subst. reflexivity. Qed.

Lemma py_len_nonneg j n : py_len j = PyOk n -> 0 <= n.
Proof. destruct j; simpl; try discriminate; intros [= <-]; lia. Qed.

Lemma response_types_length its xs rts :
  py_iter its = PyOk xs -> response_types its = PyOk rts -> length rts = length xs.
Proof.
  unfold response_types. intros Hx. rewrite Hx. cbn [py_bind]. apply py_concat_map_length_1.
  intros x l. unfold py_bind. destruct (py_get x "response_type" (JStr EmptyString)); [|discriminate].
  intros [= <-]. reflexivity.
Qed.

(** The counters are ordered as their meaning says: the correct problems
    among the problems, the records of the correct problems among all
    records, the records other than ["answer"] among those, the
    ["thinking"] and ["summary"] records among those. *)
Definition counts_ok (c : token_counts) : Prop :=
  0 <= c_correct_problems c <= c_total_problems c /\
  0 <= c_thinking c /\ 0 <= c_summary c /\
  c_thinking c + c_summary c <= c_correct_non_answer c /\
  c_correct_non_answer c <= c_correct_iterations c <= c_total_iterations c.

Lemma add_counts_ok c d : counts_ok c -> counts_ok d -> counts_ok (add_counts c d).
Proof. unfold counts_ok, add_counts; simpl. lia. Qed.

Lemma problem_counts_ok p l :
  problem_counts p = PyOk l -> Forall (fun c => counts_ok c /\ c_total_problems c = 1) l.
Proof.
  unfold problem_counts, py_bind.
  destruct (py_in "iteration_details" p) as [[]|]; [| |discriminate].
  2: { intros [= <-]. constructor; [unfold counts_ok; simpl; lia|constructor]. }
  destruct (py_getitem p "iteration_details") as [its|]; [|discriminate].
  destruct (py_len its) as [n|] eqn:En; [|discriminate].
  destruct (py_get p "is_correct" (JBool false)) as [ok|]; [|discriminate].
  destruct (truthy_json ok).
  - destruct (response_types its) as [rts|] eqn:Er; [|discriminate]. intros [= <-].
    unfold response_types in Er. destruct (py_iter its) as [xs|] eqn:Ex; [|discriminate].
    pose proof (response_types_length its xs rts Ex) as Hl. unfold response_types in Hl.
    rewrite Ex in Hl. specialize (Hl Er). rewrite (py_len_iter its n xs En Ex), <- Hl.
    pose proof (count_if_bounds (fun rt => negb (json_is_str "answer" rt)) rts).
    pose proof (count_if_bounds (json_is_str "thinking") rts).
    pose proof (count_if_bounds (json_is_str "summary") rts).
    pose proof (count_if_disjoint (json_is_str "thinking") (json_is_str "summary")
                  (fun rt => negb (json_is_str "answer" rt)) rts) as Hd.
    assert (Hd' : count_if (json_is_str "thinking") rts + count_if (json_is_str "summary") rts <=
                  count_if (fun rt => negb (json_is_str "answer" rt)) rts).
    { apply Hd; [intros x Hx; rewrite (json_is_str_eq _ _ Hx); reflexivity
                |intros x Hx; rewrite (json_is_str_eq _ _ Hx); reflexivity|].
      intros x. destruct (json_is_str "thinking" x) eqn:E; [rewrite (json_is_str_eq _ _ E)|]; reflexivity. }
    constructor; [unfold counts_ok; simpl; lia|constructor].
  - intros [= <-]. pose proof (py_len_nonneg its n En).
    constructor; [unfold counts_ok; simpl; lia|constructor].
Qed.

Lemma fold_add_counts_ok cs acc :
  counts_ok acc -> Forall (fun c => counts_ok c /\ c_total_problems c = 1) cs ->
  counts_ok (fold_left add_counts cs acc) /\
  c_total_problems (fold_left add_counts cs acc) = c_total_problems acc + Z.of_nat (length cs).
Proof.
  intros Hacc Hcs. revert acc Hacc. induction Hcs as [|c cs [Hc H1] Hcs IH]; intros acc Hacc; simpl.
  - split; [exact Hacc|lia].
  - destruct (IH (add_counts acc c) (add_counts_ok acc c Hacc Hc)) as [Hok Ht].
    split; [exact Hok|]. rewrite Ht. simpl. lia.
Qed.

(** The counters [main] prints satisfy [counts_ok], and the problems are
    the entries [read_report] visits. *)
Lemma main_counts_spec data c :
  main_counts data = PyOk c ->
  exists cs, read_report problem_counts data = PyOk cs /\ counts_ok c /\
             c_total_problems c = Z.of_nat (length cs).
Proof.
  unfold main_counts, py_bind. destruct (read_report problem_counts data) as [cs|] eqn:E; [|discriminate].
  intros [= <-]. exists cs. split; [reflexivity|].
  destruct (fold_add_counts_ok cs zero_counts ltac:(unfold counts_ok; simpl; lia)
              (read_report_Forall _ problem_counts problem_counts_ok data cs E)) as [Hok Ht].
  split; [exact Hok|]. rewrite Ht. reflexivity.
Qed.

(** C16. The counters of [main] of [src/completion_tokens_analysis.py]
    are consistent: the correct problems are at most the problems, the
    records of the correct problems at most all records, the records
    other than ["answer"] at most those, and the ["thinking"] and
    ["summary"] records together at most those.  The accuracy
    [correct_problems / total_problems * 100] has no zero guard: on a
    non-empty report where no entry of ["problem_details"] was found,
    [main] raises [ZeroDivisionError]; when [main] completes, it prints
    these counters and an accuracy between 0 and 100. *)
Theorem completion_main_counts data c :
  main_counts data = PyOk c ->
  counts_ok c /\
  (truthy_json data = true -> c_total_problems c = 0 ->
   completion_main data = PyExc ZeroDivisionError) /\
  (forall r, completion_main data = PyOk (Some r) ->
   tr_counts r = c /\ (0 <= tr_accuracy r <= 100)%Q).
Proof.
  intros H. destruct (main_counts_spec data c H) as (cs & _ & Hok & _).
  split; [exact Hok|]. split.
  - intros Ht Hz. unfold completion_main. rewrite Ht, H. cbn [negb py_bind].
    unfold py_div_Z, py_truediv. rewrite Hz. reflexivity.
  - intros r. unfold completion_main. destruct (truthy_json data); [|discriminate]. rewrite H.
    cbn [negb py_bind]. destruct (Z.eq_dec (c_total_problems c) 0) as [Hz|Hz].
    + unfold py_div_Z, py_truediv. rewrite Hz. discriminate.
    + rewrite py_div_Z_ok by exact Hz. cbn [py_bind].
      destruct (analyze_and_plot data None); [|discriminate]. cbn [py_bind].
      destruct (analyze_and_plot data (Some "thinking"%string)); [|discriminate]. cbn [py_bind].
      destruct (analyze_and_plot data (Some "summary"%string)); [|discriminate].
      intros [= <-]. split; [reflexivity|]. simpl. destruct Hok as [Hc _].
      apply percent_bounds; lia.
Qed.

Local Open Scope string_scope.

(** A correct entry with a ["thinking"] and an ["answer"] record. *)
Definition entry_with_iterations : json :=
  JObj [("is_correct", JBool true);
        ("iteration_details",
         JList [JObj [("completion_tokens", JInt 100); ("response_type", JStr "thinking")];
                JObj [("completion_tokens", JInt 40); ("response_type", JStr "answer")]])].

Definition token_sample_report (entries : list json) : json :=
  JObj [("difficulty_results", JObj [("difficulty_1", JObj [("problem_details", JList entries)])])].

Lemma completion_main_counts_witness :
  main_counts (token_sample_report [entry_with_iterations; process_py_entry]) =
    PyOk (mk_counts 2 1 2 2 1 1 0) /\
  (counts_ok (mk_counts 2 1 2 2 1 1 0) /\
   (truthy_json (token_sample_report [entry_with_iterations; process_py_entry]) = true ->
    c_total_problems (mk_counts 2 1 2 2 1 1 0) = 0 ->
    completion_main (token_sample_report [entry_with_iterations; process_py_entry]) =
      PyExc ZeroDivisionError) /\
   (forall r, completion_main (token_sample_report [entry_with_iterations; process_py_entry]) =
                PyOk (Some r) ->
              tr_counts r = mk_counts 2 1 2 2 1 1 0 /\ (0 <= tr_accuracy r <= 100)%Q)).
Proof.
  assert (H : main_counts (token_sample_report [entry_with_iterations; process_py_entry]) =
                PyOk (mk_counts 2 1 2 2 1 1 0)) by reflexivity.
  exact (conj H (completion_main_counts _ _ H)).
Defined.

(** The entries [process.py] writes have no ["iteration_details"]: the
    analysis counts a report of two correct such entries as two
    problems, none correct, and prints accuracy 0. *)
Example process_py_report_accuracy_zero :
  match completion_main (token_sample_report [process_py_entry; process_py_entry]) with
  | PyOk (Some r) => c_total_problems (tr_counts r) = 2 /\ c_correct_problems (tr_counts r) = 0 /\
                     (tr_accuracy r == 0)%Q
  | _ => False
  end.
Proof. vm_compute. repeat split; reflexivity. Qed.
