(* ===== verification/Schema.v ===== *)
(** * The schema of the report, and the readers on well-typed reports

    [main] of [src/math/process3.py] dumps [all_results] (lines
    405-420, 460-518; [Report.v]) and the offline scripts load it back.
    This file gives the shape of that report as a type of JSON values:
    [jtype] is a small type language ([int], [float], [str], a fixed
    set of strings, [None] or a value, lists, dicts of one value type,
    objects with a fixed list of keys, and the union of two types), and
    [has_type] is the typing relation, an inductive over [json] in the
    style of the typing of data in a query compiler: objects are closed
    (exactly the listed keys, in the order [json.dump] writes them and
    [json.load] keeps).  [has_typeb] decides it.

    The theorem of this file is that every report [main] writes has the
    type [report_type], and that on every value of that type the three
    readers ([process_iteration_steps] of [src/getdata.py],
    [process_completion_tokens] and the counting loop of
    [src/completion_tokens_analysis.py]) raise nothing. *)

From Stdlib Require Import String List ZArith QArith Bool Lia DecidableClass.
From S2P Require Import Prelude PyString Response Endpoint Driver Tier Summary Json Report Readers TokenAnalysis.
Import ListNotations.
Local Open Scope py_scope.
Local Open Scope string_scope.
Local Set Warnings "-register-all".


Inductive jtype : Type :=
| TBool
| TInt
| TFloat
| TStr
| TEnum (ss : list string)
| TOpt (t : jtype)
| TList (t : jtype)
| TDict (t : jtype)
| TObj (fs : list (string * jtype))
| TUnion (t1 t2 : jtype).

Inductive has_type : json -> jtype -> Prop :=
| ht_bool b : has_type (JBool b) TBool
| ht_int z : has_type (JInt z) TInt
| ht_float q : has_type (JFloat q) TFloat
| ht_str s : has_type (JStr s) TStr
| ht_enum s ss : In s ss -> has_type (JStr s) (TEnum ss)
| ht_none t : has_type JNull (TOpt t)
| ht_some j t : has_type j t -> has_type j (TOpt t)
| ht_list xs t : Forall (fun x => has_type x t) xs -> has_type (JList xs) (TList t)
| ht_dict kvs t : Forall (fun kv => has_type (snd kv) t) kvs -> has_type (JObj kvs) (TDict t)
| ht_obj kvs fs :
    Forall2 (fun kv f => fst kv = fst f /\ has_type (snd kv) (snd f)) kvs fs ->
    has_type (JObj kvs) (TObj fs)
| ht_left j t1 t2 : has_type j t1 -> has_type j (TUnion t1 t2)
| ht_right j t1 t2 : has_type j t2 -> has_type j (TUnion t1 t2).

(** [all2 p l1 l2]: the lists have the same length and [p] holds
    pairwise (structural on the second list, so that [has_typeb] may
    recurse through it). *)
Fixpoint forall2b {A B} (p : A -> B -> bool) (l1 : list A) (l2 : list B) {struct l2} : bool :=
  match l1, l2 with
  | [], [] => true
  | x :: l1', y :: l2' => p x y && forall2b p l1' l2'
  | _, _ => false
  end.

(** The decision procedure, structural on the type. *)
Fixpoint has_typeb (t : jtype) (j : json) {struct t} : bool :=
  match t with
  | TBool => match j with JBool _ => true | _ => false end
  | TInt => match j with JInt _ => true | _ => false end
  | TFloat => match j with JFloat _ => true | _ => false end
  | TStr => match j with JStr _ => true | _ => false end
  | TEnum ss => match j with JStr s => existsb (String.eqb s) ss | _ => false end
  | TOpt t' => match j with JNull => true | _ => has_typeb t' j end
  | TList t' => match j with JList xs => forallb (has_typeb t') xs | _ => false end
  | TDict t' => match j with JObj kvs => forallb (fun kv => has_typeb t' (snd kv)) kvs | _ => false end
  | TObj fs =>
      match j with
      | JObj kvs => forall2b (fun kv f => String.eqb (fst kv) (fst f) && has_typeb (snd f) (snd kv)) kvs fs
      | _ => false
      end
  | TUnion t1 t2 => has_typeb t1 j || has_typeb t2 j
  end.

(** The type of key [k] in an object type (the first entry, as
    [assoc] finds the value). *)
Fixpoint field_type (k : string) (fs : list (string * jtype)) : option jtype :=
  match fs with
  | [] => None
  | (k', t) :: fs' => if String.eqb k k' then Some t else field_type k fs'
  end.

(** ** The report as [main] writes it *)

Definition response_type_names : list string := ["thinking"; "summary"; "answer"; "other"].

(** [iteration_info] (process3.py 170-177). *)
Definition iteration_type : jtype :=
  TObj [("iteration", TInt); ("prompt_tokens", TInt); ("completion_tokens", TInt);
        ("total_tokens", TInt); ("latency", TFloat); ("response_type", TEnum response_type_names)].

(** [problem_detail] (lines 328-344). *)
Definition detail_ok_type : jtype :=
  TObj [("problem", TStr); ("model_answer", TOpt TStr); ("correct_answer", TStr);
        ("is_correct", TOpt TBool); ("total_tokens", TInt); ("prompt_tokens", TInt);
        ("completion_tokens", TInt); ("iterations", TInt);
        ("avg_completion_tokens_per_iteration", TFloat);
        ("max_completion_tokens_per_iteration", TInt);
        ("min_completion_tokens_per_iteration", TInt);
        ("iteration_details", TList iteration_type); ("flops", TInt); ("latency", TFloat);
        ("cost", TFloat)].

(** The error entry (lines 357-360). *)
Definition detail_error_type : jtype := TObj [("problem", TStr); ("error", TStr)].

Definition detail_type : jtype := TUnion detail_ok_type detail_error_type.

(** [metrics] (lines 272-289, 363-386). *)
Definition tier_type : jtype :=
  TObj [("difficulty", TInt); ("total_problems", TInt); ("total_tokens", TInt);
        ("prompt_tokens", TInt); ("completion_tokens", TInt); ("total_cost", TFloat);
        ("total_latency", TFloat); ("correct_count", TInt); ("processed_problems", TInt);
        ("problem_details", TList detail_type); ("total_flops", TInt);
        ("total_iterations", TInt); ("total_avg_completion_tokens_per_iteration", TFloat);
        ("total_max_completion_tokens_per_iteration", TInt);
        ("overall_max_completion_tokens_per_iteration", TInt); ("accuracy", TFloat);
        ("avg_latency", TFloat); ("avg_total_tokens", TFloat); ("avg_prompt_tokens", TFloat);
        ("avg_completion_tokens", TFloat); ("avg_iterations", TFloat); ("avg_flops", TFloat);
        ("avg_cost_per_problem", TFloat); ("avg_avg_completion_tokens_per_iteration", TFloat);
        ("avg_max_completion_tokens_per_iteration", TFloat)].

(** [all_results["summary"]] (lines 460-484). *)
Definition summary_type : jtype :=
  TObj [("total_problems", TInt); ("processed_problems", TInt); ("correct_answers", TInt);
        ("overall_accuracy", TFloat); ("total_tokens", TInt); ("total_prompt_tokens", TInt);
        ("total_completion_tokens", TInt); ("total_iterations", TInt); ("total_flops", TInt);
        ("total_cost", TFloat); ("total_latency", TFloat); ("avg_latency_per_problem", TFloat);
        ("avg_cost_per_problem", TFloat); ("avg_total_tokens_per_problem", TFloat);
        ("avg_prompt_tokens_per_problem", TFloat);
        ("avg_completion_tokens_per_problem", TFloat); ("avg_iterations_per_problem", TFloat);
        ("avg_flops_per_problem", TFloat);
        ("overall_avg_completion_tokens_per_iteration", TFloat);
        ("overall_avg_max_completion_tokens_per_iteration", TFloat);
        ("global_max_completion_tokens_per_iteration", TInt)].

Definition metadata_type : jtype :=
  TObj [("model", TStr); ("method", TStr); ("evaluation_date", TStr); ("pricing", TStr)].

(** [all_results] (lines 405-414, 420, 460, 518). *)
Definition report_type : jtype :=
  TObj [("metadata", metadata_type); ("difficulty_results", TDict tier_type);
        ("summary", summary_type); ("summary_string", TStr)].

(** ** The type language *)

(** The induction principle with a hypothesis for every field type of
    an object type. *)
Section jtype_ind'.

Variable P : jtype -> Prop.
Hypothesis HBool : P TBool.
Hypothesis HInt : P TInt.
Hypothesis HFloat : P TFloat.
Hypothesis HStr : P TStr.
Hypothesis HEnum : forall ss, P (TEnum ss).
Hypothesis HOpt : forall t, P t -> P (TOpt t).
Hypothesis HList : forall t, P t -> P (TList t).
Hypothesis HDict : forall t, P t -> P (TDict t).
Hypothesis HObj : forall fs, Forall (fun f => P (snd f)) fs -> P (TObj fs).
Hypothesis HUnion : forall t1 t2, P t1 -> P t2 -> P (TUnion t1 t2).

Fixpoint jtype_ind' (t : jtype) : P t :=
  match t with
  | TBool => HBool
  | TInt => HInt
  | TFloat => HFloat
  | TStr => HStr
  | TEnum ss => HEnum ss
  | TOpt t' => HOpt t' (jtype_ind' t')
  | TList t' => HList t' (jtype_ind' t')
  | TDict t' => HDict t' (jtype_ind' t')
  | TObj fs =>
      HObj fs ((fix go (fs : list (string * jtype)) : Forall (fun f => P (snd f)) fs :=
                  match fs with
                  | [] => @Forall_nil _ _
                  | f :: fs' => @Forall_cons _ (fun f => P (snd f)) f fs' (jtype_ind' (snd f)) (go fs')
                  end) fs)
  | TUnion t1 t2 => HUnion t1 t2 (jtype_ind' t1) (jtype_ind' t2)
  end.

End jtype_ind'.

Lemma forall2b_Forall2 {A B} (p : A -> B -> bool) l1 l2 :
  forall2b p l1 l2 = true <-> Forall2 (fun x y => p x y = true) l1 l2.
Proof.
  revert l1; induction l2 as [|y l2 IH]; intros [|x l1]; simpl.
  - split; constructor.
  - split; intros H; [discriminate|inversion H].
  - split; intros H; [discriminate|inversion H].
  - rewrite Bool.andb_true_iff, IH. split.
    + intros [H1 H2]. constructor; assumption.
    + intros H. inversion H; subst. split; assumption.
Qed.

Lemma forallb_Forall' {A} (p : A -> bool) l : forallb p l = true <-> Forall (fun x => p x = true) l.
Proof. rewrite forallb_forall, Forall_forall. reflexivity. Qed.

Lemma existsb_eqb s ss : existsb (String.eqb s) ss = true <-> In s ss.
Proof.
  rewrite existsb_exists. split.
  - intros (x & Hx & E). apply String.eqb_eq in E. subst. exact Hx.
  - intros H. exists s. split; [exact H|apply String.eqb_refl].
Qed.

(** [has_typeb] decides [has_type]. *)
Lemma has_typeb_spec t : forall j, has_typeb t j = true <-> has_type j t.
Proof.
  induction t as [| | | |ss|t IH|t IH|t IH|fs IH|t1 t2 IH1 IH2] using jtype_ind';
    intros j; simpl.
  1-4: destruct j; split; intros H; try discriminate; try (inversion H; fail); constructor.
  - destruct j; split; intros H; try discriminate; try (inversion H; fail).
    + constructor. apply existsb_eqb, H.
    + inversion H; subst. apply existsb_eqb. assumption.
  - destruct j; split; intros H; try (constructor; fail); try (inversion H; subst; apply IH; assumption);
      constructor; apply IH, H.
  - destruct j; split; intros H; try discriminate; try (inversion H; fail).
    + constructor. apply forallb_Forall' in H. revert H; apply Forall_impl. intros x. apply IH.
    + inversion H; subst. apply forallb_Forall'. eapply Forall_impl; [|eassumption]. intros x. apply IH.
  - destruct j; split; intros H; try discriminate; try (inversion H; fail).
    + constructor. apply forallb_Forall' in H. revert H; apply Forall_impl. intros x. apply IH.
    + inversion H; subst. apply forallb_Forall'. eapply Forall_impl; [|eassumption]. intros x. apply IH.
  - destruct j; split; intros H; try discriminate; try (inversion H; fail).
    + constructor. apply forall2b_Forall2 in H. clear -IH H. induction H as [|kv f kvs fs' Hp _ IHr];
        inversion IH as [|? ? IHf IHfs]; subst; constructor; [|exact (IHr IHfs)].
      apply andb_prop in Hp as [Hk Hv]. split; [apply String.eqb_eq, Hk|apply IHf, Hv].
    + inversion H as [| | | | | | | | |? ? H2| |]; subst. apply forall2b_Forall2. clear -IH H2.
      induction H2 as [|kv f kvs fs' [Hk Hv] _ IHr]; inversion IH as [|? ? IHf IHfs]; subst;
        constructor; [|exact (IHr IHfs)].
      rewrite Hk, String.eqb_refl. apply IHf, Hv.
  - split.
    + intros H. apply Bool.orb_true_iff in H as [H|H]; [apply ht_left, IH1|apply ht_right, IH2]; exact H.
    + intros H. apply Bool.orb_true_iff. inversion H; subst; [left; apply IH1|right; apply IH2]; assumption.
Qed.

#[export] Instance has_type_dec j t : DecidableClass.Decidable (has_type j t) :=
  { Decidable_witness := has_typeb t j; Decidable_spec := has_typeb_spec t j }.

(** ** Reading a typed value *)

Lemma Forall2_field kvs fs :
  Forall2 (fun kv f => fst kv = fst f /\ has_type (snd kv) (snd f)) kvs fs ->
  forall k, match field_type k fs with
            | Some t => exists v, assoc k kvs = Some v /\ has_type v t
            | None => assoc k kvs = None
            end.
Proof.
  induction 1 as [|[k' v] [k'' t] kvs fs [Hk Hv] _ IH]; intros k; simpl in *; [reflexivity|].
  subst k''. destruct (String.eqb k k'); [exists v; split; [reflexivity|exact Hv]|apply IH].
Qed.

(** A key the object type lists: [k in d] is true and [d[k]] and
    [d.get(k, default)] are its value, of the listed type. *)
Lemma typed_field j fs k t :
  has_type j (TObj fs) -> field_type k fs = Some t ->
  exists v, py_in k j = PyOk true /\ py_getitem j k = PyOk v /\
            (forall d, py_get j k d = PyOk v) /\ has_type v t.
Proof.
  intros H Hk. inversion H as [| | | | | | | | |kvs ? Hf| |]; subst.
  pose proof (Forall2_field kvs fs Hf k) as Hfk. rewrite Hk in Hfk. destruct Hfk as (v & Ha & Hv).
  exists v. simpl. rewrite Ha. repeat split; [exact Hv].
Qed.

(** A key the object type does not list: [k in d] is false and
    [d.get(k, default)] is the default. *)
Lemma typed_nofield j fs k :
  has_type j (TObj fs) -> field_type k fs = None ->
  py_in k j = PyOk false /\ forall d, py_get j k d = PyOk d.
Proof.
  intros H Hk. inversion H as [| | | | | | | | |kvs ? Hf| |]; subst.
  pose proof (Forall2_field kvs fs Hf k) as Hfk. rewrite Hk in Hfk. simpl. rewrite Hfk. split; reflexivity.
Qed.

Lemma typed_int v : has_type v TInt -> exists z, v = JInt z.
Proof. inversion 1; eauto. Qed.

Lemma typed_list v t : has_type v (TList t) -> exists xs, v = JList xs /\ Forall (fun x => has_type x t) xs.
Proof. inversion 1; eauto. Qed.

Lemma typed_obj v fs : has_type v (TObj fs) -> exists kvs, v = JObj kvs.
Proof. inversion 1; eauto. Qed.

(** Destructs the field [k] of a value [H] says is an object. *)
Ltac typed_field_of H k :=
  first [ let v := fresh "v" in let Hin := fresh "Hin" in let Hgi := fresh "Hgi" in
          let Hg := fresh "Hg" in let Hv := fresh "Hv" in
          destruct (typed_field _ _ k _ H eq_refl) as (v & Hin & Hgi & Hg & Hv);
          rewrite ?Hin, ?Hgi, ?Hg
        | let Hin := fresh "Hin" in let Hg := fresh "Hg" in
          destruct (typed_nofield _ _ k H eq_refl) as [Hin Hg]; rewrite ?Hin, ?Hg ].

Lemma int_of_typed v : has_type v TInt -> exists l, try_int (PyOk v) = PyOk l.
Proof. intros H. destruct (typed_int v H) as [z ->]. eexists. reflexivity. Qed.

Lemma detail_cases p :
  has_type p detail_type -> has_type p detail_ok_type \/ has_type p detail_error_type.
Proof. unfold detail_type. inversion 1; subst; [left|right]; assumption. Qed.

(** ** The readers on typed values *)

(** [getdata.py] lines 40-47 on a problem entry. *)
Lemma steps_of_problem_typed p : has_type p detail_type -> exists l, steps_of_problem p = PyOk l.
Proof.
  intros [H|H]%detail_cases; unfold steps_of_problem, py_bind; typed_field_of H "iterations";
    [|eexists; reflexivity].
  typed_field_of H "is_correct". destruct (truthy_json _); [now apply int_of_typed|eexists; reflexivity].
Qed.

(** [completion_tokens_analysis.py] lines 47-65 on an iteration record. *)
Lemma tokens_of_iteration_typed flt it :
  has_type it iteration_type -> exists l, tokens_of_iteration flt it = PyOk l.
Proof.
  intros H. unfold tokens_of_iteration, py_bind. typed_field_of H "completion_tokens".
  typed_field_of H "response_type". cbv zeta.
  destruct flt as [f|]; [destruct (json_is_str f v0)|destruct (negb (json_is_str "answer" v0))];
    (apply int_of_typed; assumption) || (eexists; reflexivity).
Qed.

Lemma tokens_of_problem_typed flt p : has_type p detail_type -> exists l, tokens_of_problem flt p = PyOk l.
Proof.
  intros [H|H]%detail_cases; unfold tokens_of_problem, py_bind; typed_field_of H "is_correct";
    [|eexists; reflexivity].
  destruct (truthy_json _); [|eexists; reflexivity].
  typed_field_of H "iteration_details". destruct (typed_list _ _ Hv0) as (xs & -> & Hxs). simpl.
  apply py_concat_map_total. revert Hxs; apply Forall_impl. intros x. apply tokens_of_iteration_typed.
Qed.

(** [completion_tokens_analysis.py] lines 283-297 on a problem entry. *)
Lemma problem_counts_typed p : has_type p detail_type -> exists l, problem_counts p = PyOk l.
Proof.
  intros [H|H]%detail_cases; unfold problem_counts, py_bind; typed_field_of H "iteration_details";
    [|eexists; reflexivity].
  destruct (typed_list _ _ Hv) as (xs & -> & Hxs). simpl. typed_field_of H "is_correct".
  destruct (truthy_json _); [|eexists; reflexivity].
  unfold response_types, py_bind. simpl.
  match goal with |- context [py_concat_map ?f xs] =>
    destruct (py_concat_map_total f xs) as [rts ->]; [|eexists; reflexivity] end.
  revert Hxs; apply Forall_impl. intros x Hx. destruct (typed_obj _ _ Hx) as [kvs ->]. eexists; reflexivity.
Qed.

Section Typed_reports.

Context {A : Type}.
Variable per_problem : json -> py_result (list A).
Hypothesis per_problem_typed : forall p, has_type p detail_type -> exists l, per_problem p = PyOk l.

Lemma for_problem_details_typed h : has_type h tier_type -> exists l, for_problem_details per_problem h = PyOk l.
Proof.
  intros H. unfold for_problem_details, py_bind. typed_field_of H "problem_details".
  destruct (typed_list _ _ Hv) as (ps & -> & Hps). simpl.
  apply py_concat_map_total. revert Hps; apply Forall_impl. exact per_problem_typed.
Qed.

(** The traversal of lines 26-63 of [getdata.py] raises nothing on a
    report of [report_type]. *)
Lemma read_report_typed j : has_type j report_type -> exists l, read_report per_problem j = PyOk l.
Proof.
  intros H. unfold read_report, py_bind.
  destruct (typed_obj _ _ H) as [[|kv kvs] ->]; [inversion H as [| | | | | | | | |? ? Hf| |]; inversion Hf|].
  typed_field_of H "difficulty_results". simpl.
  inversion Hv as [| | | | | | | |kvs' ? Hd| | |]; subst. simpl.
  apply py_concat_map_total. revert Hd; apply Forall_impl. intros [k h]. apply for_problem_details_typed.
Qed.

End Typed_reports.

(** ** The report [main] writes is typed *)

Create HintDb schema discriminated.

Lemma opt_str_json_typed o : has_type (opt_str_json o) (TOpt TStr).
Proof. destruct o; repeat constructor. Qed.

Lemma opt_bool_json_typed o : has_type (opt_bool_json o) (TOpt TBool).
Proof. destruct o; repeat constructor. Qed.

Lemma response_type_typed r : has_type (JStr (Classify.response_type_str r)) (TEnum response_type_names).
Proof. constructor. destruct r; simpl; tauto. Qed.

Lemma map_typed {X} (f : X -> json) t xs :
  (forall x, has_type (f x) t) -> has_type (JList (map f xs)) (TList t).
Proof. intros H. constructor. apply Forall_forall. intros y (x & <- & _)%in_map_iff. apply H. Qed.

#[export] Hint Resolve opt_str_json_typed opt_bool_json_typed response_type_typed map_typed : schema.

(** Checks a [JObj] built field by field against its object type. *)
Ltac typecheck :=
  repeat first [ apply ht_obj | apply Forall2_cons | apply Forall2_nil | split | reflexivity
               | solve [eauto with schema] | apply map_typed; intro | constructor ].

Section Report_typed.

Variable str_exc : py_exc -> string.
Variable evaluation_date summary_string : string.

Lemma iteration_json_typed i : has_type (iteration_json i) iteration_type.
Proof. unfold iteration_json, iteration_type. typecheck. Qed.

#[local] Hint Resolve iteration_json_typed : schema.

Lemma detail_json_typed d : has_type (detail_json str_exc d) detail_type.
Proof.
  unfold detail_type. destruct d; simpl; [apply ht_left|apply ht_right];
    unfold detail_ok_type, detail_error_type; typecheck.
Qed.

#[local] Hint Resolve detail_json_typed : schema.

Lemma metrics_json_typed m a : has_type (metrics_json str_exc m a) tier_type.
Proof. unfold metrics_json, tier_type. typecheck. Qed.

Lemma report_json_typed tiers s :
  has_type (report_json str_exc evaluation_date summary_string tiers s) report_type.
Proof.
  unfold report_json, report_type, metadata_type, summary_json, summary_type, difficulty_results_json.
  typecheck. apply Forall_forall. intros kv (e & <- & _)%in_map_iff. apply metrics_json_typed.
Qed.

End Report_typed.

(** ** The readers never raise on the report [main] writes *)

(** C12 (type): every report [main] of [process3.py] dumps has the type
    [report_type] (the closed object types of its dictionaries, in the
    order the code writes their keys); and on every JSON value of that
    type the readers [process_iteration_steps] of [getdata.py],
    [process_completion_tokens] (any filter) and the counting loop of
    [completion_tokens_analysis.py] return without raising. *)
Theorem report_schema_readers_safe :
  (forall str_exc evaluation_date summary_string tiers s,
      has_type (report_json str_exc evaluation_date summary_string tiers s) report_type) /\
  (forall j, has_type j report_type ->
     (exists l, process_iteration_steps j = PyOk l) /\
     (forall flt, exists l, process_completion_tokens j flt = PyOk l) /\
     (exists c, main_counts j = PyOk c)).
Proof.
  split; [exact report_json_typed|]. intros j H. split; [|split].
  - exact (read_report_typed _ steps_of_problem_typed j H).
  - intros flt. exact (read_report_typed _ (tokens_of_problem_typed flt) j H).
  - destruct (read_report_typed _ problem_counts_typed j H) as [cs Hcs].
    unfold main_counts. rewrite Hcs. eexists; reflexivity.
Qed.

Definition empty_summary : run_summary := mk_summary zero_totals 0 0 0 0 0 0 0 0 0 0.

Definition empty_report : json := report_json (fun _ => "error") "2025-01-01" "summary" [] empty_summary.

Lemma report_schema_readers_safe_witness :
  has_typeb report_type empty_report = true /\
  process_iteration_steps empty_report = PyOk [] /\
  (exists c, main_counts empty_report = PyOk c).
Proof.
  assert (Hb : has_typeb report_type empty_report = true) by (vm_compute; reflexivity).
  split; [exact Hb|split; [vm_compute; reflexivity|]].
  exact (proj2 (proj2 (proj2 report_schema_readers_safe empty_report (proj1 (has_typeb_spec _ _) Hb)))).
Defined.
