(* ===== verification/Analysis.v ===== *)
(** * The analysis script [main] of [src/getdata.py]

    [main] (lines 187-254) loads the report, counts the problems and the
    correct ones (lines 196-211), reads the iteration steps of the
    correct problems ([process_iteration_steps], [Readers.v]), prints the
    accuracy [correct_problems / total_problems * 100] (no zero guard),
    the share of problems solved in at most 30 steps, and builds the
    bins and the frequency table of [Binning.v] with width 5.  The
    counting pass walks the report exactly as [process_iteration_steps]
    does, so it is [read_report] with a per-problem function marking
    each problem 1 (correct) or 0; [total_problems] is the number of
    marks and [correct_problems] their sum.  The printed statistics
    (minimum, maximum, [np.mean], [np.median]) and the per-bin lines
    with their percentages are those of [Stats.v]; plotting is not
    modelled. *)

From stdpp Require Import gmap.
From Stdlib Require Import String List ZArith QArith Lia.
From S2P Require Import Prelude PyString Json Readers Binning Stats.
Local Open Scope py_scope.
Local Open Scope Z_scope.

(** Lines 204-206 (and 209-211): [total_problems += 1] and, when
    [problem.get('is_correct', False)], [correct_problems += 1]. *)
Definition mark_problem (problem : json) : py_result (list Z) :=
  let? ok := py_get problem "is_correct" (JBool false) in
  PyOk [if truthy_json ok then 1 else 0].

(** What [main] computes and prints before plotting. *)
Record analysis : Type := mk_analysis {
  a_total_problems : Z;
  a_correct_problems : Z;
  a_iteration_steps : list Z;
  a_accuracy : Q;
  a_min : Z;
  a_max : Z;
  a_mean : Q;
  a_median : Q;
  a_steps_30_or_less : Z;
  a_percentage_30_or_less : Q;
  a_bins : list Z;
  a_frequency : gmap (Z * Z) nat;
  a_bin_lines : list ((Z * Z) * nat * Q)
}.

(** Lines 192-251; [None] for the early [return]s of lines 193-194 and
    215-217. *)
Definition getdata_main (data : json) : py_result (option analysis) :=
  if negb (truthy_json data) then PyOk None
  else
    let? marks := read_report mark_problem data in
    let total := Z.of_nat (length marks) in
    let correct := sum_Z marks in
    let? steps := process_iteration_steps data in
    match steps with
    | [] => PyOk None
    | _ =>
        let? acc := py_div_Z correct total in
        let? mn := py_min steps in
        let? mx := py_max steps in
        match np_mean steps, np_median steps with
        | Some me, Some md =>
            let le30 := Z.of_nat (length (List.filter (fun s => s <=? 30) steps)) in
            let? p30 := py_div_Z le30 (Z.of_nat (length steps)) in
            let? bs := create_bins steps 5 in
            let freq := count_frequency steps bs in
            let? lines := bin_lines (sorted_frequency freq) (length steps) in
            PyOk (Some (mk_analysis total correct steps (acc * 100) mn mx me md le30 (p30 * 100)
                                    bs freq lines))
        | _, _ => PyOk None (* [np.mean] and [np.median] are defined on [steps <> []] *)
        end
    end.

(** [main] of [src/math/getdata.py] (lines 119-142): the steps of every
    entry of a root-level [problem_details] ([process_iteration_steps_v0],
    [Readers.v]), the bins of width 5 (the [create_bins] of that file is
    the one of [Binning.v] on a non-empty list; its [return [], []] on an
    empty one is not reached since [main] returns first), its own
    [count_frequency] ([count_frequency_v0]), and what [plot_histogram]
    draws (lines 79-80: the bins in increasing order with their counts). *)
Definition getdata_v0_main (data : json)
  : py_result (option (list Z * gmap (Z * Z) nat * list ((Z * Z) * nat))) :=
  if negb (truthy_json data) then PyOk None
  else
    let? steps := process_iteration_steps_v0 data in
    match steps with
    | [] => PyOk None
    | _ =>
        let? bs := create_bins steps 5 in
        let? freq := count_frequency_v0 steps bs in
        PyOk (Some (bs, freq, sorted_frequency freq))
    end.

(** ** Properties *)

Lemma mark_problem_spec p l :
  mark_problem p = PyOk l -> length l = 1%nat /\ Forall (fun x => 0 <= x <= 1) l.
Proof.
  unfold mark_problem, py_bind. destruct (py_get p "is_correct" (JBool false)) as [ok|]; [|discriminate].
  intros [= <-]. split; [reflexivity|]. constructor; [destruct (truthy_json ok); lia|constructor].
Qed.

Lemma sum_Z_01 l : Forall (fun x => 0 <= x <= 1) l -> 0 <= sum_Z l <= Z.of_nat (length l).
Proof. induction 1; simpl; lia. Qed.

(** What [main] computes once the counting pass and the reader have
    succeeded on a report with steps: no division raises. *)
Lemma getdata_main_spec (data : json) (marks steps : list Z) :
  truthy_json data = true ->
  read_report mark_problem data = PyOk marks ->
  process_iteration_steps data = PyOk steps -> steps <> [] ->
  exists bs a, create_bins steps 5 = PyOk bs /\ getdata_main data = PyOk (Some a) /\
    a_total_problems a = Z.of_nat (length marks) /\ a_correct_problems a = sum_Z marks /\
    a_iteration_steps a = steps /\
    a_accuracy a = (inject_Z (sum_Z marks) / inject_Z (Z.of_nat (length marks)) * 100)%Q /\
    a_steps_30_or_less a = Z.of_nat (length (List.filter (fun s => s <=? 30) steps)) /\
    a_percentage_30_or_less a = (inject_Z (a_steps_30_or_less a) /
                                 inject_Z (Z.of_nat (length steps)) * 100)%Q /\
    a_bins a = bs /\ a_frequency a = count_frequency steps bs /\
    py_min steps = PyOk (a_min a) /\ py_max steps = PyOk (a_max a) /\
    np_mean steps = Some (a_mean a) /\ np_median steps = Some (a_median a) /\
    map fst (a_bin_lines a) = sorted_frequency (a_frequency a) /\
    (sum_Q (map snd (a_bin_lines a)) ==
     inject_Z (Z.of_nat (map_sum (a_frequency a))) / inject_Z (Z.of_nat (length steps)) * 100)%Q /\
    (length steps <= length marks)%nat /\ 0 <= sum_Z marks <= Z.of_nat (length marks).
Proof.
  intros Ht Hm Hs Hne.
  assert (Hle : (length steps <= length marks)%nat).
  { refine (read_report_le steps_of_problem mark_problem _ data steps marks Hs Hm).
    intros p l1 l2 H1 H2. rewrite (proj1 (mark_problem_spec p l2 H2)). exact (steps_of_problem_length p l1 H1). }
  pose proof (sum_Z_01 marks (read_report_Forall _ _ (fun p l H => proj2 (mark_problem_spec p l H)) data marks Hm)).
  destruct (np_median_some steps Hne) as [md Hmd].
  destruct steps as [|s0 steps']; [congruence|].
  destruct (create_bins (s0 :: steps') 5) as [bs|e] eqn:Eb;
    [|unfold create_bins, py_range in Eb; simpl in Eb; discriminate].
  destruct (bin_lines_sum (sorted_frequency (count_frequency (s0 :: steps') bs)) (length (s0 :: steps'))
              ltac:(simpl; lia)) as (lines & Hl & Hf & Hsum).
  rewrite sorted_frequency_sum in Hsum.
  unfold getdata_main. rewrite Ht, Hm, Hs. cbn [negb py_bind].
  rewrite !py_div_Z_ok by (simpl length in *; lia). cbn [py_bind py_min py_max].
  rewrite Hmd. cbn [np_mean]. rewrite Eb. cbn [py_bind]. rewrite Hl. cbn [py_bind].
  do 2 eexists. split; [reflexivity|]. split; [reflexivity|]. cbn.
  repeat (split; [reflexivity|]). split; [exact Hf|]. split; [exact Hsum|]. split; [exact Hle|lia].
Qed.

Lemma create_bins_nonempty (vs : list Z) (w : Z) :
  0 < w -> vs <> [] -> exists bs, create_bins vs w = PyOk bs.
Proof.
  intros Hw Hne. destruct vs as [|x r]; [congruence|]. unfold create_bins, py_min, py_max, py_range.
  replace (w =? 0) with false by lia. replace (0 <? w) with true by lia. eexists. reflexivity.
Qed.

(** [main] of [src/math/getdata.py] completes on every report whose
    reader gives steps: its table is the one [src/getdata.py] builds on
    the same steps and bins, and its counts add up to the number of
    steps. *)
Lemma getdata_v0_main_spec (data : json) (steps : list Z) :
  truthy_json data = true -> process_iteration_steps_v0 data = PyOk steps -> steps <> [] ->
  exists bs, create_bins steps 5 = PyOk bs /\
    getdata_v0_main data
      = PyOk (Some (bs, count_frequency steps bs, sorted_frequency (count_frequency steps bs))) /\
    map_sum (count_frequency steps bs) = length steps.
Proof.
  intros Ht Hs Hne. destruct (create_bins_nonempty steps 5 ltac:(lia) Hne) as [bs Hb].
  assert (Hv0 : count_frequency_v0 steps bs = PyOk (count_frequency steps bs)).
  { apply count_frequency_v0_from_found. intros v Hv.
    destruct (create_bins_grid steps 5 bs v ltac:(lia) Hb Hv) as (-> & _). discriminate. }
  exists bs. split; [exact Hb|split; [|exact (count_frequency_map_sum steps 5 bs ltac:(lia) Hb)]].
  unfold getdata_v0_main. rewrite Ht, Hs. cbn [negb py_bind].
  destruct steps as [|s0 r]; [congruence|]. rewrite Hb. cbn [py_bind]. rewrite Hv0. reflexivity.
Qed.

(** C32. The accuracy of [src/getdata.py] divides by [total_problems]
    with no zero guard: it is safe, since a report with an iteration
    step has a problem.  Whenever the counting pass and the reader
    succeed on a non-empty report with steps, [main] completes; its
    accuracy and its share of problems solved in at most 30 steps are
    percentages; the steps are at most the problems; the printed mean
    and median lie between the printed minimum and maximum; and the
    per-bin lines list the bins of the table in increasing order, with
    percentages that add up to 100. *)
Theorem getdata_main_safe (data : json) (marks steps : list Z) :
  truthy_json data = true ->
  read_report mark_problem data = PyOk marks ->
  process_iteration_steps data = PyOk steps -> steps <> [] ->
  exists a, getdata_main data = PyOk (Some a) /\
    (0 <= a_accuracy a <= 100)%Q /\ (0 <= a_percentage_30_or_less a <= 100)%Q /\
    Z.of_nat (length (a_iteration_steps a)) <= a_total_problems a /\
    (inject_Z (a_min a) <= a_mean a <= inject_Z (a_max a))%Q /\
    (inject_Z (a_min a) <= a_median a <= inject_Z (a_max a))%Q /\
    map fst (a_bin_lines a) = sorted_frequency (a_frequency a) /\
    (sum_Q (map snd (a_bin_lines a)) == 100)%Q.
Proof.
  intros Ht Hm Hs Hne.
  destruct (getdata_main_spec data marks steps Ht Hm Hs Hne)
    as (bs & a & Hb & Ha & Htot & Hcor & Hst & Hacc & H30 & Hp30 & Hbs & Hfr & Hmn & Hmx & Hme & Hmd & Hf & Hsum & Hle & Hc).
  exists a. split; [exact Ha|].
  pose proof (count_if_bounds (fun s => s <=? 30) steps) as Hb30. unfold count_if in Hb30.
  assert (0 < length steps)%nat by (destruct steps; [congruence|simpl; lia]).
  rewrite Hfr, (count_frequency_map_sum steps 5 bs ltac:(lia) Hb) in Hsum.
  split; [rewrite Hacc; apply percent_bounds; lia|].
  split; [rewrite Hp30, H30; apply percent_bounds; lia|].
  split; [rewrite Hst, Htot; lia|].
  split; [exact (np_mean_bounds _ _ _ _ Hmn Hmx Hme)|].
  split; [exact (np_median_bounds _ _ _ _ Hmn Hmx Hmd)|].
  split; [exact Hf|]. rewrite Hsum. field. apply inject_Z_nonzero. lia.
Qed.

Local Open Scope string_scope.

(** A report with a correct problem solved in 3 iterations and a failed one. *)
Definition sample_report : json :=
  JObj [("difficulty_results",
         JObj [("difficulty_5",
                JObj [("problem_details",
                       JList [JObj [("iterations", JInt 3); ("is_correct", JBool true)];
                              JObj [("problem", JStr "Q"); ("error", JStr "timeout")]])])])].

Lemma getdata_main_safe_witness :
  exists a, getdata_main sample_report = PyOk (Some a) /\
    (0 <= a_accuracy a <= 100)%Q /\ (0 <= a_percentage_30_or_less a <= 100)%Q /\
    Z.of_nat (length (a_iteration_steps a)) <= a_total_problems a /\
    (inject_Z (a_min a) <= a_mean a <= inject_Z (a_max a))%Q /\
    (inject_Z (a_min a) <= a_median a <= inject_Z (a_max a))%Q /\
    map fst (a_bin_lines a) = sorted_frequency (a_frequency a) /\
    (sum_Q (map snd (a_bin_lines a)) == 100)%Q.
Proof. exact (getdata_main_safe sample_report [1; 0] [3] eq_refl eq_refl eq_refl ltac:(discriminate)). Defined.
