(* ===== verification/Files.v ===== *)
(** * Reading and writing the report files

    The scripts meet the file system in two places.  The offline
    analyses read a report with [load_data] ([src/getdata.py] 12-22; the
    same function is at [src/completion_tokens_analysis.py] 12-22 and
    [src/math/getdata.py] 6-16): a missing file ([FileNotFoundError]) or
    a file that is not JSON ([json.JSONDecodeError]) gives [None].  The
    drivers write one: [main] of [src/math/process3.py] (lines 520-527)
    lists [./result], counts the files named [multi_metrics_*.json] and
    writes [multi_metrics_{count + 1}.json] ([src/math/test3.py] 317-324
    does the same with [single_metrics_]); [main] of
    [src/math/process.py] (lines 347-350) always writes
    [multi_agent_difficulty_metrics.json].

    A directory is a finite map from file names to contents, a JSON text
    or some other text; [os.listdir] is its list of names (in no
    particular order: only the count and the membership of the names
    matter below).  The theorem of this file is that the numbering of
    [main] never overwrites a report as long as the reports of the
    directory are numbered [1..n], that saving keeps that numbering, and
    that a directory with a gap in the numbering makes [main] overwrite
    an earlier report. *)

From stdpp Require Import gmap strings.
From Stdlib Require Import String List ZArith Lia Permutation.
From S2P Require Import Prelude PyString Json.
Import ListNotations.
Local Open Scope Z_scope.
Local Open Scope string_scope.

(** What a file holds: what [json.dump] wrote, or a text [json.load]
    refuses. *)
Inductive file_content : Type :=
| JsonText (j : json)
| OtherText.

#[warnings="-notation-for-abbreviation"]
Notation directory := (gmap string file_content).

(** [load_data(file_path)] ([src/getdata.py] 12-22). *)
Definition load_data (fs : directory) (file_path : string) : option json :=
  match fs !! file_path with
  | Some (JsonText j) => Some j
  | Some OtherText => None
  | None => None
  end.

(** [f.startswith(p)] and [f.endswith(s)]. *)
Definition startswith (p f : string) : bool := prefixb p f.
Definition endswith (s f : string) : bool := prefixb (str_rev s) (str_rev f).

(** [os.listdir(result_dir)]. *)
Definition listdir (d : directory) : list string := map fst (map_to_list d).

(** [existing_files] (line 523). *)
Definition result_files (prefix : string) (d : directory) : list string :=
  List.filter (fun f => startswith prefix f && endswith ".json" f) (listdir d).

(** [idx = len(existing_files) + 1] and the file name (lines 524-525). *)
Definition results_file (prefix : string) (d : directory) : string :=
  prefix ++ z_to_string (Z.of_nat (length (result_files prefix d)) + 1) ++ ".json".

(** Lines 521-527: the directory after [json.dump(all_results, f)], and
    the name written. *)
Definition save_results (prefix : string) (d : directory) (all_results : json) : directory * string :=
  let f := results_file prefix d in
  (<[f := JsonText all_results]> d, f).

(** The saving of [main] of [src/math/process3.py] (lines 520-527) and
    of [src/math/test3.py] (lines 317-324). *)
Definition save_multi_metrics (d : directory) (all_results : json) : directory * string :=
  save_results "multi_metrics_" d all_results.

Definition save_single_metrics (d : directory) (all_results : json) : directory * string :=
  save_results "single_metrics_" d all_results.

(** [main] of [src/math/process.py] (lines 347-350): one fixed name. *)
Definition save_results_v1 (d : directory) (all_results : json) : directory :=
  <[ "multi_agent_difficulty_metrics.json" := JsonText all_results ]> d.

(** The reports of [d] are numbered [1..n], [n] their number. *)
Definition numbered (prefix : string) (d : directory) : Prop :=
  forall f, In f (result_files prefix d) ->
    exists i, 1 <= i <= Z.of_nat (length (result_files prefix d)) /\
              f = prefix ++ z_to_string i ++ ".json".

(** ** Names *)

Lemma startswith_app p x : startswith p (p ++ x) = true.
Proof. apply prefixb_spec. eexists. reflexivity. Qed.

Lemma endswith_app x s : endswith s (x ++ s) = true.
Proof. unfold endswith. rewrite str_rev_app. apply prefixb_spec. eexists. reflexivity. Qed.

Lemma str_app_inv_r (a b c : string) : a ++ c = b ++ c -> a = b.
Proof.
  intros H. apply (f_equal str_rev) in H. rewrite !str_rev_app in H.
  apply str_app_inv_l in H. rewrite <- (str_rev_involutive a), H. apply str_rev_involutive.
Qed.

Lemma z_to_string_inj i j : z_to_string i = z_to_string j -> i = j.
Proof.
  intros H. pose proof (int_str_roundtrip i) as Hi. rewrite H, int_str_roundtrip in Hi. congruence.
Qed.

Lemma report_name_inj prefix i j :
  prefix ++ z_to_string i ++ ".json" = prefix ++ z_to_string j ++ ".json" -> i = j.
Proof. intros H. apply str_app_inv_l, str_app_inv_r, z_to_string_inj in H. exact H. Qed.

(** ** The listing *)

Lemma In_listdir d f : In f (listdir d) <-> exists c, d !! f = Some c.
Proof.
  unfold listdir. rewrite in_map_iff. split.
  - intros ([g c] & <- & H). exists c. apply elem_of_map_to_list, list_elem_of_In. exact H.
  - intros (c & H). exists (f, c). split; [reflexivity|].
    apply list_elem_of_In, elem_of_map_to_list. exact H.
Qed.

Lemma In_result_files prefix d f :
  In f (result_files prefix d) <->
  (exists c, d !! f = Some c) /\ startswith prefix f && endswith ".json" f = true.
Proof. unfold result_files. rewrite filter_In, In_listdir. reflexivity. Qed.

Lemma filter_length_perm {A} (p : A -> bool) (l l' : list A) :
  Permutation l l' -> length (List.filter p l) = length (List.filter p l').
Proof.
  induction 1 as [|x l l' _ IH|x y l|l l' l'' _ IH1 _ IH2]; simpl.
  - reflexivity.
  - destruct (p x); simpl; lia.
  - destruct (p x), (p y); simpl; lia.
  - lia.
Qed.

(** Writing a new report adds one name to the listing. *)
Lemma result_files_insert prefix d f c :
  d !! f = None -> startswith prefix f && endswith ".json" f = true ->
  length (result_files prefix (<[f := c]> d)) = S (length (result_files prefix d)).
Proof.
  intros Hf Hm. unfold result_files, listdir.
  rewrite (filter_length_perm _ _ _ (Permutation_map fst (map_to_list_insert d f c Hf))).
  simpl. rewrite Hm. reflexivity.
Qed.

(** The next name is not among the numbered reports. *)
Lemma results_file_fresh prefix d :
  numbered prefix d -> d !! results_file prefix d = None.
Proof.
  intros Hn. destruct (d !! results_file prefix d) as [c|] eqn:E; [exfalso|reflexivity].
  assert (Hin : In (results_file prefix d) (result_files prefix d)).
  { apply In_result_files. split; [exists c; exact E|].
    unfold results_file. rewrite startswith_app, <- str_app_assoc, endswith_app. reflexivity. }
  destruct (Hn _ Hin) as (i & Hi & Heq). unfold results_file in Heq.
  apply report_name_inj in Heq. lia.
Qed.

(** Saving a report keeps the numbering [1..n+1]. *)
Lemma save_results_numbered prefix d r :
  numbered prefix d -> numbered prefix (fst (save_results prefix d r)).
Proof.
  intros Hn. pose proof (results_file_fresh prefix d Hn) as Hf. cbn [save_results fst].
  set (f := results_file prefix d) in *.
  assert (Hm : startswith prefix f && endswith ".json" f = true).
  { unfold f, results_file. rewrite startswith_app, <- str_app_assoc, endswith_app. reflexivity. }
  intros g Hg. rewrite (result_files_insert prefix d f _ Hf Hm).
  apply In_result_files in Hg as ([c Hc] & Hgm).
  destruct (String.eqb_spec g f) as [->|Hne].
  - exists (Z.of_nat (length (result_files prefix d)) + 1). split; [lia|reflexivity].
  - rewrite lookup_insert_ne in Hc by congruence.
    destruct (Hn g (proj2 (In_result_files prefix d g) (conj (ex_intro _ c Hc) Hgm))) as (i & Hi & ->).
    exists i. split; [lia|reflexivity].
Qed.

Lemma numbered_empty prefix : numbered prefix ∅.
Proof. intros f Hf. apply In_result_files in Hf as ([c Hc] & _). rewrite lookup_empty in Hc. discriminate. Qed.

(** C34. [main] of [process3.py] (and of [test3.py]) names its report
    after the number of reports already in [./result].  While the
    reports there are numbered [1..n] (as they are from an empty
    directory on), the new name is fresh, the report can be loaded back
    under it, every earlier file is kept, and the reports stay numbered
    [1..n+1].  With a gap in the numbering the count is not the last
    number: with only [multi_metrics_2.json] present, [main] writes
    [multi_metrics_2.json] again and the earlier report is lost. *)
Theorem result_file_naming :
  (forall prefix d r, numbered prefix d ->
     let (d', f) := save_results prefix d r in
     d !! f = None /\ load_data d' f = Some r /\
     (forall g c, d !! g = Some c -> d' !! g = Some c) /\ numbered prefix d') /\
  numbered "multi_metrics_" ∅ /\
  (let d : directory := {[ "multi_metrics_2.json" := JsonText JNull ]} in
   let (d', f) := save_results "multi_metrics_" d (JBool true) in
   f = "multi_metrics_2.json" /\ load_data d f = Some JNull /\ load_data d' f = Some (JBool true)).
Proof.
  split; [|split; [apply numbered_empty|vm_compute; auto]].
  intros prefix d r Hn. pose proof (save_results_numbered prefix d r Hn) as Hn'.
  pose proof (results_file_fresh prefix d Hn) as Hf. revert Hn'. cbn [save_results fst].
  intros Hn'. split; [exact Hf|split; [|split; [|exact Hn']]].
  - unfold load_data. rewrite lookup_insert_eq. reflexivity.
  - intros g c Hg. rewrite lookup_insert_ne; [exact Hg|]. intros E. rewrite E in Hf. congruence.
Qed.

Definition one_report : directory := {[ "multi_metrics_1.json" := JsonText JNull ]}.

Lemma result_file_naming_witness :
  numbered "multi_metrics_" one_report /\
  snd (save_results "multi_metrics_" one_report (JBool true)) = "multi_metrics_2.json" /\
  one_report !! snd (save_results "multi_metrics_" one_report (JBool true)) = None.
Proof.
  assert (Hn : numbered "multi_metrics_" one_report).
  { assert (Hl : listdir one_report = ["multi_metrics_1.json"])
      by (unfold listdir, one_report; rewrite map_to_list_singleton; reflexivity).
    intros f Hf. unfold result_files in *. rewrite Hl in *. apply filter_In in Hf as [Hf _].
    destruct Hf as [<-|[]]. exists 1. split; [vm_compute; split; discriminate|vm_compute; reflexivity]. }
  split; [exact Hn|split; [vm_compute; reflexivity|]].
  pose proof (proj1 result_file_naming "multi_metrics_" one_report (JBool true) Hn) as H.
  destruct (save_results "multi_metrics_" one_report (JBool true)) as [d' f]. exact (proj1 H).
Defined.
