(* ===== verification/Pipeline.v ===== *)
(** * From the driver to the histograms

    Runs the log readers of [Readers.v] on the report of [Report.v]
    that [main] of [process3.py] writes after [main_summary]
    ([Summary.v]): the theorems relate what the offline scripts read to
    what the evaluation computed. *)

From stdpp Require Import gmap.
From Stdlib Require Import String List ZArith QArith Lia.
From S2P Require Import Prelude PyString Response Endpoint Driver Compare Tier Summary Json Report Readers Binning Analysis.
Import ListNotations.
Local Open Scope py_scope.
Local Open Scope Z_scope.

(** The iterations of the entries marked correct, in order. *)
Definition correct_iterations (ds : list problem_detail) : list Z :=
  concat (map (fun d => match d with
                        | DetailOk _ _ _ ic res => if truthy ic then [result_iterations res] else []
                        | DetailError _ _ => []
                        end) ds).

Section Pipeline.

Variable str_exc : py_exc -> string.

(** The mark of the counting pass of [src/getdata.py] [main] for an entry. *)
Definition mark_of (d : problem_detail) : Z := if detail_correct d then 1 else 0.

(** A reader of the report walks the entries of every tier in order. *)
Lemma read_report_json (f : json -> py_result (list Z)) (date sstr : string)
    (tiers : tier_results) (s : run_summary) :
  read_report f (report_json str_exc date sstr tiers s) =
  py_concat_map (fun e => py_concat_map (fun d => f (detail_json str_exc d))
                                        (problem_details (fst (snd e)))) tiers.
Proof.
  unfold read_report. cbn -[for_problem_details metrics_json detail_json].
  rewrite py_concat_map_map. apply py_concat_map_ext. intros e.
  cbn -[detail_json]. apply py_concat_map_map.
Qed.

Lemma steps_of_detail (d : problem_detail) :
  steps_of_problem (detail_json str_exc d) =
  PyOk (match d with
        | DetailOk _ _ _ ic res => if truthy ic then [result_iterations res] else []
        | DetailError _ _ => []
        end).
Proof. destruct d as [p fa ca [[]|] res|p e]; reflexivity. Qed.

Lemma mark_of_detail (d : problem_detail) :
  mark_problem (detail_json str_exc d) = PyOk [mark_of d].
Proof. destruct d as [p fa ca [[]|] res|p e]; reflexivity. Qed.

Lemma steps_of_report (date sstr : string) (tiers : tier_results) (s : run_summary) :
  process_iteration_steps (report_json str_exc date sstr tiers s) =
  PyOk (concat (map (fun e => correct_iterations (problem_details (fst (snd e)))) tiers)).
Proof.
  unfold process_iteration_steps. rewrite read_report_json.
  apply py_concat_map_ok. intros e _. apply py_concat_map_ok. intros d _. apply steps_of_detail.
Qed.

Lemma marks_of_report (date sstr : string) (tiers : tier_results) (s : run_summary) :
  read_report mark_problem (report_json str_exc date sstr tiers s) =
  PyOk (concat (map (fun e => concat (map (fun d => [mark_of d]) (problem_details (fst (snd e))))) tiers)).
Proof.
  rewrite read_report_json.
  apply py_concat_map_ok. intros e _. apply py_concat_map_ok. intros d _. apply mark_of_detail.
Qed.

Lemma length_correct_iterations (ds : list problem_detail) :
  Z.of_nat (length (correct_iterations ds)) = count_if detail_correct ds.
Proof.
  unfold correct_iterations, count_if. induction ds as [|[p fa ca ic res|p e] ds IH]; [reflexivity| |exact IH].
  simpl. destruct (truthy ic); simpl; lia.
Qed.

Lemma marks_sum (ds : list problem_detail) :
  sum_Z (concat (map (fun d => [mark_of d]) ds)) = count_if detail_correct ds /\
  Z.of_nat (length (concat (map (fun d => [mark_of d]) ds))) = Z.of_nat (length ds).
Proof.
  unfold count_if, mark_of. induction ds as [|d ds IH]; [split; reflexivity|]. simpl.
  destruct (detail_correct d); simpl; lia.
Qed.

Lemma length_concat_map {A B} (f : A -> list B) (l : list A) :
  Z.of_nat (length (concat (map f l))) = sum_Z (map (fun x => Z.of_nat (length (f x))) l).
Proof. induction l as [|x l IH]; simpl; [reflexivity|]. rewrite length_app. lia. Qed.

Lemma sum_concat_map {A} (f : A -> list Z) (l : list A) :
  sum_Z (concat (map f l)) = sum_Z (map (fun x => sum_Z (f x)) l).
Proof. induction l as [|x l IH]; simpl; [reflexivity|]. rewrite sum_Z_app. lia. Qed.

Lemma summary_of_totals (t : run_totals) (s : run_summary) :
  summary_of t = PyOk s -> sum_totals s = t.
Proof.
  unfold summary_of.
  repeat match goal with |- context [match ?x with PyOk _ => _ | PyExc _ => _ end] =>
           destruct x; [|discriminate] end.
  intros [= <-]. reflexivity.
Qed.

(** The tiers of a run: each counts its entries marked correct and has
    one entry per problem; the summary holds their totals. *)
Definition tier_faithful (e : Z * (tier_metrics * tier_averages)) : Prop :=
  correct_count (fst (snd e)) = count_if detail_correct (problem_details (fst (snd e))) /\
  total_problems (fst (snd e)) = Z.of_nat (length (problem_details (fst (snd e)))).

Lemma main_summary_tiers ep sys ev levels w :
  match main_summary ep sys ev levels w with
  | (PyOk (tiers, s), _) => Forall tier_faithful tiers /\ sum_totals s = accumulate tiers
  | (PyExc _, _) => False
  end.
Proof.
  pose proof (main_summary_bounds ep sys ev levels w) as Hsafe.
  unfold main_summary, bind in *.
  assert (HF := run_tiers_Forall tier_faithful ep sys ev levels [] w).
  destruct (run_tiers ep sys ev levels [] w) as [[tiers|e] w']; [|exact Hsafe].
  specialize (HF ltac:(intros d file w1; pose proof (tier_details ep sys ev d file w1) as H;
                       destruct (process_difficulty_level ep sys ev d file w1)
                         as [[[[m a]|]|e] w2]; exact H) (Forall_nil _)).
  destruct (summary_of (accumulate tiers)) as [s|e] eqn:E; [|exact Hsafe].
  split; [exact HF|exact (summary_of_totals _ _ E)].
Qed.

Lemma steps_count (tiers : tier_results) :
  Forall tier_faithful tiers ->
  Z.of_nat (length (concat (map (fun e => correct_iterations (problem_details (fst (snd e)))) tiers))) =
  s_total_correct (accumulate tiers).
Proof.
  intros HF. rewrite length_concat_map. destruct (accumulate_sums_aux tiers) as (_ & _ & ->). f_equal.
  apply map_ext_in. intros e Hin. rewrite length_correct_iterations.
  symmetry. exact (proj1 (proj1 (Forall_forall _ _) HF e Hin)).
Qed.

Lemma marks_count (tiers : tier_results) :
  Forall tier_faithful tiers ->
  let marks := concat (map (fun e => concat (map (fun d => [mark_of d]) (problem_details (fst (snd e))))) tiers) in
  Z.of_nat (length marks) = s_total_problems (accumulate tiers) /\
  sum_Z marks = s_total_correct (accumulate tiers).
Proof.
  intros HF marks. destruct (accumulate_sums_aux tiers) as (-> & _ & ->). split.
  - unfold marks. rewrite length_concat_map. f_equal. apply map_ext_in. intros e Hin.
    rewrite (proj2 (marks_sum _)). symmetry. exact (proj2 (proj1 (Forall_forall _ _) HF e Hin)).
  - unfold marks. rewrite sum_concat_map. f_equal. apply map_ext_in. intros e Hin.
    rewrite (proj1 (marks_sum _)). symmetry. exact (proj1 (proj1 (Forall_forall _ _) HF e Hin)).
Qed.

(** C29. End to end, from the evaluation to the iteration histogram: on
    every endpoint and set of data files, the report [main] writes gives
    [process_iteration_steps] of [src/getdata.py] the iterations of the
    problems judged correct, tier by tier, as many as the summary's
    [correct_answers]; [process_iteration_steps] of [src/math/getdata.py],
    which looks for a root-level ["problem_details"], reads nothing. *)
Theorem report_iteration_steps ep sys ev levels w date sstr :
  match main_summary ep sys ev levels w with
  | (PyOk (tiers, s), _) =>
      process_iteration_steps (report_json str_exc date sstr tiers s) =
        PyOk (concat (map (fun e => correct_iterations (problem_details (fst (snd e)))) tiers)) /\
      Z.of_nat (length (concat (map (fun e => correct_iterations (problem_details (fst (snd e))))
                                   tiers))) = s_total_correct (sum_totals s) /\
      process_iteration_steps_v0 (report_json str_exc date sstr tiers s) = PyOk []
  | (PyExc _, _) => False
  end.
Proof.
  pose proof (main_summary_tiers ep sys ev levels w) as H.
  destruct (main_summary ep sys ev levels w) as [[[tiers s]|e] w']; [|exact H].
  destruct H as (HF & ->).
  split; [apply steps_of_report|split; [apply steps_count, HF|reflexivity]].
Qed.

(** C33. End to end, the analysis script [main] of [src/getdata.py] on
    the report of any run with a correct answer: it completes, counts
    the run's problems and correct answers exactly as the summary does,
    prints as accuracy [correct_answers / total_problems * 100] (the
    summary divides by [processed_problems] instead), and its histogram
    counts every correct answer once over the bins it builds. *)
Theorem report_analysis ep sys ev levels w date sstr :
  match main_summary ep sys ev levels w with
  | (PyOk (tiers, s), _) =>
      0 < s_total_correct (sum_totals s) ->
      exists a, getdata_main (report_json str_exc date sstr tiers s) = PyOk (Some a) /\
        a_total_problems a = s_total_problems (sum_totals s) /\
        a_correct_problems a = s_total_correct (sum_totals s) /\
        (a_accuracy a == inject_Z (s_total_correct (sum_totals s)) /
                         inject_Z (s_total_problems (sum_totals s)) * 100)%Q /\
        Z.of_nat (sum_list_with (fun k => default 0%nat (a_frequency a !! k)) (adjacent (a_bins a))) =
        s_total_correct (sum_totals s)
  | (PyExc _, _) => False
  end.
Proof.
  pose proof (main_summary_tiers ep sys ev levels w) as H.
  destruct (main_summary ep sys ev levels w) as [[[tiers s]|e] w']; [|exact H].
  destruct H as (HF & ->). intros Hpos.
  pose proof (steps_count tiers HF) as Hsteps. destruct (marks_count tiers HF) as (Htot & Hcor).
  destruct (getdata_main_spec (report_json str_exc date sstr tiers s) _ _ eq_refl
              (marks_of_report date sstr tiers s) (steps_of_report date sstr tiers s)
              ltac:(intros E; rewrite E in Hsteps; simpl in Hsteps; lia))
    as (bs & a & Hb & Ha & Ht & Hc & _ & Hacc & _ & _ & Hbs & Hfr & _).
  exists a. split; [exact Ha|]. rewrite Ht, Hc, Hacc, Hbs, Hfr, Htot, Hcor.
  split; [reflexivity|]. split; [reflexivity|]. split; [reflexivity|].
  rewrite (count_frequency_sum _ 5 bs ltac:(lia) Hb). exact Hsteps.
Qed.

(** The completion tokens of the records of the entries marked correct
    that [keep] retains, in order. *)
Definition correct_completion_tokens (keep : iteration_info -> bool) (ds : list problem_detail)
  : list Z :=
  concat (map (fun d => match d with
                        | DetailOk _ _ _ ic res =>
                            if truthy ic
                            then map info_completion_tokens (List.filter keep (result_iteration_details res))
                            else []
                        | DetailError _ _ => []
                        end) ds).

Definition is_answer_record (i : iteration_info) : bool :=
  Classify.response_type_eqb (info_response_type i) Classify.answer.

(** What [response_type_filter] keeps of a record: [None] all but the
    ["answer"] records, [Some "answer"] only those. *)
Definition filter_keeps (response_type_filter : option string) (i : iteration_info) : bool :=
  match response_type_filter with
  | None => negb (is_answer_record i)
  | Some f => String.eqb (Classify.response_type_str (info_response_type i)) f
  end.

Lemma tokens_of_iteration_json f i :
  tokens_of_iteration f (iteration_json i) =
  PyOk (if filter_keeps f i then [info_completion_tokens i] else []).
Proof.
  assert (Hin : py_in "completion_tokens" (iteration_json i) = PyOk true) by reflexivity.
  assert (Hrt : py_get (iteration_json i) "response_type" JNull =
                PyOk (JStr (Classify.response_type_str (info_response_type i)))) by reflexivity.
  assert (Hc : py_getitem (iteration_json i) "completion_tokens" =
               PyOk (JInt (info_completion_tokens i))) by reflexivity.
  unfold tokens_of_iteration. rewrite Hin. cbn [py_bind]. rewrite Hrt. cbn [py_bind].
  unfold filter_keeps, is_answer_record.
  destruct f as [f|]; [|destruct (info_response_type i); rewrite ?Hc; reflexivity].
  cbn [json_is_str]. destruct (String.eqb _ f); [rewrite Hc|]; reflexivity.
Qed.

Lemma concat_map_filter {A B} (p : A -> bool) (g : A -> B) (l : list A) :
  concat (map (fun x => if p x then [g x] else []) l) = map g (List.filter p l).
Proof. induction l as [|x l IH]; simpl; [reflexivity|]. destruct (p x); simpl; now rewrite IH. Qed.

Lemma tokens_of_detail f d :
  tokens_of_problem f (detail_json str_exc d) =
  PyOk (correct_completion_tokens (filter_keeps f) [d]).
Proof.
  unfold correct_completion_tokens. destruct d as [p fa ca ic res|p e]; [|reflexivity].
  unfold tokens_of_problem. simpl. rewrite app_nil_r.
  destruct ic as [[]|]; simpl; try reflexivity.
  rewrite py_concat_map_map, <- concat_map_filter.
  apply py_concat_map_ok. intros i _. apply tokens_of_iteration_json.
Qed.

Lemma correct_completion_tokens_cons keep d ds :
  correct_completion_tokens keep (d :: ds) =
  correct_completion_tokens keep [d] ++ correct_completion_tokens keep ds.
Proof. unfold correct_completion_tokens. simpl. now rewrite app_nil_r. Qed.

Lemma correct_completion_tokens_ext k1 k2 ds :
  (forall i, k1 i = k2 i) -> correct_completion_tokens k1 ds = correct_completion_tokens k2 ds.
Proof.
  intros H. unfold correct_completion_tokens. f_equal. apply map_ext. intros [p fa ca ic res|p e]; [|reflexivity].
  destruct (truthy ic); [|reflexivity]. f_equal. apply filter_ext. exact H.
Qed.

(** C30. The completion-token histogram of
    [src/completion_tokens_analysis.py] reads, from every report
    [process3.py] writes, the completion tokens of the iteration records
    of the entries marked correct, tier by tier: with
    [response_type_filter=None] all but the records typed ["answer"],
    with ["answer"] exactly those.  The filter goes by the logged type,
    not by what the call did: a call that answered is typed ["answer"]
    only when its reply had neither [<think>] nor [<summary>]
    ([answer_iteration_logged_as_thinking]), so the answering calls that
    also thought stay in the histogram meant to leave them out. *)
Theorem completion_tokens_keep_answer_call date sstr tiers s :
  process_completion_tokens (report_json str_exc date sstr tiers s) None =
    PyOk (concat (map (fun e => correct_completion_tokens (fun i => negb (is_answer_record i))
                                                          (problem_details (fst (snd e)))) tiers)) /\
  process_completion_tokens (report_json str_exc date sstr tiers s) (Some "answer"%string) =
    PyOk (concat (map (fun e => correct_completion_tokens is_answer_record
                                                          (problem_details (fst (snd e)))) tiers)) /\
  (forall i, is_answer_record i = true <-> info_response_type i = Classify.answer).
Proof.
  assert (Hf : forall f, process_completion_tokens (report_json str_exc date sstr tiers s) f =
                 PyOk (concat (map (fun e => correct_completion_tokens (filter_keeps f)
                                                (problem_details (fst (snd e)))) tiers))).
  { intros f. unfold process_completion_tokens. rewrite read_report_json.
    apply py_concat_map_ok. intros e _. generalize (problem_details (fst (snd e))).
    intros ds. induction ds as [|d ds IH]; [reflexivity|].
    simpl. rewrite tokens_of_detail, IH, <- correct_completion_tokens_cons. reflexivity. }
  split; [|split].
  - apply Hf.
  - rewrite Hf. do 2 f_equal. apply map_ext. intros e. apply correct_completion_tokens_ext.
    intros i. unfold filter_keeps, is_answer_record. destruct (info_response_type i); reflexivity.
  - intros i. unfold is_answer_record. apply Classify.response_type_eqb_eq.
Qed.

End Pipeline.

Local Open Scope string_scope.

(** A run of one problem: a first call that only thinks (100 completion
    tokens), a second that thinks and answers (40), a judge that agrees. *)
Definition pipeline_endpoint : endpoint :=
  scripted [HttpReply 200 1 (BodyOk "<think>x</think>" (mk_usage 300 100 400));
            HttpReply 200 1 (BodyOk "<think>y</think><answer>5</answer>" (mk_usage 420 40 460));
            HttpReply 200 1 (BodyOk "[[YES]]" (mk_usage 50 5 55))].

Definition pipeline_levels : list (Z * option (list problem)) :=
  [(5, Some [mk_problem "Q" "5"])].

(** On one run, the completion-token histogram that should leave out the calls
    that gave the answer ([response_type_filter=None] skips the
    ["answer"] records) keeps them: the call that answered also
    thought, so [process3.py] logged it as ["thinking"]; no record of
    the run is of type ["answer"]. *)
Example completion_tokens_demo :
  match main_summary pipeline_endpoint "S" "E" pipeline_levels 0%nat with
  | (PyOk (tiers, s), _) =>
      process_completion_tokens (report_json (fun _ => "error") "date" "summary" tiers s) None =
        PyOk [100; 40] /\
      process_completion_tokens (report_json (fun _ => "error") "date" "summary" tiers s)
        (Some "answer") = PyOk []
  | (PyExc _, _) => False
  end.
Proof. vm_compute. split; reflexivity. Qed.

(** A run of two problems: the first is answered and judged correct, the
    reply to the second lacks its ["choices"] field ([KeyError], an error
    entry). *)
Definition two_problem_endpoint : endpoint :=
  scripted [HttpReply 200 1 (BodyOk "<answer>5</answer>" (mk_usage 300 100 400));
            HttpReply 200 1 (BodyOk "[[YES]]" (mk_usage 50 5 55));
            HttpReply 200 1 BodyMissingField].

Definition two_problem_levels : list (Z * option (list problem)) :=
  [(5, Some [mk_problem "Q1" "5"; mk_problem "Q2" "7"])].

(** The two accuracies of a run disagree as soon as a problem
    fails: the summary of [process3.py] divides the correct answers by
    the processed problems (1 of 1: 100), the analysis of
    [src/getdata.py] by all the entries of the report (1 of 2: 50). *)
Example accuracies_disagree :
  match main_summary two_problem_endpoint "S" "E" two_problem_levels 0%nat with
  | (PyOk (tiers, s), _) =>
      (overall_accuracy s == 100)%Q /\
      exists a, getdata_main (report_json (fun _ => "KeyError") "date" "summary" tiers s) = PyOk (Some a) /\
                (a_accuracy a == 50)%Q
  | (PyExc _, _) => False
  end.
Proof. vm_compute. split; [reflexivity|]. eexists. split; [reflexivity|]. vm_compute. reflexivity. Qed.

(** ** [find_max_problem] on the entries of a tier *)

Local Close Scope string_scope.

Section FirstMax.

Context {A : Type}.
Variable f : A -> Z.
Variable P : A -> bool.

(** The running maximum of [find_max_problem] on one quantity: replace
    the best element when a selected element is strictly larger. *)
Definition max_run (acc : option A * Z) (x : A) : option A * Z :=
  if P x && (snd acc <? f x) then (Some x, f x) else acc.

(** [x] is the first of the selected elements of [l] with the largest
    value. *)
Definition first_max (l : list A) (x : A) : Prop :=
  exists pre post, l = pre ++ x :: post /\ P x = true /\
    Forall (fun y => P y = true -> f y < f x) pre /\
    Forall (fun y => P y = true -> f y <= f x) post.

Lemma max_run_spec (l : list A) :
  Forall (fun y => P y = true -> -1 < f y) l ->
  match fold_left max_run l (None, -1) with
  | (None, m) => m = -1 /\ Forall (fun y => P y = false) l
  | (Some x, m) => m = f x /\ first_max l x
  end.
Proof.
  induction l as [|y l IH] using rev_ind; intros Hl; [split; [reflexivity|constructor]|].
  apply Forall_app in Hl as [Hl Hy]. inversion Hy as [|? ? Hy0 _]; subst. specialize (IH Hl).
  rewrite fold_left_app. simpl.
  destruct (fold_left max_run l (None, -1)) as [[x|] m]; unfold max_run; simpl.
  - destruct IH as (-> & pre & post & -> & Px & Hpre & Hpost).
    destruct (P y) eqn:Py; [destruct (Z.ltb_spec (f x) (f y))|]; simpl.
    + split; [reflexivity|]. exists (pre ++ x :: post), []. split; [reflexivity|]. split; [exact Py|]. split.
      * apply Forall_app. split; [eapply Forall_impl; [|exact Hpre]; intros z Hz Pz; specialize (Hz Pz); lia|].
        constructor; [intros _; lia|]. eapply Forall_impl; [|exact Hpost]. intros z Hz Pz. specialize (Hz Pz). lia.
      * constructor.
    + split; [reflexivity|]. exists pre, (post ++ [y]).
      split; [rewrite <- app_assoc; reflexivity|]. split; [exact Px|]. split; [exact Hpre|].
      apply Forall_app. split; [exact Hpost|constructor; [intros _; lia|constructor]].
    + split; [reflexivity|]. exists pre, (post ++ [y]).
      split; [rewrite <- app_assoc; reflexivity|]. split; [exact Px|]. split; [exact Hpre|].
      apply Forall_app. split; [exact Hpost|constructor; [intros; congruence|constructor]].
  - destruct IH as (-> & Hnone). destruct (P y) eqn:Py; simpl.
    + specialize (Hy0 eq_refl). replace (-1 <? f y) with true by lia.
      split; [reflexivity|]. exists l, []. split; [reflexivity|]. split; [exact Py|]. split; [|constructor].
      eapply Forall_impl; [|exact Hnone]. intros z Hz Pz. congruence.
    + split; [reflexivity|]. apply Forall_app. split; [exact Hnone|constructor; [exact Py|constructor]].
Qed.

End FirstMax.

Section FindMax.

Variable str_exc : py_exc -> string.

Definition iters (d : problem_detail) : Z :=
  match d with DetailOk _ _ _ _ res => result_iterations res | DetailError _ _ => 0 end.

Definition toks (d : problem_detail) : Z :=
  match d with DetailOk _ _ _ _ res => total_tokens (result_usage res) | DetailError _ _ => 0 end.

Definition opt_entry (o : option problem_detail) : json :=
  match o with Some d => detail_json str_exc d | None => JNull end.

Definition max_of (it tk : option problem_detail * Z) : max_state :=
  mk_max (opt_entry (fst it)) (opt_entry (fst tk)) (JInt (snd it)) (JInt (snd tk)).

Lemma py_gt_int (a b : Z) : py_gt (JInt a) (JInt b) = PyOk (b <? a).
Proof.
  unfold py_gt, num_of, Qle_bool. simpl. rewrite !Z.mul_1_r. f_equal.
  destruct (Z.leb_spec a b), (Z.ltb_spec b a); simpl; lia.
Qed.

(** One pass of the loop of [find_max_problem] on an entry of the report
    is one step of each running maximum. *)
Lemma max_step_detail (d : problem_detail) (it tk : option problem_detail * Z) :
  max_step (max_of it tk) (detail_json str_exc d) =
  PyOk (max_of (max_run iters detail_correct it d) (max_run toks detail_correct tk d)).
Proof.
  destruct it as [i mi], tk as [t mt].
  destruct d as [p fa ca [[]|] res|p e]; unfold max_step, max_run, max_of; cbn -[py_gt];
    try reflexivity.
  rewrite py_gt_int. cbn -[py_gt]. destruct (mi <? result_iterations res); cbn -[py_gt];
    rewrite py_gt_int; cbn; destruct (mt <? total_tokens (result_usage res)); reflexivity.
Qed.

Lemma max_loop_details (ds : list problem_detail) (it tk : option problem_detail * Z) :
  max_loop (map (detail_json str_exc) ds) (max_of it tk) =
  PyOk (max_of (fold_left (max_run iters detail_correct) ds it) (fold_left (max_run toks detail_correct) ds tk)).
Proof.
  revert it tk. induction ds as [|d ds IH]; intros it tk; [reflexivity|].
  simpl. rewrite max_step_detail. apply IH.
Qed.

Lemma first_max_or_none (f : problem_detail -> Z) (ds : list problem_detail) :
  Forall (fun d => detail_correct d = true -> 0 <= f d) ds ->
  (exists d, first_max f detail_correct ds d /\
             opt_entry (fst (fold_left (max_run f detail_correct) ds (None, -1))) = detail_json str_exc d) \/
  (Forall (fun d => detail_correct d = false) ds /\
   opt_entry (fst (fold_left (max_run f detail_correct) ds (None, -1))) = JNull).
Proof.
  intros H. pose proof (max_run_spec f detail_correct ds) as Hs.
  destruct (fold_left (max_run f detail_correct) ds (None, -1)) as [[x|] m].
  - left. exists x. split; [apply Hs|reflexivity].
    eapply Forall_impl; [|exact H]. intros d Hd Pd. specialize (Hd Pd). lia.
  - right. split; [apply Hs|reflexivity].
    eapply Forall_impl; [|exact H]. intros d Hd Pd. specialize (Hd Pd). lia.
Qed.

(** C35. [find_max_problem] on a report of [process3.py] whose first tier
    is the difficulty 5: when the correct entries have non-negative
    iterations and tokens, it returns the first correct entry with the
    most iterations and the first with the most tokens ([None] when no
    entry is correct); ties keep the earlier entry (strict [>]). *)
Theorem find_max_problem_first_max (m : tier_metrics) (a : tier_averages) (rest : tier_results)
    (s : run_summary) (date sstr : string) :
  Forall (fun d => detail_correct d = true -> 0 <= iters d /\ 0 <= toks d) (problem_details m) ->
  exists r1 r2, find_max_problem (report_json str_exc date sstr ((5, (m, a)) :: rest) s) = PyOk (r1, r2) /\
    ((exists d, first_max iters detail_correct (problem_details m) d /\ r1 = detail_json str_exc d) \/
     (Forall (fun d => detail_correct d = false) (problem_details m) /\ r1 = JNull)) /\
    ((exists d, first_max toks detail_correct (problem_details m) d /\ r2 = detail_json str_exc d) \/
     (Forall (fun d => detail_correct d = false) (problem_details m) /\ r2 = JNull)).
Proof.
  intros H. unfold find_max_problem.
  assert (E1 : py_getitem (report_json str_exc date sstr ((5, (m, a)) :: rest) s) "difficulty_results" =
               PyOk (difficulty_results_json str_exc ((5, (m, a)) :: rest))) by reflexivity.
  assert (E2 : py_getitem (difficulty_results_json str_exc ((5, (m, a)) :: rest)) "difficulty_5" =
               PyOk (metrics_json str_exc m a)) by reflexivity.
  assert (E3 : py_getitem (metrics_json str_exc m a) "problem_details" =
               PyOk (JList (map (detail_json str_exc) (problem_details m)))) by reflexivity.
  rewrite E1. cbn [py_bind]. rewrite E2. cbn [py_bind]. rewrite E3. cbn [py_bind py_iter].
  change max_init with (max_of (None, -1) (None, -1)). rewrite max_loop_details. cbn [py_bind].
  eexists _, _. split; [reflexivity|]. cbn [max_of max_iterations_problem max_total_tokens_problem].
  split; apply first_max_or_none; eapply Forall_impl; try exact H; intros d Hd Pd; apply Hd, Pd.
Qed.

End FindMax.

(** A tier of two entries: a correct answer after one call of 400 tokens
    and an error entry. *)
Definition sample_result : solve_result :=
  mk_result (Some "5"%string) (mk_usage 300 100 400) 1 0 160000 1 100 100 100 [].

Definition sample_tier : tier_metrics :=
  mk_metrics 5 2 400 300 100 0 1 1 1
    [DetailOk "Q1" (Some "5") "5" (Some true) sample_result; DetailError "Q2" KeyError]%string
    160000 1 100 100 100.

Definition sample_summary : run_summary := mk_summary zero_totals 0 0 0 0 0 0 0 0 0 0.

Lemma find_max_problem_first_max_witness :
  exists r1 r2,
    find_max_problem (report_json (fun _ => "KeyError"%string) "d" "s" [(5, (sample_tier, zero_averages))]
                                  sample_summary) = PyOk (r1, r2) /\
    ((exists d, first_max iters detail_correct (problem_details sample_tier) d /\
                r1 = detail_json (fun _ => "KeyError"%string) d) \/
     (Forall (fun d => detail_correct d = false) (problem_details sample_tier) /\ r1 = JNull)) /\
    ((exists d, first_max toks detail_correct (problem_details sample_tier) d /\
                r2 = detail_json (fun _ => "KeyError"%string) d) \/
     (Forall (fun d => detail_correct d = false) (problem_details sample_tier) /\ r2 = JNull)).
Proof.
  apply find_max_problem_first_max.
  constructor; [intros _; simpl; lia|constructor; [discriminate|constructor]].
Defined.
